(* ===== verification/_CoqProject ===== *)
-Q . S2P
Prelude.v
Cyclo.v
Gates.v
Statevector.v
Unitarity.v
Classical.v
Inverse.v
Bitstring.v
Histogram.v
Lab.v
Bell.v
BB84.v
QRNG.v
QSharp.v
Molecule.v
Labs.v
QFT.v
Grover.v
Teleport.v
Views.v
Singles.v
PhaseEst.v
Walk.v
Interface.v
PQC.v
Factor.v
AlgoLab.v
QSharpAlgo.v
AlgoApi.v
QSharpIface.v
Attack.v
CircuitInfo.v
Multi.v
Client.v
