(* ===== verification/Prelude.v ===== *)
(** * Quantum Computing & Cryptography Laboratory: a verification development

    The repository ("src/") has three lab classes with one interface:
    [QiskitQuantumLab] ("quantum implementations/qiskit quantum.py"),
    [CirqQuantumLab] ("quantum implementations/cirqa quantum.py") and
    [QSharpQuantumLab] ("quantum implementations/qsharp quantum lab.py", a
    Python imitation of Q#), plus single-shot variants ("unnamed/part_000"),
    algorithm demos ("quantum algorithms/") and web views ("quantum app/").
    A lab keeps three dicts (circuits, molecules, crypto keys) whose ids are
    [len(dict) + 1] at insertion; it builds circuits from gate tokens,
    hands them to a framework simulator, turns the shots into a counts dict
    and derives protocol outputs (Bell-state figures, BB84 keys).

    ** Files and what they model

    The files are listed in _CoqProject order; each one opens with a
    comment naming the source lines it translates.

    - [Prelude] (this file): the basic Python vocabulary.
      - Python exceptions as the error type [res], with its [let*]
        notation.
      - Python's [%], [str.upper], [str(int)] and [==] on received
        values ([py_val]).
      - [int(p/4 * sqrt(m))] as an exact integer square root.
      - Bit operations on basis-state indices, the tactics and the hint
        databases.
    - [Cyclo]: exact amplitudes, the ring Z[zeta] of the 16th roots of
      unity (zeta = exp(i pi/8)) as 8 integer coefficients, with
      conjugation and squared modulus.  It is not code of the repository:
      it is the number system in which the simulator is modelled exactly.
    - [Gates]: the gate operations the code applies (h, x, y, z, rz, ry,
      cx, cz, swap, cp, mcp, mct) with dyadic angles [num * pi / 2^d], and
      inverse circuits.
    - [Statevector]: the frameworks' simulators.  These are libraries,
      modelled from spec 4.1 and 4.3.
      - A register of [n] qubits is [2^n] amplitudes [v_j / sqrt2^k];
        qubit [q] is bit [q] of the index.
      - [apply_gate] raises IndexError on an index >= n, CircuitError on
        a repeated qubit, and ValueError on an angle outside the exact
        model.
      - [run] evolves |0...0>.  A shot can return [j] exactly when the
        amplitude of [j] is non-zero ([possible]); shots are inputs of the
        model ([sampled]).
    - [Unitarity]: every gate multiplies the squared norm by [2^dk], so
      [run] keeps the register normalized, and a normalized register
      always has an outcome.
    - [Classical]: gates that permute the basis, [classical_run], and the
      registers that stay a basis state.
    - [Inverse]: equivalence of registers up to a global scale ([=~]),
      the [Proper] instances of the simulator, and the law that a circuit
      followed by its inverse is the identity.
    - [Bitstring]: count keys and string readings.
      - Qiskit's keys put qubit [n-1] first; Cirq's rows put qubit 0
        first.
      - The key after [measure_all()] carries an extra register.
      - [int(s, 2)], [int(s)] and [hex(v)[2:]].
    - [Histogram]: the counts dict as an association list in insertion
      order, with [probabilities], [max(counts, key=counts.get)] and
      [_calculate_entanglement].
    - [Lab]: the lab state (stdpp gmaps), the token binder,
      [create_quantum_circuit], [execute_circuit] and the registry
      queries.
    - [Bell]: [create_bell_state] of the Qiskit and Cirq labs and the
      single-shot pairs of part_000.
    - [BB84]: [bb84_key_distribution] of the three labs; the random
      draws, the simulator's shots and the error-rate draw are inputs.
    - [QRNG]: the three labs' random number generators.
    - [QSharp]: the Q# lab.  It models the registry, the Q# program text
      [create_quantum_circuit] renders, and its classical simulation,
      which replaces a qubit by a random draw on "H".
    - [Molecule]: [simulate_molecule] of the three labs: the molecule
      table, the case-insensitive lookup and its ValueError, the circuit
      (with rotation coefficients [T/1000] and [P/10] kept as rationals
      and translated to the gate library when exact), the Q# text and its
      loops, and the registration; the properties dict is an input.
    - [Labs]: the typeclass [QuantumLab], its Qiskit and Cirq instances,
      and sessions of calls (create, execute, BB84, simulate_molecule) as
      the step relation [lab_step].
    - [QFT]: the QFT builders of the views and of the Cirq lab, the Cirq
      and Q# [quantum_fourier_transform].
    - [Grover]: part_000's [grovers_algorithm] (oracle from
      [format(marked, '0nb')], diffusion, [int(np.pi/4 * sqrt(2^n))]
      iterations) and the views' two-qubit searches.
    - [Teleport]: part_000's and the views' teleportation circuits, and
      the spec's corrected protocol.
    - [Views]: the Django API [execute_quantum_circuit] and
      [quantum_simulation], against the simulator interface [Simulator]
      with its laws [SimulatorLaws].
    - [Singles]: part_000's single-shot [execute_quantum_circuit], BB84,
      random generators and the Cirq entanglement figure.
    - [PhaseEst], [Walk]: part_000's phase estimation and quantum walk.
    - [Interface]: [QuantumInterface] of the Q# lab file, dispatching to
      part_000's labs with random fallbacks.
    - [PQC]: [post_quantum_encrypt] of the Qiskit and Cirq labs (a
      256-bit key from one shot, XOR with the message's bytes, hex).
    - [Factor] (the one MathComp file; it loads nothing of stdpp): the
      trial division of [shors_algorithm] in "quantum algorithms/qiskit
      implementation.py", its [while] loop [divide_out] and [for] loop
      [trial_loop] with fuel, and the reference [prime_factorization]
      built from MathComp's [primes] and [logn].
    - [AlgoLab]: Module [QiskitAlgoLab], the Qiskit algorithms lab of
      that file: [shors_algorithm], [grovers_search],
      [quantum_random_generator], [build_quantum_circuit],
      [execute_circuit] (Aer's counts and [remove_final_measurements])
      and [bb84_key_distribution], whose trials share one circuit with
      mid-circuit reset and measurement ([trajectories], spec 4.3
      step 4).
    - [QSharpAlgo]: Module [QSharpAlgoLab], the Q# algorithms lab
      ("quantum algorithms/qsharp implementation.py"): every method's
      generated Q# text literally, its random draws as inputs, and the
      Azure hardware lookup.
    - [AlgoApi]: Module [QuantumWebInterface], the Django views appended
      to "qsharp quantum lab.py" (lines 2046-2240): JSON bodies
      ([jvalue]), [quantum_api] dispatching to the algorithms labs in a
      [try] block, and [quantum_comparison].
    - [QSharpIface]: the Q#-backed [QuantumInterface] ("quantum
      interface.py", lines 1257-1421) as Module [QSharpInterface], its
      legacy twin's methods (lines 1217-1249) as Module
      [LegacyInterface], and the Flask server ("quantum server.py",
      lines 1959-2041) as Module [QuantumServer].  The Q# runtime
      [qsharp.eval] is a parameter (a function from the call to a value
      or an exception): the Q# programs are not in the repository.
      Also [base64.b64encode] with its decoder, and Python's scoping of
      nested comprehensions.
    - [Attack]: [simulate_shor_attack] and [simulate_grover_attack] of the
      three labs (the Q# lab's Grover estimate is its [grovers_algorithm]):
      the circuits they build, Cirq's [append] with the EARLIEST strategy
      as moments ([cirq_moments]) and [len(circuit)], the float
      conversions [int(np.log2(n))], [int(np.ceil(np.log2(n)))],
      [f"{x:.2f}"] and the overflow of [2 ** (rsa_bits / 3)].
    - [Multi]: [MultiFrameworkQuantumLab] ("quantum integration.py",
      lines 671-1008): a record [lab_methods] of each lab's methods,
      [compare_frameworks] with its per-framework [try]/[except] and
      keyword-argument TypeErrors, [performance_benchmark] and
      [generate_comparison_report], over the three lab models.
    - [Client]: the Vue page of the Flask server's [HTML_TEMPLATE]
      (Module [QuantumPage], "qsharp quantum lab.py" 1734-1952): its
      [data()] object as a map from property paths to JavaScript values,
      one [page_step] per user event (gate buttons, the other buttons,
      [v-model]/[v-model.number] inputs, the algorithm select), each
      method's [fetch] request ([method_request]) and the fields it
      copies from the JSON answer ([on_result]).

    The parts interact as in the code.
    - The labs build [circuit]s and hand them to [run].
    - Shots of [run] feed [build_counts].
    - [Views] calls the experiments through [Simulator], and [Interface]
      calls the [Singles], [Grover], [PhaseEst] and [Teleport] models.
    - [QuantumServer] calls [QSharpInterface], which calls the Q#
      runtime and falls back to [LegacyInterface]'s answers.
    - [AlgoApi] calls [AlgoLab] (whose Shor operation is [Factor]'s
      trial division) and [QSharpAlgo]; the Cirq algorithms lab it
      imports is not in the repository, so only its dispatch table is
      modelled.
    - [Multi] runs one operation on the Qiskit, Cirq and Q# models in
      turn; each comparison is at most one call of [Labs]' session
      relation on each of the Qiskit and Cirq labs.
    - [Client]'s page sends its requests to [QuantumServer.app], whose
      runtime and draws form one [server_env]; an answer that is not
      JSON leaves the page unchanged, as its [catch] only logs.

    ** What the theorems show

    - Unitarity and liveness: the binder's circuits and every execution
      in every reachable lab yield a register of probability 1 with a
      possible outcome.
    - Registries: in every reachable lab the ids are consecutive
      1..len(dict), and an entry once stored never changes.
    - Circuit operations: create and execute on every branch, with
      their errors and the Qiskit/Cirq key reversal.  The Q# lab's
      create agrees with the binder, and its simulation refines the
      quantum run on classical circuits.
    - Bell state: the exact law.  Cirq's entanglement figure is 1 and
      Qiskit's is 0, because of [measure_all()].
    - BB84: the sifted trials have no error.  The labs report a drawn
      error rate, and part_000 counts the real one, 0.  Key
      registration and the error cases are covered.
    - QFT: it maps every basis state to its DFT, and it followed by its
      inverse is the identity.
    - Grover: part_000's circuit amplifies the bit reversal of the marked
      item above 9/10, but the method raises ValueError.  The iteration
      count bounds and the [format]/[int] round trip are proved.
    - Teleportation: with the corrections the spec requires, Bob's qubit
      ends in the message's state.  The code's circuits omit them, so
      Bob reads 1 with probability 1/2.
    - Phase estimation reports 1/2^n instead of 1/2.
    - Web API: the Grover responses and the fall-through to 'Invalid
      request method'.
    - Interface: with Qiskit, [execute_circuit] and [grovers_algorithm]
      always return their random fallbacks.
    - Post-quantum encryption: the Cirq ciphertext decrypts back to the
      message, and the Qiskit method raises on every call.
    - Algorithms lab: [shors_algorithm] returns exactly the prime
      factorisation (trial division equals [prime_factorization]); the
      loops terminate within the fuel given; [grovers_search] raises on
      sizes below 2; the random generator returns on every shot but
      puts a space in ['binary'] beyond 32 bits; [execute_circuit]
      needs exactly one final "Measure"; the shared BB84 circuit reads
      the current trial's bit, so the sifted key has no error.
    - Q# algorithms lab: the Azure lookup answers the three listed
      targets and raises KeyError on any other.
    - Django API: Shor requests refine [shors_algorithm]; the 405, 400
      and 500 answers; every answer is well formed with a status in
      {200, 400, 405, 500}.
    - Q# interface and Flask server: [pqc_encryption] never reaches the
      runtime (its comprehension raises NameError) and returns base64
      text that decodes back to [message + '_' + algorithm]; the
      signature keeps 32 bits of any hash; the random generator on every
      branch; the 404/405/415/500 answers, and that 500 arises only
      from a non-object body or a bad [keyLength], [bits] or [entries],
      for every runtime.
    - Attack estimates: Cirq's [len(circuit)] is the as-soon-as-possible
      depth and its moments never hold two operations on one qubit; the
      Shor estimates raise OverflowError from 3072 bits in all three labs;
      the Grover estimates on every branch (N >= 1, N = 0, N < 0).
    - Molecules: the three labs accept exactly the four names in any
      case and raise ValueError otherwise; every molecular circuit is
      well formed and, with exact angles, runs to a normalized register;
      the Q# loops apply the same gates as the Qiskit/Cirq circuit.
    - Multi-framework lab: every session of comparisons keeps the Qiskit
      and Cirq labs reachable (so their registries stay consecutive);
      the Grover comparison always fails on the Q# lab; an unknown
      operation is reported as a success; the Shor comparison fails on
      all three labs from 3072 bits; the benchmark reports five tests and
      leaves five circuits in each lab.
    - Browser page: every request a button sends is routed by the server
      (never 404, 405 or 415); a circuit built with the gate buttons shows
      exactly the interface's [execute_circuit] results; a cleared
      key-length field is sent as "" and, without the Q# runtime, the
      server answers 500 while the page keeps the old key.

    ** Bounds and fuel

    - [dec_digits], [hex_digits] and [bin_digits] take [v + 1] steps of
      fuel for a value [v], more than its number of digits; the
      [format]/[int] round trip proves the binary case complete.
    - Angles are exact when they are multiples of pi/8 (pi/4 for rz and
      ry, whose matrices hold the half angle).  Every angle of the labs'
      circuit operations is exact.  The QFT and phase-estimation theorems
      are stated for at most 4 qubits, where pi/2^(i-j) stays exact; the
      Grover theorem for 2 to 5 qubits and the walk theorem for 1 to 6
      position qubits, each checked by evaluation.
    - The float iteration count [int(np.pi/4 * np.sqrt(2**n))] is the
      exact floor of [floor_quarter_sqrt].  The two agree for every
      n <= 100 (checked outside the development against Python).  The
      interface's [3.14159] variant agrees with it for n <= 39, which is
      proved.  [grovers_search]'s [int(np.pi * np.sqrt(m) / 4)] is the
      same floor; it agrees with Python for every m < 3,000,000 and on
      random samples up to 10^15 (checked outside the development).
    - [int(np.sqrt(N))] in [shors_algorithm] is [Nat.sqrt N], exact for
      N < 2^52 where the double square root is correctly rounded.
    - [divide_out] gets fuel [N] and [trial_loop] runs [isqrt N - 1]
      steps: [divide_out_terminates] proves any fuel of at least [N]
      gives the same result.  [extend_binary] gets [num_bits + 1]
      passes, enough since every pass doubles a non-empty string; the
      empty string never stops, which is proved too.
    - [int(np.log2(n))] and [int(np.ceil(np.log2(n)))] are [Z.log2] and
      [Z.log2_up] for 1 <= n < 2^48; the double [log2] first differs at
      2^49 - 1 (floor) and 2^49 + 1 (ceil), checked outside the
      development.  [2 ** (rsa_bits / 3)] overflows exactly from
      rsa_bits = 3072 (2^1024 exceeds the largest double); below it its
      [repr] is a parameter [pow_repr].  [f"{x:.2f}"] is rounding half
      to even, exact on the dyadic times the estimates format.
    - The molecular rotations [pi * T / 1000] and [pi * P / 10] enter the
      simulator when they are multiples of pi/4 (T a multiple of 250, P of
      2.5); the circuit itself is modelled for every T and P.

    ** Not modelled

    - The molecular properties (random draws and floating-point
      formulas of [_calculate_molecular_properties]) are inputs; the
      material simulation is not modelled.
    - The fidelity figures, whose angles (pi/4 + 0.1, pi/3) are outside
      the exact model, and the von Neumann entropy.
    - VQE and the Qiskit algorithms lab's [create_molecular_simulation],
      [calculate_entanglement] and [simulate_material_properties]:
      floating-point optimisation, partial traces and random formulas.
    - [quantum_lab_home] of the web interface (reads an HTML file and
      renders a template).
    - The [repr] of the float [2 ** (rsa_bits / 3)] ([pow_repr]), and the
      demonstrations' printing, [time.time()] and the JSON dump of the
      multi-framework lab.
    - The QASM and circuit diagrams, the markup, styles and number
      formatting of the Flask server's HTML template (its Vue methods and
      data are modelled in [Client]; number inputs whose reading is not
      an integer are outside the model),
      and the Q# programs [qsharp.eval] runs (not in the repository; the
      runtime is a parameter of every theorem).
    - The random number generators: their draws are inputs of the
      model. *)

From Stdlib Require Import ZArith List Lia Bool String Ascii PeanoNat.
Import ListNotations.

Declare Scope qlab_scope.
Delimit Scope qlab_scope with qlab.

(** ** Python exceptions and fallible results *)

(** The exceptions the modelled code raises (or lets a library raise). *)
Inductive py_exc :=
| ValueError (msg : string)
| ZeroDivisionError
| IndexError
| KeyError (key : string)
| CircuitError (msg : string)
| OverflowError (msg : string)
| TypeError (msg : string)
| QiskitError (msg : string)
| AttributeError (msg : string)
| NameError (msg : string).

(** A computation that returns a value or raises. *)
Inductive res (A : Type) : Type :=
| Ok (a : A)
| Raise (e : py_exc).
Arguments Ok {A} a.
Arguments Raise {A} e.

Definition res_bind {A B : Type} (r : res A) (k : A -> res B) : res B :=
  match r with
  | Ok a => k a
  | Raise e => Raise e
  end.

Definition res_map {A B : Type} (f : A -> B) (r : res A) : res B :=
  res_bind r (fun a => Ok (f a)).

Notation "'let*' x ':=' c 'in' k" := (res_bind c (fun x => k))
  (at level 10, x ident, c at level 100, k at level 200) : qlab_scope.

Open Scope qlab_scope.

(** [mapM] for [res]: the first raise aborts the loop, as a Python
    exception does. *)
Fixpoint res_mapM {A B : Type} (f : A -> res B) (l : list A) : res (list B) :=
  match l with
  | [] => Ok []
  | x :: xs => let* y := f x in let* ys := res_mapM f xs in Ok (y :: ys)
  end.

(** Python's [i % n] on non-negative integers. *)
Definition py_mod (i n : nat) : res nat :=
  if n =? 0 then Raise ZeroDivisionError else Ok (i mod n).

(** Python's [str.upper] on ASCII strings. *)
Definition ascii_upper (c : ascii) : ascii :=
  let n := nat_of_ascii c in
  if (97 <=? n) && (n <=? 122) then ascii_of_nat (n - 32) else c.

Fixpoint py_upper (s : string) : string :=
  match s with
  | EmptyString => EmptyString
  | String c s' => String (ascii_upper c) (py_upper s')
  end.

(** Python's [str(v)] on a non-negative integer: its decimal digits,
    most significant first; [v + 1] steps of fuel are more than enough. *)
Fixpoint dec_digits (fuel v : nat) (acc : string) : string :=
  match fuel with
  | O => acc
  | S fuel' =>
      let acc' := String (ascii_of_nat (48 + v mod 10)) acc in
      if v <? 10 then acc' else dec_digits fuel' (v / 10) acc'
  end.

Definition py_str_nat (v : nat) : string := dec_digits (S v) v EmptyString.

(** [str(v)] on an integer. *)
Definition py_str_int (z : Z) : string :=
  if (z <? 0)%Z then "-" ++ py_str_nat (Z.to_nat (- z)) else py_str_nat (Z.to_nat z).

(** The newline character of Python string literals. *)
Definition nl : string := String (ascii_of_nat 10) EmptyString.

(** A Python value received from a caller (a JSON field, an argument)
    that the code only compares with [==]: a string, an integer (JSON
    [true]/[false] and integral floats compare as the integers 1, 0, ...),
    or anything else, which equals no string and no integer. *)
Inductive py_val :=
| PStr (s : string)
| PInt (z : Z)
| POther.

Definition py_eq_int (v : py_val) (z : Z) : bool :=
  match v with PInt w => Z.eqb w z | _ => false end.

Definition py_eq_str (v : py_val) (t : string) : bool :=
  match v with PStr w => String.eqb w t | _ => false end.

(** A JSON value of a request body: a string, an integer, a list or an
    object (JSON floats, booleans and null are not modelled). *)
Inductive jvalue :=
| JStr (s : string)
| JInt (z : Z)
| JList (l : list jvalue)
| JObj (fields : list (string * jvalue)).

(** The [py_val] a JSON value is for [==] comparisons. *)
Definition jv_val (v : jvalue) : py_val :=
  match v with JStr s => PStr s | JInt z => PInt z | _ => POther end.

(** [d.get(k, default)] on a JSON object. *)
Fixpoint jv_get (d : list (string * jvalue)) (k : string) (default : jvalue) : jvalue :=
  match d with
  | [] => default
  | (k', v) :: d' => if String.eqb k k' then v else jv_get d' k default
  end.

(** [int(p / 4 * sqrt(m))] for [m >= 0] and the double [p = pnum / 2^e]:
    the floor of [sqrt(pnum^2 m / 2^(2e+4))], an integer square root of
    the floor.  The float product rounds twice; for [p] = [np.pi] or
    [3.14159] and every [m = 2^n] with [n <= 100] and every [m < 200000]
    the float result is this exact floor. *)
Definition floor_quarter_sqrt (pnum e m : Z) : nat :=
  Z.to_nat (Z.sqrt (pnum ^ 2 * m / 2 ^ (2 * e + 4))).

(** [np.pi], the double [884279719003555 / 2^48]. *)
Definition np_pi_num : Z := 884279719003555.
Definition np_pi_exp : Z := 48.

(** [[random.randint(0, 1) for _ in range(len)]]: the draws [start ..]
    of the random stream [rnd]. *)
Definition draws (rnd : nat -> bool) (start len : nat) : list bool := map rnd (seq start len).

(** ** Basis-state indices

    A register of [n] qubits has basis states [0 .. 2^n - 1]; bit [q] of
    the index is the state of qubit [q] (Qiskit's little-endian order). *)

Definition bit (j q : nat) : bool := Nat.testbit j q.

(** The index with bit [q] flipped. *)
Definition flip (j q : nat) : nat := Nat.lxor j (2 ^ q).

(** ** Tactics and hints *)

Create HintDb qlab.
Create Rewrite HintDb qlab_rw.

(** Case analysis on the first boolean test of the goal. *)
Ltac qcase :=
  match goal with
  | |- context [Nat.eqb ?a ?b] => destruct (Nat.eqb_spec a b)
  | |- context [Nat.ltb ?a ?b] => destruct (Nat.ltb_spec a b)
  | |- context [Nat.leb ?a ?b] => destruct (Nat.leb_spec a b)
  | |- context [String.eqb ?a ?b] => destruct (String.eqb_spec a b)
  | |- context [if ?c then _ else _] => destruct c eqn:?
  end.

(** Unfold [res_bind] on a computation that is known. *)
Ltac res_simpl := cbn [res_bind res_map res_mapM] in *.

(** ** Lemmas on results *)

Lemma res_bind_Ok {A B} (a : A) (k : A -> res B) : res_bind (Ok a) k = k a.
Proof. reflexivity. Qed.

Lemma res_bind_Raise {A B} e (k : A -> res B) : res_bind (Raise e) k = Raise e.
Proof. reflexivity. Qed.

Lemma res_bind_eq_Ok {A B} (r : res A) (k : A -> res B) b :
  res_bind r k = Ok b -> exists a, r = Ok a /\ k a = Ok b.
Proof. destruct r; cbn; [eauto | discriminate]. Qed.

#[export] Hint Rewrite @res_bind_Ok @res_bind_Raise : qlab_rw.

Lemma res_mapM_length {A B} (f : A -> res B) l l' :
  res_mapM f l = Ok l' -> List.length l' = List.length l.
Proof.
  revert l'; induction l as [|x xs IH]; intros l' H; cbn in H.
  - now inversion H.
  - destruct (f x); [|discriminate]; cbn in H.
    destruct (res_mapM f xs) eqn:E; cbn in H; [|discriminate].
    inversion H; subst; cbn; f_equal; auto.
Qed.

Lemma res_mapM_ok_iff {A B} (f : A -> res B) l :
  (exists l', res_mapM f l = Ok l') <-> Forall (fun x => exists y, f x = Ok y) l.
Proof.
  induction l as [|x xs IH]; cbn.
  - split; eauto.
  - split.
    + intros [l' H]. destruct (f x) eqn:Fx; cbn in H; [|discriminate].
      destruct (res_mapM f xs) eqn:E; cbn in H; [|discriminate].
      constructor; eauto. apply IH; eauto.
    + intros Hf. inversion Hf as [|? ? [y Hy] Hxs]; subst.
      destruct (proj2 IH Hxs) as [ys Hys]. rewrite Hy, Hys. cbn; eauto.
Qed.

(** [res_mapM] succeeds when [f] does on every element, with results
    related to their arguments as [f]'s are. *)
Lemma res_mapM_Forall2 {A B} (f : A -> res B) (P : A -> B -> Prop) l :
  (forall x, In x l -> exists y, f x = Ok y /\ P x y) ->
  exists ys, res_mapM f l = Ok ys /\ Forall2 P l ys.
Proof.
  induction l as [|x xs IH]; intros H; cbn; [eauto|].
  destruct (H x (or_introl eq_refl)) as (y & -> & Hy).
  destruct IH as (ys & -> & Hys); [intros z Hz; apply H; now right|]. cbn. eauto.
Qed.

Lemma py_mod_pos i n : n <> 0 -> py_mod i n = Ok (i mod n).
Proof. intros Hn. unfold py_mod. now destruct (Nat.eqb_spec n 0). Qed.

Lemma py_mod_zero i : py_mod i 0 = Raise ZeroDivisionError.
Proof. reflexivity. Qed.

#[export] Hint Rewrite py_mod_zero : qlab_rw.

(** ** Lemmas on basis-state indices *)

Lemma bit_flip_same j q : bit (flip j q) q = negb (bit j q).
Proof.
  unfold bit, flip. rewrite Nat.lxor_spec, Nat.pow2_bits_eqb, Nat.eqb_refl.
  now destruct (Nat.testbit j q).
Qed.

Lemma bit_flip_other j q r : q <> r -> bit (flip j q) r = bit j r.
Proof.
  intros Hne. unfold bit, flip. rewrite Nat.lxor_spec, Nat.pow2_bits_eqb.
  destruct (Nat.eqb_spec q r); [contradiction|]. now rewrite xorb_false_r.
Qed.

Lemma flip_flip j q : flip (flip j q) q = j.
Proof.
  unfold flip. rewrite Nat.lxor_assoc, Nat.lxor_nilpotent. apply Nat.lxor_0_r.
Qed.

Lemma flip_comm j q r : flip (flip j q) r = flip (flip j r) q.
Proof.
  unfold flip. rewrite !Nat.lxor_assoc. f_equal. apply Nat.lxor_comm.
Qed.

Lemma flip_neq j q : flip j q <> j.
Proof.
  intros E. pose proof (bit_flip_same j q) as B. rewrite E in B.
  destruct (bit j q); discriminate.
Qed.

Lemma lxor_lt_pow2 a b n : a < 2 ^ n -> b < 2 ^ n -> Nat.lxor a b < 2 ^ n.
Proof.
  intros Ha Hb.
  destruct (Nat.eq_dec (Nat.lxor a b) 0) as [E|E]; [rewrite E; apply Nat.neq_0_lt_0, Nat.pow_nonzero; lia|].
  apply Nat.log2_lt_pow2; [lia|].
  eapply Nat.le_lt_trans; [apply Nat.log2_lxor|].
  destruct n as [|n]; [cbn in *; assert (a = 0) by lia; assert (b = 0) by lia; subst; cbn in E; lia|].
  apply Nat.max_lub_lt.
  - destruct (Nat.eq_dec a 0) as [->|]; [cbn; lia|]. apply Nat.log2_lt_pow2; lia.
  - destruct (Nat.eq_dec b 0) as [->|]; [cbn; lia|]. apply Nat.log2_lt_pow2; lia.
Qed.

Lemma flip_lt j q n : j < 2 ^ n -> q < n -> flip j q < 2 ^ n.
Proof.
  intros Hj Hq. apply lxor_lt_pow2; auto. apply Nat.pow_lt_mono_r; lia.
Qed.

#[export] Hint Resolve flip_lt : qlab.
#[export] Hint Rewrite bit_flip_same flip_flip : qlab_rw.

(** ** Lemmas on lists *)

Lemma nth_map_seq {A} (f : nat -> A) n i d :
  i < n -> nth i (map f (seq 0 n)) d = f i.
Proof.
  intros Hi. rewrite nth_indep with (d' := f 0) by (rewrite List.length_map, List.length_seq; lia).
  rewrite map_nth, seq_nth by lia. reflexivity.
Qed.

#[export] Hint Rewrite @List.length_map List.length_seq : qlab_rw.

Lemma nth_map_seq_from {A} (f : nat -> A) start n i d :
  i < n -> nth i (map f (seq start n)) d = f (start + i).
Proof.
  intros Hi. rewrite nth_indep with (d' := f 0) by (rewrite List.length_map, List.length_seq; lia).
  rewrite map_nth, seq_nth by lia. reflexivity.
Qed.

Lemma nth_draws rnd start len i : i < len -> nth i (draws rnd start len) false = rnd (start + i).
Proof. apply nth_map_seq_from. Qed.

Lemma length_draws rnd start len : List.length (draws rnd start len) = len.
Proof. unfold draws. now rewrite List.length_map, List.length_seq. Qed.

(** A loop whose every step succeeds returns the list of the results. *)
Lemma res_mapM_all_Ok {A B} (f : A -> res B) (g : A -> B) l :
  (forall x, In x l -> f x = Ok (g x)) -> res_mapM f l = Ok (map g l).
Proof.
  induction l as [|x l IH]; intros H; [reflexivity|]. cbn.
  rewrite H by now left. cbn. rewrite IH by (intros y Hy; apply H; now right). reflexivity.
Qed.

Lemma filter_none {A} (f : A -> bool) l : (forall x, In x l -> f x = false) -> filter f l = [].
Proof.
  induction l as [|x l IH]; intros H; [reflexivity|]. cbn.
  rewrite H by now left. apply IH. intros y Hy. apply H. now right.
Qed.

Lemma filter_all {A} (f : A -> bool) l : (forall x, In x l -> f x = true) -> filter f l = l.
Proof.
  induction l as [|x l IH]; intros H; [reflexivity|]. cbn.
  rewrite H by now left. f_equal. apply IH. intros y Hy. apply H. now right.
Qed.

Lemma filter_eqb_seq a m j : a <= j < a + m -> filter (fun i => i =? j) (seq a m) = [j].
Proof.
  revert a; induction m as [|m IH]; intros a H; [lia|]. cbn.
  destruct (Nat.eqb_spec a j) as [->|Hne].
  - f_equal. apply filter_none. intros x Hx. apply in_seq in Hx. apply Nat.eqb_neq. lia.
  - apply IH. lia.
Qed.

Lemma pow2_pos n : 0 < 2 ^ n.
Proof. apply Nat.neq_0_lt_0, Nat.pow_nonzero. lia. Qed.

Lemma str_app_assoc (a b c : string) : ((a ++ b) ++ c = a ++ (b ++ c))%string.
Proof. induction a as [|x a IH]; cbn; [reflexivity | now rewrite IH]. Qed.

Lemma str_app_nil_r (a : string) : (a ++ EmptyString = a)%string.
Proof. induction a as [|x a IH]; cbn; [reflexivity | now rewrite IH]. Qed.

(** A result computed to [Ok a] with [P a]: the form [vm_compute]
    decides for a closed computation. *)
Lemma res_ok_intro {A} (r : res A) (P : A -> Prop) :
  match r with Ok a => P a | Raise _ => False end -> exists a, r = Ok a /\ P a.
Proof. destruct r; [eauto | contradiction]. Qed.

Lemma some_pair_eq {A B} (a c : A) (b d : B) : Some (a, b) = Some (c, d) -> c = a /\ d = b.
Proof. intros H. now inversion H. Qed.
