(* ===== verification/Cyclo.v ===== *)
(** * Exact amplitudes: the cyclotomic integers Z[zeta], zeta = exp(i pi/8)

    The frameworks' simulators compute with complex floating point.  The
    development replaces them by exact arithmetic: every amplitude that the
    modelled circuits produce is [v / sqrt2^k] with [v] in the ring
    Z[zeta] of integer combinations of the 16th roots of unity.  An element
    is the vector of its coefficients on 1, zeta, ..., zeta^7, reduced by
    zeta^8 = -1; sqrt2 = zeta^2 - zeta^6 and i = zeta^4 belong to the
    ring.  Equality is Leibniz equality, decidable, and [ring] works on it. *)

From Stdlib Require Import ZArith Ring Lia Bool.
From S2P Require Import Prelude.

#[local] Open Scope Z_scope.

Record cyc := Cyc { k0 : Z; k1 : Z; k2 : Z; k3 : Z; k4 : Z; k5 : Z; k6 : Z; k7 : Z }.

Declare Scope cyc_scope.
Delimit Scope cyc_scope with cyc.
Bind Scope cyc_scope with cyc.

Definition czero : cyc := Cyc 0 0 0 0 0 0 0 0.
Definition cone : cyc := Cyc 1 0 0 0 0 0 0 0.

Definition cyc_of_Z (z : Z) : cyc := Cyc z 0 0 0 0 0 0 0.

Definition cadd (a b : cyc) : cyc :=
  Cyc (k0 a + k0 b) (k1 a + k1 b) (k2 a + k2 b) (k3 a + k3 b)
      (k4 a + k4 b) (k5 a + k5 b) (k6 a + k6 b) (k7 a + k7 b).

Definition cneg (a : cyc) : cyc :=
  Cyc (- k0 a) (- k1 a) (- k2 a) (- k3 a) (- k4 a) (- k5 a) (- k6 a) (- k7 a).

Definition csub (a b : cyc) : cyc := cadd a (cneg b).

(** Product of polynomials modulo x^8 + 1 (a negacyclic convolution). *)
Definition cmul (a b : cyc) : cyc :=
  let '(Cyc a0 a1 a2 a3 a4 a5 a6 a7) := a in
  let '(Cyc b0 b1 b2 b3 b4 b5 b6 b7) := b in
  Cyc (a0*b0 - a1*b7 - a2*b6 - a3*b5 - a4*b4 - a5*b3 - a6*b2 - a7*b1)
      (a0*b1 + a1*b0 - a2*b7 - a3*b6 - a4*b5 - a5*b4 - a6*b3 - a7*b2)
      (a0*b2 + a1*b1 + a2*b0 - a3*b7 - a4*b6 - a5*b5 - a6*b4 - a7*b3)
      (a0*b3 + a1*b2 + a2*b1 + a3*b0 - a4*b7 - a5*b6 - a6*b5 - a7*b4)
      (a0*b4 + a1*b3 + a2*b2 + a3*b1 + a4*b0 - a5*b7 - a6*b6 - a7*b5)
      (a0*b5 + a1*b4 + a2*b3 + a3*b2 + a4*b1 + a5*b0 - a6*b7 - a7*b6)
      (a0*b6 + a1*b5 + a2*b4 + a3*b3 + a4*b2 + a5*b1 + a6*b0 - a7*b7)
      (a0*b7 + a1*b6 + a2*b5 + a3*b4 + a4*b3 + a5*b2 + a6*b1 + a7*b0).

Infix "+" := cadd : cyc_scope.
Infix "-" := csub : cyc_scope.
Infix "*" := cmul : cyc_scope.
Notation "- a" := (cneg a) : cyc_scope.
Notation "0" := czero : cyc_scope.
Notation "1" := cone : cyc_scope.

(** Complex conjugation: zeta^k is sent to zeta^(-k) = - zeta^(8-k). *)
Definition cconj (a : cyc) : cyc :=
  Cyc (k0 a) (- k7 a) (- k6 a) (- k5 a) (- k4 a) (- k3 a) (- k2 a) (- k1 a).

(** zeta^k for any integer k: zeta^16 = 1 and zeta^8 = -1. *)
Definition zeta_pow (k : Z) : cyc :=
  match k mod 16 with
  | 0 => Cyc 1 0 0 0 0 0 0 0   | 8 => Cyc (-1) 0 0 0 0 0 0 0
  | 1 => Cyc 0 1 0 0 0 0 0 0   | 9 => Cyc 0 (-1) 0 0 0 0 0 0
  | 2 => Cyc 0 0 1 0 0 0 0 0   | 10 => Cyc 0 0 (-1) 0 0 0 0 0
  | 3 => Cyc 0 0 0 1 0 0 0 0   | 11 => Cyc 0 0 0 (-1) 0 0 0 0
  | 4 => Cyc 0 0 0 0 1 0 0 0   | 12 => Cyc 0 0 0 0 (-1) 0 0 0
  | 5 => Cyc 0 0 0 0 0 1 0 0   | 13 => Cyc 0 0 0 0 0 (-1) 0 0
  | 6 => Cyc 0 0 0 0 0 0 1 0   | 14 => Cyc 0 0 0 0 0 0 (-1) 0
  | _ => if k mod 16 =? 7 then Cyc 0 0 0 0 0 0 0 1 else Cyc 0 0 0 0 0 0 0 (-1)
  end.

(** The imaginary unit and sqrt 2 = zeta^2 + zeta^-2. *)
Definition ci : cyc := zeta_pow 4.
Definition csqrt2 : cyc := Cyc 0 0 1 0 0 0 (-1) 0.

(** Multiplication by an integer and by a power of sqrt 2. *)
Definition cscale (z : Z) (a : cyc) : cyc := cmul (cyc_of_Z z) a.

Fixpoint sqrt2_pow (k : nat) : cyc :=
  match k with
  | O => cone
  | S k' => cmul csqrt2 (sqrt2_pow k')
  end.

(** The squared modulus |a|^2 = a * conj a (an element of the real subring). *)
Definition cnorm2 (a : cyc) : cyc := cmul a (cconj a).

Definition cyc_eqb (a b : cyc) : bool :=
  (k0 a =? k0 b) && (k1 a =? k1 b) && (k2 a =? k2 b) && (k3 a =? k3 b) &&
  (k4 a =? k4 b) && (k5 a =? k5 b) && (k6 a =? k6 b) && (k7 a =? k7 b).

(** ** The ring structure *)

Lemma cyc_ext a b :
  k0 a = k0 b -> k1 a = k1 b -> k2 a = k2 b -> k3 a = k3 b ->
  k4 a = k4 b -> k5 a = k5 b -> k6 a = k6 b -> k7 a = k7 b -> a = b.
Proof. destruct a, b; cbn; intros; subst; reflexivity. Qed.

(** Every component of a ring identity is an identity of integer polynomials. *)
Ltac cyc_ring :=
  repeat match goal with x : cyc |- _ => destruct x end;
  unfold cadd, cneg, csub, cmul, cconj, czero, cone, cyc_of_Z;
  apply cyc_ext; cbn [k0 k1 k2 k3 k4 k5 k6 k7]; ring.

Lemma cyc_ring_theory : ring_theory czero cone cadd cmul csub cneg (@eq cyc).
Proof. split; intros; unfold csub; cyc_ring. Qed.

Add Ring cyc_ring : cyc_ring_theory.

Lemma cyc_eqb_spec a b : reflect (a = b) (cyc_eqb a b).
Proof.
  destruct (cyc_eqb a b) eqn:E; constructor.
  - unfold cyc_eqb in E. repeat rewrite andb_true_iff in E.
    destruct E as [[[[[[[E0 E1] E2] E3] E4] E5] E6] E7].
    apply Z.eqb_eq in E0, E1, E2, E3, E4, E5, E6, E7. now apply cyc_ext.
  - intros ->. unfold cyc_eqb in E. rewrite !Z.eqb_refl in E. discriminate.
Qed.

Definition cyc_eq_dec (a b : cyc) : {a = b} + {a <> b}.
Proof. destruct (cyc_eqb_spec a b); [left | right]; assumption. Defined.

(** ** Conjugation, roots of unity and sqrt 2 *)

Lemma cconj_add a b : cconj (a + b) = (cconj a + cconj b)%cyc.
Proof. cyc_ring. Qed.

Lemma cconj_neg a : cconj (- a) = (- cconj a)%cyc.
Proof. cyc_ring. Qed.

Lemma cconj_sub a b : cconj (a - b) = (cconj a - cconj b)%cyc.
Proof. unfold csub. cyc_ring. Qed.

Lemma cconj_mul a b : cconj (a * b) = (cconj a * cconj b)%cyc.
Proof. cyc_ring. Qed.

Lemma cconj_involutive a : cconj (cconj a) = a.
Proof. cyc_ring. Qed.

Lemma cconj_of_Z z : cconj (cyc_of_Z z) = cyc_of_Z z.
Proof. apply cyc_ext; cbn; lia. Qed.

Lemma cconj_sqrt2 : cconj csqrt2 = csqrt2.
Proof. reflexivity. Qed.

Lemma csqrt2_sq : (csqrt2 * csqrt2)%cyc = cyc_of_Z 2.
Proof. reflexivity. Qed.

Lemma cyc_of_Z_add a b : cyc_of_Z (a + b) = (cyc_of_Z a + cyc_of_Z b)%cyc.
Proof. apply cyc_ext; cbn; lia. Qed.

Lemma cyc_of_Z_mul a b : cyc_of_Z (a * b) = (cyc_of_Z a * cyc_of_Z b)%cyc.
Proof. apply cyc_ext; cbn; lia. Qed.

(** zeta_pow only depends on the exponent modulo 16. *)
Lemma zeta_pow_mod k : zeta_pow (k mod 16) = zeta_pow k.
Proof. unfold zeta_pow. now rewrite Z.mod_mod by lia. Qed.

(** The exponents 0..15 as a finite check; used for the laws below. *)
Lemma zeta_pow_cases k :
  exists r, 0 <= r < 16 /\ k mod 16 = r.
Proof. exists (k mod 16). split; [apply Z.mod_pos_bound; lia | reflexivity]. Qed.

Lemma zeta_pow_add a b : zeta_pow (a + b) = (zeta_pow a * zeta_pow b)%cyc.
Proof.
  rewrite <- zeta_pow_mod, <- (zeta_pow_mod a), <- (zeta_pow_mod b).
  rewrite Zplus_mod.
  assert (Ha : 0 <= a mod 16 < 16) by (apply Z.mod_pos_bound; lia).
  assert (Hb : 0 <= b mod 16 < 16) by (apply Z.mod_pos_bound; lia).
  generalize (a mod 16) (b mod 16) Ha Hb. clear.
  intros x y Hx Hy.
  assert (Ex : List.In x (List.map Z.of_nat (List.seq 0 16))).
  { apply List.in_map_iff. exists (Z.to_nat x). split; [lia|]. apply List.in_seq; lia. }
  assert (Ey : List.In y (List.map Z.of_nat (List.seq 0 16))).
  { apply List.in_map_iff. exists (Z.to_nat y). split; [lia|]. apply List.in_seq; lia. }
  cbn in Ex, Ey.
  repeat (destruct Ex as [<-|Ex]); try contradiction;
  repeat (destruct Ey as [<-|Ey]); try contradiction; reflexivity.
Qed.

Lemma zeta_pow_0 : zeta_pow 0 = cone.
Proof. reflexivity. Qed.

Lemma zeta_pow_conj k : cconj (zeta_pow k) = zeta_pow (- k).
Proof.
  rewrite <- zeta_pow_mod, <- (zeta_pow_mod (- k)).
  assert (E : (- k) mod 16 = (16 - k mod 16) mod 16).
  { rewrite Zminus_mod, Z.mod_same, Z.mod_mod by lia.
    rewrite <- (Z.sub_0_l k) at 1. rewrite (Zminus_mod 0 k 16). reflexivity. }
  rewrite E.
  assert (Hk : 0 <= k mod 16 < 16) by (apply Z.mod_pos_bound; lia).
  generalize (k mod 16) Hk. clear. intros x Hx.
  assert (Ex : List.In x (List.map Z.of_nat (List.seq 0 16))).
  { apply List.in_map_iff. exists (Z.to_nat x). split; [lia|]. apply List.in_seq; lia. }
  cbn in Ex. repeat (destruct Ex as [<-|Ex]); try contradiction; reflexivity.
Qed.

(** |zeta^k|^2 = 1: phases do not change probabilities. *)
Lemma zeta_pow_unit k : (zeta_pow k * cconj (zeta_pow k))%cyc = cone.
Proof. rewrite zeta_pow_conj, <- zeta_pow_add, Z.add_opp_diag_r. reflexivity. Qed.

Lemma cnorm2_mul a b : cnorm2 (a * b) = (cnorm2 a * cnorm2 b)%cyc.
Proof. unfold cnorm2. rewrite cconj_mul. ring. Qed.

Lemma cnorm2_zeta_mul k a : cnorm2 (zeta_pow k * a) = cnorm2 a.
Proof.
  rewrite cnorm2_mul. unfold cnorm2 at 1. rewrite zeta_pow_unit. ring.
Qed.

Lemma cnorm2_neg a : cnorm2 (- a) = cnorm2 a.
Proof. unfold cnorm2. rewrite cconj_neg. ring. Qed.

(** |a + b|^2 + |a - b|^2 = 2 (|a|^2 + |b|^2): the Hadamard pair law. *)
Lemma cnorm2_parallelogram a b :
  (cnorm2 (a + b) + cnorm2 (a - b))%cyc = (cyc_of_Z 2 * (cnorm2 a + cnorm2 b))%cyc.
Proof.
  unfold cnorm2. rewrite cconj_add, cconj_sub. unfold cyc_of_Z. ring_simplify.
  cyc_ring.
Qed.

(** ** Cancellation by 2 and by sqrt 2 *)

Lemma cyc_two_cancel a b : (cyc_of_Z 2 * a)%cyc = (cyc_of_Z 2 * b)%cyc -> a = b.
Proof.
  destruct a, b. unfold cmul, cyc_of_Z. intros E.
  apply cyc_ext; match goal with
  | |- ?p _ = ?p _ => apply (f_equal p) in E; cbn [k0 k1 k2 k3 k4 k5 k6 k7] in *; lia
  end.
Qed.

Lemma csqrt2_cancel a b : (csqrt2 * a)%cyc = (csqrt2 * b)%cyc -> a = b.
Proof.
  intros E. apply cyc_two_cancel. rewrite <- csqrt2_sq.
  rewrite <- !(Rmul_assoc cyc_ring_theory), E. reflexivity.
Qed.

Lemma sqrt2_pow_cancel k a b : (sqrt2_pow k * a)%cyc = (sqrt2_pow k * b)%cyc -> a = b.
Proof.
  induction k as [|k IH]; cbn [sqrt2_pow]; intros E.
  - now rewrite (Rmul_1_l cyc_ring_theory), (Rmul_1_l cyc_ring_theory) in E.
  - apply IH, csqrt2_cancel. now rewrite !(Rmul_assoc cyc_ring_theory).
Qed.

Lemma sqrt2_pow_add a b : sqrt2_pow (a + b) = (sqrt2_pow a * sqrt2_pow b)%cyc.
Proof. induction a as [|a IH]; cbn [sqrt2_pow Nat.add]; [ring | rewrite IH; ring]. Qed.

Lemma sqrt2_pow_double k : sqrt2_pow (2 * k) = cyc_of_Z (2 ^ Z.of_nat k).
Proof.
  induction k as [|k IH]; [reflexivity|].
  replace (2 * S k)%nat with (S (S (2 * k))) by lia. cbn [sqrt2_pow].
  rewrite IH, Nat2Z.inj_succ, Z.pow_succ_r by lia.
  rewrite cyc_of_Z_mul, <- csqrt2_sq. ring.
Qed.

#[export] Hint Rewrite cconj_add cconj_neg cconj_sub cconj_mul cconj_involutive
  zeta_pow_add zeta_pow_0 csqrt2_sq : qlab_rw.
