(* ===== verification/Gates.v ===== *)
(** * Gate operations and circuits

    The gates the repository applies through Qiskit ([qc.h], [qc.x],
    [qc.y], [qc.z], [qc.rz], [qc.ry], [qc.cx], [qc.cz], [qc.swap],
    [qc.cp], [qc.mcp], [qc.mct]) and Cirq ([cirq.H], ..., [cirq.CZ ** t],
    [cirq.CZPowGate]), as a tagged variant bound to qubit indices.  Angles
    are the dyadic multiples of pi the code writes ([np.pi/4],
    [np.pi/2**k], [np.pi]); a circuit is the list of its gates in
    application order.  Well-formedness is the check Qiskit performs when
    a gate is appended: indices below the qubit count, no repeated qubit. *)

From Stdlib Require Import ZArith List Lia Bool.
From S2P Require Import Prelude.
Import ListNotations.

(** An angle [num * pi / 2^log2den]. *)
Record angle := Angle { ang_num : Z; ang_log2den : nat }.

(** [np.pi / 2**d]. *)
Definition pi_over_pow2 (d : nat) : angle := Angle 1 d.

(** [- angle] *)
Definition angle_neg (a : angle) : angle := Angle (- ang_num a) (ang_log2den a).

Inductive gate_op :=
| GH (q : nat)
| GX (q : nat)
| GY (q : nat)
| GZ (q : nat)
| GRZ (theta : angle) (q : nat)
| GRY (theta : angle) (q : nat)
| GCX (c t : nat)
| GCZ (c t : nat)
| GSWAP (a b : nat)
| GCP (theta : angle) (c t : nat)
| GMCP (theta : angle) (cs : list nat) (t : nat)
| GMCT (cs : list nat) (t : nat).

Definition circuit := list gate_op.

(** The qubits a gate acts on, controls first. *)
Definition gate_qubits (g : gate_op) : list nat :=
  match g with
  | GH q | GX q | GY q | GZ q | GRZ _ q | GRY _ q => [q]
  | GCX c t | GCZ c t | GCP _ c t => [c; t]
  | GSWAP a b => [a; b]
  | GMCP _ cs t | GMCT cs t => cs ++ [t]
  end.

Fixpoint nodupb (l : list nat) : bool :=
  match l with
  | [] => true
  | x :: xs => negb (existsb (Nat.eqb x) xs) && nodupb xs
  end.

(** The check Qiskit makes when a gate is appended to an [n]-qubit circuit. *)
Definition wf_gate (n : nat) (g : gate_op) : bool :=
  forallb (fun q => q <? n) (gate_qubits g) && nodupb (gate_qubits g).

Definition wf_circuit (n : nat) (c : circuit) : bool := forallb (wf_gate n) c.

(** The inverse of each gate (the circuit [g^-1] with [g^-1 g = id]). *)
Definition gate_inv (g : gate_op) : gate_op :=
  match g with
  | GRZ a q => GRZ (angle_neg a) q
  | GRY a q => GRY (angle_neg a) q
  | GCP a c t => GCP (angle_neg a) c t
  | GMCP a cs t => GMCP (angle_neg a) cs t
  | g => g
  end.

Definition circuit_inv (c : circuit) : circuit := rev (map gate_inv c).

(** ** Lemmas *)

Lemma nodupb_spec l : nodupb l = true <-> NoDup l.
Proof.
  induction l as [|x xs IH]; cbn.
  - split; constructor.
  - rewrite andb_true_iff, negb_true_iff, IH. split.
    + intros [Hx Hxs]. constructor; auto. intros Hin.
      assert (existsb (Nat.eqb x) xs = true) by (apply existsb_exists; eauto using Nat.eqb_refl).
      congruence.
    + intros Hn. inversion Hn; subst. split; auto.
      destruct (existsb (Nat.eqb x) xs) eqn:E; auto.
      apply existsb_exists in E as [y [Hy Hxy]]. apply Nat.eqb_eq in Hxy; subst. contradiction.
Qed.

Lemma wf_gate_spec n g :
  wf_gate n g = true <-> Forall (fun q => q < n) (gate_qubits g) /\ NoDup (gate_qubits g).
Proof.
  unfold wf_gate. rewrite andb_true_iff, forallb_forall, Forall_forall, nodupb_spec.
  split; intros [A B]; split; auto; intros q Hq; apply Nat.ltb_lt; auto.
Qed.

Lemma wf_circuit_app n c1 c2 :
  wf_circuit n (c1 ++ c2) = wf_circuit n c1 && wf_circuit n c2.
Proof. apply forallb_app. Qed.

Lemma gate_inv_involutive g : gate_inv (gate_inv g) = g.
Proof.
  destruct g; cbn; try reflexivity;
  destruct theta; unfold angle_neg; cbn; now rewrite Z.opp_involutive.
Qed.

Lemma gate_inv_qubits g : gate_qubits (gate_inv g) = gate_qubits g.
Proof. now destruct g. Qed.

Lemma wf_gate_inv n g : wf_gate n (gate_inv g) = wf_gate n g.
Proof. unfold wf_gate. now rewrite gate_inv_qubits. Qed.

Lemma circuit_inv_involutive c : circuit_inv (circuit_inv c) = c.
Proof.
  unfold circuit_inv. rewrite map_rev, rev_involutive, map_map.
  erewrite map_ext; [apply map_id|]. apply gate_inv_involutive.
Qed.

Lemma wf_circuit_inv n c : wf_circuit n (circuit_inv c) = wf_circuit n c.
Proof.
  unfold wf_circuit, circuit_inv.
  induction c as [|g c IH]; cbn; [reflexivity|].
  rewrite forallb_app, IH; cbn. rewrite wf_gate_inv. ring.
Qed.

#[export] Hint Rewrite wf_circuit_app gate_inv_involutive circuit_inv_involutive
  wf_circuit_inv : qlab_rw.
