(* ===== verification/Statevector.v ===== *)
(** * The statevector simulator

    The frameworks' simulators ([AerSimulator], [qasm_simulator],
    [statevector_simulator], [cirq.Simulator]) are not part of the
    repository; this file models the engine the specification describes
    (spec section 4.1 and 4.3): a register of [n] qubits is the vector of
    its [2^n] amplitudes, qubit [q] is bit [q] of the basis index, a gate
    acts as its unitary on the named qubits and as the identity elsewhere.

    Amplitudes are exact: the vector holds elements [v_j] of Z[zeta] and
    a scale [k], the amplitude of basis state [j] being [v_j / sqrt2^k].
    Measurement follows the Born rule: the probability of basis state [j]
    is [|v_j|^2 / 2^k]; a sample can be [j] exactly when [v_j <> 0]. *)

From Stdlib Require Import String ZArith List Lia Bool.
From S2P Require Import Prelude Cyclo Gates.
Import ListNotations.

#[local] Open Scope cyc_scope.

Record qstate := QS { qs_n : nat; qs_k : nat; qs_amps : list cyc }.

Definition amp (s : qstate) (j : nat) : cyc := nth j (qs_amps s) czero.

(** The vector [f 0, ..., f (2^n - 1)]. *)
Definition tabulate (n : nat) (f : nat -> cyc) : list cyc := map f (seq 0 (2 ^ n)).

(** [initialize(n)]: the basis state |0...0>. *)
Definition init_state (n : nat) : qstate :=
  QS n 0 (tabulate n (fun j => if (j =? 0)%nat then cone else czero)).

(** The exponent [e] with [exp(i theta) = zeta^e], when theta is a
    multiple of pi/8. *)
Definition phase_exp (a : angle) : option Z :=
  let d := ang_log2den a in
  if (d <=? 3)%nat then Some (ang_num a * 2 ^ Z.of_nat (3 - d))%Z
  else
    let m := (2 ^ Z.of_nat (d - 3))%Z in
    if (ang_num a mod m =? 0)%Z then Some (ang_num a / m)%Z else None.

Definition half_angle (a : angle) : angle := Angle (ang_num a) (S (ang_log2den a)).

(** The 2x2 matrix [[u00, u01], [u10, u11]] applied to qubit [q]. *)
Definition act1 (u00 u01 u10 u11 : cyc) (q : nat) (f : nat -> cyc) (j : nat) : cyc :=
  if bit j q then u10 * f (flip j q) + u11 * f j
  else u00 * f j + u01 * f (flip j q).

Definition all_set (j : nat) (qs : list nat) : bool := forallb (bit j) qs.

(** The index with the bits [a] and [b] exchanged. *)
Definition swap_bits (j a b : nat) : nat :=
  if Bool.eqb (bit j a) (bit j b) then j else flip (flip j a) b.

(** The action of a gate: the increase of the scale and the new amplitude
    function; [None] when an angle is not a multiple of pi/8 (pi/4 for the
    rotations, whose matrices hold the half angle). *)
Definition gate_action (g : gate_op) : option (nat * ((nat -> cyc) -> nat -> cyc)) :=
  match g with
  | GH q => Some (1%nat, act1 1 1 1 (cneg cone) q)
  | GX q => Some (0%nat, act1 0 1 1 0 q)
  | GY q => Some (0%nat, act1 0 (- ci) ci 0 q)
  | GZ q => Some (0%nat, act1 1 0 0 (cneg cone) q)
  | GRZ th q =>
      match phase_exp (half_angle th) with
      | Some e => Some (0%nat, act1 (zeta_pow (- e)) 0 0 (zeta_pow e) q)
      | None => None
      end
  | GRY th q =>
      match phase_exp (half_angle th) with
      | Some e =>
          let c := zeta_pow e + zeta_pow (- e) in
          let s := ci * (zeta_pow e - zeta_pow (- e)) in
          Some (2%nat, act1 c s (- s) c q)
      | None => None
      end
  | GCX c t => Some (0%nat, fun f j => if bit j c then f (flip j t) else f j)
  | GCZ c t => Some (0%nat, fun f j => if bit j c && bit j t then - f j else f j)
  | GSWAP a b => Some (0%nat, fun f j => f (swap_bits j a b))
  | GCP th c t =>
      match phase_exp th with
      | Some e => Some (0%nat, fun f j => if bit j c && bit j t then zeta_pow e * f j else f j)
      | None => None
      end
  | GMCP th cs t =>
      match phase_exp th with
      | Some e => Some (0%nat, fun f j => if all_set j (cs ++ [t]) then zeta_pow e * f j else f j)
      | None => None
      end
  | GMCT cs t => Some (0%nat, fun f j => if all_set j cs then f (flip j t) else f j)
  end.

(** [apply(gate, ...)]: an index out of range raises IndexError, a
    repeated qubit is Qiskit's CircuitError. *)
Definition apply_gate (g : gate_op) (s : qstate) : res qstate :=
  let n := qs_n s in
  if negb (forallb (fun q => q <? n) (gate_qubits g)) then Raise IndexError
  else if negb (nodupb (gate_qubits g)) then Raise (CircuitError "duplicate qubit arguments")
  else match gate_action g with
       | Some (dk, T) => Ok (QS n (qs_k s + dk) (tabulate n (T (amp s))))
       | None => Raise (ValueError "angle outside the exact model")
       end.

Fixpoint run_from (c : circuit) (s : qstate) : res qstate :=
  match c with
  | [] => Ok s
  | g :: c' => let* s' := apply_gate g s in run_from c' s'
  end.

(** Evolve a fresh register through the circuit (spec 4.3 step 1). *)
Definition run (n : nat) (c : circuit) : res qstate := run_from c (init_state n).

(** ** Born rule *)

Definition basis (n : nat) : list nat := seq 0 (2 ^ n).

(** [2^k] times the probability of basis state [j]. *)
Definition prob_num (s : qstate) (j : nat) : cyc := cnorm2 (amp s j).

Definition csum (l : list cyc) : cyc := fold_right cadd czero l.

(** The total probability mass, times [2^k]. *)
Definition total_mass (s : qstate) : cyc := csum (map (prob_num s) (basis (qs_n s))).

(** The register invariant: the vector has [2^n] entries and mass 1. *)
Definition normalized (s : qstate) : Prop :=
  length (qs_amps s) = 2 ^ qs_n s /\ total_mass s = cyc_of_Z (2 ^ Z.of_nat (qs_k s)).

(** A sample of all qubits can be [j]: [j] is a basis state of nonzero
    amplitude. *)
Definition possible (s : qstate) (j : nat) : bool :=
  (j <? 2 ^ qs_n s) && negb (cyc_eqb (amp s j) czero).

(** The outcomes a shot can return. *)
Definition outcomes (s : qstate) : list nat := filter (possible s) (basis (qs_n s)).

(** The samples are shots of the register [s]: each is a possible outcome. *)
Definition sampled (s : qstate) (samples : list nat) : Prop :=
  Forall (fun j => possible s j = true) samples.

(** Outcome [b] of qubit [q] is possible. *)
Definition qubit_possible (s : qstate) (q : nat) (b : bool) : bool :=
  existsb (fun j => possible s j && Bool.eqb (bit j q) b) (basis (qs_n s)).

(** ** Lemmas *)

Lemma length_tabulate n f : length (tabulate n f) = 2 ^ n.
Proof. unfold tabulate. now rewrite length_map, length_seq. Qed.

Lemma amp_tabulate n k f j : j < 2 ^ n -> amp (QS n k (tabulate n f)) j = f j.
Proof. intros Hj. unfold amp, tabulate. cbn. now apply nth_map_seq. Qed.

Lemma amp_tabulate_out n k f j : 2 ^ n <= j -> amp (QS n k (tabulate n f)) j = czero.
Proof. intros Hj. unfold amp. cbn. apply nth_overflow. now rewrite length_tabulate. Qed.

#[export] Hint Rewrite length_tabulate : qlab_rw.

Lemma apply_gate_ok g s :
  wf_gate (qs_n s) g = true -> gate_action g <> None ->
  exists dk T, gate_action g = Some (dk, T) /\
    apply_gate g s = Ok (QS (qs_n s) (qs_k s + dk) (tabulate (qs_n s) (T (amp s)))).
Proof.
  intros Hwf Hact. unfold wf_gate in Hwf. apply andb_true_iff in Hwf as [Hr Hd].
  unfold apply_gate. rewrite Hr, Hd. cbn.
  destruct (gate_action g) as [[dk T]|]; [|congruence]. eauto.
Qed.

Lemma apply_gate_n g s s' : apply_gate g s = Ok s' -> qs_n s' = qs_n s.
Proof.
  unfold apply_gate. destruct (negb _); [discriminate|]. destruct (negb _); [discriminate|].
  destruct (gate_action g) as [[dk T]|]; [|discriminate]. now intros [= <-].
Qed.

Lemma apply_gate_length g s s' :
  apply_gate g s = Ok s' -> length (qs_amps s') = 2 ^ qs_n s'.
Proof.
  unfold apply_gate. destruct (negb _); [discriminate|]. destruct (negb _); [discriminate|].
  destruct (gate_action g) as [[dk T]|]; [|discriminate]. intros [= <-]. apply length_tabulate.
Qed.

(** An index out of range raises IndexError (spec 4.1 failure modes). *)
Lemma apply_gate_index_error g s :
  existsb (fun q => qs_n s <=? q) (gate_qubits g) = true -> apply_gate g s = Raise IndexError.
Proof.
  intros E. unfold apply_gate.
  assert (F : forallb (fun q => q <? qs_n s) (gate_qubits g) = false).
  { apply existsb_exists in E as [q [Hq Hle]]. apply Nat.leb_le in Hle.
    destruct (forallb _ _) eqn:F; [|reflexivity].
    rewrite forallb_forall in F. specialize (F q Hq). apply Nat.ltb_lt in F. lia. }
  now rewrite F.
Qed.

Lemma run_from_app c1 c2 s :
  run_from (c1 ++ c2) s = res_bind (run_from c1 s) (run_from c2).
Proof.
  revert s; induction c1 as [|g c1 IH]; intros s; cbn; [reflexivity|].
  destruct (apply_gate g s); cbn; auto.
Qed.

Lemma run_from_n c s s' : run_from c s = Ok s' -> qs_n s' = qs_n s.
Proof.
  revert s; induction c as [|g c IH]; intros s H; cbn in H; [now inversion H|].
  destruct (apply_gate g s) as [s1|] eqn:E; cbn in H; [|discriminate].
  rewrite (IH _ H). eapply apply_gate_n; eauto.
Qed.

#[export] Hint Rewrite run_from_app : qlab_rw.

Lemma possible_spec s j :
  possible s j = true <-> j < 2 ^ qs_n s /\ amp s j <> czero.
Proof.
  unfold possible. rewrite andb_true_iff, Nat.ltb_lt, negb_true_iff.
  destruct (cyc_eqb_spec (amp s j) czero); intuition congruence.
Qed.

Lemma in_outcomes s j : In j (outcomes s) <-> possible s j = true.
Proof.
  unfold outcomes, basis. rewrite filter_In, in_seq. split; [tauto|].
  intros P. split; auto. apply possible_spec in P. lia.
Qed.

(** A well-formed circuit of exact gates runs to completion. *)
Lemma run_from_total c s :
  wf_circuit (qs_n s) c = true -> Forall (fun g => gate_action g <> None) c ->
  exists s', run_from c s = Ok s' /\ qs_n s' = qs_n s.
Proof.
  revert s; induction c as [|g c IH]; intros s Hwf Ha; cbn; [eauto|].
  cbn in Hwf. apply andb_true_iff in Hwf as [Hg Hc]. inversion Ha as [|? ? Hga Hca]; subst.
  destruct (apply_gate_ok g s Hg Hga) as (dk & T & _ & E). rewrite E. cbn.
  destruct (IH (QS (qs_n s) (qs_k s + dk) (tabulate (qs_n s) (T (amp s)))) Hc Hca)
    as (s' & Hs' & Hn). exists s'. split; [exact Hs' | exact Hn].
Qed.
