(* ===== verification/Unitarity.v ===== *)
(** * Unitarity: every gate preserves the probability mass

    Spec 4.1 and 8: after every [apply] the register's total probability
    mass stays 1.  In the exact model a register of scale [k] has mass 1
    when the sum of the squared moduli of its entries is [2^k]
    ([normalized]).  This file proves that every gate of [gate_action]
    multiplies that sum by [2^dk], where [dk] is the scale increase it
    declares, so [apply_gate], [run_from] and [run] preserve
    [normalized].

    The gates fall into three shapes: the one-qubit matrices [act1]
    (columns orthogonal and of squared norm [2^dk]), the basis
    permutations (CX, SWAP, MCT: an involution of [0 .. 2^n - 1]) and the
    diagonal phases (CZ, CP, MCP: a unit factor on some basis states). *)

From Stdlib Require Import String ZArith List Lia Bool Permutation.
From S2P Require Import Prelude Cyclo Gates Statevector.
Import ListNotations.

#[local] Open Scope cyc_scope.

(** ** Sums over the basis *)

Lemma csum_app l1 l2 : csum (l1 ++ l2) = csum l1 + csum l2.
Proof. unfold csum. induction l1 as [|x l1 IH]; cbn [fold_right app]; [ring | rewrite IH; ring]. Qed.

Lemma csum_perm l1 l2 : Permutation l1 l2 -> csum l1 = csum l2.
Proof. unfold csum. induction 1; cbn [fold_right]; try congruence; ring. Qed.

Lemma csum_map_add {A} (F G : A -> cyc) l :
  csum (map (fun j => F j + G j) l) = csum (map F l) + csum (map G l).
Proof. unfold csum. induction l as [|x l IH]; cbn [fold_right map]; [ring | rewrite IH; ring]. Qed.

Lemma csum_map_mul {A} c (F : A -> cyc) l :
  csum (map (fun j => c * F j) l) = c * csum (map F l).
Proof. unfold csum. induction l as [|x l IH]; cbn [fold_right map]; [ring | rewrite IH; ring]. Qed.

Lemma cyc_two_double a : cyc_of_Z 2 * a = a + a.
Proof. cyc_ring. Qed.

Section Involution.
Variable n : nat.
Variable sigma : nat -> nat.
Hypothesis sigma_range : forall j, j < 2 ^ n -> sigma j < 2 ^ n.
Hypothesis sigma_inv : forall j, j < 2 ^ n -> sigma (sigma j) = j.

(** An involution of the basis permutes it. *)
Lemma basis_perm : Permutation (map sigma (basis n)) (basis n).
Proof.
  unfold basis. apply NoDup_Permutation.
  - apply NoDup_map_NoDup_ForallPairs; [|apply seq_NoDup].
    intros x y Hx Hy E. apply in_seq in Hx, Hy.
    rewrite <- (sigma_inv x), <- (sigma_inv y), E by lia. reflexivity.
  - apply seq_NoDup.
  - intros x. rewrite in_map_iff, in_seq. split.
    + intros (y & <- & Hy). apply in_seq in Hy. split; [lia | apply sigma_range; lia].
    + intros Hx. exists (sigma x). rewrite in_seq. split; [apply sigma_inv; lia|].
      split; [lia | apply sigma_range; lia].
Qed.

Lemma csum_basis_perm (F : nat -> cyc) :
  csum (map (fun j => F (sigma j)) (basis n)) = csum (map F (basis n)).
Proof.
  rewrite <- (map_map sigma F). apply csum_perm, Permutation_map, basis_perm.
Qed.

(** Pairing every basis state with its image: a pointwise identity on
    the pairs gives the identity of the sums. *)
Lemma csum_basis_pairs (F G : nat -> cyc) m :
  (forall j, j < 2 ^ n -> F j + F (sigma j) = m * (G j + G (sigma j))) ->
  csum (map F (basis n)) = m * csum (map G (basis n)).
Proof.
  intros Hp. apply cyc_two_cancel. rewrite !cyc_two_double.
  rewrite <- (csum_basis_perm F) at 2. rewrite <- csum_map_add.
  rewrite (map_ext_in _ (fun j => m * (G j + G (sigma j)))).
  - rewrite csum_map_mul, csum_map_add, csum_basis_perm. ring.
  - intros j Hj. apply Hp. unfold basis in Hj. apply in_seq in Hj. lia.
Qed.
End Involution.

(** The squared norm of the amplitude function over the basis. *)
Definition mass (n : nat) (f : nat -> cyc) : cyc := csum (map (fun j => cnorm2 (f j)) (basis n)).

(** ** One-qubit matrices *)

(** A 2x2 matrix whose columns are orthogonal of squared norm [m]
    multiplies squared norms by [m]. *)
Lemma norm_pair u00 u01 u10 u11 m a b :
  cnorm2 u00 + cnorm2 u10 = m -> cnorm2 u01 + cnorm2 u11 = m ->
  u00 * cconj u01 + u10 * cconj u11 = 0 ->
  cnorm2 (u00 * a + u01 * b) + cnorm2 (u10 * a + u11 * b) = m * (cnorm2 a + cnorm2 b).
Proof.
  intros H1 H2 H3.
  assert (H3' : cconj u00 * u01 + cconj u10 * u11 = 0).
  { apply (f_equal cconj) in H3. rewrite cconj_add, !cconj_mul, !cconj_involutive in H3.
    exact H3. }
  transitivity ((cnorm2 u00 + cnorm2 u10) * cnorm2 a + (cnorm2 u01 + cnorm2 u11) * cnorm2 b
                + (u00 * cconj u01 + u10 * cconj u11) * (a * cconj b)
                + (cconj u00 * u01 + cconj u10 * u11) * (b * cconj a)).
  { unfold cnorm2. rewrite !cconj_add, !cconj_mul. ring. }
  rewrite H1, H2, H3, H3'. ring.
Qed.

Lemma act1_mass n q u00 u01 u10 u11 m f :
  q < n ->
  cnorm2 u00 + cnorm2 u10 = m -> cnorm2 u01 + cnorm2 u11 = m ->
  u00 * cconj u01 + u10 * cconj u11 = 0 ->
  mass n (act1 u00 u01 u10 u11 q f) = m * mass n f.
Proof.
  intros Hq H1 H2 H3. unfold mass.
  apply (csum_basis_pairs n (fun j => flip j q)).
  - intros j Hj. now apply flip_lt.
  - intros j _. apply flip_flip.
  - intros j _. unfold act1. rewrite bit_flip_same, flip_flip.
    destruct (bit j q); cbn [negb].
    + transitivity (m * (cnorm2 (f (flip j q)) + cnorm2 (f j))); [|ring].
      rewrite <- (norm_pair u00 u01 u10 u11 m) by assumption. ring.
    + now apply norm_pair.
Qed.

Lemma mass_ext n f g :
  (forall j, j < 2 ^ n -> cnorm2 (f j) = cnorm2 (g j)) -> mass n f = mass n g.
Proof.
  intros H. unfold mass. f_equal. apply map_ext_in. intros j Hj.
  unfold basis in Hj. apply in_seq in Hj. apply H. lia.
Qed.

(** ** Basis permutations *)

(** Flipping qubit [t] on the basis states that satisfy a test which does
    not look at qubit [t] is an involution of the basis. *)
Lemma cond_flip_mass n (p : nat -> bool) t (f : nat -> cyc) :
  t < n -> (forall j, p (flip j t) = p j) ->
  mass n (fun j => if p j then f (flip j t) else f j) = mass n f.
Proof.
  intros Ht Hp. transitivity (mass n (fun j => f (if p j then flip j t else j))).
  { apply mass_ext. intros j _. now destruct (p j). }
  unfold mass. refine (csum_basis_perm n (fun j => if p j then flip j t else j) _ _ (fun j => cnorm2 (f j))).  
  - intros j Hj. destruct (p j); auto using flip_lt.
  - intros j _. destruct (p j) eqn:E; [rewrite Hp, E; apply flip_flip | now rewrite E].
Qed.

Lemma swap_bits_lt n j a b : j < 2 ^ n -> a < n -> b < n -> swap_bits j a b < 2 ^ n.
Proof. intros Hj Ha Hb. unfold swap_bits. destruct (Bool.eqb _ _); auto using flip_lt. Qed.

Lemma swap_bits_involutive j a b : swap_bits (swap_bits j a b) a b = j.
Proof.
  unfold swap_bits. destruct (Bool.eqb (bit j a) (bit j b)) eqn:E; [now rewrite E|].
  destruct (Nat.eq_dec a b) as [->|Hab]; [now rewrite eqb_reflx in E|].
  rewrite (bit_flip_other (flip j a) b a), (bit_flip_same (flip j a) b), bit_flip_same,
    (bit_flip_other j a b) by auto.
  destruct (bit j a), (bit j b); try discriminate; cbn;
  now rewrite (flip_comm (flip j a) b a), !flip_flip.
Qed.

Lemma all_set_flip j cs t : ~ In t cs -> all_set (flip j t) cs = all_set j cs.
Proof.
  intros Ht. unfold all_set. induction cs as [|x cs IH]; [reflexivity|]. cbn.
  rewrite bit_flip_other, IH; [reflexivity | |]; intros E; apply Ht; [now right | left; auto].
Qed.

(** ** Diagonal phases *)

Lemma phase_norm (b : bool) u x : cnorm2 u = 1 -> cnorm2 (if b then u * x else x) = cnorm2 x.
Proof. intros Hu. destruct b; [rewrite cnorm2_mul, Hu; ring | reflexivity]. Qed.

Lemma cnorm2_zeta k : cnorm2 (zeta_pow k) = 1.
Proof. apply zeta_pow_unit. Qed.

Lemma cnorm2_minus_one : cnorm2 (cneg cone) = 1.
Proof. reflexivity. Qed.

Lemma cconj_zero : cconj 0 = 0.
Proof. reflexivity. Qed.

Lemma cyc_of_Z_pow0 : cyc_of_Z (2 ^ Z.of_nat 0) = 1.
Proof. reflexivity. Qed.

(** The matrix of [ry] has orthogonal columns of squared norm 4 (its
    entries are [2 cos] and [2 sin] of the half angle). *)
Lemma ry_unitary e :
  let c := zeta_pow e + zeta_pow (- e) in
  let s := ci * (zeta_pow e - zeta_pow (- e)) in
  cnorm2 c + cnorm2 (- s) = cyc_of_Z 4 /\ cnorm2 s + cnorm2 c = cyc_of_Z 4 /\
  c * cconj s + - s * cconj c = 0.
Proof.
  cbv zeta. rewrite <- zeta_pow_conj, <- zeta_pow_mod.
  destruct (zeta_pow_cases e) as (r & Hr & ->).
  assert (Hc : In r [0; 1; 2; 3; 4; 5; 6; 7; 8; 9; 10; 11; 12; 13; 14; 15]%Z) by (cbn; lia).
  repeat (destruct Hc as [<-|Hc]; [repeat split; reflexivity|]). destruct Hc.
Qed.

(** Every gate multiplies the squared norm of a register by [2^dk]. *)
Lemma gate_action_mass n g dk T f :
  wf_gate n g = true -> gate_action g = Some (dk, T) ->
  mass n (T f) = cyc_of_Z (2 ^ Z.of_nat dk) * mass n f.
Proof.
  intros Hwf Hg. apply wf_gate_spec in Hwf as [Hr Hd].
  rewrite Forall_forall in Hr.
  destruct g as [q|q|q|q|th q|th q|c t|c t|a b|th c t|th cs t|cs t]; cbn in Hg, Hr, Hd.
  1-4: injection Hg as <- <-; apply act1_mass; [apply Hr; now left | reflexivity..].
  - destruct (phase_exp (half_angle th)) as [e|]; [|discriminate]. injection Hg as <- <-.
    apply act1_mass; [apply Hr; now left | rewrite !cnorm2_zeta; reflexivity.. |].
    rewrite cconj_zero. ring.
  - destruct (phase_exp (half_angle th)) as [e|]; [|discriminate]. injection Hg as <- <-.
    destruct (ry_unitary e) as (U1 & U2 & U3). apply act1_mass; [apply Hr; now left | assumption..].
  - injection Hg as <- <-. rewrite cyc_of_Z_pow0, cond_flip_mass; [ring | apply Hr; right; now left |].
    intros j. apply bit_flip_other. inversion Hd; subst. intros ->. cbn in *. tauto.
  - injection Hg as <- <-. rewrite cyc_of_Z_pow0. transitivity (mass n f); [|ring].
    apply mass_ext. intros j _. destruct (_ && _); [apply cnorm2_neg | reflexivity].
  - injection Hg as <- <-. rewrite cyc_of_Z_pow0. transitivity (mass n f); [|ring].
    unfold mass.
    refine (csum_basis_perm n (fun j => swap_bits j a b) _ _ (fun j => cnorm2 (f j))).
    + intros j Hj. apply swap_bits_lt; [exact Hj | apply Hr; now left | apply Hr; right; now left].
    + intros j _. apply swap_bits_involutive.
  - destruct (phase_exp th) as [e|]; [|discriminate]. injection Hg as <- <-.
    rewrite cyc_of_Z_pow0. transitivity (mass n f); [|ring].
    apply mass_ext. intros j _. apply phase_norm, cnorm2_zeta.
  - destruct (phase_exp th) as [e|]; [|discriminate]. injection Hg as <- <-.
    rewrite cyc_of_Z_pow0. transitivity (mass n f); [|ring].
    apply mass_ext. intros j _. apply phase_norm, cnorm2_zeta.
  - injection Hg as <- <-. rewrite cyc_of_Z_pow0, cond_flip_mass; [ring | |].
    + apply Hr, in_or_app. right. now left.
    + intros j. apply all_set_flip. apply NoDup_remove_2 in Hd. now rewrite app_nil_r in Hd.
Qed.

Lemma total_mass_eq s : total_mass s = mass (qs_n s) (amp s).
Proof. reflexivity. Qed.

Lemma mass_tabulate n k f : mass n (amp (QS n k (tabulate n f))) = mass n f.
Proof. apply mass_ext. intros j Hj. now rewrite amp_tabulate. Qed.

Lemma csum_init_tail a m :
  csum (map (fun j => cnorm2 (if j =? 0 then 1 else 0)) (seq (S a) m)) = 0.
Proof.
  revert a; induction m as [|m IH]; intros a; [reflexivity|].
  unfold csum in *. cbn [seq map fold_right]. rewrite IH. reflexivity.
Qed.

(** [initialize(n)] has mass 1. *)
Lemma init_normalized n : normalized (init_state n).
Proof.
  split; [apply length_tabulate|]. rewrite total_mass_eq. cbn [qs_n qs_k init_state].
  unfold init_state. rewrite mass_tabulate. unfold mass, basis.
  destruct (2 ^ n) as [|m] eqn:E; [exfalso; exact (Nat.pow_nonzero 2 n ltac:(lia) E)|].
  cbn [seq map]. unfold csum in *. cbn [fold_right]. fold (csum (map (fun j => cnorm2 (if j =? 0 then 1 else 0)) (seq 1 m))).
  rewrite csum_init_tail. reflexivity.
Qed.

(** ** The invariant *)

(** Every successful [apply] keeps the register normalized:
    the total probability mass of the evolved state is still 1. *)
Theorem apply_gate_normalized g s s' :
  normalized s -> apply_gate g s = Ok s' -> normalized s'.
Proof.
  intros [_ Hm] Hap. pose proof (apply_gate_length g s s' Hap) as Hl.
  unfold apply_gate in Hap.
  destruct (forallb _ _) eqn:E1; cbn in Hap; [|discriminate].
  destruct (nodupb _) eqn:E2; cbn in Hap; [|discriminate].
  destruct (gate_action g) as [[dk T]|] eqn:Ea; [|discriminate]. injection Hap as <-.
  split; [exact Hl|]. rewrite total_mass_eq. cbn [qs_n qs_k]. rewrite mass_tabulate.
  rewrite (gate_action_mass (qs_n s) g dk T) by (unfold wf_gate; now rewrite E1, E2 || exact Ea).
  rewrite <- total_mass_eq, Hm, <- cyc_of_Z_mul. f_equal.
  rewrite Nat2Z.inj_add, Z.pow_add_r by lia. ring.
Qed.

Lemma run_from_normalized c s s' :
  normalized s -> run_from c s = Ok s' -> normalized s'.
Proof.
  revert s; induction c as [|g c IH]; intros s Hs Hr; cbn in Hr; [now injection Hr as <-|].
  destruct (apply_gate g s) as [s1|] eqn:E; cbn in Hr; [|discriminate].
  eapply IH; [eapply apply_gate_normalized|]; eauto.
Qed.

(** A circuit whose gates are well formed and exact runs from
    |0...0> to completion, and every prefix of it ends in a normalized
    register (spec 8, Unitarity). *)
Theorem run_normalized n c :
  wf_circuit n c = true -> Forall (fun g => gate_action g <> None) c ->
  forall c1 c2, c = c1 ++ c2 -> exists s, run n c1 = Ok s /\ qs_n s = n /\ normalized s.
Proof.
  intros Hwf Ha c1 c2 ->. rewrite wf_circuit_app in Hwf. apply andb_true_iff in Hwf as [Hwf _].
  apply Forall_app in Ha as [Ha _].
  destruct (run_from_total c1 (init_state n) Hwf Ha) as (s & Hs & Hn).
  exists s. split; [exact Hs|]. split; [exact Hn|].
  eapply run_from_normalized; [apply init_normalized | exact Hs].
Qed.

Lemma csum_zeros {A} (l : list A) : csum (map (fun _ => czero) l) = czero.
Proof. induction l as [|a l IH]; [reflexivity|]. cbn. unfold csum in IH. rewrite IH. reflexivity. Qed.

(** A normalized register has a basis state of non-zero amplitude. *)
Lemma normalized_outcomes s : normalized s -> outcomes s <> [].
Proof.
  intros [_ Hm] E. unfold total_mass in Hm.
  rewrite (map_ext_in _ (fun _ => czero)) in Hm.
  - rewrite csum_zeros in Hm. apply (f_equal k0) in Hm. cbn in Hm.
    pose proof (Z.pow_pos_nonneg 2 (Z.of_nat (qs_k s)) ltac:(lia) ltac:(lia)). lia.
  - intros j Hj. destruct (possible s j) eqn:P.
    + assert (Hin : In j (outcomes s)) by (apply filter_In; auto). rewrite E in Hin. contradiction.
    + unfold possible in P. apply in_seq in Hj. replace (j <? 2 ^ qs_n s)%nat with true in P
        by (symmetry; apply Nat.ltb_lt; lia).
      destruct (cyc_eqb_spec (amp s j) czero) as [Ea|]; [|discriminate].
      unfold prob_num. rewrite Ea. reflexivity.
Qed.

(** a register evolved by a well-formed circuit of exact gates
    always has an outcome a shot can return: the simulator's sampling
    never finds an empty distribution. *)
Theorem run_has_outcome n c :
  wf_circuit n c = true -> Forall (fun g => gate_action g <> None) c ->
  exists s, run n c = Ok s /\ outcomes s <> [].
Proof.
  intros Hwf Ha. destruct (run_normalized n c Hwf Ha c [] (eq_sym (app_nil_r c))) as (s & Hs & _ & Hn).
  exists s. split; [exact Hs | now apply normalized_outcomes].
Qed.

(** Shots of a register with one outcome all read that outcome. *)
Lemma sampled_single {A} (f : nat -> A) s shots j :
  sampled s shots -> outcomes s = [j] -> map f shots = repeat (f j) (length shots).
Proof.
  intros Hs Ho. induction Hs as [|x l Hx _ IH]; [reflexivity|]. cbn. rewrite IH.
  apply in_outcomes in Hx. rewrite Ho in Hx. now destruct Hx as [<-|[]].
Qed.

(** ** Witnesses *)

Lemma apply_gate_normalized_witness :
  exists s', apply_gate (GH 0) (init_state 1) = Ok s' /\ normalized s'.
Proof.
  eexists. split; [reflexivity|].
  apply (apply_gate_normalized (GH 0) (init_state 1)); [split; reflexivity | reflexivity].
Defined.

Lemma run_normalized_witness :
  exists s, run 2 [GH 0] = Ok s /\ qs_n s = 2 /\ normalized s.
Proof.
  apply (run_normalized 2 [GH 0; GCX 0 1] eq_refl ltac:(repeat constructor; discriminate)
           [GH 0] [GCX 0 1] eq_refl).
Defined.

