(* ===== verification/Classical.v ===== *)
(** * Classical gates on basis states

    X, Y, Z, the phase rotations, CX, CZ, SWAP and the multi-controlled
    gates send a basis state to a basis state up to a phase: each acts as
    [f |-> fun j => zeta^(e j) * f (sigma j)] for an involution [sigma]
    of the basis.  A register that starts in a basis state and goes
    through such gates ends in the basis state [classical_run c j], which
    is then its only outcome.  The Q# lab's classical simulation
    ([QSharp.v]) is compared with the quantum run through this file. *)

From Stdlib Require Import ZArith List Lia Bool.
From S2P Require Import Prelude Cyclo Gates Statevector Unitarity.
Import ListNotations.

#[local] Open Scope cyc_scope.

(** The gates that permute the basis. *)
Definition is_classical (g : gate_op) : bool :=
  match g with
  | GH _ | GRY _ _ => false
  | _ => true
  end.

(** The basis state a classical gate sends [j] to. *)
Definition classical_sigma (g : gate_op) (j : nat) : nat :=
  match g with
  | GX q | GY q => flip j q
  | GCX c t => if bit j c then flip j t else j
  | GMCT cs t => if all_set j cs then flip j t else j
  | GSWAP a b => swap_bits j a b
  | _ => j
  end.

(** The basis state a classical circuit sends [j] to. *)
Definition classical_run (c : circuit) (j : nat) : nat :=
  fold_left (fun j g => classical_sigma g j) c j.

(** The register is the basis state [j] up to a phase. *)
Definition basis_state (s : qstate) (j : nat) : Prop :=
  j < 2 ^ qs_n s /\ forall i, i < 2 ^ qs_n s -> (amp s i <> 0 <-> i = j).

(** [T] permutes the basis by the involution [sigma] and multiplies by
    unit phases. *)
Definition perm_phase (n : nat) (T : (nat -> cyc) -> nat -> cyc) (sigma : nat -> nat) : Prop :=
  (forall j, (j < 2 ^ n)%nat -> (sigma j < 2 ^ n)%nat) /\
  (forall j, (j < 2 ^ n)%nat -> sigma (sigma j) = j) /\
  (forall f j, exists e, T f j = zeta_pow e * f (sigma j)).

(** ** Phases *)

Lemma zeta_pow_8 : zeta_pow 8 = cneg cone.
Proof. reflexivity. Qed.

Lemma zeta_pow_12 : zeta_pow 12 = - ci.
Proof. reflexivity. Qed.

Lemma zeta_mul_nonzero e x : zeta_pow e * x <> 0 <-> x <> 0.
Proof.
  split; intros Hx E; apply Hx; [subst; ring|].
  assert (U : zeta_pow (- e) * zeta_pow e = 1).
  { rewrite <- zeta_pow_add, Z.add_opp_diag_l. apply zeta_pow_0. }
  transitivity (zeta_pow (- e) * zeta_pow e * x); [rewrite U; ring|].
  transitivity (zeta_pow (- e) * (zeta_pow e * x)); [ring | rewrite E; ring].
Qed.

(** ** The shape of each classical gate *)

Lemma perm_phase_id n T :
  (forall f j, exists e, T f j = zeta_pow e * f j) -> perm_phase n T (fun j => j).
Proof. repeat split; auto. Qed.

Lemma perm_phase_cond_flip n (p : nat -> bool) t T :
  t < n -> (forall j, p (flip j t) = p j) ->
  (forall f j, T f j = if p j then f (flip j t) else f j) ->
  perm_phase n T (fun j => if p j then flip j t else j).
Proof.
  intros Ht Hp HT. repeat split.
  - intros j Hj. destruct (p j); auto using flip_lt.
  - intros j _. destruct (p j) eqn:E; [now rewrite Hp, E, flip_flip | now rewrite E].
  - intros f j. exists 0%Z. rewrite HT, zeta_pow_0. destruct (p j); ring.
Qed.

Lemma perm_phase_flip n q T :
  q < n -> (forall f j, exists e, T f j = zeta_pow e * f (flip j q)) ->
  perm_phase n T (fun j => flip j q).
Proof. intros Hq HT. repeat split; auto using flip_lt, flip_flip. Qed.

Lemma classical_gate_shape n g dk T :
  wf_gate n g = true -> is_classical g = true -> gate_action g = Some (dk, T) ->
  dk = 0%nat /\ perm_phase n T (classical_sigma g).
Proof.
  intros Hwf Hc Hg. apply wf_gate_spec in Hwf as [Hr Hd]. rewrite Forall_forall in Hr.
  destruct g as [q|q|q|q|th q|th q|c t|c t|a b|th c t|th cs t|cs t];
    cbn [gate_action] in Hg; cbn in Hr, Hd, Hc; try discriminate.
  all: lazymatch type of Hg with
       | context [phase_exp ?a] => destruct (phase_exp a) as [e|]; [|discriminate]
       | _ => idtac
       end.
  all: injection Hg as <- <-; split; [reflexivity|]; unfold act1.
  - apply perm_phase_flip; [apply Hr; now left|]. intros f j. exists 0%Z.
    rewrite zeta_pow_0. destruct (bit j q); ring.
  - apply perm_phase_flip; [apply Hr; now left|]. intros f j.
    destruct (bit j q); [exists 4%Z; unfold ci | exists 12%Z; rewrite zeta_pow_12]; ring.
  - apply perm_phase_id. intros f j.
    destruct (bit j q); [exists 8%Z | exists 0%Z]; rewrite ?zeta_pow_8, ?zeta_pow_0; ring.
  - apply perm_phase_id. intros f j.
    destruct (bit j q); [exists e | exists (- e)%Z]; ring.
  - apply perm_phase_cond_flip; [apply Hr; right; now left | | reflexivity].
    intros j. apply bit_flip_other. inversion Hd; subst. intros ->. cbn in *. tauto.
  - apply perm_phase_id. intros f j.
    destruct (_ && _); [exists 8%Z | exists 0%Z]; rewrite ?zeta_pow_8, ?zeta_pow_0; ring.
  - repeat split.
    + intros j Hj. apply swap_bits_lt; [exact Hj | apply Hr; now left | apply Hr; right; now left].
    + intros j _. apply swap_bits_involutive.
    + intros f j. exists 0%Z. rewrite zeta_pow_0. cbn [classical_sigma]. ring.
  - apply perm_phase_id. intros f j.
    destruct (_ && _); [exists e | exists 0%Z]; rewrite ?zeta_pow_0; ring.
  - apply perm_phase_id. intros f j.
    destruct (all_set _ _); [exists e | exists 0%Z]; rewrite ?zeta_pow_0; ring.
  - apply perm_phase_cond_flip; [apply Hr, in_or_app; right; now left | | reflexivity].
    intros j. apply all_set_flip. apply NoDup_remove_2 in Hd. now rewrite app_nil_r in Hd.
Qed.

(** ** Registers in a basis state *)

Lemma apply_gate_classical g s s' j :
  basis_state s j -> is_classical g = true -> apply_gate g s = Ok s' ->
  basis_state s' (classical_sigma g j) /\ qs_n s' = qs_n s.
Proof.
  intros [Hj Hs] Hc Hap. unfold apply_gate in Hap.
  destruct (negb (forallb _ _)) eqn:R; [discriminate|].
  destruct (negb (nodupb _)) eqn:D; [discriminate|].
  destruct (gate_action g) as [[dk T]|] eqn:Ha; [|discriminate]. injection Hap as <-.
  assert (Hwf : wf_gate (qs_n s) g = true).
  { unfold wf_gate. apply negb_false_iff in R, D. now rewrite R, D. }
  destruct (classical_gate_shape _ _ _ _ Hwf Hc Ha) as (_ & Hr & Hv & Hp).
  cbn [qs_n]. split; [|reflexivity]. split; [now apply Hr|].
  intros i Hi. rewrite amp_tabulate by exact Hi. destruct (Hp (amp s) i) as [e ->].
  rewrite zeta_mul_nonzero, (Hs _ (Hr _ Hi)).
  split; intros E; [rewrite <- E, Hv by exact Hi | subst; apply Hv]; auto.
Qed.

Lemma run_from_classical c s s' j :
  basis_state s j -> forallb is_classical c = true -> run_from c s = Ok s' ->
  basis_state s' (classical_run c j) /\ qs_n s' = qs_n s.
Proof.
  revert s j; induction c as [|g c IH]; intros s j Hs Hc Hr; cbn in Hr.
  - injection Hr as <-. now split.
  - cbn in Hc. apply andb_true_iff in Hc as [Hg Hc].
    destruct (apply_gate g s) as [s1|] eqn:E; [|discriminate]. cbn in Hr.
    destruct (apply_gate_classical g s s1 j Hs Hg E) as [H1 N1].
    destruct (IH s1 _ H1 Hc Hr) as [H2 N2]. split; [exact H2 | congruence].
Qed.

Lemma basis_state_outcomes s j : basis_state s j -> outcomes s = [j].
Proof.
  intros [Hj Hs]. unfold outcomes, basis.
  rewrite <- (filter_eqb_seq 0 (2 ^ qs_n s) j) by lia.
  apply filter_ext_in. intros i Hi. apply in_seq in Hi.
  apply eq_true_iff_eq. rewrite possible_spec, Nat.eqb_eq, <- (Hs i) by lia.
  assert (i < 2 ^ qs_n s) by lia. tauto.
Qed.

Lemma init_basis_state n : basis_state (init_state n) 0.
Proof.
  split; [apply pow2_pos|]. intros i Hi. unfold init_state in *. cbn [qs_n] in *.
  rewrite amp_tabulate by exact Hi.
  destruct (Nat.eqb_spec i 0) as [->|Hne]; split; intros H.
  - reflexivity.
  - intros E; discriminate E.
  - now contradiction H.
  - contradiction.
Qed.
