(* ===== verification/Inverse.v ===== *)
(** * Inverse circuits and the round-trip law

    A register [(k, v)] stands for the amplitudes [v / sqrt2^k]; two
    registers of the same width are the same quantum state when
    [sqrt2^k2 * v1 = sqrt2^k1 * v2] ([qs_equiv], written [s1 =~ s2]).
    This relation is an equivalence, the simulator respects it
    ([apply_gate] and [run_from] are [Proper]), and every gate followed by
    its inverse ([Gates.gate_inv]) is the identity up to it: H.H is 2.I, the
    ry matrices multiply to 4.I, the other gates to I.  By setoid rewriting
    on circuits, running [c] and then [circuit_inv c] returns the register
    it started from: the round-trip law of spec section 4.5 (QFT followed
    by inverse QFT) for every circuit of exact gates. *)

From Stdlib Require Import ZArith List Lia Bool Setoid Morphisms.
From S2P Require Import Prelude Cyclo Gates Statevector Unitarity Classical.
Import ListNotations.

#[local] Open Scope cyc_scope.

(** ** The equivalence of registers *)

Definition qs_equiv (s1 s2 : qstate) : Prop :=
  qs_n s1 = qs_n s2 /\
  forall j, sqrt2_pow (qs_k s2) * amp s1 j = sqrt2_pow (qs_k s1) * amp s2 j.

Declare Scope qequiv_scope.
Infix "=~" := qs_equiv (at level 70) : qequiv_scope.
#[local] Open Scope qequiv_scope.

(** Results of the simulator are equivalent when both return equivalent
    registers or both raise the same exception. *)
Definition res_equiv (r1 r2 : res qstate) : Prop :=
  match r1, r2 with
  | Ok s1, Ok s2 => s1 =~ s2
  | Raise e1, Raise e2 => e1 = e2
  | _, _ => False
  end.

#[export] Instance qs_equiv_equivalence : Equivalence qs_equiv.
Proof.
  split.
  - intros s. split; [reflexivity | intros j; ring].
  - intros s1 s2 [Hn H]. split; [auto | intros j; symmetry; apply H].
  - intros s1 s2 s3 [Hn12 H12] [Hn23 H23]. split; [congruence|]. intros j.
    apply (sqrt2_pow_cancel (qs_k s2)).
    transitivity (sqrt2_pow (qs_k s3) * (sqrt2_pow (qs_k s2) * amp s1 j)); [ring|].
    rewrite H12.
    transitivity (sqrt2_pow (qs_k s1) * (sqrt2_pow (qs_k s3) * amp s2 j)); [ring|].
    rewrite H23. ring.
Qed.

#[export] Instance res_equiv_equivalence : Equivalence res_equiv.
Proof.
  split.
  - intros [s|e]; cbn; reflexivity.
  - intros [s1|e1] [s2|e2]; cbn; auto. intros H; now symmetry.
  - intros [s1|e1] [s2|e2] [s3|e3]; cbn; try tauto; [intros H1 H2; now transitivity s2 | congruence].
Qed.

(** ** Gate actions are linear *)

Lemma gate_action_scale g dk T c f h :
  gate_action g = Some (dk, T) -> (forall i, f i = c * h i) -> forall j, T f j = c * T h j.
Proof.
  intros Hg Hf j. destruct g; cbn [gate_action] in Hg;
  lazymatch type of Hg with
  | context [phase_exp ?a] => destruct (phase_exp a) as [e|]; [|discriminate]
  | _ => idtac
  end;
  injection Hg as <- <-; unfold act1; rewrite !Hf;
  repeat match goal with |- context [if ?b then _ else _] => destruct b end; ring.
Qed.

Lemma gate_action_ext g dk T f h :
  gate_action g = Some (dk, T) -> (forall i, f i = h i) -> forall j, T f j = T h j.
Proof.
  intros Hg Hf j. rewrite (gate_action_scale g dk T 1 f h Hg); [ring|].
  intros i. rewrite Hf. ring.
Qed.

Lemma amp_out s j : List.length (qs_amps s) = (2 ^ qs_n s)%nat -> (2 ^ qs_n s <= j)%nat -> amp s j = 0.
Proof. intros Hl Hj. unfold amp. apply nth_overflow. lia. Qed.

(** ** The simulator respects the equivalence *)

#[export] Instance apply_gate_proper g : Proper (qs_equiv ==> res_equiv) (apply_gate g).
Proof.
  intros s1 s2 [Hn H]. unfold apply_gate. rewrite Hn.
  destruct (negb (forallb _ _)); [reflexivity|]. destruct (negb (nodupb _)); [reflexivity|].
  destruct (gate_action g) as [[dk T]|] eqn:Hg; cbn; [|reflexivity].
  split; [reflexivity|]. intros j. cbn [qs_k]. rewrite !sqrt2_pow_add.
  destruct (Nat.ltb_spec j (2 ^ qs_n s2)).
  - rewrite !amp_tabulate by assumption.
    transitivity (sqrt2_pow dk * (sqrt2_pow (qs_k s2) * T (amp s1) j)); [ring|].
    rewrite <- (gate_action_scale g dk T _ (fun i => sqrt2_pow (qs_k s2) * amp s1 i) (amp s1) Hg
                  (fun i => eq_refl)).
    rewrite (gate_action_ext g dk T _ (fun i => sqrt2_pow (qs_k s1) * amp s2 i) Hg H).
    rewrite (gate_action_scale g dk T _ _ (amp s2) Hg (fun i => eq_refl)). ring.
  - rewrite !amp_tabulate_out by assumption. ring.
Qed.

Lemma res_bind_equiv (r1 r2 : res qstate) (k1 k2 : qstate -> res qstate) :
  res_equiv r1 r2 -> (forall s1 s2, s1 =~ s2 -> res_equiv (k1 s1) (k2 s2)) ->
  res_equiv (res_bind r1 k1) (res_bind r2 k2).
Proof. destruct r1 as [s1|e1], r2 as [s2|e2]; cbn; auto; tauto. Qed.

#[export] Instance res_bind_proper :
  Proper (res_equiv ==> (qs_equiv ==> res_equiv) ==> res_equiv) (@res_bind qstate qstate).
Proof. intros r1 r2 Hr k1 k2 Hk. now apply res_bind_equiv. Qed.

#[export] Instance run_from_proper c : Proper (qs_equiv ==> res_equiv) (run_from c).
Proof.
  induction c as [|g c IH]; intros s1 s2 H; cbn [run_from]; [exact H|].
  apply res_bind_equiv; [now apply apply_gate_proper | exact IH].
Qed.

(** ** Every gate followed by its inverse is the identity *)

Lemma act1_compose v00 v01 v10 v11 u00 u01 u10 u11 q f j :
  act1 v00 v01 v10 v11 q (act1 u00 u01 u10 u11 q f) j =
  act1 (v00 * u00 + v01 * u10) (v00 * u01 + v01 * u11)
       (v10 * u00 + v11 * u10) (v10 * u01 + v11 * u11) q f j.
Proof. unfold act1. rewrite bit_flip_same, flip_flip. destruct (bit j q); cbn [negb]; ring. Qed.

Lemma phase_exp_neg a : phase_exp (angle_neg a) = option_map Z.opp (phase_exp a).
Proof.
  destruct a as [num d]. unfold phase_exp, angle_neg. cbn [ang_num ang_log2den option_map].
  destruct (d <=? 3)%nat; cbn [option_map]; [f_equal; ring|].
  assert (Hm : (2 ^ Z.of_nat (d - 3) <> 0)%Z) by (apply Z.pow_nonzero; lia).
  destruct (Z.eqb_spec (num mod 2 ^ Z.of_nat (d - 3)) 0) as [E|E].
  - rewrite Z.mod_opp_l_z, Z.div_opp_l_z by assumption. reflexivity.
  - rewrite Z.mod_opp_l_nz by assumption.
    pose proof (Z.mod_pos_bound num (2 ^ Z.of_nat (d - 3))
                  ltac:(apply Z.pow_pos_nonneg; lia)).
    destruct (Z.eqb_spec (2 ^ Z.of_nat (d - 3) - num mod 2 ^ Z.of_nat (d - 3)) 0); [lia|].
    reflexivity.
Qed.

Lemma zeta_pow_inv e : zeta_pow e * zeta_pow (- e) = 1.
Proof. rewrite <- zeta_pow_add, Z.add_opp_diag_r. apply zeta_pow_0. Qed.

Lemma ci_sq : ci * ci = cneg cone.
Proof. reflexivity. Qed.

Lemma sqrt2_pow_2 : sqrt2_pow 2 = 1 + 1.
Proof. reflexivity. Qed.

Lemma sqrt2_pow_4 : sqrt2_pow 4 = 1 + 1 + 1 + 1.
Proof. reflexivity. Qed.

Lemma act1_diag c u00 u01 u10 u11 q f j :
  u00 = c -> u01 = 0 -> u10 = 0 -> u11 = c -> act1 u00 u01 u10 u11 q f j = c * f j.
Proof. intros -> -> -> ->. unfold act1. destruct (bit j q); ring. Qed.

Lemma sqrt2_pow_0 : sqrt2_pow 0 = 1.
Proof. reflexivity. Qed.

Lemma half_angle_neg a : half_angle (angle_neg a) = angle_neg (half_angle a).
Proof. reflexivity. Qed.

Lemma zeta_pow_inv' e : zeta_pow (- e) * zeta_pow e = 1.
Proof. rewrite Rmul_comm; [apply zeta_pow_inv | exact cyc_ring_theory]. Qed.

(** The products of the [ry] matrices of [e] and [-e]: 4 times the
    identity. *)
Lemma ry_inv_entries e :
  let c := zeta_pow e + zeta_pow (- e) in
  let s := ci * (zeta_pow e - zeta_pow (- e)) in
  let c' := zeta_pow (- e) + zeta_pow e in
  let s' := ci * (zeta_pow (- e) - zeta_pow e) in
  c' * c + s' * - s = 1 + 1 + 1 + 1 /\ - s' * s + c' * c = 1 + 1 + 1 + 1.
Proof.
  cbv zeta. rewrite <- zeta_pow_conj, <- zeta_pow_mod.
  destruct (zeta_pow_cases e) as (r & Hr & ->).
  assert (Hc : In r [0; 1; 2; 3; 4; 5; 6; 7; 8; 9; 10; 11; 12; 13; 14; 15]%Z) by (cbn; lia).
  repeat (destruct Hc as [<-|Hc]; [split; reflexivity|]). destruct Hc.
Qed.

(** The inverse of a well-formed gate has the same scale and undoes it:
    [T' (T f) = sqrt2^(2 dk) * f]. *)
Lemma gate_inv_action n g dk T :
  wf_gate n g = true -> gate_action g = Some (dk, T) ->
  exists T', gate_action (gate_inv g) = Some (dk, T') /\
             forall f j, T' (T f) j = sqrt2_pow (2 * dk) * f j.
Proof.
  intros Hwf Hg. apply wf_gate_spec in Hwf as [_ Hd].
  destruct g as [q|q|q|q|th q|th q|c t|c t|a b|th c t|th cs t|cs t];
    unfold gate_action, gate_inv in Hg |- *; cbv beta iota zeta in Hg |- *;
    rewrite ?half_angle_neg, ?phase_exp_neg;
  lazymatch type of Hg with
  | context [phase_exp ?x] => destruct (phase_exp x) as [e|]; [|discriminate]; cbn [option_map]
  | _ => idtac
  end;
  apply some_pair_eq in Hg as [-> ->]; eexists; (split; [reflexivity|]); intros f j;
  cbn [Nat.mul Nat.add]; rewrite ?sqrt2_pow_0, ?sqrt2_pow_2, ?sqrt2_pow_4;
  try (rewrite act1_compose; apply act1_diag); rewrite ?Z.opp_involutive.
  all: try solve [reflexivity | ring].
  - rewrite zeta_pow_inv. ring.
  - rewrite zeta_pow_inv'. ring.
  - exact (proj1 (ry_inv_entries e)).
  - exact (proj2 (ry_inv_entries e)).
  - inversion Hd as [|? ? Hc _]. cbn in Hc.
    rewrite bit_flip_other, flip_flip by (intros ->; tauto). destruct (bit j c); ring.
  - destruct (bit j c && bit j t); ring.
  - rewrite swap_bits_involutive. ring.
  - destruct (bit j c && bit j t); [|ring]. rewrite Rmul_assoc, zeta_pow_inv'; [ring | exact cyc_ring_theory].
  - destruct (all_set j (cs ++ [t])); [|ring]. rewrite Rmul_assoc, zeta_pow_inv'; [ring | exact cyc_ring_theory].
  - assert (Ht : ~ In t cs) by (apply NoDup_remove_2 in Hd; now rewrite app_nil_r in Hd).
    rewrite all_set_flip, flip_flip by exact Ht. destruct (all_set j cs); ring.
Qed.

(** A well-formed gate reads the register only inside [0 .. 2^n). *)
Lemma gate_action_local n g dk T f h :
  wf_gate n g = true -> gate_action g = Some (dk, T) ->
  (forall i, (i < 2 ^ n)%nat -> f i = h i) -> forall j, (j < 2 ^ n)%nat -> T f j = T h j.
Proof.
  intros Hwf Hg Hf j Hj. apply wf_gate_spec in Hwf as [Hr _]. rewrite Forall_forall in Hr.
  destruct g; unfold gate_action in Hg; cbv beta iota zeta in Hg;
  lazymatch type of Hg with
  | context [phase_exp ?x] => destruct (phase_exp x) as [e|]; [|discriminate]
  | _ => idtac
  end;
  apply some_pair_eq in Hg as [-> ->]; unfold act1;
  rewrite !Hf; try reflexivity;
  first [ assumption
        | apply flip_lt; [assumption | apply Hr; cbn; auto using in_or_app, in_eq]
        | apply swap_bits_lt; [assumption | apply Hr; cbn; auto | apply Hr; cbn; auto] ].
Qed.

(** A gate followed by its inverse gives back an equivalent register. *)
Lemma apply_gate_inv g s s1 :
  List.length (qs_amps s) = (2 ^ qs_n s)%nat -> apply_gate g s = Ok s1 ->
  exists s2, apply_gate (gate_inv g) s1 = Ok s2 /\ s2 =~ s.
Proof.
  intros Hl Hap. unfold apply_gate in Hap.
  destruct (negb (forallb _ (gate_qubits g))) eqn:R; [discriminate|].
  destruct (negb (nodupb _)) eqn:D; [discriminate|].
  destruct (gate_action g) as [[dk T]|] eqn:Hg; [|discriminate]. injection Hap as <-.
  assert (Hwf : wf_gate (qs_n s) g = true).
  { unfold wf_gate. apply negb_false_iff in R, D. now rewrite R, D. }
  destruct (gate_inv_action _ _ _ _ Hwf Hg) as (T' & Hg' & HT).
  unfold apply_gate. cbn [qs_n qs_k]. rewrite gate_inv_qubits, R, D, Hg'.
  eexists. split; [reflexivity|]. split; [reflexivity|]. intros j. cbn [qs_k qs_n].
  destruct (Nat.ltb_spec j (2 ^ qs_n s)).
  - rewrite amp_tabulate by assumption.
    rewrite (gate_action_local _ _ _ _ _ (T (amp s)) (eq_trans (wf_gate_inv _ _) Hwf) Hg') by
      (auto; intros i Hi; now apply amp_tabulate).
    rewrite HT, !sqrt2_pow_add. replace (2 * dk)%nat with (dk + dk)%nat by lia.
    rewrite sqrt2_pow_add. ring.
  - rewrite amp_tabulate_out, amp_out by assumption. ring.
Qed.

(** ** The round-trip law *)

(** Running the inverse circuit after a successful run gives back an
    equivalent register. *)
Lemma run_from_inv c s s' :
  List.length (qs_amps s) = (2 ^ qs_n s)%nat -> run_from c s = Ok s' ->
  res_equiv (run_from (circuit_inv c) s') (Ok s).
Proof.
  revert s; induction c as [|g c IH]; intros s Hl Hr; cbn [run_from] in Hr.
  - injection Hr as <-. reflexivity.
  - destruct (apply_gate g s) as [s1|] eqn:E1; cbn [res_bind] in Hr; [|discriminate].
    assert (Hl1 : List.length (qs_amps s1) = (2 ^ qs_n s1)%nat) by (eapply apply_gate_length; eauto).
    unfold circuit_inv. cbn [map rev]. fold (circuit_inv c). rewrite run_from_app.
    rewrite (IH s1 Hl1 Hr). cbn [res_bind run_from].
    destruct (apply_gate_inv g s s1 Hl E1) as (s2 & -> & Hs2). exact Hs2.
Qed.

(** Running a circuit of exact, well-formed gates and then its inverse
    returns the register it started from (up to the global scale). *)
Theorem run_from_round_trip c s :
  List.length (qs_amps s) = (2 ^ qs_n s)%nat -> wf_circuit (qs_n s) c = true ->
  Forall (fun g => gate_action g <> None) c ->
  res_equiv (run_from (c ++ circuit_inv c) s) (Ok s).
Proof.
  intros Hl Hwf Ha. destruct (run_from_total c s Hwf Ha) as (s' & Hs' & _).
  rewrite run_from_app, Hs'. cbn [res_bind]. now apply run_from_inv.
Qed.
