(* ===== verification/Bitstring.v ===== *)
(** * Bitstrings, [int(s, 2)] and [hex]

    The measurement results travel through the code as Python strings of
    '0' and '1': Qiskit's count keys ([format(j, '0nb')], qubit [n-1]
    first), Cirq's joined measurement rows ([''.join(str(bit) ...)],
    qubit 0 first), BB84 keys ([''.join(map(str, final_key))]).  The code
    turns them into integers with [int(s, 2)] and into hexadecimal with
    [hex(v)[2:]] and [.upper()].  This file models these conversions and
    proves their round trips. *)

From Stdlib Require Import String Ascii ZArith List Lia Bool Arith.
From S2P Require Import Prelude.
Import ListNotations.


(** ** Bits of a basis index *)

(** The states of qubits [0 .. n-1] in basis state [j]. *)
Definition bits_le (n j : nat) : list bool := map (bit j) (seq 0 n).

Definition char_of_bit (b : bool) : ascii := if b then "1"%char else "0"%char.

(** [''.join(str(b) for b in bits)] *)
Fixpoint string_of_bits (l : list bool) : string :=
  match l with
  | [] => EmptyString
  | b :: l' => String (char_of_bit b) (string_of_bits l')
  end.

(** Qiskit's count key of basis state [j] of an [n]-qubit register:
    [format(j, '0nb')], qubit [n-1] leftmost. *)
Definition qiskit_key (n j : nat) : string := string_of_bits (rev (bits_le n j)).

(** Cirq's key: the measured row in qubit order, qubit 0 leftmost. *)
Definition cirq_key (n j : nat) : string := string_of_bits (bits_le n j).

(** ** [int(s, 2)] *)

Definition is_space (c : ascii) : bool :=
  (c =? " ")%char || (c =? "009")%char || (c =? "010")%char || (c =? "013")%char.

Fixpoint lstrip (s : string) : string :=
  match s with
  | String c s' => if is_space c then lstrip s' else s
  | EmptyString => EmptyString
  end.

Definition rev_string (s : string) : string :=
  string_of_list_ascii (rev (list_ascii_of_string s)).

(** [s.strip()] *)
Definition strip (s : string) : string := rev_string (lstrip (rev_string (lstrip s))).

Fixpoint bin_value (s : string) (acc : nat) : option nat :=
  match s with
  | EmptyString => Some acc
  | String c s' =>
      if (c =? "0")%char then bin_value s' (2 * acc)
      else if (c =? "1")%char then bin_value s' (2 * acc + 1)
      else None
  end.

(** [int(s, 2)] for strings of binary digits surrounded by white space;
    anything else, the empty string included, raises ValueError. *)
Definition py_int_base2 (s : string) : res nat :=
  let t := strip s in
  match t with
  | EmptyString => Raise (ValueError "invalid literal for int() with base 2"%string)
  | _ => match bin_value t 0 with
         | Some v => Ok v
         | None => Raise (ValueError "invalid literal for int() with base 2"%string)
         end
  end.

(** ** [hex(v)[2:]] and [.upper()] *)

Definition hex_digit (d : nat) : ascii :=
  match d with
  | 0 => "0" | 1 => "1" | 2 => "2" | 3 => "3" | 4 => "4" | 5 => "5"
  | 6 => "6" | 7 => "7" | 8 => "8" | 9 => "9" | 10 => "a" | 11 => "b"
  | 12 => "c" | 13 => "d" | 14 => "e" | _ => "f"
  end%char.

(** Hexadecimal digits of [v], most significant first; [fuel] bounds the
    number of digits. *)
Fixpoint hex_digits (fuel v : nat) (acc : string) : string :=
  match fuel with
  | O => acc
  | S fuel' =>
      let acc' := String (hex_digit (v mod 16)) acc in
      if v <? 16 then acc' else hex_digits fuel' (v / 16) acc'
  end.

(** [hex(v)[2:]]: lower-case digits, "0" for zero.  [v + 1] digits of
    fuel are more than enough. *)
Definition py_hex_noprefix (v : nat) : string := hex_digits (S v) v EmptyString.

(** [hex(v)[2:].upper()] *)
Definition py_hex_upper (v : nat) : string := py_upper (py_hex_noprefix v).

(** Reading hexadecimal back (for the round trip). *)
Definition hex_value_of (c : ascii) : option nat :=
  let n := nat_of_ascii c in
  if (48 <=? n) && (n <=? 57) then Some (n - 48)
  else if (97 <=? n) && (n <=? 102) then Some (n - 87)
  else if (65 <=? n) && (n <=? 70) then Some (n - 55)
  else None.

Fixpoint hex_value (s : string) (acc : nat) : option nat :=
  match s with
  | EmptyString => Some acc
  | String c s' =>
      match hex_value_of c with
      | Some d => hex_value s' (16 * acc + d)
      | None => None
      end
  end.

(** ** Lemmas *)

Lemma length_bits_le n j : length (bits_le n j) = n.
Proof. unfold bits_le. now rewrite length_map, length_seq. Qed.

Lemma string_of_bits_app l1 l2 :
  string_of_bits (l1 ++ l2) = (string_of_bits l1 ++ string_of_bits l2)%string.
Proof. induction l1; cbn; congruence. Qed.

Lemma string_of_bits_inj l1 l2 : string_of_bits l1 = string_of_bits l2 -> l1 = l2.
Proof.
  revert l2; induction l1 as [|a l1 IH]; intros [|b l2]; cbn; try discriminate; auto.
  intros E. injection E as Ec Es. f_equal; [|auto].
  destruct a, b; cbn in Ec; congruence.
Qed.

(** The big-endian value of a list of bits. *)
Fixpoint be_value (l : list bool) (acc : nat) : nat :=
  match l with
  | [] => acc
  | b :: l' => be_value l' (2 * acc + Nat.b2n b)
  end.

Lemma bin_value_string_of_bits l acc :
  bin_value (string_of_bits l) acc = Some (be_value l acc).
Proof.
  revert acc; induction l as [|[] l IH]; intros acc; cbn; rewrite ?IH; try reflexivity.
  do 2 f_equal. lia.
Qed.

Lemma be_value_acc l acc : be_value l acc = acc * 2 ^ length l + be_value l 0.
Proof.
  revert acc; induction l as [|b l IH]; intros acc; cbn [be_value length]; [cbn; lia|].
  rewrite IH, (IH (2 * 0 + Nat.b2n b)), Nat.pow_succ_r'. lia.
Qed.

Lemma be_value_bits n j : be_value (rev (bits_le n j)) 0 = j mod 2 ^ n.
Proof.
  induction n as [|n IH]; [now rewrite Nat.pow_0_r, Nat.mod_1_r|].
  unfold bits_le. rewrite seq_S, map_app, rev_app_distr. cbn [map rev app be_value].
  fold (bits_le n j). rewrite be_value_acc, length_rev, length_bits_le, IH.
  rewrite Nat.pow_succ_r', (Nat.mul_comm 2 (2 ^ n)), Nat.Div0.mod_mul_r.
  unfold bit. rewrite Nat.testbit_spec', !Nat.add_0_l. lia.
Qed.

Lemma string_of_bits_ascii l : string_of_bits l = string_of_list_ascii (map char_of_bit l).
Proof. induction l; cbn; congruence. Qed.

Lemma lstrip_bits l : lstrip (string_of_bits l) = string_of_bits l.
Proof. now destruct l as [|[] l]. Qed.

Lemma rev_string_bits l : rev_string (string_of_bits l) = string_of_bits (rev l).
Proof.
  unfold rev_string. rewrite !string_of_bits_ascii, list_ascii_of_string_of_list_ascii.
  now rewrite map_rev.
Qed.

Lemma strip_bits l : strip (string_of_bits l) = string_of_bits l.
Proof.
  unfold strip. now rewrite lstrip_bits, rev_string_bits, lstrip_bits, rev_string_bits, rev_involutive.
Qed.

(** [int(format(j, '0nb'), 2) = j] for a basis state of an [n]-qubit
    register with [n >= 1]. *)
Lemma py_int_base2_qiskit_key n j :
  1 <= n -> j < 2 ^ n -> py_int_base2 (qiskit_key n j) = Ok j.
Proof.
  intros Hn Hj. unfold py_int_base2, qiskit_key.
  rewrite strip_bits, bin_value_string_of_bits, be_value_bits, Nat.mod_small by assumption.
  destruct n as [|n]; [lia|]. unfold bits_le. rewrite seq_S, map_app, rev_app_distr. reflexivity.
Qed.

(** Qiskit's count key when the circuit has a classical register of
    [ncl] bits that stays 0 and [measure_all()] added the register
    "meas": the registers are printed last-added first, separated by a
    space. *)
Definition qiskit_key_measure_all (n ncl j : nat) : string :=
  (qiskit_key n j ++ String " "%char (string_of_bits (repeat false ncl)))%string.

Lemma bin_value_space s acc : bin_value (String " "%char s) acc = None.
Proof. reflexivity. Qed.

Lemma bin_value_app l s acc :
  bin_value (string_of_bits l ++ s) acc = bin_value s (be_value l acc).
Proof.
  revert acc; induction l as [|[] l IH]; intros acc; cbn; rewrite ?IH; try reflexivity;
  do 2 f_equal; lia.
Qed.

Lemma rev_string_involutive s : rev_string (rev_string s) = s.
Proof.
  unfold rev_string. rewrite list_ascii_of_string_of_list_ascii, rev_involutive.
  apply string_of_list_ascii_of_string.
Qed.

Lemma lstrip_nonspace c s : is_space c = false -> lstrip (String c s) = String c s.
Proof. intros H. cbn. now rewrite H. Qed.

Lemma is_space_bit b : is_space (char_of_bit b) = false.
Proof. now destruct b. Qed.

Lemma lstrip_list c L : is_space c = false ->
  lstrip (string_of_list_ascii (c :: L)) = string_of_list_ascii (c :: L).
Proof. intros H. cbn. now rewrite H. Qed.

Lemma bits_space_list l1 l2 :
  (string_of_bits l1 ++ String " " (string_of_bits l2))%string =
  string_of_list_ascii (map char_of_bit l1 ++ " "%char :: map char_of_bit l2).
Proof.
  induction l1 as [|b l1 IH]; cbn; [now rewrite string_of_bits_ascii | now rewrite IH].
Qed.

(** Two non-empty registers separated by a space are left alone by strip. *)
Lemma strip_bits_space l1 l2 : l1 <> [] -> l2 <> [] ->
  strip (string_of_bits l1 ++ String " " (string_of_bits l2)) =
  (string_of_bits l1 ++ String " " (string_of_bits l2))%string.
Proof.
  intros H1 H2. rewrite bits_space_list. unfold strip, rev_string.
  destruct l1 as [|b l1]; [contradiction|]. cbn [map app].
  rewrite lstrip_list by apply is_space_bit. rewrite list_ascii_of_string_of_list_ascii.
  destruct l2 as [|b' l2'] using rev_ind; [contradiction|]. clear IHl2'.
  rewrite map_app. cbn [map].
  rewrite app_comm_cons, (app_comm_cons _ _ " "%char), app_assoc, rev_unit.
  rewrite lstrip_list by apply is_space_bit.
  rewrite list_ascii_of_string_of_list_ascii, <- rev_unit, rev_involutive.
  now rewrite <- app_assoc, <- app_comm_cons.
Qed.

(** [int(key, 2)] raises on such a key when the extra register is not
    empty: the space between the registers is not a digit. *)
Lemma py_int_base2_measure_all n ncl j :
  1 <= n -> 1 <= ncl ->
  py_int_base2 (qiskit_key_measure_all n ncl j) =
  Raise (ValueError "invalid literal for int() with base 2"%string).
Proof.
  intros Hn Hc. unfold qiskit_key_measure_all, qiskit_key, py_int_base2.
  rewrite strip_bits_space.
  2:{ destruct n; [lia|]. unfold bits_le. rewrite seq_S, map_app, rev_app_distr. discriminate. }
  2:{ destruct ncl; [lia|]. discriminate. }
  destruct (rev (bits_le n j)) as [|b l] eqn:E.
  { destruct n; [lia|]. unfold bits_le in E. rewrite seq_S, map_app, rev_app_distr in E. discriminate. }
  rewrite bin_value_app, bin_value_space. reflexivity.
Qed.

Lemma string_length_app s1 s2 :
  String.length (s1 ++ s2) = String.length s1 + String.length s2.
Proof. induction s1; cbn; auto. Qed.

Lemma string_length_bits l : String.length (string_of_bits l) = length l.
Proof. induction l; cbn; auto. Qed.

Lemma length_qiskit_key_measure_all n ncl j :
  String.length (qiskit_key_measure_all n ncl j) = n + S ncl.
Proof.
  unfold qiskit_key_measure_all, qiskit_key. rewrite string_length_app. cbn [String.length].
  now rewrite !string_length_bits, length_rev, length_bits_le, repeat_length.
Qed.

(** Qiskit's key is Cirq's key read backwards. *)
Lemma qiskit_key_rev n j : qiskit_key n j = rev_string (cirq_key n j).
Proof. unfold qiskit_key, cirq_key. now rewrite rev_string_bits. Qed.

Lemma rev_string_inj a b : rev_string a = rev_string b -> a = b.
Proof. intros E. rewrite <- (rev_string_involutive a), E. apply rev_string_involutive. Qed.

(** ** [int(s)] *)

Fixpoint dec_value (s : string) (acc : nat) : option nat :=
  match s with
  | EmptyString => Some acc
  | String c s' =>
      let d := nat_of_ascii c in
      if (48 <=? d) && (d <=? 57) then dec_value s' (10 * acc + (d - 48)) else None
  end.

(** [int(s)] on a string of decimal digits surrounded by white space
    (signs and digit separators never occur in the keys passed to it);
    anything else raises ValueError. *)
Definition py_int_base10 (s : string) : res nat :=
  match strip s with
  | EmptyString => Raise (ValueError "invalid literal for int() with base 10"%string)
  | t => match dec_value t 0 with
         | Some v => Ok v
         | None => Raise (ValueError "invalid literal for int() with base 10"%string)
         end
  end.

(** [int(format(j, '01b'))] reads a one-qubit key back. *)
Lemma py_int_base10_bit b : py_int_base10 (string_of_bits [b]) = Ok (Nat.b2n b).
Proof. now destruct b. Qed.

(** [int(''.join(map(str, bits)), 2)] on a non-empty list of bits. *)
Lemma py_int_base2_bits l : l <> [] -> py_int_base2 (string_of_bits l) = Ok (be_value l 0).
Proof.
  intros Hl. unfold py_int_base2. rewrite strip_bits, bin_value_string_of_bits.
  destruct l; [contradiction | reflexivity].
Qed.

(** ** The hexadecimal round trip *)

Lemma hex_value_of_digit d : d < 16 -> hex_value_of (hex_digit d) = Some d.
Proof.
  intros Hd. do 16 (destruct d as [|d]; [reflexivity|]). lia.
Qed.

(** Upper-casing never changes the value of a digit, nor makes a
    non-digit one. *)
Lemma hex_value_of_upper c : hex_value_of (ascii_upper c) = hex_value_of c.
Proof. destruct c as [[] [] [] [] [] [] [] []]; reflexivity. Qed.

Lemma hex_value_upper s a : hex_value (py_upper s) a = hex_value s a.
Proof.
  revert a; induction s as [|c s IH]; intros a; [reflexivity|]. cbn [py_upper hex_value].
  rewrite hex_value_of_upper. destruct (hex_value_of c); auto.
Qed.

Lemma hex_digits_value fuel v acc a :
  v < 16 ^ fuel -> exists k, hex_value (hex_digits fuel v acc) a = hex_value acc (a * 16 ^ k + v).
Proof.
  revert v acc a; induction fuel as [|fuel IH]; intros v acc a Hv; cbn [hex_digits].
  - exists 0. cbn in Hv. replace v with 0 by lia. rewrite Nat.pow_0_r, Nat.mul_1_r, Nat.add_0_r. reflexivity.
  - assert (Hm : v mod 16 < 16) by (apply Nat.mod_upper_bound; lia).
    destruct (Nat.ltb_spec v 16) as [Hlt|Hge].
    + exists 1. cbn [hex_value]. rewrite hex_value_of_digit by exact Hm.
      rewrite Nat.mod_small by exact Hlt. f_equal. rewrite Nat.pow_1_r. lia.
    + destruct (IH (v / 16) (String (hex_digit (v mod 16)) acc) a) as (k & Hk).
      { apply Nat.Div0.div_lt_upper_bound. rewrite Nat.pow_succ_r' in Hv. lia. }
      exists (S k). rewrite Hk. cbn [hex_value]. rewrite hex_value_of_digit by exact Hm.
      f_equal. rewrite Nat.pow_succ_r'. pose proof (Nat.div_mod_eq v 16). lia.
Qed.

Lemma pow16_gt v : v < 16 ^ S v.
Proof.
  induction v as [|v IH]; [cbn; lia|].
  change (16 ^ S (S v)) with (16 * 16 ^ S v). lia.
Qed.

(** [int(hex(v)[2:].upper(), 16) = v]. *)
Lemma hex_value_py_hex_upper v : hex_value (py_hex_upper v) 0 = Some v.
Proof.
  unfold py_hex_upper, py_hex_noprefix. rewrite hex_value_upper.
  destruct (hex_digits_value (S v) v EmptyString 0 (pow16_gt v)) as (k & ->). reflexivity.
Qed.

Lemma hex_value_py_hex_noprefix v : hex_value (py_hex_noprefix v) 0 = Some v.
Proof.
  unfold py_hex_noprefix.
  destruct (hex_digits_value (S v) v EmptyString 0 (pow16_gt v)) as (k & ->). reflexivity.
Qed.

(** Every list of [n] bits is the little-endian expansion of an index
    below [2^n]. *)
Lemma bits_le_surj l : exists k, k < 2 ^ length l /\ bits_le (length l) k = l.
Proof.
  induction l as [|b l (k & Hk & Hl)]; [exists 0; split; [cbn; lia | reflexivity]|].
  exists (2 * k + Nat.b2n b). cbn [length]. split; [rewrite Nat.pow_succ_r'; destruct b; cbn; lia|].
  unfold bits_le. cbn [seq map]. rewrite <- seq_shift, map_map. unfold bit. f_equal.
  - destruct b; cbn [Nat.b2n]; [apply Nat.testbit_odd_0 | rewrite Nat.add_0_r; apply Nat.testbit_even_0].
  - etransitivity; [|exact Hl]. unfold bits_le, bit. apply map_ext. intros i.
    destruct b; cbn [Nat.b2n]; [apply Nat.testbit_odd_succ | rewrite Nat.add_0_r; apply Nat.testbit_even_succ]; lia.
Qed.

(** ** Prefixes: [s[:n]] *)

Lemma string_app_assoc s1 s2 s3 : ((s1 ++ s2) ++ s3)%string = (s1 ++ (s2 ++ s3))%string.
Proof. induction s1; cbn; congruence. Qed.

Lemma string_app_nil_r s : (s ++ EmptyString)%string = s.
Proof. induction s; cbn; congruence. Qed.

Lemma substring_zero s : substring 0 0 s = EmptyString.
Proof. now destruct s. Qed.

Lemma substring_prefix_app n s1 s2 :
  n <= String.length s1 -> substring 0 n (s1 ++ s2) = substring 0 n s1.
Proof.
  revert n; induction s1 as [|c s1 IH]; intros [|n] Hn; cbn in *; rewrite ?substring_zero; try reflexivity; try lia.
  f_equal. apply IH. lia.
Qed.

Lemma substring_full s : substring 0 (String.length s) s = s.
Proof. induction s; cbn; congruence. Qed.

Lemma substring_prefix_prefix a b s : a <= b -> substring 0 a (substring 0 b s) = substring 0 a s.
Proof.
  revert a b; induction s as [|c s IH]; intros [|a] [|b] Hab; cbn; rewrite ?substring_zero; try reflexivity; try lia.
  f_equal. apply IH. lia.
Qed.

Lemma length_substring_prefix n s : n <= String.length s -> String.length (substring 0 n s) = n.
Proof.
  revert n; induction s as [|c s IH]; intros [|n] Hn; cbn in *; try reflexivity; try lia.
  f_equal. apply IH. lia.
Qed.

Lemma get_substring_prefix p n s : p < n -> String.get p (substring 0 n s) = String.get p s.
Proof. intros H. rewrite substring_correct1 by exact H. now rewrite Nat.add_0_r. Qed.

Lemma get_app_left p s1 s2 : p < String.length s1 -> String.get p (s1 ++ s2) = String.get p s1.
Proof. intros H. symmetry. now apply append_correct1. Qed.

Lemma get_app_right p s1 s2 : String.get (String.length s1 + p) (s1 ++ s2) = String.get p s2.
Proof. rewrite Nat.add_comm. symmetry. apply append_correct2. Qed.

Lemma length_qiskit_key n j : String.length (qiskit_key n j) = n.
Proof. unfold qiskit_key. now rewrite string_length_bits, length_rev, length_bits_le. Qed.
