(* ===== verification/Histogram.v ===== *)
(** * The result aggregator: counts, probabilities, most likely outcome

    The code turns the shots a simulator returns into a Python dict from
    bitstring to count ([counts[b] = counts.get(b, 0) + 1] in the Cirq
    files), divides by the shot count for the probabilities, picks the
    most frequent outcome with [max(counts, key=counts.get)] or
    [Counter.most_common(1)], and derives an "entanglement" figure from the
    shares of "00" and "11" ([_calculate_entanglement]).  A dict keeps its
    keys in insertion order, which decides ties in [max]; it is modelled
    as an association list in that order. *)

From Stdlib Require Import String ZArith QArith Qabs Qminmax List Lia Bool.
From S2P Require Import Prelude.
Import ListNotations.
#[local] Close Scope Q_scope.
#[local] Open Scope nat_scope.

Definition counts := list (string * nat).

(** [counts.get(k, 0)] *)
Fixpoint counts_get (c : counts) (k : string) : nat :=
  match c with
  | [] => 0
  | (k', v) :: c' => if String.eqb k k' then v else counts_get c' k
  end.

(** [counts[k] = counts.get(k, 0) + 1]: an existing key keeps its place,
    a new key goes last. *)
Fixpoint counts_incr (c : counts) (k : string) : counts :=
  match c with
  | [] => [(k, 1)]
  | (k', v) :: c' => if String.eqb k k' then (k', S v) :: c' else (k', v) :: counts_incr c' k
  end.

(** The loop [for measurement in measurements: ...] over the shot keys. *)
Definition build_counts (keys : list string) : counts := fold_left counts_incr keys [].

Definition counts_total (c : counts) : nat := fold_right (fun kv acc => snd kv + acc) 0 c.

(** [{state: count/shots for state, count in counts.items()}] *)
Definition probabilities (c : counts) (shots : nat) : list (string * Q) :=
  map (fun kv => (fst kv, (inject_Z (Z.of_nat (snd kv)) / inject_Z (Z.of_nat shots))%Q)) c.

(** [max(counts, key=counts.get)]: the first key of maximal count;
    ValueError on an empty dict. *)
Fixpoint max_by_count (best : string * nat) (c : counts) : string * nat :=
  match c with
  | [] => best
  | (k, v) :: c' => if snd best <? v then max_by_count (k, v) c' else max_by_count best c'
  end.

Definition most_likely (c : counts) : res (string * nat) :=
  match c with
  | [] => Raise (ValueError "max() arg is an empty sequence")
  | kv :: c' => Ok (max_by_count kv c')
  end.

(** [_calculate_entanglement(counts)] *)
Definition calculate_entanglement (c : counts) : res Q :=
  let total := counts_total c in
  if total =? 0 then Raise ZeroDivisionError
  else
    let p00 := (inject_Z (Z.of_nat (counts_get c "00")) / inject_Z (Z.of_nat total))%Q in
    let p11 := (inject_Z (Z.of_nat (counts_get c "11")) / inject_Z (Z.of_nat total))%Q in
    let ent := Qabs (p00 + p11 - 1)%Q in
    Ok (Qmax 0 (1 - ent))%Q.

(** The specification's tie-break (spec 4.3): the lexicographically
    smallest key among those of maximal count. *)
Definition max_count (c : counts) : nat := fold_right (fun kv m => Nat.max (snd kv) m) 0 c.

Definition spec_most_likely (c : counts) : option string :=
  fold_right (fun kv acc =>
    if snd kv =? max_count c then
      match acc with
      | Some k => if String.leb (fst kv) k then Some (fst kv) else Some k
      | None => Some (fst kv)
      end
    else acc) None c.

(** Number of occurrences of [k] in a list of keys. *)
Definition occurrences (keys : list string) (k : string) : nat :=
  length (filter (String.eqb k) keys).

(** ** Lemmas *)

Lemma counts_get_incr c k k' :
  counts_get (counts_incr c k) k' = counts_get c k' + (if String.eqb k' k then 1 else 0).
Proof.
  induction c as [|[k0 v] c IH]; cbn.
  - destruct (String.eqb_spec k' k); reflexivity.
  - destruct (String.eqb_spec k k0) as [->|Hne]; cbn.
    + destruct (String.eqb_spec k' k0); lia.
    + rewrite IH. destruct (String.eqb_spec k' k0) as [->|]; [|reflexivity].
      destruct (String.eqb_spec k0 k); [congruence|lia].
Qed.

Lemma counts_total_incr c k : counts_total (counts_incr c k) = S (counts_total c).
Proof.
  unfold counts_total. induction c as [|[k0 v] c IH]; cbn; [reflexivity|].
  destruct (String.eqb k k0); cbn; [reflexivity|]. rewrite IH. lia.
Qed.

Lemma map_fst_incr c k :
  map fst (counts_incr c k) = if existsb (String.eqb k) (map fst c) then map fst c else map fst c ++ [k].
Proof.
  induction c as [|[k0 v] c IH]; cbn; [reflexivity|].
  destruct (String.eqb k k0); cbn; [reflexivity|]. rewrite IH.
  destruct (existsb _ _); reflexivity.
Qed.

Lemma build_counts_app keys1 keys2 :
  build_counts (keys1 ++ keys2) = fold_left counts_incr keys2 (build_counts keys1).
Proof. unfold build_counts. apply fold_left_app. Qed.

(** The count of a key is its number of occurrences among the shots. *)
Lemma counts_get_build keys k : counts_get (build_counts keys) k = occurrences keys k.
Proof.
  unfold occurrences. rewrite <- (rev_involutive keys). induction (rev keys) as [|x r IH]; [reflexivity|].
  cbn [rev]. rewrite build_counts_app. cbn [fold_left]. rewrite counts_get_incr, IH.
  rewrite filter_app, length_app. cbn. destruct (String.eqb k x); cbn; lia.
Qed.

Lemma counts_total_build keys : counts_total (build_counts keys) = length keys.
Proof.
  rewrite <- (rev_involutive keys). induction (rev keys) as [|x r IH]; [reflexivity|].
  cbn [rev]. rewrite build_counts_app. cbn [fold_left]. rewrite counts_total_incr, IH, length_app.
  cbn. lia.
Qed.

Lemma nodup_keys_build keys : NoDup (map fst (build_counts keys)).
Proof.
  rewrite <- (rev_involutive keys). induction (rev keys) as [|x r IH]; [constructor|].
  cbn [rev]. rewrite build_counts_app. cbn [fold_left]. rewrite map_fst_incr.
  destruct (existsb (String.eqb x) _) eqn:E; [assumption|].
  apply NoDup_app; [assumption | repeat constructor; auto |].
  intros y Hy [->|[]]. assert (existsb (String.eqb y) (map fst (build_counts (rev r))) = true)
    by (apply existsb_exists; exists y; split; [assumption | apply String.eqb_refl]).
  congruence.
Qed.

Lemma max_by_count_ge best c :
  snd best <= snd (max_by_count best c) /\
  Forall (fun kv => snd kv <= snd (max_by_count best c)) c.
Proof.
  revert best; induction c as [|[k v] c IH]; intros best; cbn [max_by_count];
    [split; [lia | constructor]|].
  destruct (Nat.ltb_spec (snd best) v).
  - destruct (IH (k, v)) as [H1 H2]. cbn in H1. split; [lia|]. constructor; auto.
  - destruct (IH best) as [H1 H2]. split; [lia|]. constructor; [cbn; lia | auto].
Qed.

Lemma max_by_count_in best c : max_by_count best c = best \/ In (max_by_count best c) c.
Proof.
  revert best; induction c as [|[k v] c IH]; intros best; cbn [max_by_count]; [now left|].
  destruct (snd best <? v).
  - destruct (IH (k, v)) as [->|H]; right; [now left | now right].
  - destruct (IH best) as [->|H]; [now left | right; now right].
Qed.

Lemma counts_total_bound c : Forall (fun kv => snd kv <= counts_total c) c.
Proof.
  unfold counts_total. induction c as [|[k v] c IH]; cbn; constructor; [cbn; lia|].
  eapply Forall_impl; [|exact IH]. cbn. intros; lia.
Qed.

(** Shots that only ever show the keys [a] and [b]. *)
Lemma occurrences_two keys a b :
  a <> b -> Forall (fun k => k = a \/ k = b) keys ->
  occurrences keys a + occurrences keys b = length keys.
Proof.
  intros Hab Hk. unfold occurrences. induction Hk as [|k keys Hk _ IH]; cbn; [reflexivity|].
  destruct Hk as [ -> | -> ]; rewrite String.eqb_refl;
  [destruct (String.eqb_spec b a) | destruct (String.eqb_spec a b)]; try congruence; cbn; lia.
Qed.

Lemma occurrences_none keys a : Forall (fun k => k <> a) keys -> occurrences keys a = 0.
Proof.
  unfold occurrences. induction 1 as [|k keys Hk _ IH]; cbn; [reflexivity|].
  destruct (String.eqb_spec a k); [congruence | exact IH].
Qed.

Lemma Q_share_sum (x y t : Z) :
  (x + y = t)%Z -> t <> 0%Z ->
  (inject_Z x / inject_Z t + inject_Z y / inject_Z t - 1 == 0)%Q.
Proof.
  intros E Ht. assert (Ht' : ~ (inject_Z t == 0)%Q) by (rewrite inject_Z_injective with (b := 0%Z); lia).
  subst t. rewrite inject_Z_plus in *. field. exact Ht'.
Qed.

(** When every shot is "00" or "11", the entanglement figure is 1. *)
Lemma calculate_entanglement_full c :
  counts_total c <> 0 -> counts_get c "00" + counts_get c "11" = counts_total c ->
  exists q, calculate_entanglement c = Ok q /\ (q == 1)%Q.
Proof.
  intros Ht E. unfold calculate_entanglement. destruct (Nat.eqb_spec (counts_total c) 0); [lia|].
  eexists; split; [reflexivity|].
  rewrite (Q_share_sum (Z.of_nat (counts_get c "00")) (Z.of_nat (counts_get c "11"))
             (Z.of_nat (counts_total c))) by lia.
  reflexivity.
Qed.

(** When no shot is "00" or "11", the entanglement figure is 0. *)
Lemma calculate_entanglement_none c :
  counts_total c <> 0 -> counts_get c "00" = 0 -> counts_get c "11" = 0 ->
  exists q, calculate_entanglement c = Ok q /\ (q == 0)%Q.
Proof.
  intros Ht E0 E1. unfold calculate_entanglement. destruct (Nat.eqb_spec (counts_total c) 0); [lia|].
  eexists; split; [reflexivity|]. rewrite E0, E1.
  assert (Z0 : (inject_Z (Z.of_nat 0) / inject_Z (Z.of_nat (counts_total c)) == 0)%Q)
    by (unfold Qdiv; apply Qmult_0_l).
  rewrite Z0. reflexivity.
Qed.

Lemma in_keys_build keys k : In k (map fst (build_counts keys)) -> In k keys.
Proof.
  rewrite <- (rev_involutive keys). induction (rev keys) as [|x r IH]; [intros []|].
  cbn [rev]. rewrite build_counts_app. cbn [fold_left]. rewrite map_fst_incr, in_app_iff.
  destruct (existsb _ _); [intros H; left; auto|].
  rewrite in_app_iff. intros [H|[<-|[]]]; [left; auto | right; now left].
Qed.

Lemma most_likely_in c b : most_likely c = Ok b -> In b c.
Proof.
  destruct c as [|kv c]; cbn; [discriminate|]. intros [= <-].
  destruct (max_by_count_in kv c) as [->|H]; [now left | now right].
Qed.

Lemma build_counts_nonempty keys : keys <> [] -> build_counts keys <> [].
Proof.
  intros Hk E. apply Hk, length_zero_iff_nil. rewrite <- counts_total_build, E. reflexivity.
Qed.

(** [max(counts, key=counts.get)] on the counts of some shots returns the
    key of one of the shots. *)
Lemma most_likely_build keys :
  keys <> [] -> exists b, most_likely (build_counts keys) = Ok b /\ In (fst b) keys.
Proof.
  intros Hk. destruct (build_counts keys) as [|kv c] eqn:E; [now apply build_counts_nonempty in Hk|].
  exists (max_by_count kv c). split; [reflexivity|]. apply in_keys_build. rewrite E.
  apply in_map, (most_likely_in (kv :: c)). reflexivity.
Qed.

(** The counts of [m >= 1] equal keys. *)
Lemma build_counts_repeat k m : 1 <= m -> build_counts (repeat k m) = [(k, m)].
Proof.
  intros Hm. induction m as [|m IH]; [lia|]. destruct m as [|m]; [reflexivity|].
  replace (repeat k (S (S m))) with (repeat k (S m) ++ [k])
    by (change [k] with (repeat k 1); rewrite <- repeat_app; f_equal; lia).
  rewrite build_counts_app, IH by lia. cbn. now rewrite String.eqb_refl.
Qed.

Section Rename.
Variable f : string -> string.
Hypothesis f_inj : forall a b, f a = f b -> a = b.

Definition rename_key (kv : string * nat) : string * nat := (f (fst kv), snd kv).

Lemma eqb_rename a b : String.eqb (f a) (f b) = String.eqb a b.
Proof.
  destruct (String.eqb_spec a b) as [->|Hne]; [apply String.eqb_refl|].
  apply String.eqb_neq. intros E. apply Hne, f_inj, E.
Qed.

Lemma counts_incr_rename c k : counts_incr (map rename_key c) (f k) = map rename_key (counts_incr c k).
Proof.
  induction c as [|[k0 v] c IH]; cbn; [reflexivity|]. rewrite eqb_rename.
  destruct (String.eqb k k0); cbn; [reflexivity | now rewrite IH].
Qed.

(** Renaming the shot keys injectively renames the counts dict, in the
    same insertion order. *)
Lemma build_counts_rename keys : build_counts (map f keys) = map rename_key (build_counts keys).
Proof.
  rewrite <- (rev_involutive keys). induction (rev keys) as [|x r IH]; [reflexivity|].
  cbn [rev]. rewrite map_app, !build_counts_app, IH. cbn. apply counts_incr_rename.
Qed.
End Rename.
