(* ===== verification/Lab.v ===== *)
(** * The laboratory object: circuit registry and circuit operations

    [QiskitQuantumLab] ("quantum implementations/qiskit quantum.py") and
    [CirqQuantumLab] ("quantum implementations/cirqa quantum.py") keep
    three dicts keyed by consecutive integers: [self.circuits],
    [self.molecules] and [self.crypto_keys].  A new entry gets the id
    [len(dict) + 1] and entries are never removed, so the dicts are
    append-only.  This file models the lab state as a record of stdpp maps
    and the operations on the circuit registry:

    - [create_quantum_circuit]: the token binder (token [i] acts on qubit
      [i % num_qubits], "CNOT" on [(i % n, (i % n + 1) % n)] when [n > 1],
      "RZ" is [rz(pi/4)], other tokens are dropped), final measurement of
      every qubit, registration;
    - [execute_circuit]: ValueError on an unknown id, the shots drawn from
      the Born distribution of the evolved register, the counts dict keyed
      by Qiskit's or Cirq's bitstrings, the probabilities and the
      statevector;
    - [get_circuit_info], [list_circuits], [get_system_status].

    The crypto-key registry's entries are produced by BB84 ([BB84.v]). *)

From Stdlib Require Import String ZArith QArith List Lia Bool.
From stdpp Require Import gmap.
From S2P Require Import Prelude Cyclo Gates Statevector Unitarity Bitstring Histogram.
Import ListNotations.
#[local] Close Scope Q_scope.

(** ** State *)

Record circuit_entry := CircuitEntry {
  ce_id : nat;
  ce_name : string;
  ce_circuit : circuit;
  ce_num_qubits : nat;
  ce_gates : list string;
  ce_created_at : string
}.

(** The dict [key_data] of [bb84_key_distribution]. *)
Record key_data := KeyData {
  kd_id : nat;
  kd_protocol : string;
  kd_framework : option string;
  kd_key_length : nat;
  kd_key_binary : string;
  kd_key_hex : string;
  kd_error_rate : Q;
  kd_efficiency : Q;
  kd_security_level : string
}.

(** A gate of the molecular circuits: the rotations [rz(np.pi * c)] and
    [ry(np.pi * c)] carry the coefficient [c] of pi, a rational computed
    from the temperature and pressure ([Molecule.v]). *)
Inductive mol_gate :=
| MolH (q : nat)
| MolCX (c t : nat)
| MolRZ (c : Q) (q : nat)
| MolRY (c : Q) (q : nat).

(** What an entry records of its program: the Qiskit and Cirq labs store
    the circuit ([circuit.qasm()], [str(circuit)]), the Q# lab its Q#
    text. *)
Inductive mol_program :=
| MolCircuit (gates : list mol_gate)
| MolQSharp (qsharp_code : string).

(** A molecule entry; its properties are drawn at random by the code and
    are an input of the model. *)
Record molecule_entry := MoleculeEntry {
  me_id : nat;
  me_type : string;
  me_atoms : list string;
  me_properties : list (string * Q);
  me_program : mol_program;
  me_temperature : Q;
  me_pressure : Q
}.

Record lab := Lab {
  circuits : gmap nat circuit_entry;
  molecules : gmap nat molecule_entry;
  crypto_keys : gmap nat key_data
}.

(** [__init__]: three empty dicts. *)
Definition lab_init : lab := Lab ∅ ∅ ∅.

(** The registry invariant: the ids in use are exactly [1 .. size]. *)
Definition ids_consecutive {V} (m : gmap nat V) : Prop :=
  forall i, is_Some (m !! i) <-> 1 <= i <= size m.

Definition lab_inv (l : lab) : Prop :=
  ids_consecutive (circuits l) /\ ids_consecutive (molecules l) /\ ids_consecutive (crypto_keys l).

(** A stored circuit the simulator can run: its gates name distinct
    qubits of the register and their angles are exact. *)
Definition entry_ok (e : circuit_entry) : Prop :=
  wf_circuit (ce_num_qubits e) (ce_circuit e) = true /\
  Forall (fun g => gate_action g <> None) (ce_circuit e).

(** ** Circuit construction *)

(** The gate a token binds to on qubit [q] of an [n]-qubit circuit, or
    [None] when the if-chain has no branch for it. *)
Definition bind_gate (n q : nat) (tok : string) : option gate_op :=
  let t := py_upper tok in
  if String.eqb t "H" then Some (GH q)
  else if String.eqb t "X" then Some (GX q)
  else if String.eqb t "Y" then Some (GY q)
  else if String.eqb t "Z" then Some (GZ q)
  else if String.eqb t "CNOT" && (1 <? n) then Some (GCX q ((q + 1) mod n))
  else if String.eqb t "RZ" then Some (GRZ (pi_over_pow2 2) q)
  else None.

(** [for i, gate in enumerate(gates): qubit_idx = i % num_qubits; ...] *)
Fixpoint bind_gates (n i : nat) (toks : list string) : res circuit :=
  match toks with
  | [] => Ok []
  | tok :: toks' =>
      let* q := py_mod i n in
      let* rest := bind_gates n (S i) toks' in
      Ok (match bind_gate n q tok with Some g => g :: rest | None => rest end)
  end.

(** The dict returned by [create_quantum_circuit] (the QASM text and the
    depth are renderings of [cr_circuit] by the library). *)
Record create_result := CreateResult {
  cr_id : nat;
  cr_name : string;
  cr_num_qubits : nat;
  cr_gates : list string;
  cr_circuit : circuit
}.

(** [QiskitQuantumLab.create_quantum_circuit] and
    [CirqQuantumLab.create_quantum_circuit]: bind, measure every qubit,
    store under [len(self.circuits) + 1]. *)
Definition create_quantum_circuit (l : lab) (name : string) (num_qubits : nat)
    (gates : list string) (created_at : string) : res (lab * create_result) :=
  let* c := bind_gates num_qubits 0 gates in
  let cid := S (size (circuits l)) in
  let e := CircuitEntry cid name c num_qubits gates created_at in
  Ok (Lab (<[cid := e]> (circuits l)) (molecules l) (crypto_keys l),
      CreateResult cid name num_qubits gates c).

(** ** Execution *)

(** The dict returned by [execute_circuit]. *)
Record exec_result := ExecResult {
  er_circuit_id : nat;
  er_shots : nat;
  er_counts : counts;
  er_statevector : qstate;
  er_probabilities : list (string * Q)
}.

(** The framework's count key of a basis state. *)
Inductive framework := Qiskit | Cirq.

Definition count_key (fw : framework) (n j : nat) : string :=
  match fw with
  | Qiskit => qiskit_key n j
  | Cirq => cirq_key n j
  end.

(** [execute_circuit(circuit_id, shots)].  [samples] are the basis states
    the simulator's shots returned; the theorems assume each of them is a
    possible outcome ([sampled]). *)
Definition execute_circuit (fw : framework) (l : lab) (circuit_id shots : nat)
    (samples : list nat) : res exec_result :=
  match circuits l !! circuit_id with
  | None => Raise (ValueError ("Circuit " ++ py_str_nat circuit_id ++ " not found"))
  | Some e =>
      let n := ce_num_qubits e in
      let* sv := run n (ce_circuit e) in
      let c := build_counts (map (count_key fw n) samples) in
      Ok (ExecResult circuit_id shots c sv (probabilities c shots))
  end.

(** [get_circuit_info(circuit_id)] *)
Definition get_circuit_info (l : lab) (circuit_id : nat) : res circuit_entry :=
  match circuits l !! circuit_id with
  | None => Raise (ValueError ("Circuit " ++ py_str_nat circuit_id ++ " not found"))
  | Some e => Ok e
  end.

(** [list_circuits()]: the entries in id order, which is insertion order
    under [lab_inv]. *)
Definition list_circuits (l : lab) : res (list circuit_entry) :=
  res_mapM (get_circuit_info l) (seq 1 (size (circuits l))).

(** [get_system_status()]: the sizes of the three dicts. *)
Definition get_system_status (l : lab) : nat * nat * nat :=
  (size (circuits l), size (molecules l), size (crypto_keys l)).

(** ** Registry lemmas *)

Lemma ids_consecutive_fresh {V} (m : gmap nat V) :
  ids_consecutive m -> m !! S (size m) = None.
Proof.
  intros H. destruct (m !! S (size m)) eqn:E; [|reflexivity].
  assert (is_Some (m !! S (size m))) as Hs by eauto. apply H in Hs. lia.
Qed.

Lemma ids_consecutive_insert {V} (m : gmap nat V) v :
  ids_consecutive m -> ids_consecutive (<[S (size m) := v]> m).
Proof.
  intros H i. rewrite map_size_insert_None by now apply ids_consecutive_fresh.
  rewrite lookup_insert. case_decide as E; [subst; split; [lia | eauto]|].
  destruct (H i) as [H1 H2]. split; intros X; [apply H1 in X; lia | apply H2; lia].
Qed.

Lemma ids_consecutive_empty {V} : ids_consecutive (∅ : gmap nat V).
Proof. intros i. rewrite lookup_empty, map_size_empty. split; [intros [? ?]; discriminate | lia]. Qed.

Lemma lab_inv_init : lab_inv lab_init.
Proof. split; [|split]; apply ids_consecutive_empty. Qed.

(** ** Binder lemmas *)

Lemma bind_gate_shape n q tok g : bind_gate n q tok = Some g ->
  gate_qubits g = [q] \/ (1 < n /\ gate_qubits g = [q; (q + 1) mod n]).
Proof.
  unfold bind_gate.
  repeat match goal with |- context [if ?c then _ else _] => destruct c eqn:? end;
  intros [= <-]; cbn; auto.
  right. apply andb_true_iff in Heqb3 as [_ Hn]. apply Nat.ltb_lt in Hn. auto.
Qed.

Lemma succ_mod_neq q n : 1 < n -> q < n -> q <> (q + 1) mod n.
Proof.
  intros Hn Hq E. destruct (Nat.eq_dec (q + 1) n) as [E'|E'].
  - rewrite E', Nat.Div0.mod_same in E. lia.
  - rewrite Nat.mod_small in E by lia. lia.
Qed.

Lemma bind_gate_wf n q tok g :
  q < n -> bind_gate n q tok = Some g -> wf_gate n g = true.
Proof.
  intros Hq Hb. apply wf_gate_spec.
  destruct (bind_gate_shape n q tok g Hb) as [-> | [Hn ->]].
  - split; repeat constructor; auto.
  - assert ((q + 1) mod n < n) by (apply Nat.mod_upper_bound; lia).
    split; repeat constructor; auto.
    intros [E|[]]. now apply (succ_mod_neq q n).
Qed.

Lemma bind_gate_action n q tok g : bind_gate n q tok = Some g -> gate_action g <> None.
Proof.
  unfold bind_gate. repeat match goal with |- context [if ?c then _ else _] => destruct c end;
  intros [= <-]; discriminate.
Qed.

(** The binder succeeds exactly when there is a qubit to bind to, or no
    token at all. *)
Lemma bind_gates_ok n i toks :
  0 < n -> exists c, bind_gates n i toks = Ok c /\ wf_circuit n c = true /\
                     Forall (fun g => gate_action g <> None) c.
Proof.
  intros Hn. revert i; induction toks as [|tok toks IH]; intros i; cbn.
  - exists []. repeat constructor.
  - rewrite py_mod_pos by lia. cbn. destruct (IH (S i)) as (c & Hc & Hwf & Ha).
    rewrite Hc. cbn. destruct (bind_gate n (i mod n) tok) as [g|] eqn:E.
    + exists (g :: c). split; [reflexivity|]. split.
      * unfold wf_circuit in *. cbn. rewrite Hwf, (bind_gate_wf n (i mod n) tok g);
        [reflexivity | apply Nat.mod_upper_bound; lia | exact E].
      * constructor; eauto using bind_gate_action.
    + eauto.
Qed.

Lemma bind_gates_zero i tok toks :
  bind_gates 0 i (tok :: toks) = Raise ZeroDivisionError.
Proof. reflexivity. Qed.

(** Whatever the binder returns is well formed and exact, [n = 0]
    included (then there is no token and no gate). *)
Lemma bind_gates_wf n i toks c :
  bind_gates n i toks = Ok c -> wf_circuit n c = true /\ Forall (fun g => gate_action g <> None) c.
Proof.
  destruct n as [|n].
  - destruct toks; [intros [= <-]; split; constructor | discriminate].
  - intros E. destruct (bind_gates_ok (S n) i toks ltac:(lia)) as (c' & E' & H).
    rewrite E in E'. injection E' as <-. exact H.
Qed.

Lemma create_quantum_circuit_entry l name n gates t l' r :
  create_quantum_circuit l name n gates t = Ok (l', r) ->
  exists e, circuits l' = <[S (size (circuits l)) := e]> (circuits l) /\ entry_ok e /\
            molecules l' = molecules l /\ crypto_keys l' = crypto_keys l.
Proof.
  unfold create_quantum_circuit. destruct (bind_gates n 0 gates) as [c|] eqn:B; cbn; [|discriminate].
  intros [= <- _]. eexists. split; [reflexivity|]. split; [|auto]. apply (bind_gates_wf n 0 gates c B).
Qed.

(** Executing a stored circuit the simulator can run succeeds; its
    statevector is the evolved register. *)
Lemma execute_circuit_entry fw l i e shots samples :
  circuits l !! i = Some e -> entry_ok e ->
  exists er, execute_circuit fw l i shots samples = Ok er /\
             run (ce_num_qubits e) (ce_circuit e) = Ok (er_statevector er).
Proof.
  intros E [Hwf Ha]. unfold execute_circuit. rewrite E.
  destruct (run_from_total (ce_circuit e) (init_state (ce_num_qubits e)) Hwf Ha) as (sv & Hsv & _).
  unfold run. rewrite Hsv. cbn. eauto.
Qed.

(** ** Theorems *)

(** C2: every prefix of the gates the token binder produces runs
    from |0...0> to a register of total probability 1 (spec 8, Unitarity,
    "for any circuit and any prefix of its gates"). *)
Theorem bind_gates_unitary n gates c :
  bind_gates n 0 gates = Ok c ->
  forall c1 c2, c = c1 ++ c2 -> exists s, run n c1 = Ok s /\ qs_n s = n /\ normalized s.
Proof. intros B. destruct (bind_gates_wf n 0 gates c B) as [Hwf Ha]. now apply run_normalized. Qed.

(** every circuit the token binder builds runs from |0...0> to
    completion and leaves a register with an outcome a shot can return:
    the simulator behind [execute_circuit] never samples an empty
    distribution. *)
Theorem bind_gates_has_outcome n gates c :
  bind_gates n 0 gates = Ok c -> exists s, run n c = Ok s /\ outcomes s <> [].
Proof. intros B. destruct (bind_gates_wf n 0 gates c B) as [Hwf Ha]. now apply run_has_outcome. Qed.

(** on a lab satisfying the registry invariant, creating a
    circuit of [n >= 1] qubits succeeds, stores a well-formed circuit under
    the next id [len(self.circuits) + 1], leaves every other entry and the
    other registries untouched, and preserves the invariant. *)
Theorem create_quantum_circuit_spec l name n gates t :
  lab_inv l -> 0 < n ->
  exists l' r, create_quantum_circuit l name n gates t = Ok (l', r) /\
    cr_id r = S (size (circuits l)) /\ lab_inv l' /\
    circuits l' !! cr_id r = Some (CircuitEntry (cr_id r) name (cr_circuit r) n gates t) /\
    (forall i, i <> cr_id r -> circuits l' !! i = circuits l !! i) /\
    molecules l' = molecules l /\ crypto_keys l' = crypto_keys l /\
    wf_circuit n (cr_circuit r) = true.
Proof.
  intros (Hc & Hm & Hk) Hn. destruct (bind_gates_ok n 0 gates Hn) as (c & Hb & Hwf & _).
  unfold create_quantum_circuit. rewrite Hb. cbn [res_bind].
  eexists _, _. split; [reflexivity|]. cbn.
  split; [reflexivity|]. split; [split; [now apply ids_consecutive_insert | auto]|].
  split; [apply lookup_insert_eq|]. split; [intros i Hi; now apply lookup_insert_ne|]. auto.
Qed.

(** executing a circuit just created runs its gates from |0...0>
    to completion, returns that statevector, and the counts dict holds
    every shot once under distinct keys. *)
Theorem execute_created_circuit fw l l' r name n gates t shots samples :
  create_quantum_circuit l name n gates t = Ok (l', r) -> 0 < n -> length samples = shots ->
  exists er, execute_circuit fw l' (cr_id r) shots samples = Ok er /\
    run n (cr_circuit r) = Ok (er_statevector er) /\ qs_n (er_statevector er) = n /\
    counts_total (er_counts er) = shots /\ List.NoDup (map fst (er_counts er)).
Proof.
  intros Hcr Hn Hs. destruct (bind_gates_ok n 0 gates Hn) as (c & Hb & Hwf & Ha).
  unfold create_quantum_circuit in Hcr. rewrite Hb in Hcr. cbn in Hcr. injection Hcr as <- <-.
  unfold execute_circuit. cbn. rewrite lookup_insert_eq. cbn.
  destruct (run_from_total c (init_state n) Hwf Ha) as (sv & Hsv & Hsn).
  unfold run. rewrite Hsv. cbn. eexists. split; [reflexivity|]. cbn.
  split; [reflexivity|]. split; [exact Hsn|]. split.
  - now rewrite counts_total_build, length_map.
  - apply nodup_keys_build.
Qed.

(** Executing an id that is not registered raises
    ValueError(f"Circuit {circuit_id} not found"). *)
Theorem execute_circuit_not_found fw l i shots samples :
  lab_inv l -> ~ (1 <= i <= size (circuits l)) ->
  execute_circuit fw l i shots samples = Raise (ValueError ("Circuit " ++ py_str_nat i ++ " not found")).
Proof.
  intros (Hc & _) Hi. unfold execute_circuit.
  destruct (circuits l !! i) eqn:E; [|reflexivity].
  exfalso. apply Hi, Hc. rewrite E. eauto.
Qed.

(** Tokens the binder does not know are silently dropped: a
    circuit made only of them is registered under a fresh id with no gate
    at all, where the specification (4.2, 8) requires a ConfigurationError
    naming the token. *)
Theorem create_quantum_circuit_drops_unknown l name n gates t :
  0 < n -> Forall (fun tok => forall q, bind_gate n q tok = None) gates ->
  exists l' r, create_quantum_circuit l name n gates t = Ok (l', r) /\
    cr_id r = S (size (circuits l)) /\ cr_circuit r = [] /\ is_Some (circuits l' !! cr_id r).
Proof.
  intros Hn Hg. assert (B : forall i, bind_gates n i gates = Ok []).
  { induction Hg as [|tok toks Htok _ IH]; intros i; [reflexivity|].
    cbn. rewrite py_mod_pos by lia. cbn. rewrite IH, Htok. reflexivity. }
  unfold create_quantum_circuit. rewrite B. cbn. eexists _, _. split; [reflexivity|].
  cbn. split; [reflexivity|]. split; [reflexivity|]. rewrite lookup_insert_eq. eauto.
Qed.

(** a circuit of zero qubits with at least one token raises
    ZeroDivisionError ([i % 0]), where the specification (7) requires
    InvalidArgumentError. *)
Theorem create_quantum_circuit_zero_qubits l name tok toks t :
  create_quantum_circuit l name 0 (tok :: toks) t = Raise ZeroDivisionError.
Proof. reflexivity. Qed.

(** The Qiskit and Cirq labs report the same shots under
    reversed keys: Qiskit's counts dict is Cirq's with every bitstring read
    backwards, in the same order and with the same counts. *)
Theorem execute_circuit_qiskit_cirq l i shots samples er :
  execute_circuit Cirq l i shots samples = Ok er ->
  exists er', execute_circuit Qiskit l i shots samples = Ok er' /\
    er_counts er' = map (rename_key rev_string) (er_counts er) /\
    er_statevector er' = er_statevector er.
Proof.
  unfold execute_circuit. destruct (circuits l !! i) as [e|]; [|discriminate].
  destruct (run _ _) as [sv|]; cbn; [|discriminate]. intros [= <-].
  eexists. split; [reflexivity|]. cbn. split; [|reflexivity].
  rewrite <- build_counts_rename by apply rev_string_inj. f_equal.
  rewrite map_map. apply map_ext. intros j. apply qiskit_key_rev.
Qed.

(** ** Witnesses *)

Section Witnesses.
#[local] Open Scope string_scope.

Lemma create_quantum_circuit_spec_witness :
  exists l' r, create_quantum_circuit lab_init "Test Circuit" 3 ["H"; "X"; "CNOT"] "t0" = Ok (l', r) /\
    cr_id r = 1 /\ wf_circuit 3 (cr_circuit r) = true.
Proof.
  destruct (create_quantum_circuit_spec lab_init "Test Circuit" 3 ["H"; "X"; "CNOT"] "t0")
    as (l' & r & E & Hid & _ & _ & _ & _ & _ & Hwf); [apply lab_inv_init | lia |].
  exists l', r. rewrite Hid. auto.
Defined.

Lemma execute_created_circuit_witness :
  match create_quantum_circuit lab_init "Bell" 2 ["H"; "CNOT"] "t0" with
  | Ok (l', r) => exists er, execute_circuit Qiskit l' (cr_id r) 2 [0; 3] = Ok er /\
                             counts_total (er_counts er) = 2
  | Raise _ => False
  end.
Proof.
  destruct (create_quantum_circuit lab_init "Bell" 2 ["H"; "CNOT"] "t0") as [[l' r]|] eqn:E;
    [|vm_compute in E; discriminate E].
  destruct (execute_created_circuit Qiskit lab_init l' r "Bell" 2 ["H"; "CNOT"] "t0" 2 [0; 3] E
              ltac:(lia) eq_refl) as (er & H1 & _ & _ & H4 & _).
  eauto.
Defined.

Lemma execute_circuit_not_found_witness :
  execute_circuit Qiskit lab_init 7 1024 [] = Raise (ValueError "Circuit 7 not found").
Proof.
  exact (execute_circuit_not_found Qiskit lab_init 7 1024 [] lab_inv_init
           ltac:(cbn; rewrite map_size_empty; lia)).
Defined.

Lemma create_quantum_circuit_drops_unknown_witness :
  exists l' r, create_quantum_circuit lab_init "x" 2 ["BOGUS"] "t0" = Ok (l', r) /\
    cr_id r = 1 /\ cr_circuit r = [].
Proof.
  destruct (create_quantum_circuit_drops_unknown lab_init "x" 2 ["BOGUS"] "t0")
    as (l' & r & E & Hid & Hc & _); [lia | constructor; [intros q; reflexivity | constructor] |].
  exists l', r. rewrite Hid. auto.
Defined.

Lemma execute_circuit_qiskit_cirq_witness :
  match create_quantum_circuit lab_init "Bell" 2 ["H"; "CNOT"] "t0" with
  | Ok (l', r) =>
      match execute_circuit Cirq l' 1 3 [0; 3; 3] with
      | Ok er => exists er', execute_circuit Qiskit l' 1 3 [0; 3; 3] = Ok er' /\
                   er_counts er' = map (rename_key rev_string) (er_counts er)
      | Raise _ => False
      end
  | Raise _ => False
  end.
Proof.
  destruct (create_quantum_circuit lab_init "Bell" 2 ["H"; "CNOT"] "t0") as [[l' r]|] eqn:E;
    [|vm_compute in E; discriminate E].
  destruct (execute_circuit Cirq l' 1 3 [0; 3; 3]) as [er|] eqn:F.
  - destruct (execute_circuit_qiskit_cirq l' 1 3 [0; 3; 3] er F) as (er' & H1 & H2 & _). eauto.
  - vm_compute in E. injection E as <- <-. vm_compute in F. discriminate F.
Defined.

Lemma bind_gates_unitary_witness :
  exists s, run 3 [GH 0; GX 1] = Ok s /\ qs_n s = 3 /\ normalized s.
Proof. exact (bind_gates_unitary 3 ["H"; "X"; "CNOT"] [GH 0; GX 1; GCX 2 0] eq_refl [GH 0; GX 1] [GCX 2 0] eq_refl). Defined.

Lemma bind_gates_has_outcome_witness :
  exists s, run 3 [GH 0; GX 1; GCX 2 0] = Ok s /\ outcomes s <> [].
Proof. exact (bind_gates_has_outcome 3 ["H"; "X"; "CNOT"] [GH 0; GX 1; GCX 2 0] eq_refl). Defined.

End Witnesses.
