(* ===== verification/Bell.v ===== *)
(** * Bell states

    Every framework file builds the Bell pair [h(0); cx(0, 1)] and
    measures it:
    - [QiskitQuantumLab.create_bell_state] ("qiskit quantum.py"):
      [QuantumCircuit(2, 2)], [measure_all()], 1024 shots, the counts dict
      and [_calculate_entanglement(counts)];
    - [CirqQuantumLab.create_bell_state] ("cirqa quantum.py"): measurement
      key 'bell' on both qubits, 1000 repetitions, same figures;
    - the single-shot versions of part_000, returning the pair of
      measured bits (Cirq: row [0], [1]; Qiskit: characters [1] and [0]
      of the count key).
    The fidelity figure needs a real square root and is not modelled. *)

From Stdlib Require Import String Ascii ZArith QArith List Lia Bool.
From S2P Require Import Prelude Cyclo Gates Statevector Bitstring Histogram.
Import ListNotations.
#[local] Close Scope Q_scope.

Definition bell_circuit : circuit := [GH 0; GCX 0 1].

Record bell_result := BellResult {
  br_name : string;
  br_counts : counts;
  br_entanglement : Q
}.

(** [create_bell_state] of "qiskit quantum.py": the keys carry the unused
    two-bit register [c] after the "meas" register of [measure_all()]. *)
Definition create_bell_state_qiskit (samples : list nat) : res bell_result :=
  let* s := run 2 bell_circuit in
  let c := build_counts (map (qiskit_key_measure_all 2 2) samples) in
  let* ent := calculate_entanglement c in
  Ok (BellResult "Bell State" c ent).

(** [create_bell_state] of "cirqa quantum.py". *)
Definition create_bell_state_cirq (samples : list nat) : res bell_result :=
  let* s := run 2 bell_circuit in
  let c := build_counts (map (cirq_key 2) samples) in
  let* ent := calculate_entanglement c in
  Ok (BellResult "Bell State" c ent).

(** part_000, [CirqQuantumLab.create_bell_state]: the measured row. *)
Definition bell_pair_cirq (j : nat) : nat * nat := (Nat.b2n (bit j 0), Nat.b2n (bit j 1)).

(** Python's [int(ch)] on a digit character. *)
Definition digit_value (c : ascii) : res nat :=
  if (c =? "0")%char then Ok 0 else if (c =? "1")%char then Ok 1
  else Raise (ValueError "invalid literal for int() with base 10").

(** [measurement[i]] on a string: IndexError past the end. *)
Definition str_index (s : string) (i : nat) : res ascii :=
  match String.get i s with Some c => Ok c | None => Raise IndexError end.

(** part_000, [QiskitQuantumLab.create_bell_state]:
    [(int(measurement[1]), int(measurement[0]))] of the key. *)
Definition bell_pair_qiskit (j : nat) : res (nat * nat) :=
  let key := qiskit_key_measure_all 2 2 j in
  let* c1 := str_index key 1 in
  let* c0 := str_index key 0 in
  let* b1 := digit_value c1 in
  let* b0 := digit_value c0 in
  Ok (b1, b0).

(** The evolved Bell register: (|00> + |11>) / sqrt 2. *)
Definition bell_state : qstate := QS 2 1 [cone; czero; czero; cone].

(** ** Lemmas *)

Lemma run_bell : run 2 bell_circuit = Ok bell_state.
Proof. reflexivity. Qed.

Lemma bell_outcomes : outcomes bell_state = [0; 3].
Proof. reflexivity. Qed.

Lemma bell_sampled samples :
  sampled bell_state samples -> Forall (fun j => j = 0 \/ j = 3) samples.
Proof.
  intros H. eapply Forall_impl; [|exact H]. cbn. intros j Hj.
  apply in_outcomes in Hj. rewrite bell_outcomes in Hj. destruct Hj as [<-|[<-|[]]]; auto.
Qed.

(** ** Theorems *)

(** the Bell circuit evolves |00> into (|00> + |11>)/sqrt 2:
    a shot reads 00 or 11, each with probability 1/2 (amplitude 1 over
    sqrt2^1, squared modulus 1 over 2^1). *)
Theorem bell_state_law :
  run 2 bell_circuit = Ok bell_state /\ outcomes bell_state = [0; 3] /\
  qs_k bell_state = 1 /\ prob_num bell_state 0 = cone /\ prob_num bell_state 3 = cone /\
  normalized bell_state.
Proof.
  split; [exact run_bell|]. split; [exact bell_outcomes|].
  repeat split; reflexivity.
Qed.

(** the Cirq lab's Bell experiment reports entanglement 1
    for every non-empty sequence of shots of the Bell register, and its
    counts only hold the keys "00" and "11". *)
Theorem create_bell_state_cirq_entangled samples :
  sampled bell_state samples -> samples <> [] ->
  exists r, create_bell_state_cirq samples = Ok r /\ (br_entanglement r == 1)%Q /\
            Forall (fun k => k = "00"%string \/ k = "11"%string) (map fst (br_counts r)).
Proof.
  intros Hs Hne. apply bell_sampled in Hs.
  assert (Hk : Forall (fun k => k = "00"%string \/ k = "11"%string) (map (cirq_key 2) samples)).
  { apply Forall_map. eapply Forall_impl; [|exact Hs]. intros j [->| ->]; auto. }
  set (c := build_counts (map (cirq_key 2) samples)).
  assert (Ht : counts_total c = length samples) by (unfold c; now rewrite counts_total_build, length_map).
  destruct (calculate_entanglement_full c) as (q & Hq & Hq1).
  - rewrite Ht. destruct samples; [contradiction | discriminate].
  - unfold c. rewrite !counts_get_build, occurrences_two, length_map, <- Ht by (auto; discriminate).
    reflexivity.
  - exists (BellResult "Bell State" c q). unfold create_bell_state_cirq. rewrite run_bell. cbn [res_bind].
    fold c. rewrite Hq. split; [reflexivity|]. split; [exact Hq1|].
    apply Forall_forall. intros k Hin. apply in_keys_build in Hin.
    rewrite Forall_forall in Hk. auto.
Qed.

(** C5: the Qiskit lab's Bell experiment reports entanglement
    0 for every non-empty sequence of shots: [measure_all()] on a circuit
    that already has a classical register makes every count key five
    characters long ("11 00"), so the lookups of "00" and "11" in
    [_calculate_entanglement] find nothing. *)
Theorem create_bell_state_qiskit_zero samples :
  sampled bell_state samples -> samples <> [] ->
  exists r, create_bell_state_qiskit samples = Ok r /\ (br_entanglement r == 0)%Q.
Proof.
  intros _ Hne.
  set (c := build_counts (map (qiskit_key_measure_all 2 2) samples)).
  assert (Hnone : forall a, String.length a = 2 -> counts_get c a = 0).
  { intros a La. unfold c. rewrite counts_get_build. apply occurrences_none, Forall_map, Forall_forall.
    intros j _ E. rewrite <- E, length_qiskit_key_measure_all in La. discriminate. }
  destruct (calculate_entanglement_none c) as (q & Hq & Hq0).
  - unfold c. rewrite counts_total_build, length_map. destruct samples; [contradiction | discriminate].
  - now apply Hnone.
  - now apply Hnone.
  - exists (BellResult "Bell State" c q). unfold create_bell_state_qiskit. rewrite run_bell.
    cbn [res_bind]. fold c. rewrite Hq. split; [reflexivity | exact Hq0].
Qed.

(** A single shot of the Bell pair returns two equal bits,
    and the Qiskit and Cirq single-shot versions return the same pair. *)
Theorem bell_pair_agree j :
  possible bell_state j = true ->
  fst (bell_pair_cirq j) = snd (bell_pair_cirq j) /\ bell_pair_qiskit j = Ok (bell_pair_cirq j).
Proof.
  intros H. apply in_outcomes in H. rewrite bell_outcomes in H.
  destruct H as [<-|[<-|[]]]; split; reflexivity.
Qed.

(** ** Witnesses *)

Lemma create_bell_state_cirq_entangled_witness :
  exists r, create_bell_state_cirq [0; 3; 3] = Ok r /\ (br_entanglement r == 1)%Q.
Proof.
  destruct (create_bell_state_cirq_entangled [0; 3; 3]) as (r & E & H & _);
    [repeat constructor | discriminate | eauto].
Defined.

Lemma create_bell_state_qiskit_zero_witness :
  exists r, create_bell_state_qiskit [0; 3; 3] = Ok r /\ (br_entanglement r == 0)%Q.
Proof.
  apply create_bell_state_qiskit_zero; [repeat constructor | discriminate].
Defined.

Lemma bell_pair_agree_witness :
  fst (bell_pair_cirq 3) = snd (bell_pair_cirq 3) /\ bell_pair_qiskit 3 = Ok (bell_pair_cirq 3).
Proof. apply (bell_pair_agree 3). reflexivity. Defined.
