(* ===== verification/BB84.v ===== *)
(** * BB84 key distribution

    [bb84_key_distribution(key_length)] of the three labs:
    - "qiskit quantum.py" (lines 185-252) and "cirqa quantum.py" (lines
      197-262) draw [2 * key_length] sender bits, sender bases and receiver
      bases with [random.randint(0, 1)], run a one-qubit circuit per trial
      (X if the bit is 1, H if the sender basis is 1, H if the receiver
      basis is 1, measure) for one shot and record the measured bit;
    - "qsharp quantum lab.py" (lines 263-333) draws the same lists and runs
      no circuit at all.
    All three then sift the sender bits on matching bases, keep the first
    [key_length] of them, draw the error rate with
    [random.uniform(0, 0.05)] and store the key dict under
    [len(self.crypto_keys) + 1].

    The draws are inputs of the model: [rnd i] is the [i]-th call of
    [random.randint(0, 1)] (as a boolean), [shots i] the basis state the
    simulator returned for trial [i], [u] the uniform draw. *)

From Stdlib Require Import String Ascii ZArith QArith List Lia Bool.
From stdpp Require Import gmap.
From S2P Require Import Prelude Cyclo Gates Statevector Bitstring Lab.
Import ListNotations.
#[local] Close Scope Q_scope.

Inductive bb84_variant := BB84Qiskit | BB84Cirq | BB84QSharp.

(** The circuit of one trial. *)
Definition bb84_circuit (bit abasis bbasis : bool) : circuit :=
  (if bit then [GX 0] else []) ++ (if abasis then [GH 0] else []) ++ (if bbasis then [GH 0] else []).

(** One trial: run the circuit for one shot and read the bit back
    (Qiskit: [int(max(counts.keys()))]; Cirq:
    [int(result.measurements['bit'][0][0])]). *)
Definition bb84_measure (fw : bb84_variant) (bit abasis bbasis : bool) (shot : nat) : res nat :=
  let* s := run 1 (bb84_circuit bit abasis bbasis) in
  match fw with
  | BB84Cirq => Ok (Nat.b2n (Prelude.bit shot 0))
  | _ => py_int_base10 (qiskit_key 1 shot)
  end.

(** The loop [for i in range(len(alice_bits))] that fills
    [bob_measurements]; the Q# lab has no such loop. *)
Definition bb84_measurements (fw : bb84_variant) (abits abases bbases : list bool)
    (shots : nat -> nat) : res (list nat) :=
  match fw with
  | BB84QSharp => Ok []
  | _ => res_mapM (fun i => bb84_measure fw (nth i abits false) (nth i abases false)
                              (nth i bbases false) (shots i)) (seq 0 (length abits))
  end.

(** Basis reconciliation: [shared_key_bits]. *)
Definition sift (abits abases bbases : list bool) : list bool :=
  map (fun i => nth i abits false)
      (List.filter (fun i => Bool.eqb (nth i abases false) (nth i bbases false)) (seq 0 (length abits))).

(** [shared_key_bits[:key_length] if len(shared_key_bits) >= key_length
    else shared_key_bits] *)
Definition final_key (key_length : nat) (shared : list bool) : list bool :=
  if key_length <=? length shared then firstn key_length shared else shared.

(** The ['framework'] entry: absent in the Qiskit lab. *)
Definition bb84_framework (fw : bb84_variant) : option string :=
  match fw with
  | BB84Qiskit => None
  | BB84Cirq => Some "Cirq"%string
  | BB84QSharp => Some "Q#"%string
  end.

(** ['key_hex']: Qiskit computes [hex(int(key_binary, 2))[2:]], which
    raises on the empty key; Cirq and Q# write '0' for it. *)
Definition key_hex (fw : bb84_variant) (key : list bool) : res string :=
  match fw, key with
  | BB84Qiskit, _ | _, _ :: _ =>
      let* v := py_int_base2 (string_of_bits key) in Ok (py_hex_noprefix v)
  | _, [] => Ok "0"%string
  end.

(** ['efficiency']: [len(final_key) / len(alice_bits)]. *)
Definition efficiency (key : list bool) (abits : list bool) : res Q :=
  if length abits =? 0 then Raise ZeroDivisionError
  else Ok (inject_Z (Z.of_nat (length key)) / inject_Z (Z.of_nat (length abits)))%Q.

(** ['security_level']. *)
Definition security_level (error_rate : Q) : string :=
  if negb (Qle_bool (11 # 100) error_rate) then "HIGH" else "COMPROMISED".

(** [alice_bits], [alice_bases] and [bob_bases], drawn in that order. *)
Definition alice_bits (rnd : nat -> bool) (key_length : nat) : list bool :=
  draws rnd 0 (key_length * 2).

Definition alice_bases (rnd : nat -> bool) (key_length : nat) : list bool :=
  draws rnd (key_length * 2) (key_length * 2).

Definition bob_bases (rnd : nat -> bool) (key_length : nat) : list bool :=
  draws rnd (key_length * 2 + key_length * 2) (key_length * 2).

Definition bb84_key_distribution (fw : bb84_variant) (l : lab) (key_length : nat)
    (rnd : nat -> bool) (shots : nat -> nat) (u : Q) : res (lab * key_data) :=
  let abits := alice_bits rnd key_length in
  let abases := alice_bases rnd key_length in
  let bbases := bob_bases rnd key_length in
  let* bob_measurements := bb84_measurements fw abits abases bbases shots in
  let key := final_key key_length (sift abits abases bbases) in
  let kid := S (size (crypto_keys l)) in
  let* hex := key_hex fw key in
  let* eff := efficiency key abits in
  let kd := KeyData kid "BB84" (bb84_framework fw) (length key) (string_of_bits key) hex u eff
                    (security_level u) in
  Ok (Lab (circuits l) (molecules l) (<[kid := kd]> (crypto_keys l)), kd).

(** The error rate the specification asks for (4.4): the number of
    sifted trials whose measured bit differs from the sender's bit. *)
Definition sifted_errors (abits abases bbases : list bool) (meas : list nat) : nat :=
  length (List.filter (fun i => Bool.eqb (nth i abases false) (nth i bbases false) &&
                           negb (nth i meas 0 =? Nat.b2n (nth i abits false)))
                 (seq 0 (length abits))).

(** A shot the simulator can return for a trial. *)
Definition trial_ok (bit abasis bbasis : bool) (shot : nat) : bool :=
  match run 1 (bb84_circuit bit abasis bbasis) with
  | Ok s => possible s shot
  | Raise _ => false
  end.

(** ** Lemmas *)

(** A trial reads back the shot, and with matching bases the shot is the
    sender's bit. *)
Lemma bb84_measure_ok fw bit ab bb shot :
  fw <> BB84QSharp -> trial_ok bit ab bb shot = true ->
  bb84_measure fw bit ab bb shot = Ok shot /\ (ab = bb -> shot = Nat.b2n bit).
Proof.
  intros Hfw Hok. destruct shot as [|[|shot]]; [| |destruct bit, ab, bb; discriminate Hok].
  all: destruct fw; [| |congruence]; destruct bit, ab, bb; try discriminate Hok;
       split; try reflexivity; intros E; try discriminate E; reflexivity.
Qed.

Lemma bb84_measurements_ok fw abits abases bbases shots :
  fw <> BB84QSharp ->
  (forall i, i < length abits ->
     trial_ok (nth i abits false) (nth i abases false) (nth i bbases false) (shots i) = true) ->
  bb84_measurements fw abits abases bbases shots = Ok (map shots (seq 0 (length abits))).
Proof.
  intros Hfw Hok. unfold bb84_measurements.
  assert (R : res_mapM (fun i => bb84_measure fw (nth i abits false) (nth i abases false)
                               (nth i bbases false) (shots i)) (seq 0 (length abits))
              = Ok (map shots (seq 0 (length abits)))).
  { apply res_mapM_all_Ok. intros i Hi. apply in_seq in Hi.
    apply bb84_measure_ok; [exact Hfw | apply Hok; lia]. }
  destruct fw; [exact R | exact R | congruence].
Qed.

(** The shots of every trial of a run are shots the simulator can return. *)
Definition shots_ok (rnd : nat -> bool) (k : nat) (shots : nat -> nat) : Prop :=
  forall i, i < k * 2 ->
    trial_ok (nth i (alice_bits rnd k) false) (nth i (alice_bases rnd k) false)
             (nth i (bob_bases rnd k) false) (shots i) = true.

(** The key the run keeps. *)
Definition bb84_key (rnd : nat -> bool) (k : nat) : list bool :=
  final_key k (sift (alice_bits rnd k) (alice_bases rnd k) (bob_bases rnd k)).

Lemma final_key_firstn k shared : final_key k shared = firstn k shared.
Proof.
  unfold final_key. destruct (Nat.leb_spec k (length shared)); [reflexivity|].
  symmetry. apply firstn_all2. lia.
Qed.

Lemma length_alice_bits rnd k : length (alice_bits rnd k) = k * 2.
Proof. apply length_draws. Qed.

Lemma bb84_measurements_run fw rnd k shots :
  (fw <> BB84QSharp -> shots_ok rnd k shots) ->
  exists meas, bb84_measurements fw (alice_bits rnd k) (alice_bases rnd k) (bob_bases rnd k) shots = Ok meas.
Proof.
  intros Hok. destruct fw eqn:Efw; [| |eexists; reflexivity];
  (eexists; apply bb84_measurements_ok; [discriminate|];
   rewrite length_alice_bits; apply Hok; discriminate).
Qed.

(** What a successful run returns. *)
Lemma bb84_key_distribution_Ok fw l k rnd shots u l' kd :
  bb84_key_distribution fw l k rnd shots u = Ok (l', kd) ->
  exists hex eff, key_hex fw (bb84_key rnd k) = Ok hex /\
    efficiency (bb84_key rnd k) (alice_bits rnd k) = Ok eff /\
    kd = KeyData (S (size (crypto_keys l))) "BB84" (bb84_framework fw) (length (bb84_key rnd k))
                 (string_of_bits (bb84_key rnd k)) hex u eff (security_level u) /\
    l' = Lab (circuits l) (molecules l) (<[kd_id kd := kd]> (crypto_keys l)).
Proof.
  unfold bb84_key_distribution. fold (bb84_key rnd k).
  destruct (bb84_measurements _ _ _ _ _); cbn; [|discriminate].
  destruct (key_hex fw (bb84_key rnd k)) as [hex|]; cbn; [|discriminate].
  destruct (efficiency _ _) as [eff|]; cbn; [|discriminate].
  intros [= <- <-]. eauto 6.
Qed.

Lemma security_level_low u : (0 <= u <= 1 # 20)%Q -> security_level u = "HIGH"%string.
Proof.
  intros [_ Hu]. unfold security_level.
  destruct (Qle_bool (11 # 100) u) eqn:E; [|reflexivity].
  apply Qle_bool_iff in E. assert (X : (11 # 100 <= 1 # 20)%Q) by (eapply Qle_trans; eauto).
  exfalso. now apply X.
Qed.

(** ** Theorems *)

(** One BB84 trial runs and leaves a normalized qubit;
    with matching bases its only possible outcome is the sender's bit
    (measurement is deterministic), with different bases both outcomes
    are possible. *)
Theorem bb84_trial_law bit ab bb :
  exists s, run 1 (bb84_circuit bit ab bb) = Ok s /\ normalized s /\
    outcomes s = if Bool.eqb ab bb then [Nat.b2n bit] else [0; 1].
Proof.
  destruct bit, ab, bb; eexists; (split; [reflexivity|]); split; try split; reflexivity.
Qed.

(** C3: in the Qiskit and Cirq labs every trial reads back
    the simulator's shot, and on the sifted trials the measured bit always
    equals the sender's bit: the error rate the specification defines
    (4.4) is exactly 0. *)
Theorem bb84_noiseless fw abits abases bbases shots :
  fw <> BB84QSharp ->
  (forall i, i < length abits ->
     trial_ok (nth i abits false) (nth i abases false) (nth i bbases false) (shots i) = true) ->
  exists meas, bb84_measurements fw abits abases bbases shots = Ok meas /\
    length meas = length abits /\ sifted_errors abits abases bbases meas = 0.
Proof.
  intros Hfw Hok. exists (map shots (seq 0 (length abits))).
  split; [now apply bb84_measurements_ok|]. split; [now rewrite length_map, length_seq|].
  unfold sifted_errors. rewrite filter_none; [reflexivity|].
  intros i Hi. apply in_seq in Hi. rewrite nth_map_seq by lia.
  destruct (Bool.eqb _ _) eqn:E; [|reflexivity]. apply Bool.eqb_prop in E.
  destruct (bb84_measure_ok fw _ _ _ (shots i) Hfw (Hok i ltac:(lia))) as [_ Hb].
  now rewrite (Hb E), Nat.eqb_refl.
Qed.

(** C4: the error rate a run records is the [random.uniform(0,
    0.05)] draw, whatever was measured, and the security level is always
    'HIGH'; the sifted trials of the same run have no error at all. *)
Theorem bb84_error_rate_drawn fw l k rnd shots u l' kd :
  fw <> BB84QSharp -> shots_ok rnd k shots -> (0 <= u <= 1 # 20)%Q ->
  bb84_key_distribution fw l k rnd shots u = Ok (l', kd) ->
  kd_error_rate kd = u /\ kd_security_level kd = "HIGH"%string /\
  exists meas, bb84_measurements fw (alice_bits rnd k) (alice_bases rnd k) (bob_bases rnd k) shots = Ok meas /\
    sifted_errors (alice_bits rnd k) (alice_bases rnd k) (bob_bases rnd k) meas = 0.
Proof.
  intros Hfw Hok Hu Hrun. apply bb84_key_distribution_Ok in Hrun as (hex & eff & _ & _ & -> & _).
  cbn. split; [reflexivity|]. split; [now apply security_level_low|].
  destruct (bb84_noiseless fw (alice_bits rnd k) (alice_bases rnd k) (bob_bases rnd k) shots Hfw)
    as (meas & Hm & _ & He); [rewrite length_alice_bits; exact Hok|].
  eauto.
Qed.

(** a run that returns stores its key dict under the next id
    [len(self.crypto_keys) + 1], keeps the registry invariant and the other
    registries, and the key is the first [key_length] sender bits of the
    trials whose bases matched. *)
Theorem bb84_registers_key fw l k rnd shots u l' kd :
  lab_inv l -> bb84_key_distribution fw l k rnd shots u = Ok (l', kd) ->
  lab_inv l' /\ kd_id kd = S (size (crypto_keys l)) /\ crypto_keys l' !! kd_id kd = Some kd /\
  circuits l' = circuits l /\ molecules l' = molecules l /\
  kd_key_binary kd = string_of_bits (firstn k (sift (alice_bits rnd k) (alice_bases rnd k) (bob_bases rnd k))) /\
  kd_key_length kd = Nat.min k (length (sift (alice_bits rnd k) (alice_bases rnd k) (bob_bases rnd k))).
Proof.
  intros (Hc & Hm & Hk) Hrun. apply bb84_key_distribution_Ok in Hrun as (hex & eff & _ & _ & -> & ->).
  unfold bb84_key. rewrite final_key_firstn. cbn.
  split; [split; [exact Hc | split; [exact Hm | now apply ids_consecutive_insert]]|].
  split; [reflexivity|]. split; [apply lookup_insert_eq|].
  split; [reflexivity|]. split; [reflexivity|]. split; [reflexivity|]. apply length_firstn.
Qed.

(** C38: with [key_length >= 1] the Cirq and Q# runs always
    return a key, and the Qiskit run does when at least one trial had
    matching bases. *)
Theorem bb84_total fw l k rnd shots u :
  1 <= k -> (fw <> BB84QSharp -> shots_ok rnd k shots) ->
  (fw = BB84Qiskit -> sift (alice_bits rnd k) (alice_bases rnd k) (bob_bases rnd k) <> []) ->
  exists l' kd, bb84_key_distribution fw l k rnd shots u = Ok (l', kd).
Proof.
  intros Hk Hok Hne. destruct (bb84_measurements_run fw rnd k shots Hok) as (meas & Hm).
  unfold bb84_key_distribution. fold (bb84_key rnd k). rewrite Hm. cbn [res_bind].
  assert (Hhex : exists hex, key_hex fw (bb84_key rnd k) = Ok hex).
  { destruct (bb84_key rnd k) as [|b key] eqn:E.
    - destruct fw; [|eexists; reflexivity..]. exfalso.
      unfold bb84_key in E. rewrite final_key_firstn in E.
      destruct (sift _ _ _); [now apply Hne | destruct k; [lia | discriminate]].
    - unfold key_hex. rewrite py_int_base2_bits by discriminate. destruct fw; eexists; reflexivity. }
  destruct Hhex as (hex & ->). cbn [res_bind]. unfold efficiency.
  rewrite length_alice_bits. destruct (Nat.eqb_spec (k * 2) 0); [lia|]. cbn. eauto.
Qed.

(** in the Qiskit lab a run whose trials never had
    matching bases raises ValueError on [int('', 2)], instead of returning
    the partial, explicitly marked result the specification (7) asks for. *)
Theorem bb84_qiskit_empty_key l k rnd shots u :
  shots_ok rnd k shots -> sift (alice_bits rnd k) (alice_bases rnd k) (bob_bases rnd k) = [] ->
  bb84_key_distribution BB84Qiskit l k rnd shots u =
    Raise (ValueError "invalid literal for int() with base 2"%string).
Proof.
  intros Hok Hs. destruct (bb84_measurements_run BB84Qiskit rnd k shots (fun _ => Hok)) as (meas & Hm).
  unfold bb84_key_distribution. rewrite Hm. cbn [res_bind]. rewrite Hs.
  unfold final_key. destruct k; reflexivity.
Qed.

(** [key_length = 0] raises in every lab: ValueError on
    [int('', 2)] in the Qiskit lab, ZeroDivisionError on the efficiency
    [0 / 0] in the Cirq and Q# labs (spec 7 asks for InvalidArgumentError). *)
Theorem bb84_zero_length l rnd shots u :
  bb84_key_distribution BB84Qiskit l 0 rnd shots u =
    Raise (ValueError "invalid literal for int() with base 2"%string) /\
  bb84_key_distribution BB84Cirq l 0 rnd shots u = Raise ZeroDivisionError /\
  bb84_key_distribution BB84QSharp l 0 rnd shots u = Raise ZeroDivisionError.
Proof. split; [|split]; reflexivity. Qed.

(** ** Witnesses *)

Section Witnesses.
#[local] Open Scope string_scope.

(** All draws 0: every trial has matching bases and sends 0. *)
Definition rnd_zero (_ : nat) : bool := false.

(** Sender bases 0 and receiver bases 1 for a one-bit key: no trial
    matches. *)
Definition rnd_mismatch (i : nat) : bool := (4 <=? i)%nat.

Lemma shots_ok_zero : shots_ok rnd_zero 1 (fun _ => 0).
Proof. intros i Hi. destruct i as [|[|i]]; [reflexivity | reflexivity | lia]. Qed.

Lemma shots_ok_mismatch : shots_ok rnd_mismatch 1 (fun _ => 0).
Proof. intros i Hi. destruct i as [|[|i]]; [reflexivity | reflexivity | lia]. Qed.

Lemma bb84_noiseless_witness :
  exists meas, bb84_measurements BB84Qiskit [true; false] [true; false] [true; true]
                 (fun i => if (i =? 0)%nat then 1 else 0) = Ok meas /\
    sifted_errors [true; false] [true; false] [true; true] meas = 0.
Proof.
  destruct (bb84_noiseless BB84Qiskit [true; false] [true; false] [true; true]
              (fun i => if (i =? 0)%nat then 1 else 0)) as (meas & H1 & _ & H3);
    [discriminate | intros i Hi; destruct i as [|[|i]]; [reflexivity | reflexivity | cbn in Hi; lia] |].
  eauto.
Defined.

Lemma bb84_error_rate_drawn_witness :
  match bb84_key_distribution BB84Qiskit lab_init 1 rnd_zero (fun _ => 0) (1 # 50)%Q with
  | Ok (l', kd) => kd_error_rate kd = (1 # 50)%Q /\ kd_security_level kd = "HIGH"
  | Raise _ => False
  end.
Proof.
  destruct (bb84_key_distribution BB84Qiskit lab_init 1 rnd_zero (fun _ => 0) (1 # 50)%Q)
    as [[l' kd]|] eqn:E; [|vm_compute in E; discriminate E].
  destruct (bb84_error_rate_drawn BB84Qiskit lab_init 1 rnd_zero (fun _ => 0) (1 # 50)%Q l' kd)
    as (H1 & H2 & _); [discriminate | exact shots_ok_zero | split; discriminate | exact E |].
  auto.
Defined.

Lemma bb84_registers_key_witness :
  match bb84_key_distribution BB84Cirq lab_init 1 rnd_zero (fun _ => 0) (1 # 50)%Q with
  | Ok (l', kd) => kd_id kd = 1 /\ kd_key_binary kd = "0" /\ crypto_keys l' !! kd_id kd = Some kd
  | Raise _ => False
  end.
Proof.
  destruct (bb84_key_distribution BB84Cirq lab_init 1 rnd_zero (fun _ => 0) (1 # 50)%Q)
    as [[l' kd]|] eqn:E; [|vm_compute in E; discriminate E].
  destruct (bb84_registers_key BB84Cirq lab_init 1 rnd_zero (fun _ => 0) (1 # 50)%Q l' kd lab_inv_init E)
    as (_ & Hid & Hl & _ & _ & Hbin & _).
  split; [rewrite Hid; vm_compute; reflexivity|]. split; [rewrite Hbin; reflexivity | exact Hl].
Defined.

Lemma bb84_total_witness :
  exists l' kd, bb84_key_distribution BB84Cirq lab_init 1 rnd_zero (fun _ => 0) (1 # 50)%Q = Ok (l', kd).
Proof.
  apply bb84_total; [lia | intros _; exact shots_ok_zero | discriminate].
Defined.

Lemma bb84_qiskit_empty_key_witness :
  bb84_key_distribution BB84Qiskit lab_init 1 rnd_mismatch (fun _ => 0) (1 # 50)%Q =
    Raise (ValueError "invalid literal for int() with base 2").
Proof.
  apply bb84_qiskit_empty_key; [exact shots_ok_mismatch | reflexivity].
Defined.

End Witnesses.
