(* ===== verification/QRNG.v ===== *)
(** * Quantum random number generator

    [quantum_random_number_generator(num_bits)] of the three labs:
    - "qiskit quantum.py" (lines 254-281): H on each of [num_bits] qubits
      of [QuantumCircuit(num_bits, num_bits)], [measure_all()], one shot;
      the key [max(counts.keys())] is read with [int(random_bits, 2)] and
      [hex(int(random_bits, 2))[2:].upper()];
    - "cirqa quantum.py" (lines 264-289): the same circuit measured under
      key 'random', the row joined into a string, qubit 0 first; an empty
      string gives decimal 0 and hex '0';
    - "qsharp quantum lab.py" (lines 335-372): [num_bits] calls of
      [random.randint(0, 1)] joined into a string, read as in Cirq.

    The circuit puts the register in the uniform superposition: every
    [num_bits]-bit outcome has probability [1 / 2^num_bits]
    ([qrng_uniform]).  The Cirq and Q# labs return the drawn bits and a
    decimal and hexadecimal rendering that read back to the same number;
    the Qiskit lab raises ValueError on every run, because the key of
    [measure_all()] on a circuit with a classical register holds a space. *)

From Stdlib Require Import String Ascii ZArith List Lia Bool Arith.
From S2P Require Import Prelude Cyclo Gates Statevector Bitstring.
Import ListNotations.

(** [for i in range(num_bits): circuit.h(i)] *)
Definition hadamard_all (n : nat) : circuit := map GH (seq 0 n).

(** The dict the generator returns. *)
Record qrng_result := QrngResult {
  qr_bits : nat;
  qr_binary : string;
  qr_decimal : nat;
  qr_hex : string;
  qr_entropy : nat;
  qr_source : string;
  qr_framework : option string
}.

(** Python's truth value of a string. *)
Definition py_truthy (s : string) : bool :=
  match s with EmptyString => false | _ => true end.

(** ['decimal'] and ['hex'] of the Cirq and Q# labs. *)
Definition qrng_decimal (random_bits : string) : res nat :=
  if py_truthy random_bits then py_int_base2 random_bits else Ok 0.

Definition qrng_hex (random_bits : string) : res string :=
  if py_truthy random_bits then let* v := py_int_base2 random_bits in Ok (py_hex_upper v)
  else Ok "0"%string.

(** [QiskitQuantumLab.quantum_random_number_generator]; [shot] is the
    basis state of the one shot. *)
Definition qiskit_qrng (num_bits shot : nat) : res qrng_result :=
  let* s := run num_bits (hadamard_all num_bits) in
  let random_bits := qiskit_key_measure_all num_bits num_bits shot in
  let* decimal := py_int_base2 random_bits in
  let* v := py_int_base2 random_bits in
  Ok (QrngResult num_bits random_bits decimal (py_hex_upper v) num_bits
                 "Quantum Superposition" None).

(** [CirqQuantumLab.quantum_random_number_generator] *)
Definition cirq_qrng (num_bits shot : nat) : res qrng_result :=
  let* s := run num_bits (hadamard_all num_bits) in
  let random_bits := cirq_key num_bits shot in
  let* decimal := qrng_decimal random_bits in
  let* hex := qrng_hex random_bits in
  Ok (QrngResult num_bits random_bits decimal hex num_bits
                 "Cirq Quantum Superposition" (Some "Cirq"%string)).

(** [QSharpQuantumLab.quantum_random_number_generator]: [rnd i] is the
    [i]-th [random.randint(0, 1)]. *)
Definition qsharp_qrng (num_bits : nat) (rnd : nat -> bool) : res qrng_result :=
  let random_bits := string_of_bits (draws rnd 0 num_bits) in
  let* decimal := qrng_decimal random_bits in
  let* hex := qrng_hex random_bits in
  Ok (QrngResult num_bits random_bits decimal hex num_bits
                 "Q# Quantum Superposition" (Some "Q#"%string)).

(** The register after H on qubits [0 .. m-1] of |0...0>: amplitude 1
    (over sqrt2^m) on the indices whose bits [m ..] are all 0. *)
Definition layer (m j : nat) : cyc := if j / 2 ^ m =? 0 then cone else czero.

(** ** Lemmas *)

Lemma div_pow2_flip j m : flip j m / 2 ^ m = Nat.lxor (j / 2 ^ m) 1.
Proof.
  apply Nat.bits_inj. intros i. unfold flip.
  rewrite Nat.div_pow2_bits, !Nat.lxor_spec, Nat.div_pow2_bits, Nat.pow2_bits_eqb.
  change 1 with (2 ^ 0). rewrite Nat.pow2_bits_eqb. f_equal.
  destruct (Nat.eqb_spec m (i + m)), (Nat.eqb_spec 0 i); lia || reflexivity.
Qed.

Lemma bit_div_pow2 j m : bit j m = Nat.testbit (j / 2 ^ m) 0.
Proof. unfold bit. now rewrite Nat.div_pow2_bits. Qed.

Lemma div_pow2_succ j m : j / 2 ^ S m = j / 2 ^ m / 2.
Proof. rewrite Nat.pow_succ_r', Nat.mul_comm, Nat.Div0.div_div. reflexivity. Qed.

(** H on qubit [m] turns [layer m] into [layer (S m)]. *)
Lemma hadamard_layer m j :
  act1 1 1 1 (cneg cone) m (layer m) j = layer (S m) j.
Proof.
  unfold act1, layer. rewrite div_pow2_flip, bit_div_pow2, div_pow2_succ.
  destruct (j / 2 ^ m) as [|[|r]] eqn:Q; [reflexivity | reflexivity |].
  destruct (Nat.eqb_spec (Nat.lxor (S (S r)) 1) 0) as [E|_];
    [rewrite Nat.lxor_eq_0_iff in E; exfalso; lia|].
  destruct (Nat.eqb_spec (S (S r) / 2) 0) as [E|_];
    [rewrite Nat.div_small_iff in E by lia; exfalso; lia|].
  destruct (Nat.testbit _ 0); reflexivity.
Qed.

Lemma layer_0 j : layer 0 j = if j =? 0 then cone else czero.
Proof. unfold layer. now rewrite Nat.pow_0_r, Nat.div_1_r. Qed.

Lemma apply_hadamard_layer n m :
  m < n -> apply_gate (GH m) (QS n m (tabulate n (layer m))) = Ok (QS n (S m) (tabulate n (layer (S m)))).
Proof.
  intros Hm. unfold apply_gate. cbn [qs_n qs_k gate_qubits forallb nodupb existsb gate_action].
  destruct (Nat.ltb_spec m n); [|lia]. cbn [andb negb]. rewrite Nat.add_1_r. do 2 f_equal.
  unfold tabulate at 1 3. apply map_ext_in. intros j Hj. apply in_seq in Hj.
  rewrite <- hadamard_layer. unfold act1.
  rewrite !amp_tabulate by (try apply flip_lt; lia). reflexivity.
Qed.

Lemma run_hadamard_prefix n m :
  m <= n -> run n (map GH (seq 0 m)) = Ok (QS n m (tabulate n (layer m))).
Proof.
  induction m as [|m IH]; intros Hm.
  - unfold run, init_state. cbn. do 2 f_equal. unfold tabulate. apply map_ext. intros j.
    now rewrite layer_0.
  - unfold run in *. rewrite seq_S, map_app, run_from_app, IH by lia. cbn [res_bind run_from map].
    rewrite apply_hadamard_layer by lia. reflexivity.
Qed.

(** The uniform superposition of [n] qubits. *)
Lemma run_hadamard_all n : run n (hadamard_all n) = Ok (QS n n (tabulate n (fun _ => cone))).
Proof.
  unfold hadamard_all. rewrite run_hadamard_prefix by lia. do 2 f_equal.
  unfold tabulate. apply map_ext_in. intros j Hj. apply in_seq in Hj. unfold layer.
  destruct (Nat.eqb_spec (j / 2 ^ n) 0) as [_|E]; [reflexivity|].
  exfalso. apply E, Nat.div_small. lia.
Qed.

Lemma qrng_decimal_bits l : l <> [] -> qrng_decimal (string_of_bits l) = Ok (be_value l 0).
Proof.
  intros Hl. unfold qrng_decimal. destruct l as [|b l]; [contradiction|].
  exact (py_int_base2_bits (b :: l) ltac:(discriminate)).
Qed.

Lemma qrng_hex_bits l : l <> [] -> qrng_hex (string_of_bits l) = Ok (py_hex_upper (be_value l 0)).
Proof.
  intros Hl. unfold qrng_hex. destruct l as [|b l]; [contradiction|].
  change (py_truthy (string_of_bits (b :: l))) with true. cbv iota.
  now rewrite (py_int_base2_bits (b :: l)) by discriminate.
Qed.

Lemma be_value_lt l : be_value l 0 < 2 ^ length l.
Proof.
  rewrite <- (rev_involutive l). induction (rev l) as [|b r IH]; [cbn; lia|].
  cbn [rev].
  assert (E : forall l1 l2 acc, be_value (l1 ++ l2) acc = be_value l2 (be_value l1 acc))
    by (induction l1; cbn; auto).
  rewrite E, length_app. cbn [length be_value]. rewrite Nat.pow_add_r, Nat.pow_1_r.
  destruct b; cbn [Nat.b2n]; lia.
Qed.

Lemma be_value_app l1 l2 acc : be_value (l1 ++ l2) acc = be_value l2 (be_value l1 acc).
Proof. revert acc; induction l1; cbn; auto. Qed.

Lemma be_value_rev_inj r s :
  length r = length s -> be_value (rev r) 0 = be_value (rev s) 0 -> r = s.
Proof.
  revert s; induction r as [|a r IH]; intros [|b s] Hl Hv; cbn in Hl; try discriminate; [reflexivity|].
  cbn [rev] in Hv. rewrite !be_value_app in Hv. cbn [be_value] in Hv. injection Hl as Hl.
  pose proof (be_value_lt (rev r)) as B1. pose proof (be_value_lt (rev s)) as B2.
  rewrite length_rev in B1, B2.
  assert (a = b) as <- by (destruct a, b; cbn [Nat.b2n] in Hv; auto; exfalso; lia).
  f_equal. apply IH; [exact Hl | destruct a; cbn [Nat.b2n] in Hv; lia].
Qed.

Lemma be_value_inj l1 l2 : length l1 = length l2 -> be_value l1 0 = be_value l2 0 -> l1 = l2.
Proof.
  intros Hl Hv. rewrite <- (rev_involutive l1), <- (rev_involutive l2).
  f_equal. apply be_value_rev_inj; [now rewrite !length_rev | now rewrite !rev_involutive].
Qed.

Lemma bits_le_inj n j1 j2 : j1 < 2 ^ n -> j2 < 2 ^ n -> bits_le n j1 = bits_le n j2 -> j1 = j2.
Proof.
  intros H1 H2 E. rewrite <- (Nat.mod_small j1 (2 ^ n)), <- (Nat.mod_small j2 (2 ^ n)) by assumption.
  rewrite <- !be_value_bits, E. reflexivity.
Qed.

Lemma cirq_qrng_Ok n shot : 1 <= n ->
  cirq_qrng n shot = Ok (QrngResult n (cirq_key n shot) (be_value (bits_le n shot) 0)
                           (py_hex_upper (be_value (bits_le n shot) 0)) n
                           "Cirq Quantum Superposition" (Some "Cirq"%string)).
Proof.
  intros Hn. assert (Hne : bits_le n shot <> []).
  { intros E. apply (f_equal (@length bool)) in E. rewrite length_bits_le in E. cbn in E. lia. }
  unfold cirq_qrng. rewrite run_hadamard_all. cbn [res_bind]. unfold cirq_key.
  rewrite qrng_decimal_bits, qrng_hex_bits by exact Hne. reflexivity.
Qed.

(** ** Theorems *)

(** H on every qubit of |0...0> gives the uniform
    superposition: every [n]-bit outcome is possible, each with
    probability [1 / 2^n]. *)
Theorem qrng_uniform n :
  exists s, run n (hadamard_all n) = Ok s /\ qs_k s = n /\ outcomes s = basis n /\
    forall j, j < 2 ^ n -> prob_num s j = cone.
Proof.
  eexists. split; [apply run_hadamard_all|]. split; [reflexivity|]. split.
  - unfold outcomes. apply filter_all. intros j Hj. unfold basis in Hj. apply in_seq in Hj.
    apply possible_spec. cbn [qs_n]. rewrite amp_tabulate by lia. split; [lia | discriminate].
  - intros j Hj. unfold prob_num. rewrite amp_tabulate by exact Hj. reflexivity.
Qed.

(** The Qiskit lab's generator raises ValueError on every
    run with at least one bit: [measure_all()] on [QuantumCircuit(n, n)]
    gives keys such as '1011 0000', and [int(random_bits, 2)] rejects the
    space. *)
Theorem qiskit_qrng_raises n shot :
  1 <= n -> qiskit_qrng n shot = Raise (ValueError "invalid literal for int() with base 2"%string).
Proof.
  intros Hn. unfold qiskit_qrng. rewrite run_hadamard_all. cbn [res_bind].
  rewrite py_int_base2_measure_all by lia. reflexivity.
Qed.

(** The Cirq lab's generator returns the measured bits, and
    its decimal and hexadecimal renderings are the same number below
    [2^num_bits]; distinct shots give distinct numbers, so the number is
    as uniform as the shot. *)
Theorem cirq_qrng_spec n shot :
  1 <= n -> shot < 2 ^ n ->
  exists r, cirq_qrng n shot = Ok r /\ qr_binary r = cirq_key n shot /\
    String.length (qr_binary r) = n /\ qr_decimal r < 2 ^ n /\
    hex_value (qr_hex r) 0 = Some (qr_decimal r) /\ qr_entropy r = n /\
    forall shot' r', shot' < 2 ^ n -> cirq_qrng n shot' = Ok r' ->
      qr_decimal r' = qr_decimal r -> shot' = shot.
Proof.
  intros Hn Hs. eexists. split; [now apply cirq_qrng_Ok|]. cbn [qr_binary qr_decimal qr_hex qr_entropy].
  split; [reflexivity|]. split; [unfold cirq_key; now rewrite string_length_bits, length_bits_le|].
  split; [rewrite <- (length_bits_le n shot) at 2; apply be_value_lt|].
  split; [apply hex_value_py_hex_upper|]. split; [reflexivity|].
  intros shot' r' Hs' E Hd. rewrite cirq_qrng_Ok in E by exact Hn. injection E as <-.
  cbn [qr_decimal] in Hd.
  apply bits_le_inj with n; auto. apply be_value_inj; [now rewrite !length_bits_le | exact Hd].
Qed.

(** The Q# lab's generator returns the drawn bits and
    renderings of the same number below [2^num_bits]. *)
Theorem qsharp_qrng_spec n rnd :
  1 <= n ->
  exists r, qsharp_qrng n rnd = Ok r /\ qr_binary r = string_of_bits (draws rnd 0 n) /\
    qr_decimal r < 2 ^ n /\ hex_value (qr_hex r) 0 = Some (qr_decimal r).
Proof.
  intros Hn. assert (Hne : draws rnd 0 n <> []).
  { intros E. apply (f_equal (@length bool)) in E. rewrite length_draws in E. cbn in E. lia. }
  unfold qsharp_qrng. rewrite qrng_decimal_bits, qrng_hex_bits by exact Hne. cbn [res_bind].
  eexists. split; [reflexivity|]. cbn [qr_binary qr_decimal qr_hex]. split; [reflexivity|].
  split; [rewrite <- (length_draws rnd 0 n) at 2; apply be_value_lt | apply hex_value_py_hex_upper].
Qed.

(** ** Witnesses *)

Lemma qiskit_qrng_raises_witness :
  qiskit_qrng 4 5 = Raise (ValueError "invalid literal for int() with base 2"%string).
Proof. apply qiskit_qrng_raises. lia. Defined.

Lemma cirq_qrng_spec_witness :
  exists r, cirq_qrng 4 5 = Ok r /\ qr_binary r = "1010"%string /\ qr_decimal r = 10 /\
            qr_hex r = "A"%string.
Proof.
  destruct (cirq_qrng_spec 4 5) as (r & E & _); [lia | cbn; lia |].
  exists r. rewrite E. rewrite cirq_qrng_Ok in E by lia. injection E as <-. auto.
Defined.

Lemma qsharp_qrng_spec_witness :
  exists r, qsharp_qrng 8 (fun i => Nat.even i) = Ok r /\ qr_decimal r < 256.
Proof.
  destruct (qsharp_qrng_spec 8 (fun i => Nat.even i)) as (r & E & _ & Hd & _); [lia|]. eauto.
Defined.
