(* ===== verification/QSharp.v ===== *)
(** * The Q# laboratory: circuit registry and classical simulation

    [QSharpQuantumLab] ("quantum implementations/qsharp quantum lab.py")
    has no simulator: [create_quantum_circuit] renders the tokens as Q#
    statements (the list [gate_operations] and the program text
    [qsharp_code]) and [execute_circuit] runs a classical simulation of
    its own, a list [state] of 0/1 integers in which "H" draws
    [random.choice([0, 1])], "X" flips, "CNOT" flips the target when the
    control is 1 and every other token is ignored.

    This file models the Q# lab's state, [create_quantum_circuit] with the
    exact program text, [execute_circuit] with the draws of
    [random.choice] as an input ([rnd k] is the [k]-th draw of the call),
    [create_bell_state], [get_circuit_info], [list_circuits] and
    [get_system_status].  The theorems compare it with the Qiskit lab: the
    Q# operations are the Q# rendering of the circuit the Qiskit binder
    builds from the same tokens, and on circuits without "H" and "Y" the
    classical simulation returns the one outcome of the quantum run
    ([Classical.v]); with "H" or "Y" it does not. *)

From Stdlib Require Import Ascii String ZArith QArith List Lia Bool.
From stdpp Require Import gmap list.
From S2P Require Import Prelude Cyclo Gates Statevector Unitarity Classical Bitstring Histogram Lab.
Import ListNotations.
#[local] Close Scope Q_scope.
#[local] Open Scope string_scope.

Module Circuits.

(** ** Python helpers *)

(** [str.replace(a, b)] for single characters. *)
Fixpoint py_replace (a b : Ascii.ascii) (s : string) : string :=
  match s with
  | EmptyString => EmptyString
  | String c s' => String (if Ascii.eqb c a then b else c) (py_replace a b s')
  end.

(** [l[i]] on a list: IndexError out of range. *)
Definition py_getitem {A} (l : list A) (i : nat) : res A :=
  match l !! i with Some x => Ok x | None => Raise IndexError end.

(** [l[i] = v] on a list: IndexError out of range. *)
Definition py_setitem {A} (l : list A) (i : nat) (v : A) : res (list A) :=
  if (i <? List.length l)%nat then Ok (<[i := v]> l) else Raise IndexError.

(** [''.join(map(str, state))] *)
Fixpoint py_join_str (st : list Z) : string :=
  match st with
  | [] => EmptyString
  | x :: st' => py_str_int x ++ py_join_str st'
  end.

(** ** State *)

(** The dict [self.circuits[circuit_id]]. *)
Record qsharp_entry := QSharpEntry {
  qe_id : nat;
  qe_name : string;
  qe_num_qubits : nat;
  qe_gates : list string;
  qe_gate_operations : list string;
  qe_qsharp_code : string;
  qe_created_at : string
}.

(** [__init__]: [self.circuits], [self.molecules], [self.crypto_keys]
    ([self.quantum_operations] is never read or written again). *)
Record qsharp_lab := QSharpLabState {
  qs_circuits : gmap nat qsharp_entry;
  qs_molecules : gmap nat molecule_entry;
  qs_crypto_keys : gmap nat key_data
}.

Definition qsharp_lab_init : qsharp_lab := QSharpLabState ∅ ∅ ∅.

(** ** [create_quantum_circuit] *)

(** The opening of [qsharp_code]. *)
Definition qsharp_header (name : string) (num_qubits : nat) : string :=
  String.concat nl [
    EmptyString;
    "        namespace QuantumLab {";
    "            open Microsoft.Quantum.Canon;";
    "            open Microsoft.Quantum.Intrinsic;";
    "            open Microsoft.Quantum.Measurement;";
    "            ";
    "            operation " ++ py_replace " "%char "_"%char name ++ "() : Result[] {";
    "                use qubits = Qubit[" ++ py_str_nat num_qubits ++ "];";
    "                mutable results = new Result[" ++ py_str_nat num_qubits ++ "];";
    "                ";
    "                // Apply quantum gates";
    "        "].

(** The closing of [qsharp_code]; [{num_qubits-1}] is a Python int. *)
Definition qsharp_footer (num_qubits : nat) : string :=
  String.concat nl [
    EmptyString;
    "                ";
    "                // Measure all qubits";
    "                for i in 0.." ++ py_str_int (Z.of_nat num_qubits - 1) ++ " {";
    "                    set results w/= i <- M(qubits[i]);";
    "                }";
    "                ";
    "                return results;";
    "            }";
    "        }";
    "        "].

Definition indent16 : string := "                ".

(** One branch of the if-chain on [gate.upper()]: the entry appended to
    [gate_operations] and the text appended to [qsharp_code], or [None]
    when no branch matches. *)
Definition qsharp_gate_op (n q : nat) (gate : string) : option (string * string) :=
  let g := py_upper gate in
  let qi := py_str_nat q in
  if String.eqb g "H" then
    Some ("H(qubits[" ++ qi ++ "]);", nl ++ indent16 ++ "H(qubits[" ++ qi ++ "]);")
  else if String.eqb g "X" then
    Some ("X(qubits[" ++ qi ++ "]);", nl ++ indent16 ++ "X(qubits[" ++ qi ++ "]);")
  else if String.eqb g "Y" then
    Some ("Y(qubits[" ++ qi ++ "]);", nl ++ indent16 ++ "Y(qubits[" ++ qi ++ "]);")
  else if String.eqb g "Z" then
    Some ("Z(qubits[" ++ qi ++ "]);", nl ++ indent16 ++ "Z(qubits[" ++ qi ++ "]);")
  else if String.eqb g "CNOT" && (1 <? n)%nat then
    let ti := py_str_nat ((q + 1) mod n) in
    Some ("CNOT(qubits[" ++ qi ++ "], qubits[" ++ ti ++ "]);",
          nl ++ indent16 ++ "CNOT(qubits[" ++ qi ++ "], qubits[" ++ ti ++ "]);")
  else if String.eqb g "RZ" then
    Some ("Rz(PI()/4.0, qubits[" ++ qi ++ "]);",
          nl ++ indent16 ++ "Rz(PI()/4.0, qubits[" ++ qi ++ "]);")
  else None.

(** [for i, gate in enumerate(gates): qubit_idx = i % num_qubits; ...]
    accumulating [gate_operations] and [qsharp_code]. *)
Fixpoint qsharp_gate_loop (n i : nat) (gates : list string) (ops : list string)
    (code : string) : res (list string * string) :=
  match gates with
  | [] => Ok (ops, code)
  | gate :: gates' =>
      let* q := py_mod i n in
      match qsharp_gate_op n q gate with
      | Some (op, line) => qsharp_gate_loop n (S i) gates' (ops ++ [op]) (code ++ line)
      | None => qsharp_gate_loop n (S i) gates' ops code
      end
  end.

(** The dict returned by [create_quantum_circuit]. *)
Record qsharp_create_result := QSharpCreateResult {
  qr_id : nat;
  qr_name : string;
  qr_num_qubits : nat;
  qr_gates : list string;
  qr_qsharp_code : string;
  qr_operations : list string
}.

Definition qsharp_create_quantum_circuit (l : qsharp_lab) (name : string) (num_qubits : nat)
    (gates : list string) (created_at : string) : res (qsharp_lab * qsharp_create_result) :=
  let* r := qsharp_gate_loop num_qubits 0 gates [] (qsharp_header name num_qubits) in
  let ops := fst r in
  let code := snd r ++ qsharp_footer num_qubits in
  let cid := S (size (qs_circuits l)) in
  let e := QSharpEntry cid name num_qubits gates ops code created_at in
  Ok (QSharpLabState (<[cid := e]> (qs_circuits l)) (qs_molecules l) (qs_crypto_keys l),
      QSharpCreateResult cid name num_qubits gates code ops).


(** ** [execute_circuit]: the classical simulation *)

(** One gate of the simulation on qubit [q]: [rnd k] is the [k]-th
    [random.choice([0, 1])] of the call (true for 1); the result is the
    new [state] and the number of draws made so far. *)
Definition qsharp_sim_gate (n q : nat) (gate : string) (rnd : nat -> bool)
    (state : list Z) (k : nat) : res (list Z * nat) :=
  let g := py_upper gate in
  if String.eqb g "H" then
    let* st := py_setitem state q (Z.b2z (rnd k)) in Ok (st, S k)
  else if String.eqb g "X" then
    let* v := py_getitem state q in
    let* st := py_setitem state q (1 - v)%Z in Ok (st, k)
  else if String.eqb g "CNOT" && (1 <? n)%nat then
    let control := q in
    let target := (q + 1) mod n in
    let* c := py_getitem state control in
    if (c =? 1)%Z then
      let* v := py_getitem state target in
      let* st := py_setitem state target (1 - v)%Z in Ok (st, k)
    else Ok (state, k)
  else Ok (state, k).

(** [for i, gate in enumerate(gates): qubit_idx = i % num_qubits; ...] *)
Fixpoint qsharp_sim_gates (n i : nat) (gates : list string) (rnd : nat -> bool)
    (state : list Z) (k : nat) : res (list Z * nat) :=
  match gates with
  | [] => Ok (state, k)
  | gate :: gates' =>
      let* q := py_mod i n in
      let* r := qsharp_sim_gate n q gate rnd state k in
      qsharp_sim_gates n (S i) gates' rnd (fst r) (snd r)
  end.

(** [for _ in range(shots)]: a fresh [state = [0] * num_qubits] per shot,
    its bitstring counted in [counts]. *)
Fixpoint qsharp_shots (n : nat) (gates : list string) (rnd : nat -> bool) (shots k : nat)
    (c : counts) : res (counts * nat) :=
  match shots with
  | O => Ok (c, k)
  | S m =>
      let* r := qsharp_sim_gates n 0 gates rnd (replicate n 0%Z) k in
      qsharp_shots n gates rnd m (snd r) (counts_incr c (py_join_str (fst r)))
  end.

(** The dict returned by [execute_circuit]; its [statevector] is
    [2**num_qubits] random complex numbers, normalized, and is not
    modelled. *)
Record qsharp_exec_result := QSharpExecResult {
  qx_circuit_id : nat;
  qx_shots : nat;
  qx_counts : counts;
  qx_probabilities : list (string * Q)
}.

Definition qsharp_execute_circuit (l : qsharp_lab) (circuit_id shots : nat)
    (rnd : nat -> bool) : res qsharp_exec_result :=
  match qs_circuits l !! circuit_id with
  | None => Raise (ValueError ("Circuit " ++ py_str_nat circuit_id ++ " not found"))
  | Some e =>
      let* r := qsharp_shots (qe_num_qubits e) (qe_gates e) rnd shots 0 [] in
      Ok (QSharpExecResult circuit_id shots (fst r) (probabilities (fst r) shots))
  end.

(** ** [create_bell_state] *)

(** The dict returned by [create_bell_state] (its Q# text is a constant
    and its fidelity a floating-point square root; neither is modelled). *)
Record qsharp_bell_result := QSharpBellResult {
  qb_name : string;
  qb_counts : counts;
  qb_entanglement : Q
}.

(** [random.choice(['00', '11'])] 1000 times; [rnd i] is the [i]-th draw
    (true for '11'). *)
Definition qsharp_bell_keys (rnd : nat -> bool) : list string :=
  map (fun i => if rnd i then "11" else "00") (seq 0 1000).

Definition qsharp_create_bell_state (rnd : nat -> bool) : res qsharp_bell_result :=
  let c := build_counts (qsharp_bell_keys rnd) in
  let* ent := calculate_entanglement c in
  Ok (QSharpBellResult "Bell State" c ent).

(** ** Registry queries *)

(** The dict returned by [get_circuit_info]. *)
Record qsharp_info := QSharpInfo {
  qi_id : nat;
  qi_name : string;
  qi_num_qubits : nat;
  qi_gates : list string;
  qi_operations : list string;
  qi_qsharp_code : string
}.

Definition qsharp_get_circuit_info (l : qsharp_lab) (circuit_id : nat) : res qsharp_info :=
  match qs_circuits l !! circuit_id with
  | None => Raise (ValueError ("Circuit " ++ py_str_nat circuit_id ++ " not found"))
  | Some e => Ok (QSharpInfo (qe_id e) (qe_name e) (qe_num_qubits e) (qe_gates e)
                            (qe_gate_operations e) (qe_qsharp_code e))
  end.

(** [[self.get_circuit_info(cid) for cid in self.circuits.keys()]]: the
    keys in insertion order, which is [1 .. len] under the registry
    invariant. *)
Definition qsharp_list_circuits (l : qsharp_lab) : res (list qsharp_info) :=
  res_mapM (qsharp_get_circuit_info l) (seq 1 (size (qs_circuits l))).

(** [get_system_status()]: the sizes of the three dicts and
    [max_qubits = 50]. *)
Definition qsharp_get_system_status (l : qsharp_lab) : nat * nat * nat * nat :=
  (size (qs_circuits l), size (qs_molecules l), size (qs_crypto_keys l), 50).


(** ** The Q# rendering of a bound gate *)

(** The Q# statement of a gate of the Qiskit binder ([Lab.bind_gate]). *)
Definition qsharp_render (g : gate_op) : string :=
  match g with
  | GH q => "H(qubits[" ++ py_str_nat q ++ "]);"
  | GX q => "X(qubits[" ++ py_str_nat q ++ "]);"
  | GY q => "Y(qubits[" ++ py_str_nat q ++ "]);"
  | GZ q => "Z(qubits[" ++ py_str_nat q ++ "]);"
  | GCX c t => "CNOT(qubits[" ++ py_str_nat c ++ "], qubits[" ++ py_str_nat t ++ "]);"
  | GRZ _ q => "Rz(PI()/4.0, qubits[" ++ py_str_nat q ++ "]);"
  | _ => EmptyString
  end.

(** The program lines of a list of operations. *)
Fixpoint qsharp_lines (ops : list string) : string :=
  match ops with
  | [] => EmptyString
  | op :: ops' => nl ++ indent16 ++ op ++ qsharp_lines ops'
  end.

Lemma qsharp_gate_op_bind n q gate :
  qsharp_gate_op n q gate =
  option_map (fun g => (qsharp_render g, nl ++ indent16 ++ qsharp_render g)) (bind_gate n q gate).
Proof.
  unfold qsharp_gate_op, bind_gate.
  repeat match goal with |- context [if ?c then _ else _] => destruct c end; reflexivity.
Qed.

Lemma qsharp_gate_loop_bind n i gates ops code :
  qsharp_gate_loop n i gates ops code =
  res_map (fun c => ((ops ++ map qsharp_render c)%list, code ++ qsharp_lines (map qsharp_render c)))
          (bind_gates n i gates).
Proof.
  revert i ops code; induction gates as [|gate gates IH]; intros i ops code; cbn.
  - now rewrite app_nil_r, str_app_nil_r.
  - destruct (py_mod i n) as [q|e]; cbn; [|reflexivity].
    rewrite qsharp_gate_op_bind.
    destruct (bind_gate n q gate) as [g|]; cbn; rewrite IH;
      destruct (bind_gates n (S i) gates) as [c|e]; cbn; try reflexivity.
    now rewrite <- app_assoc, !str_app_assoc.
Qed.

(** ** The simulation on basis states *)

(** The simulation's [state] list of the basis state [j]: qubit [q] is
    bit [q] of [j]. *)
Definition qsharp_state_of (n j : nat) : list Z := (fun q => Z.b2z (bit j q)) <$> seq 0 n.

Lemma qsharp_state_lookup n j q :
  qsharp_state_of n j !! q = if (q <? n)%nat then Some (Z.b2z (bit j q)) else None.
Proof.
  unfold qsharp_state_of. rewrite list_lookup_fmap.
  destruct (Nat.ltb_spec q n); [rewrite lookup_seq_lt | rewrite lookup_seq_ge]; auto.
Qed.

Lemma length_qsharp_state n j : List.length (qsharp_state_of n j) = n.
Proof. unfold qsharp_state_of. now rewrite length_fmap, length_seq. Qed.

Lemma qsharp_state_flip n j t :
  (t < n)%nat -> <[t := (1 - Z.b2z (bit j t))%Z]> (qsharp_state_of n j) = qsharp_state_of n (flip j t).
Proof.
  intros Ht. apply list_eq. intros i. destruct (decide (i = t)) as [->|Hne].
  - rewrite list_lookup_insert_eq by (now rewrite length_qsharp_state).
    rewrite qsharp_state_lookup, bit_flip_same. destruct (Nat.ltb_spec t n); [|lia].
    now destruct (bit j t).
  - rewrite list_lookup_insert_ne by auto. rewrite !qsharp_state_lookup, bit_flip_other; auto.
Qed.

Lemma qsharp_state_zero n : replicate n 0%Z = qsharp_state_of n 0.
Proof.
  apply list_eq. intros i. rewrite qsharp_state_lookup. unfold bit. rewrite Nat.bits_0.
  destruct (Nat.ltb_spec i n).
  - now apply lookup_replicate_2.
  - apply lookup_replicate_None. lia.
Qed.

Lemma py_join_qsharp_state n j : py_join_str (qsharp_state_of n j) = cirq_key n j.
Proof.
  unfold qsharp_state_of, cirq_key, bits_le. generalize (seq 0 n). intros l.
  induction l as [|q l IH]; [reflexivity|]. cbn [fmap list_fmap map py_join_str string_of_bits].
  rewrite IH. now destruct (bit j q).
Qed.

Lemma py_getitem_state n j q : (q < n)%nat -> py_getitem (qsharp_state_of n j) q = Ok (Z.b2z (bit j q)).
Proof. intros Hq. unfold py_getitem. rewrite qsharp_state_lookup. now destruct (Nat.ltb_spec q n); [|lia]. Qed.

Lemma py_setitem_in {A} (l : list A) i v : (i < List.length l)%nat -> py_setitem l i v = Ok (<[i := v]> l).
Proof. intros H. unfold py_setitem. now destruct (Nat.ltb_spec i (List.length l)); [|lia]. Qed.

Lemma succ_mod_lt q n : (1 < n)%nat -> ((q + 1) mod n < n)%nat.
Proof. intros Hn. apply Nat.mod_upper_bound. lia. Qed.

(** The gate a token binds to, as a permutation of the basis. *)
Definition bound_sigma (n q : nat) (gate : string) (j : nat) : nat :=
  match bind_gate n q gate with Some g => classical_sigma g j | None => j end.

(** A token other than "H" and "Y" moves the simulation's state as the
    bound gate moves the basis state. *)
Lemma qsharp_sim_gate_classical n q gate rnd j k :
  (q < n)%nat -> py_upper gate <> "H" -> py_upper gate <> "Y" ->
  qsharp_sim_gate n q gate rnd (qsharp_state_of n j) k = Ok (qsharp_state_of n (bound_sigma n q gate j), k).
Proof.
  intros Hq NH NY. unfold qsharp_sim_gate, bound_sigma, bind_gate.
  set (g := py_upper gate) in *.
  destruct (String.eqb_spec g "H"); [contradiction|].
  destruct (String.eqb_spec g "X").
  - rewrite py_getitem_state by exact Hq. cbn [res_bind].
    rewrite py_setitem_in by (now rewrite length_qsharp_state). cbn. now rewrite qsharp_state_flip.
  - destruct (String.eqb_spec g "Y"); [contradiction|].
    destruct (String.eqb_spec g "Z") as [EZ|]; [now rewrite EZ|].
    destruct (String.eqb g "CNOT" && (1 <? n)%nat) eqn:EC.
    + apply andb_true_iff in EC as [_ Hn%Nat.ltb_lt].
      rewrite py_getitem_state by exact Hq. cbn [res_bind classical_sigma].
      destruct (bit j q); cbn [Z.b2z Z.eqb]; [|reflexivity].
      rewrite py_getitem_state by (now apply succ_mod_lt). cbn [res_bind].
      rewrite py_setitem_in by (rewrite length_qsharp_state; now apply succ_mod_lt).
      now rewrite qsharp_state_flip by (now apply succ_mod_lt).
    + now destruct (String.eqb g "RZ").
Qed.

Lemma bind_gate_classical n q gate g :
  py_upper gate <> "H" -> bind_gate n q gate = Some g -> is_classical g = true.
Proof.
  intros NH. unfold bind_gate.
  destruct (String.eqb_spec (py_upper gate) "H"); [contradiction|].
  repeat match goal with |- context [if ?c then _ else _] => destruct c end;
  intros [= <-]; reflexivity.
Qed.

(** On tokens other than "H" and "Y" the simulation follows the bound
    circuit as a permutation of the basis. *)
Lemma qsharp_sim_gates_classical n i gates rnd j k :
  (0 < n)%nat -> Forall (fun g => py_upper g <> "H" /\ py_upper g <> "Y") gates ->
  exists c, bind_gates n i gates = Ok c /\ forallb is_classical c = true /\
    qsharp_sim_gates n i gates rnd (qsharp_state_of n j) k = Ok (qsharp_state_of n (classical_run c j), k).
Proof.
  intros Hn Hg. revert i j; induction Hg as [|gate gates [NH NY] Hg IH]; intros i j.
  - exists []. auto.
  - cbn [bind_gates qsharp_sim_gates]. rewrite py_mod_pos by lia. cbn [res_bind].
    assert (Hq : (i mod n < n)%nat) by (apply Nat.mod_upper_bound; lia).
    rewrite qsharp_sim_gate_classical by assumption. cbn [res_bind fst snd].
    destruct (IH (S i) (bound_sigma n (i mod n) gate j)) as (c & Hc & Hcl & Hs).
    rewrite Hc, Hs. cbn [res_bind]. unfold bound_sigma in Hs |- *.
    destruct (bind_gate n (i mod n) gate) as [g|] eqn:Eb.
    + exists (g :: c). cbn [forallb]. rewrite (bind_gate_classical _ _ _ _ NH Eb). auto.
    + exists c. auto.
Qed.

(** The shots when every shot makes [d] draws and ends in [f k] from the
    draw counter [k]. *)
Lemma qsharp_shots_draws n gates rnd d (f : nat -> list Z) shots k c :
  (forall k, qsharp_sim_gates n 0 gates rnd (replicate n 0%Z) k = Ok (f k, k + d)%nat) ->
  qsharp_shots n gates rnd shots k c =
  Ok (fold_left counts_incr (map (fun i => py_join_str (f (k + d * i)%nat)) (seq 0 shots)) c,
      (k + d * shots)%nat).
Proof.
  intros H. revert k c; induction shots as [|m IH]; intros k c; cbn [qsharp_shots].
  - f_equal. f_equal. lia.
  - rewrite H. cbn [res_bind fst snd]. rewrite IH.
    cbn [seq map fold_left]. rewrite <- seq_shift, map_map, Nat.mul_0_r, Nat.add_0_r.
    f_equal. f_equal; [|lia]. f_equal. apply map_ext. intros i. do 2 f_equal. lia.
Qed.

Lemma map_const_seq {A} (x : A) a m : map (fun _ => x) (seq a m) = repeat x m.
Proof. revert a; induction m as [|m IH]; intros a; cbn; [reflexivity | now rewrite IH]. Qed.

Lemma py_join_bit (b : bool) : py_join_str [Z.b2z b] = if b then "1" else "0".
Proof. now destruct b. Qed.

(** ** Theorems *)

(** the Q# lab's [create_quantum_circuit] agrees with the Qiskit
    and Cirq binder on the same tokens: it fails exactly when the binder
    fails, with the same exception (ZeroDivisionError for zero qubits), and
    otherwise its [operations] are the Q# statements of the bound gates in
    order and its [qsharp_code] is the header, one line per operation and
    the measurement footer. *)
Theorem qsharp_create_matches_binder l name n gates t :
  match qsharp_create_quantum_circuit l name n gates t, bind_gates n 0 gates with
  | Ok (_, r), Ok c =>
      qr_operations r = map qsharp_render c /\
      qr_qsharp_code r = qsharp_header name n ++ qsharp_lines (qr_operations r) ++ qsharp_footer n
  | Raise e, Raise e' => e = e'
  | _, _ => False
  end.
Proof.
  unfold qsharp_create_quantum_circuit. rewrite qsharp_gate_loop_bind.
  destruct (bind_gates n 0 gates) as [c|e]; cbn; [|reflexivity].
  split; [reflexivity|]. now rewrite str_app_assoc.
Qed.

(** on a stored circuit of at least one qubit whose tokens are not
    "H" or "Y", the Q# classical simulation is exact: the circuit the
    Qiskit and Cirq labs bind from the same tokens runs from |0...0> to a
    register with a single outcome [j], and every one of the Q# lab's
    shots is [j], counted under the Cirq key. *)
Theorem qsharp_execute_classical l cid e shots rnd :
  qs_circuits l !! cid = Some e -> (0 < qe_num_qubits e)%nat ->
  Forall (fun g => py_upper g <> "H" /\ py_upper g <> "Y") (qe_gates e) ->
  exists c s j r,
    bind_gates (qe_num_qubits e) 0 (qe_gates e) = Ok c /\
    run (qe_num_qubits e) c = Ok s /\ outcomes s = [j] /\
    qsharp_execute_circuit l cid shots rnd = Ok r /\
    qx_counts r = build_counts (repeat (cirq_key (qe_num_qubits e) j) shots).
Proof.
  intros He Hn Hg. set (n := qe_num_qubits e) in *.
  destruct (qsharp_sim_gates_classical n 0 (qe_gates e) rnd 0 0 Hn Hg) as (c & Hc & Hcl & _).
  destruct (bind_gates_wf n 0 (qe_gates e) c Hc) as [Hwf Ha].
  destruct (run_from_total c (init_state n) Hwf Ha) as (s & Hs & _).
  destruct (run_from_classical c (init_state n) s 0 (init_basis_state n) Hcl Hs) as [Hb _].
  set (j := classical_run c 0).
  assert (Hsim : forall k, qsharp_sim_gates n 0 (qe_gates e) rnd (replicate n 0%Z) k =
                           Ok ((fun _ => qsharp_state_of n j) k, (k + 0)%nat)).
  { intros k. rewrite qsharp_state_zero, Nat.add_0_r.
    destruct (qsharp_sim_gates_classical n 0 (qe_gates e) rnd 0 k Hn Hg) as (c' & Hc' & _ & Hs').
    rewrite Hc in Hc'. injection Hc' as <-. exact Hs'. }
  exists c, s, j. eexists. split; [exact Hc|]. split; [exact Hs|].
  split; [now apply basis_state_outcomes|].
  unfold qsharp_execute_circuit. rewrite He. fold n.
  rewrite (qsharp_shots_draws n (qe_gates e) rnd 0 _ shots 0 [] Hsim). cbn [res_bind fst].
  split; [reflexivity|]. cbn [qx_counts].
  now rewrite map_const_seq, py_join_qsharp_state.
Qed.

(** The Q# simulation is not the quantum circuit on "H": on one
    qubit, "H" twice is the identity, the circuit the Qiskit and Cirq labs
    bind runs to |0> with 0 its only outcome, but each Q# shot returns the
    second [random.choice] of the shot, so "1" is counted whenever that
    draw is 1. *)
Theorem qsharp_execute_hadamard_twice l cid e shots rnd :
  qs_circuits l !! cid = Some e -> qe_num_qubits e = 1%nat -> qe_gates e = ["H"; "H"] ->
  (exists c s, bind_gates 1 0 (qe_gates e) = Ok c /\ run 1 c = Ok s /\ outcomes s = [0%nat]) /\
  exists r, qsharp_execute_circuit l cid shots rnd = Ok r /\
    qx_counts r = build_counts (map (fun i => if rnd (2 * i + 1)%nat then "1" else "0") (seq 0 shots)).
Proof.
  intros He Hn Hg. split.
  - rewrite Hg. do 2 eexists. split; [reflexivity|]. split; [reflexivity|]. vm_compute. reflexivity.
  - unfold qsharp_execute_circuit. rewrite He, Hn, Hg.
    rewrite (qsharp_shots_draws 1 ["H"; "H"] rnd 2 (fun k => [Z.b2z (rnd (S k))]) shots 0 []).
    + eexists. split; [reflexivity|]. cbn [qx_counts fst].
      unfold build_counts. f_equal. apply map_ext. intros i. rewrite py_join_bit. now replace (S (0 + 2 * i)) with (2 * i + 1)%nat by lia.
    + intros k. rewrite Nat.add_comm. vm_compute. reflexivity.
Qed.

(** the Q# simulation ignores "Y": on one qubit the bound circuit
    [Y(0)] runs to |1>, whose only outcome is 1, but every Q# shot is
    "0". *)
Theorem qsharp_execute_ignores_y l cid e shots rnd :
  qs_circuits l !! cid = Some e -> qe_num_qubits e = 1%nat -> qe_gates e = ["Y"] ->
  (exists c s, bind_gates 1 0 (qe_gates e) = Ok c /\ run 1 c = Ok s /\ outcomes s = [1%nat]) /\
  exists r, qsharp_execute_circuit l cid shots rnd = Ok r /\ qx_counts r = build_counts (repeat "0" shots).
Proof.
  intros He Hn Hg. split.
  - rewrite Hg. do 2 eexists. split; [reflexivity|]. split; [reflexivity|]. vm_compute. reflexivity.
  - unfold qsharp_execute_circuit. rewrite He, Hn, Hg.
    rewrite (qsharp_shots_draws 1 ["Y"] rnd 0 (fun _ => [0%Z]) shots 0 []).
    + eexists. split; [reflexivity|]. cbn [qx_counts fst]. unfold build_counts. now rewrite map_const_seq.
    + intros k. rewrite Nat.add_0_r. vm_compute. reflexivity.
Qed.

(** The Q# lab's Bell experiment counts 1000 draws, all of them
    "00" or "11", and reports entanglement 1 whatever the draws. *)
Theorem qsharp_create_bell_state_spec rnd :
  exists r, qsharp_create_bell_state rnd = Ok r /\ (qb_entanglement r == 1)%Q /\
    counts_total (qb_counts r) = 1000%nat /\
    Forall (fun k => k = "00" \/ k = "11") (map fst (qb_counts r)).
Proof.
  assert (Hk : Forall (fun k => k = "00" \/ k = "11") (qsharp_bell_keys rnd)).
  { apply Forall_map, List.Forall_forall. intros i _. destruct (rnd i); auto. }
  assert (Hl : List.length (qsharp_bell_keys rnd) = 1000%nat).
  { unfold qsharp_bell_keys. now rewrite length_map, length_seq. }
  set (c := build_counts (qsharp_bell_keys rnd)).
  assert (Ht : counts_total c = 1000%nat) by (unfold c; now rewrite counts_total_build).
  destruct (calculate_entanglement_full c) as (q & Hq & Hq1).
  - rewrite Ht. discriminate.
  - unfold c. rewrite !counts_get_build, occurrences_two, counts_total_build by (auto; discriminate).
    reflexivity.
  - exists (QSharpBellResult "Bell State" c q). unfold qsharp_create_bell_state. fold c. rewrite Hq.
    split; [reflexivity|]. split; [exact Hq1|]. split; [exact Ht|].
    apply List.Forall_forall. intros k Hin. apply in_keys_build in Hin.
    rewrite List.Forall_forall in Hk. auto.
Qed.

(** ** Witnesses *)

Section Witnesses.

(** A lab after [create_quantum_circuit(name, n, gates)] on a fresh lab. *)
Definition qsharp_demo_lab (n : nat) (gates : list string) : qsharp_lab :=
  match qsharp_create_quantum_circuit qsharp_lab_init "Demo" n gates "t" with
  | Ok (l, _) => l
  | Raise _ => qsharp_lab_init
  end.

Lemma qsharp_execute_classical_witness :
  exists e, qs_circuits (qsharp_demo_lab 2 ["X"; "CNOT"; "z"]) !! 1%nat = Some e /\
  exists c s j r,
    bind_gates (qe_num_qubits e) 0 (qe_gates e) = Ok c /\
    run (qe_num_qubits e) c = Ok s /\ outcomes s = [j] /\
    qsharp_execute_circuit (qsharp_demo_lab 2 ["X"; "CNOT"; "z"]) 1 3 (fun _ => true) = Ok r /\
    qx_counts r = build_counts (repeat (cirq_key (qe_num_qubits e) j) 3).
Proof.
  eexists. split; [reflexivity|].
  apply (qsharp_execute_classical _ 1 _ 3 (fun _ => true)); [reflexivity | cbn; lia |].
  repeat constructor; cbn; discriminate.
Defined.

Lemma qsharp_execute_hadamard_twice_witness :
  exists e, qs_circuits (qsharp_demo_lab 1 ["H"; "H"]) !! 1%nat = Some e /\
  ((exists c s, bind_gates 1 0 (qe_gates e) = Ok c /\ run 1 c = Ok s /\ outcomes s = [0%nat]) /\
   exists r, qsharp_execute_circuit (qsharp_demo_lab 1 ["H"; "H"]) 1 2 Nat.odd = Ok r /\
     qx_counts r = build_counts (map (fun i => if Nat.odd (2 * i + 1)%nat then "1" else "0") (seq 0 2))).
Proof.
  eexists. split; [reflexivity|].
  apply (qsharp_execute_hadamard_twice _ 1 _ 2 Nat.odd); reflexivity.
Defined.

Lemma qsharp_execute_ignores_y_witness :
  exists e, qs_circuits (qsharp_demo_lab 1 ["Y"]) !! 1%nat = Some e /\
  ((exists c s, bind_gates 1 0 (qe_gates e) = Ok c /\ run 1 c = Ok s /\ outcomes s = [1%nat]) /\
   exists r, qsharp_execute_circuit (qsharp_demo_lab 1 ["Y"]) 1 4 (fun _ => true) = Ok r /\
     qx_counts r = build_counts (repeat "0" 4)).
Proof.
  eexists. split; [reflexivity|].
  apply (qsharp_execute_ignores_y _ 1 _ 4 (fun _ => true)); reflexivity.
Defined.

End Witnesses.

End Circuits.
