(* ===== verification/Molecule.v ===== *)
(** * Molecular simulation: [simulate_molecule] of the three labs

    [QiskitQuantumLab.simulate_molecule] ("qiskit quantum.py" 131-181),
    [CirqQuantumLab.simulate_molecule] ("cirqa quantum.py" 143-193) and
    [QSharpQuantumLab.simulate_molecule] ("qsharp quantum lab.py"
    197-259) share one table of four molecules keyed by lower-case name
    and raise [ValueError] for any other name.  The Qiskit and Cirq labs
    build the same circuit (H and CNOT on every electron pair, then
    [rz(pi * T / 1000)] and [ry(pi * P / 10)] per bond), run it and
    register an entry under [len(self.molecules) + 1]; the Q# lab writes a
    Q# operation with the same loops and registers its text.

    The properties dict is a mix of random draws and floating-point
    formulas ([_calculate_molecular_properties]); it is an input of the
    model.  The rotation coefficients [T / 1000] and [P / 10] are exact
    rationals; [mol_exact_circuit] gives the circuit in the gate library
    when they are dyadic, so the simulator of [Statevector.v] runs it.

    Theorems: the error and registration behaviour of the three labs, the
    well-formedness of every molecular circuit and its run to a normalized
    register (so the energy [-sum |amp|^2 * 100] is [-100]), and the
    equivalence of the Q# operation's loops with the Qiskit/Cirq circuit. *)

From Stdlib Require Import String Ascii ZArith QArith List Lia Bool ZifyNat.
From stdpp Require Import gmap.
From S2P Require Import Prelude Gates Statevector Unitarity Lab QSharp.
Import ListNotations.
#[local] Close Scope Q_scope.

(** ** The molecule table *)

Record mol_data := MolData { md_atoms : list string; md_bonds : nat; md_qubits : nat }.

(** The dict [molecules] of [simulate_molecule], in its order. *)
Definition molecules_table : list (string * mol_data) :=
  [("h2o", MolData ["H"; "H"; "O"] 2 6);
   ("co2", MolData ["C"; "O"; "O"] 2 6);
   ("nh3", MolData ["N"; "H"; "H"; "H"] 3 8);
   ("ch4", MolData ["C"; "H"; "H"; "H"; "H"] 4 10)]%string.

(** [molecules[key]] when [key in molecules]. *)
Definition lookup_molecule (key : string) : option mol_data :=
  option_map snd (find (fun kv => String.eqb (fst kv) key) molecules_table).

(** Python's [str.lower] on ASCII strings. *)
Definition ascii_lower (c : ascii) : ascii :=
  let n := nat_of_ascii c in
  if (65 <=? n) && (n <=? 90) then ascii_of_nat (n + 32) else c.

Fixpoint py_lower (s : string) : string :=
  match s with
  | EmptyString => EmptyString
  | String c s' => String (ascii_lower c) (py_lower s')
  end.

(** ** The circuit *)

(** [range(0, n, 2)] *)
Definition range_step2 (n : nat) : list nat := map (Nat.mul 2) (seq 0 ((n + 1) / 2)).

(** The circuit of the Qiskit and Cirq labs (lines 150-160 of the Qiskit
    file, 163-173 of the Cirq file). *)
Definition molecule_circuit (d : mol_data) (temperature pressure : Q) : list mol_gate :=
  let num_qubits := md_qubits d in
  flat_map (fun i => MolH i :: (if i + 1 <? num_qubits then [MolCX i (i + 1)] else []))
           (range_step2 num_qubits) ++
  flat_map (fun bond =>
              if bond * 2 + 1 <? num_qubits
              then [MolRZ (temperature / 1000)%Q (bond * 2); MolRY (pressure / 10)%Q (bond * 2 + 1)]
              else [])
           (seq 0 (md_bonds d)).

(** A coefficient [c] of pi as an angle of the gate library: [c = a / 2^k]
    after dividing out the gcd. *)
Definition q_angle (c : Q) : option angle :=
  let g := Z.gcd (Qnum c) (Zpos (Qden c)) in
  let num := (Qnum c / g)%Z in
  let den := (Zpos (Qden c) / g)%Z in
  let k := Z.log2 den in
  if (2 ^ k =? den)%Z then Some (Angle num (Z.to_nat k)) else None.

Definition mol_gate_op (g : mol_gate) : option gate_op :=
  match g with
  | MolH q => Some (GH q)
  | MolCX c t => Some (GCX c t)
  | MolRZ c q => option_map (fun a => GRZ a q) (q_angle c)
  | MolRY c q => option_map (fun a => GRY a q) (q_angle c)
  end.

Fixpoint mol_exact_circuit (gs : list mol_gate) : option circuit :=
  match gs with
  | [] => Some []
  | g :: gs' =>
      match mol_gate_op g, mol_exact_circuit gs' with
      | Some op, Some c => Some (op :: c)
      | _, _ => None
      end
  end.

(** The qubits a gate acts on. *)
Definition mol_gate_qubits (g : mol_gate) : list nat :=
  match g with
  | MolH q | MolRZ _ q | MolRY _ q => [q]
  | MolCX c t => [c; t]
  end.

Definition mol_wf (n : nat) (gs : list mol_gate) : bool :=
  forallb (fun g => forallb (fun q => q <? n) (mol_gate_qubits g) && nodupb (mol_gate_qubits g)) gs.

(** ** The Q# operation *)

(** Q#'s [for i in 0..hi]: empty when [hi < 0]. *)
Definition qs_range_to (hi : Z) : list nat := seq 0 (Z.to_nat (hi + 1)).

(** The gates [SimulateXMolecule] applies (lines 224-236). *)
Definition qsharp_molecule_gates (d : mol_data) (temperature pressure : Q) : list mol_gate :=
  flat_map (fun i => [MolH (2 * i); MolCX (2 * i) (2 * i + 1)])
           (qs_range_to (Z.of_nat (md_qubits d / 2) - 1)) ++
  flat_map (fun bond => [MolRZ (temperature / 1000)%Q (bond * 2);
                         MolRY (pressure / 10)%Q (bond * 2 + 1)])
           (qs_range_to (Z.of_nat (md_bonds d) - 1)).

(** The text [qsharp_code] (lines 214-242). *)
Definition qsharp_molecule_code (molecule_type : string) (d : mol_data) : string :=
  "
        namespace QuantumChemistry {
            open Microsoft.Quantum.Canon;
            open Microsoft.Quantum.Intrinsic;
            open Microsoft.Quantum.Chemistry;
            
            operation Simulate"
  ++ py_upper molecule_type
  ++ "Molecule(temperature : Double, pressure : Double) : Double {
                use qubits = Qubit["
  ++ py_str_nat (md_qubits d)
  ++ "];
                mutable energy = 0.0;
                
                // Initialize molecular orbitals
                for i in 0.."
  ++ py_str_int (Z.of_nat (md_qubits d / 2) - 1)
  ++ " {
                    H(qubits[2*i]);
                    CNOT(qubits[2*i], qubits[2*i+1]);
                }
                
                // Apply temperature and pressure effects
                for bond in 0.."
  ++ py_str_int (Z.of_nat (md_bonds d) - 1)
  ++ " {
                    Rz(PI() * temperature / 1000.0, qubits[bond*2]);
                    Ry(PI() * pressure / 10.0, qubits[bond*2+1]);
                }
                
                // Measure energy expectation value
                // (In real implementation, this would use quantum chemistry libraries)
                
                return energy;
            }
        }
        ".

(** ** The three methods *)

(** [ValueError(f"Molecule {molecule_type} not supported")] *)
Definition molecule_unsupported (molecule_type : string) : py_exc :=
  ValueError ("Molecule " ++ molecule_type ++ " not supported").

(** [QiskitQuantumLab.simulate_molecule] and [CirqQuantumLab.simulate_molecule]:
    the circuit is executed (its statevector feeds the properties, an
    input here) and the entry registered under [len(self.molecules) + 1]. *)
Definition simulate_molecule (l : lab) (molecule_type : string) (temperature pressure : Q)
    (properties : list (string * Q)) : res (lab * molecule_entry) :=
  match lookup_molecule (py_lower molecule_type) with
  | None => Raise (molecule_unsupported molecule_type)
  | Some d =>
      let circuit := molecule_circuit d temperature pressure in
      let molecule_id := S (size (molecules l)) in
      let e := MoleculeEntry molecule_id molecule_type (md_atoms d) properties
                             (MolCircuit circuit) temperature pressure in
      Ok (Lab (circuits l) (<[molecule_id := e]> (molecules l)) (crypto_keys l), e)
  end.

(** [QSharpQuantumLab.simulate_molecule]: the Q# text is registered, not run. *)
Definition qsharp_simulate_molecule (l : Circuits.qsharp_lab) (molecule_type : string)
    (temperature pressure : Q) (properties : list (string * Q))
    : res (Circuits.qsharp_lab * molecule_entry) :=
  match lookup_molecule (py_lower molecule_type) with
  | None => Raise (molecule_unsupported molecule_type)
  | Some d =>
      let molecule_id := S (size (Circuits.qs_molecules l)) in
      let e := MoleculeEntry molecule_id molecule_type (md_atoms d) properties
                             (MolQSharp (qsharp_molecule_code molecule_type d)) temperature pressure in
      Ok (Circuits.QSharpLabState (Circuits.qs_circuits l)
            (<[molecule_id := e]> (Circuits.qs_molecules l)) (Circuits.qs_crypto_keys l), e)
  end.

(** ** Lemmas *)

Lemma forallb_flat_map {A B} (f : B -> bool) (g : A -> list B) l :
  forallb f (flat_map g l) = forallb (fun x => forallb f (g x)) l.
Proof. induction l as [|x l IH]; cbn; [reflexivity|]. now rewrite forallb_app, IH. Qed.

Lemma flat_map_ext_in {A B} (f g : A -> list B) l :
  (forall x, In x l -> f x = g x) -> flat_map f l = flat_map g l.
Proof.
  induction l as [|x l IH]; intros E; cbn; [reflexivity|].
  rewrite E by now left. f_equal. apply IH. intros y Hy. apply E. now right.
Qed.

Lemma in_range_step2 n i : In i (range_step2 n) -> exists k, i = 2 * k /\ 2 * k < n.
Proof.
  unfold range_step2. rewrite in_map_iff. intros (k & <- & Hk). apply in_seq in Hk.
  exists k. split; [reflexivity|].
  pose proof (Nat.div_mod (n + 1) 2 ltac:(lia)). pose proof (Nat.mod_upper_bound (n + 1) 2 ltac:(lia)).
  lia.
Qed.

(** Every molecular circuit is well formed on its register, whatever
    the table says: the guards [i + 1 < num_qubits] and
    [bond * 2 + 1 < num_qubits] keep every index in range. *)
Lemma molecule_circuit_mol_wf d T P : mol_wf (md_qubits d) (molecule_circuit d T P) = true.
Proof.
  unfold mol_wf, molecule_circuit. rewrite forallb_app, !forallb_flat_map. apply andb_true_intro. split.
  - apply forallb_forall. intros i Hi. apply in_range_step2 in Hi as (k & -> & Hk).
    apply Nat.ltb_lt in Hk.
    destruct (2 * k + 1 <? md_qubits d) eqn:E; cbn [forallb mol_gate_qubits nodupb existsb andb negb];
      rewrite ?Hk, ?E; [|reflexivity].
    replace (2 * k =? 2 * k + 1) with false by (symmetry; apply Nat.eqb_neq; lia). reflexivity.
  - apply forallb_forall. intros b _. destruct (b * 2 + 1 <? md_qubits d) eqn:E; [|reflexivity].
    apply Nat.ltb_lt in E. cbn [forallb mol_gate_qubits nodupb existsb andb negb].
    rewrite (proj2 (Nat.ltb_lt (b * 2) _)), (proj2 (Nat.ltb_lt (b * 2 + 1) _)) by lia.
    replace (b * 2 =? b * 2 + 1) with false by (symmetry; apply Nat.eqb_neq; lia). reflexivity.
Qed.

Lemma mol_gate_op_qubits g op : mol_gate_op g = Some op -> gate_qubits op = mol_gate_qubits g.
Proof.
  destruct g; cbn; intros E; try (injection E as <-; reflexivity);
    destruct (q_angle c); cbn in E; try discriminate; now injection E as <-.
Qed.

Lemma mol_exact_circuit_wf n gs c :
  mol_wf n gs = true -> mol_exact_circuit gs = Some c -> wf_circuit n c = true.
Proof.
  revert c; induction gs as [|g gs IH]; intros c Hw E; cbn in E.
  - now injection E as <-.
  - unfold mol_wf in Hw. cbn [forallb] in Hw. apply andb_true_iff in Hw as [Hg Hw].
    destruct (mol_gate_op g) as [op|] eqn:Eg; [|discriminate].
    destruct (mol_exact_circuit gs) as [c'|] eqn:Ec; [|discriminate]. injection E as <-.
    unfold wf_circuit. cbn [forallb]. unfold wf_gate. rewrite (mol_gate_op_qubits g op Eg), Hg.
    now apply IH.
Qed.

Lemma mol_exact_circuit_Forall (P : gate_op -> Prop) gs c :
  (forall g op, In g gs -> mol_gate_op g = Some op -> P op) ->
  mol_exact_circuit gs = Some c -> Forall P c.
Proof.
  revert c; induction gs as [|g gs IH]; intros c HP E; cbn in E.
  - now injection E as <-.
  - destruct (mol_gate_op g) as [op|] eqn:Eg; [|discriminate].
    destruct (mol_exact_circuit gs) as [c'|] eqn:Ec; [|discriminate]. injection E as <-.
    constructor; [eapply HP; [now left | exact Eg]|].
    apply IH; [|reflexivity]. intros g' op' H'. apply HP. now right.
Qed.

Lemma mol_exact_circuit_total gs :
  (forall g, In g gs -> mol_gate_op g <> None) -> exists c, mol_exact_circuit gs = Some c.
Proof.
  induction gs as [|g gs IH]; intros H; cbn; [eauto|].
  destruct (mol_gate_op g) as [op|] eqn:Eg; [|exfalso; apply (H g); [now left | exact Eg]].
  destruct IH as (c & ->); [intros g' Hg'; apply H; now right|]. eauto.
Qed.

(** The gates of a molecular circuit: H, CNOT and the two rotations. *)
Lemma molecule_circuit_gates d T P g :
  In g (molecule_circuit d T P) ->
  (exists q, g = MolH q) \/ (exists c t, g = MolCX c t) \/
  (exists q, g = MolRZ (T / 1000)%Q q) \/ (exists q, g = MolRY (P / 10)%Q q).
Proof.
  unfold molecule_circuit. rewrite in_app_iff, !in_flat_map. intros [(i & _ & Hg) | (b & _ & Hg)].
  - destruct Hg as [<- | Hg]; [left; eauto|].
    destruct (i + 1 <? md_qubits d); [|contradiction]. destruct Hg as [<- | []]. right; left; eauto.
  - destruct (b * 2 + 1 <? md_qubits d); [|contradiction].
    destruct Hg as [<- | [<- | []]]; right; right; [left | right]; eauto.
Qed.

(** A rotation whose angle is a multiple of pi/4 is exact in the gate library. *)
Lemma rotation_exact a q :
  (ang_log2den a <= 2)%nat ->
  gate_action (GRZ a q) <> None /\ gate_action (GRY a q) <> None.
Proof.
  intros Ha. assert (E : exists e, phase_exp (half_angle a) = Some e).
  { unfold phase_exp, half_angle. cbn [ang_log2den ang_num].
    rewrite (proj2 (Nat.leb_le _ _)) by lia. eauto. }
  destruct E as [e E]. cbn [gate_action]. rewrite E. split; discriminate.
Qed.

Lemma flat_map_map {A B C} (f : B -> list C) (g : A -> B) l :
  flat_map f (map g l) = flat_map (fun x => f (g x)) l.
Proof. induction l as [|x l IH]; cbn; [reflexivity|]. now rewrite IH. Qed.

Lemma qs_range_to_seq m : qs_range_to (Z.of_nat m - 1) = seq 0 m.
Proof. unfold qs_range_to. f_equal. lia. Qed.

(** The Q# loops and the Python loops build the same gates on an even
    register that holds every bond. *)
Lemma qsharp_molecule_gates_even d T P m :
  md_qubits d = 2 * m -> 2 * md_bonds d <= md_qubits d ->
  qsharp_molecule_gates d T P = molecule_circuit d T P.
Proof.
  intros Hm Hb. unfold qsharp_molecule_gates, molecule_circuit, range_step2. rewrite Hm in *.
  replace (2 * m / 2) with m by lia. replace ((2 * m + 1) / 2) with m by lia.
  rewrite !qs_range_to_seq, flat_map_map. f_equal; apply flat_map_ext_in; intros i Hi; apply in_seq in Hi.
  - now rewrite (proj2 (Nat.ltb_lt (2 * i + 1) (2 * m))) by lia.
  - now rewrite (proj2 (Nat.ltb_lt (i * 2 + 1) (2 * m))) by lia.
Qed.

Lemma lookup_molecule_table key d :
  lookup_molecule key = Some d -> In (key, d) molecules_table.
Proof.
  unfold lookup_molecule. destruct (find _ _) as [[k d']|] eqn:E; cbn; [|discriminate].
  intros H; injection H as <-. apply find_some in E as [Hin Hk]. cbn in Hk.
  apply String.eqb_eq in Hk as <-. exact Hin.
Qed.

(** The four names of the table. *)
Definition molecule_names : list string := map fst molecules_table.

Lemma lookup_molecule_none key : lookup_molecule key = None <-> ~ In key molecule_names.
Proof.
  unfold lookup_molecule, molecule_names, molecules_table. cbn [find fst snd map In].
  repeat match goal with |- context [String.eqb ?a ?b] => destruct (String.eqb_spec a b) end;
    cbn [option_map]; split; intros H; try discriminate; try tauto; exfalso; apply H; tauto.
Qed.

(** ** Theorems *)

(** C17: names and registration.  In the Qiskit, Cirq and Q# labs
    [simulate_molecule] accepts a name exactly when its lower-case form is
    one of h2o, co2, nh3, ch4 (so "H2O" is accepted); every other name
    raises [ValueError("Molecule <name> not supported")], where the spec
    asks for a ConfigurationError, and leaves the lab unchanged.  An
    accepted call registers one entry, under [len(self.molecules) + 1],
    with the given name and the table's atoms, and changes nothing else. *)
Theorem simulate_molecule_names l ql name T P props :
  (~ In (py_lower name) molecule_names ->
     simulate_molecule l name T P props = Raise (ValueError ("Molecule " ++ name ++ " not supported")) /\
     qsharp_simulate_molecule ql name T P props = Raise (ValueError ("Molecule " ++ name ++ " not supported"))) /\
  (In (py_lower name) molecule_names ->
     exists d e e' ql',
       In (py_lower name, d) molecules_table /\
       simulate_molecule l name T P props =
         Ok (Lab (circuits l) (<[S (size (molecules l)) := e]> (molecules l)) (crypto_keys l), e) /\
       me_id e = S (size (molecules l)) /\ me_type e = name /\ me_atoms e = md_atoms d /\
       me_program e = MolCircuit (molecule_circuit d T P) /\
       qsharp_simulate_molecule ql name T P props = Ok (ql', e') /\
       Circuits.qs_molecules ql' = <[S (size (Circuits.qs_molecules ql)) := e']> (Circuits.qs_molecules ql) /\
       Circuits.qs_circuits ql' = Circuits.qs_circuits ql /\
       me_program e' = MolQSharp (qsharp_molecule_code name d)).
Proof.
  unfold simulate_molecule, qsharp_simulate_molecule. split.
  - intros Hn. apply lookup_molecule_none in Hn. now rewrite Hn.
  - intros Hi. destruct (lookup_molecule (py_lower name)) as [d|] eqn:E.
    + exists d. do 3 eexists. split; [exact (lookup_molecule_table _ _ E)|]. repeat split; reflexivity.
    + apply lookup_molecule_none in E. contradiction.
Qed.

(** C18: the Q# operation and the Python circuit agree.  For every
    molecule of the table, the loops of the Q# text the Q# lab registers
    ([for i in 0..n/2-1 { H; CNOT }], [for bond in 0..bonds-1 { Rz; Ry }])
    apply exactly the gates the Qiskit and Cirq labs append, in the same
    order: the Python guards [i + 1 < num_qubits] and
    [bond * 2 + 1 < num_qubits] never fire on the table's entries. *)
Theorem qsharp_molecule_equiv name d T P :
  lookup_molecule (py_lower name) = Some d ->
  qsharp_molecule_gates d T P = molecule_circuit d T P.
Proof.
  intros E. apply lookup_molecule_table in E. cbn in E.
  destruct E as [E|[E|[E|[E|[]]]]]; injection E as _ <-;
    [apply (qsharp_molecule_gates_even _ _ _ 3) | apply (qsharp_molecule_gates_even _ _ _ 3)
    | apply (qsharp_molecule_gates_even _ _ _ 4) | apply (qsharp_molecule_gates_even _ _ _ 5)];
    cbn; lia.
Qed.

(** C16: every molecular circuit runs.  For any molecule data and any
    temperature and pressure whose rotation angles [pi * T / 1000] and
    [pi * P / 10] are multiples of pi/4, the circuit the Qiskit and Cirq
    labs build is a well-formed circuit of the gate library on
    [num_qubits] qubits and runs from |0...0> to a normalized register,
    so the energy property [-np.sum(np.abs(statevector) ** 2) * 100] is
    exactly -100. *)
Theorem molecule_circuit_runs d T P a b :
  q_angle (T / 1000)%Q = Some a -> q_angle (P / 10)%Q = Some b ->
  ang_log2den a <= 2 -> ang_log2den b <= 2 ->
  exists c s, mol_exact_circuit (molecule_circuit d T P) = Some c /\
    wf_circuit (md_qubits d) c = true /\
    run (md_qubits d) c = Ok s /\ qs_n s = md_qubits d /\ normalized s.
Proof.
  intros Ea Eb Ha Hb.
  assert (Hop : forall g, In g (molecule_circuit d T P) ->
            exists op, mol_gate_op g = Some op /\ gate_action op <> None).
  { intros g Hg. apply molecule_circuit_gates in Hg as [(q & ->)|[(c & t & ->)|[(q & ->)|(q & ->)]]];
      cbn; rewrite ?Ea, ?Eb; cbn; eexists; (split; [reflexivity|]);
      [discriminate | discriminate | apply (rotation_exact a q Ha) | apply (rotation_exact b q Hb)]. }
  destruct (mol_exact_circuit_total (molecule_circuit d T P)) as (c & Ec).
  { intros g Hg. destruct (Hop g Hg) as (op & E & _). now rewrite E. }
  assert (Hwf : wf_circuit (md_qubits d) c = true)
    by exact (mol_exact_circuit_wf _ _ _ (molecule_circuit_mol_wf d T P) Ec).
  assert (Hex : Forall (fun g => gate_action g <> None) c).
  { eapply mol_exact_circuit_Forall; [|exact Ec]. intros g op Hg Eg.
    destruct (Hop g Hg) as (op' & E' & Ha'). congruence. }
  destruct (run_normalized (md_qubits d) c Hwf Hex c [] (eq_sym (app_nil_r c))) as (s & Hs & Hn & Hnorm).
  exists c, s. auto.
Qed.

Section Witnesses.

Lemma simulate_molecule_names_witness :
  simulate_molecule lab_init "Benzene" 300 1 [] =
    Raise (ValueError ("Molecule " ++ "Benzene" ++ " not supported")) /\
  exists d e e' ql',
    In (py_lower "H2O", d) molecules_table /\
    simulate_molecule lab_init "H2O" 300 1 [] = Ok (Lab ∅ (<[1 := e]> ∅) ∅, e) /\
    me_id e = 1 /\ me_type e = "H2O"%string /\ me_atoms e = md_atoms d /\
    me_program e = MolCircuit (molecule_circuit d 300 1) /\
    qsharp_simulate_molecule Circuits.qsharp_lab_init "H2O" 300 1 [] = Ok (ql', e') /\
    Circuits.qs_molecules ql' = <[1 := e']> ∅ /\ Circuits.qs_circuits ql' = ∅ /\
    me_program e' = MolQSharp (qsharp_molecule_code "H2O" d).
Proof.
  split.
  - refine (proj1 (proj1 (simulate_molecule_names lab_init Circuits.qsharp_lab_init "Benzene" 300 1 []) _)).
    vm_compute. intuition discriminate.
  - apply (proj2 (simulate_molecule_names lab_init Circuits.qsharp_lab_init "H2O" 300 1 [])).
    vm_compute. now left.
Defined.

Lemma qsharp_molecule_equiv_witness :
  lookup_molecule (py_lower "CH4") = Some (MolData ["C"; "H"; "H"; "H"; "H"]%string 4 10) /\
  qsharp_molecule_gates (MolData ["C"; "H"; "H"; "H"; "H"]%string 4 10) 300 1 =
  molecule_circuit (MolData ["C"; "H"; "H"; "H"; "H"]%string 4 10) 300 1.
Proof. split; [reflexivity | apply (qsharp_molecule_equiv "CH4"); reflexivity]. Defined.

Lemma molecule_circuit_runs_witness :
  q_angle (250 / 1000)%Q = Some (Angle 1 2) /\ q_angle ((5 # 2) / 10)%Q = Some (Angle 1 2) /\
  exists c s, mol_exact_circuit (molecule_circuit (MolData ["H"; "H"; "O"]%string 2 6) 250 (5 # 2)) = Some c /\
    wf_circuit 6 c = true /\ run 6 c = Ok s /\ qs_n s = 6 /\ normalized s.
Proof.
  split; [reflexivity|]. split; [reflexivity|].
  apply (molecule_circuit_runs (MolData ["H"; "H"; "O"]%string 2 6) 250 (5 # 2) (Angle 1 2) (Angle 1 2));
    [reflexivity | reflexivity | cbn; lia | cbn; lia].
Defined.

End Witnesses.
