(* ===== verification/Labs.v ===== *)
(** * The three labs behind one interface

    [QiskitQuantumLab], [CirqQuantumLab] and [QSharpQuantumLab] expose the
    same operations on the same three dicts.  The class [QuantumLab]
    states what a lab promises about its registries: [create_quantum_circuit],
    [simulate_molecule] ([Molecule.v]) and [bb84_key_distribution] add one
    entry under the next id of their dict and touch nothing else, [execute_circuit] changes nothing and raises on an
    unknown id; [execute_circuit] runs a stored circuit.  The Qiskit and
    Cirq labs are instances.

    Over the interface, a session is a sequence of calls; a call that
    raises leaves the lab as it was (every operation stores its entry as
    its last step).  [lab_step] is that step relation, [reachable] its
    closure from [__init__], and the theorems show by rule induction that
    the registry invariant holds in every reachable lab and that the
    registries are append-only (spec 3: "the registry is append-only, never
    mutates existing entries"). *)

From Stdlib Require Import String QArith List Lia.
From stdpp Require Import gmap.
From S2P Require Import Prelude Gates Statevector Unitarity Bitstring Histogram Lab Bell BB84 Molecule.
Import ListNotations.
#[local] Close Scope Q_scope.

(** ** The entry points of each lab *)

(** [CirqQuantumLab.create_quantum_circuit]: the same binder and
    registration as the Qiskit lab's. *)
Definition cirq_create_quantum_circuit : lab -> string -> nat -> list string -> string ->
    res (lab * create_result) := create_quantum_circuit.

Definition qiskit_execute_circuit : lab -> nat -> nat -> list nat -> res exec_result :=
  execute_circuit Qiskit.

Definition cirq_execute_circuit : lab -> nat -> nat -> list nat -> res exec_result :=
  execute_circuit Cirq.

Definition qiskit_bb84_key_distribution := bb84_key_distribution BB84Qiskit.
Definition cirq_bb84_key_distribution := bb84_key_distribution BB84Cirq.
Definition qsharp_bb84_key_distribution := bb84_key_distribution BB84QSharp.

(** ** The interface *)

Class QuantumLab := {
  lab_create : lab -> string -> nat -> list string -> string -> res (lab * create_result);
  lab_execute : lab -> nat -> nat -> list nat -> res exec_result;
  lab_bb84 : lab -> nat -> (nat -> bool) -> (nat -> nat) -> Q -> res (lab * key_data);
  lab_molecule : lab -> string -> Q -> Q -> list (string * Q) -> res (lab * molecule_entry);
  lab_create_appends : forall l name n gates t l' r,
    lab_create l name n gates t = Ok (l', r) ->
    exists e, circuits l' = <[S (size (circuits l)) := e]> (circuits l) /\ entry_ok e /\
              molecules l' = molecules l /\ crypto_keys l' = crypto_keys l;
  lab_bb84_appends : forall l k rnd shots u l' kd,
    lab_bb84 l k rnd shots u = Ok (l', kd) ->
    circuits l' = circuits l /\ molecules l' = molecules l /\
    crypto_keys l' = <[S (size (crypto_keys l)) := kd]> (crypto_keys l);
  lab_molecule_appends : forall l name T P props l' e,
    lab_molecule l name T P props = Ok (l', e) ->
    circuits l' = circuits l /\ molecules l' = <[S (size (molecules l)) := e]> (molecules l) /\
    crypto_keys l' = crypto_keys l;
  lab_execute_unknown : forall l i shots samples,
    circuits l !! i = None -> exists e, lab_execute l i shots samples = Raise e;
  lab_execute_runs : forall l i e shots samples,
    circuits l !! i = Some e -> entry_ok e ->
    exists er, lab_execute l i shots samples = Ok er /\
               run (ce_num_qubits e) (ce_circuit e) = Ok (er_statevector er)
}.

(** ** The Qiskit and Cirq labs are instances *)

Lemma bb84_key_distribution_appends fw l k rnd shots u l' kd :
  bb84_key_distribution fw l k rnd shots u = Ok (l', kd) ->
  circuits l' = circuits l /\ molecules l' = molecules l /\
  crypto_keys l' = <[S (size (crypto_keys l)) := kd]> (crypto_keys l).
Proof.
  intros E. apply bb84_key_distribution_Ok in E as (hex & eff & _ & _ & Ekd & ->).
  cbn. rewrite Ekd at 1. auto.
Qed.

Lemma simulate_molecule_appends l name T P props l' e :
  simulate_molecule l name T P props = Ok (l', e) ->
  circuits l' = circuits l /\ molecules l' = <[S (size (molecules l)) := e]> (molecules l) /\
  crypto_keys l' = crypto_keys l.
Proof.
  unfold simulate_molecule. destruct (lookup_molecule _); [|discriminate].
  intros E; injection E as <- <-. auto.
Qed.

Lemma execute_circuit_unknown fw l i shots samples :
  circuits l !! i = None -> exists e, execute_circuit fw l i shots samples = Raise e.
Proof. intros E. unfold execute_circuit. rewrite E. eauto. Qed.

#[export] Instance qiskit_lab : QuantumLab := {|
  lab_create := create_quantum_circuit;
  lab_execute := qiskit_execute_circuit;
  lab_bb84 := qiskit_bb84_key_distribution;
  lab_molecule := simulate_molecule;
  lab_molecule_appends := simulate_molecule_appends;
  lab_create_appends := create_quantum_circuit_entry;
  lab_bb84_appends := bb84_key_distribution_appends BB84Qiskit;
  lab_execute_unknown := execute_circuit_unknown Qiskit;
  lab_execute_runs := execute_circuit_entry Qiskit
|}.

#[export] Instance cirq_lab : QuantumLab := {|
  lab_create := cirq_create_quantum_circuit;
  lab_execute := cirq_execute_circuit;
  lab_bb84 := cirq_bb84_key_distribution;
  lab_molecule := simulate_molecule;
  lab_molecule_appends := simulate_molecule_appends;
  lab_create_appends := create_quantum_circuit_entry;
  lab_bb84_appends := bb84_key_distribution_appends BB84Cirq;
  lab_execute_unknown := execute_circuit_unknown Cirq;
  lab_execute_runs := execute_circuit_entry Cirq
|}.

(** One call of a session. *)
Inductive lab_op :=
| OpCreate (name : string) (num_qubits : nat) (gates : list string) (created_at : string)
| OpExecute (circuit_id shots : nat) (samples : list nat)
| OpBB84 (key_length : nat) (rnd : nat -> bool) (shots : nat -> nat) (u : Q)
| OpMolecule (molecule_type : string) (temperature pressure : Q) (properties : list (string * Q)).

Section Session.
Context `{QuantumLab}.

(** The lab after a call, or the exception it raised. *)
Definition lab_apply (l : lab) (op : lab_op) : res lab :=
  match op with
  | OpCreate name n gates t => let* p := lab_create l name n gates t in Ok (fst p)
  | OpExecute cid shots samples => let* _r := lab_execute l cid shots samples in Ok l
  | OpBB84 k rnd shots u => let* p := lab_bb84 l k rnd shots u in Ok (fst p)
  | OpMolecule name T P props => let* p := lab_molecule l name T P props in Ok (fst p)
  end.

Inductive lab_step : lab -> lab -> Prop :=
| step_ok l op l' : lab_apply l op = Ok l' -> lab_step l l'
| step_raise l op e : lab_apply l op = Raise e -> lab_step l l.

Inductive reachable : lab -> Prop :=
| reach_init : reachable lab_init
| reach_step l l' : reachable l -> lab_step l l' -> reachable l'.

(** A call changes the dicts by one insertion under the next id at most. *)
Lemma lab_step_cases l l' :
  lab_step l l' ->
  l' = l \/
  (exists e, circuits l' = <[S (size (circuits l)) := e]> (circuits l) /\ entry_ok e /\
             molecules l' = molecules l /\ crypto_keys l' = crypto_keys l) \/
  (exists kd, circuits l' = circuits l /\ molecules l' = molecules l /\
             crypto_keys l' = <[S (size (crypto_keys l)) := kd]> (crypto_keys l)) \/
  (exists me, circuits l' = circuits l /\ molecules l' = <[S (size (molecules l)) := me]> (molecules l) /\
             crypto_keys l' = crypto_keys l).
Proof.
  destruct 1 as [l op l' E | l op e E]; [|now left].
  destruct op as [name n gates t | cid shots samples | k rnd shots u | name T P props]; cbn in E.
  - destruct (lab_create l name n gates t) as [[l1 r]|] eqn:C; cbn in E; [|discriminate].
    injection E as <-. right; left. eapply lab_create_appends; eauto.
  - destruct (lab_execute l cid shots samples); cbn in E; [|discriminate].
    injection E as <-. now left.
  - destruct (lab_bb84 l k rnd shots u) as [[l1 kd]|] eqn:C; cbn in E; [|discriminate].
    injection E as <-. right; right; left. eexists. eapply lab_bb84_appends; eauto.
  - destruct (lab_molecule l name T P props) as [[l1 me]|] eqn:C; cbn in E; [|discriminate].
    injection E as <-. right; right; right. eexists. eapply lab_molecule_appends; eauto.
Qed.

Lemma lab_step_inv l l' : lab_inv l -> lab_step l l' -> lab_inv l'.
Proof.
  intros (Hc & Hm & Hk) Hs.
  destruct (lab_step_cases l l' Hs)
    as [-> | [(e & Ec & _ & Em & Ek) | [(kd & Ec & Em & Ek) | (me & Ec & Em & Ek)]]];
    unfold lab_inv; rewrite ?Ec, ?Em, ?Ek; auto using ids_consecutive_insert.
Qed.

Lemma lab_step_keeps l l' i :
  lab_inv l -> lab_step l l' ->
  (forall e, circuits l !! i = Some e -> circuits l' !! i = Some e) /\
  (forall me, molecules l !! i = Some me -> molecules l' !! i = Some me) /\
  (forall kd, crypto_keys l !! i = Some kd -> crypto_keys l' !! i = Some kd).
Proof.
  intros (Hc & Hm & Hk) Hs.
  assert (F : forall {V} (m : gmap nat V) v x, ids_consecutive m -> m !! i = Some x ->
                <[S (size m) := v]> m !! i = Some x).
  { intros V m v x Hm0 Hx. rewrite lookup_insert_ne; [exact Hx|].
    intros <-. rewrite (ids_consecutive_fresh _ Hm0) in Hx. discriminate. }
  destruct (lab_step_cases l l' Hs)
    as [-> | [(e & Ec & _ & Em & Ek) | [(kd & Ec & Em & Ek) | (me & Ec & Em & Ek)]]];
    rewrite ?Ec, ?Em, ?Ek; repeat split; intros x Hx; auto.
Qed.
End Session.

(** ** Theorems *)

(** Every stored circuit of a reachable lab can be run. *)
Lemma reachable_entries `{QuantumLab} l :
  reachable l -> forall i e, circuits l !! i = Some e -> entry_ok e.
Proof.
  induction 1 as [|l l' R IH Hs]; intros i x Hx; [cbn in Hx; rewrite lookup_empty in Hx; discriminate|].
  destruct (lab_step_cases l l' Hs)
    as [-> | [(e & Ec & He & _ & _) | [(kd & Ec & _ & _) | (me & Ec & _ & _)]]].
  - eauto.
  - rewrite Ec, lookup_insert_Some in Hx. destruct Hx as [[_ <-] | [_ Hx]]; eauto.
  - rewrite Ec in Hx. eauto.
  - rewrite Ec in Hx. eauto.
Qed.

(** C1: in every lab reachable from [__init__], executing any
    registered circuit succeeds and returns a statevector of the circuit's
    width whose total probability mass is 1 (spec 4.1, 8, Unitarity). *)
Theorem reachable_execute_normalized `{QuantumLab} l i e shots samples :
  reachable l -> circuits l !! i = Some e ->
  exists er, lab_execute l i shots samples = Ok er /\
    qs_n (er_statevector er) = ce_num_qubits e /\ normalized (er_statevector er).
Proof.
  intros R E. pose proof (reachable_entries l R i e E) as Hok.
  destruct (lab_execute_runs l i e shots samples E Hok) as (er & Hx & Hrun).
  destruct Hok as [Hwf Ha].
  destruct (run_normalized _ _ Hwf Ha (ce_circuit e) [] (eq_sym (app_nil_r _))) as (s' & Hs & Hn & Hnorm).
  rewrite Hrun in Hs. injection Hs as <-. eauto.
Qed.


Lemma reachable_step `{QuantumLab} l l' : reachable l -> lab_step l l' -> reachable l'.
Proof. intros R S. eapply reach_step; eauto. Qed.

(** In every lab reachable from [__init__] by any sequence
    of calls, successful or raising, the ids of each registry are exactly
    [1 .. len(dict)]. *)
Theorem reachable_lab_inv `{QuantumLab} l : reachable l -> lab_inv l.
Proof. induction 1; [apply lab_inv_init | eapply lab_step_inv; eauto]. Qed.

(** along any sequence of calls from a reachable lab, a
    stored circuit or key is never removed or changed. *)
Theorem reachable_append_only `{QuantumLab} l l' i :
  reachable l -> rtc lab_step l l' ->
  (forall e, circuits l !! i = Some e -> circuits l' !! i = Some e) /\
  (forall me, molecules l !! i = Some me -> molecules l' !! i = Some me) /\
  (forall kd, crypto_keys l !! i = Some kd -> crypto_keys l' !! i = Some kd).
Proof.
  intros R Hs. induction Hs as [l|l l1 l' S1 _ IH]; [auto|].
  destruct (lab_step_keeps l l1 i (reachable_lab_inv l R) S1) as (K1 & K2 & K3).
  destruct (IH (reachable_step l l1 R S1)) as (J1 & J2 & J3). auto.
Qed.

(** ** Witnesses *)

Section Witnesses.
#[local] Open Scope string_scope.

Lemma create_step_qiskit :
match create_quantum_circuit lab_init "Bell" 2 ["H"; "CNOT"] "t0" with
| Ok (l', _) => lab_step (H := qiskit_lab) lab_init l'
| Raise _ => False
end.
Proof.
destruct (create_quantum_circuit lab_init "Bell" 2 ["H"; "CNOT"] "t0") as [[l' r]|] eqn:E;
  [|vm_compute in E; discriminate E].
apply (step_ok lab_init (OpCreate "Bell" 2 ["H"; "CNOT"] "t0")).
unfold lab_apply. cbn [lab_create qiskit_lab]. rewrite E. reflexivity.
Defined.

Lemma reachable_lab_inv_witness :
match create_quantum_circuit lab_init "Bell" 2 ["H"; "CNOT"] "t0" with
| Ok (l', _) => lab_inv l'
| Raise _ => False
end.
Proof.
pose proof create_step_qiskit as S.
destruct (create_quantum_circuit lab_init "Bell" 2 ["H"; "CNOT"] "t0") as [[l' r]|]; [|contradiction].
apply (reachable_lab_inv (H := qiskit_lab)). exact (reach_step lab_init l' reach_init S).
Defined.

Lemma reachable_execute_normalized_witness :
match create_quantum_circuit lab_init "Bell" 2 ["H"; "CNOT"] "t0" with
| Ok (l', _) => exists e, circuits l' !! 1 = Some e /\
    exists er, qiskit_execute_circuit l' 1 1000 [0; 3] = Ok er /\ normalized (er_statevector er)
| Raise _ => False
end.
Proof.
pose proof create_step_qiskit as S.
destruct (create_quantum_circuit lab_init "Bell" 2 ["H"; "CNOT"] "t0") as [[l' r]|] eqn:E; [|contradiction].
destruct (circuits l' !! 1) as [e|] eqn:L; [|vm_compute in E; injection E as <- <-; discriminate L].
exists e. split; [reflexivity|].
destruct (reachable_execute_normalized (H := qiskit_lab) l' 1 e 1000 [0; 3]
            (reach_step lab_init l' reach_init S) L) as (er & Hx & _ & Hn).
eauto.
Defined.

Lemma reachable_append_only_witness :
match create_quantum_circuit lab_init "Bell" 2 ["H"; "CNOT"] "t0" with
| Ok (l', _) => forall e, circuits l' !! 1 = Some e -> circuits l' !! 1 = Some e
| Raise _ => False
end.
Proof.
pose proof create_step_qiskit as S.
destruct (create_quantum_circuit lab_init "Bell" 2 ["H"; "CNOT"] "t0") as [[l' r]|]; [|contradiction].
apply (reachable_append_only (H := qiskit_lab) l' l' 1); [|reflexivity].
exact (reach_step lab_init l' reach_init S).
Defined.

End Witnesses.
