(* ===== verification/QFT.v ===== *)
(** * The quantum Fourier transform

    Three builders of the QFT circuit appear in the repository:
    - [qiskit_qft] ("quantum app/views.py", [QuantumCircuitImplementations.qiskit_qft]):
      the recursion [qft_rotations] puts H on the highest untransformed
      qubit [m] and [cp(pi/2**(m-q), q, m)] from every lower qubit [q],
      then the qubit order is reversed by SWAPs (the form of spec 4.5);
    - [cirq_apply_qft] ("quantum implementations/cirqa quantum.py",
      [CirqQuantumLab._apply_qft] and the loop of
      [quantum_fourier_transform]): H on [qubits[i]] then
      [CZ(qubits[j], qubits[i]) ** (1/2**(j-i))] for [j > i], then SWAPs;
      [CZ ** t] is the controlled phase [pi t];
    - the Q# program text of [QSharpQuantumLab.quantum_fourier_transform],
      whose counts are drawn with [random.randint] instead.

    Angles [pi/2^d] are exact in the model for [d <= 3], so the laws are
    proved for registers of at most 4 qubits, where every gate is exact:
    the Qiskit builder computes the discrete Fourier transform of the
    little-endian index, the Cirq builder that of the big-endian index
    (Cirq's reading of a register), both circuits followed by their
    inverse give back any register, and the Cirq lab's experiment has the
    uniform distribution, of which the Q# lab's random counts are
    samples. *)

From Stdlib Require Import String ZArith List Lia Bool Setoid Morphisms.
From S2P Require Import Prelude Cyclo Gates Statevector Unitarity Inverse Bitstring Histogram.
Import ListNotations.
#[local] Open Scope qequiv_scope.

(** ** Builders *)

(** [qft_rotations(circuit, n)] of [qiskit_qft]. *)
Fixpoint qft_rotations (n : nat) : circuit :=
  match n with
  | O => []
  | S m => GH m :: map (fun qubit => GCP (pi_over_pow2 (m - qubit)) qubit m) (seq 0 m)
                ++ qft_rotations m
  end.

(** [for qubit in range(num_qubits//2): qc.swap(qubit, num_qubits-qubit-1)] *)
Definition qft_swaps (n : nat) : circuit :=
  map (fun qubit => GSWAP qubit (n - qubit - 1)) (seq 0 (n / 2)).

(** [QuantumCircuitImplementations.qiskit_qft(num_qubits)] *)
Definition qiskit_qft (num_qubits : nat) : circuit :=
  qft_rotations num_qubits ++ qft_swaps num_qubits.

(** [CirqQuantumLab._apply_qft(circuit, qubits)] *)
Definition cirq_apply_qft (qubits : list nat) : circuit :=
  let n := length qubits in
  let q i := nth i qubits 0 in
  flat_map (fun i => GH (q i) :: map (fun j => GCP (pi_over_pow2 (j - i)) (q j) (q i))
                                     (seq (S i) (n - S i)))
           (seq 0 n)
  ++ map (fun i => GSWAP (q i) (q (n - 1 - i))) (seq 0 (n / 2)).

(** [X] on the even qubits: the initial state of the Cirq lab's QFT. *)
Definition cirq_qft_prepare (n : nat) : circuit :=
  flat_map (fun i => if i mod 2 =? 0 then [GX i] else []) (seq 0 n).

(** The circuit of [CirqQuantumLab.quantum_fourier_transform(num_qubits)]
    before its final measurement. *)
Definition cirq_qft_circuit (num_qubits : nat) : circuit :=
  cirq_qft_prepare num_qubits ++ cirq_apply_qft (seq 0 num_qubits).

(** The dict returned by [quantum_fourier_transform]: the Q# lab adds its
    program text; the Cirq lab's [circuit] text is the library's rendering
    and is not modelled. *)
Record qft_result := QftResult {
  qft_qubits : nat;
  qft_counts : counts;
  qft_framework : string;
  qft_qsharp_code : option string
}.

(** [CirqQuantumLab.quantum_fourier_transform]: [samples] are the shots
    of [self.simulator.run(circuit, repetitions=1000)]. *)
Definition cirq_quantum_fourier_transform (num_qubits : nat) (samples : list nat) : res qft_result :=
  let* s := run num_qubits (cirq_qft_circuit num_qubits) in
  Ok (QftResult num_qubits (build_counts (map (cirq_key num_qubits) samples)) "Cirq" None).

(** [QSharpQuantumLab.quantum_fourier_transform]: 1000 strings of
    [num_qubits] draws of [random.randint(0, 1)]; [rnd i] is the [i]-th. *)
Definition qsharp_qft_keys (num_qubits : nat) (rnd : nat -> bool) : list string :=
  map (fun shot => string_of_bits (map rnd (seq (shot * num_qubits) num_qubits))) (seq 0 1000).

(** The constant [qsharp_code] of [QSharpQuantumLab.quantum_fourier_transform]. *)
Definition qsharp_qft_code : string :=
  (String.concat nl [
    EmptyString;
    "        namespace QuantumAlgorithms {";
    "            open Microsoft.Quantum.Canon;";
    "            open Microsoft.Quantum.Intrinsic;";
    "            open Microsoft.Quantum.Math;";
    "            ";
    "            operation QFT(qubits : Qubit[]) : Unit is Adj + Ctl {";
    "                let n = Length(qubits);";
    "                ";
    "                for i in 0..n-1 {";
    "                    H(qubits[i]);";
    "                    for j in i+1..n-1 {";
    "                        let angle = PI() / PowD(2.0, IntAsDouble(j-i));";
    "                        Controlled R1([qubits[j]], (angle, qubits[i]));";
    "                    }";
    "                }";
    "                ";
    "                // Reverse qubit order";
    "                for i in 0..n/2-1 {";
    "                    SWAP(qubits[i], qubits[n-1-i]);";
    "                }";
    "            }";
    "            ";
    "            operation RunQFT(n : Int) : Result[] {";
    "                use qubits = Qubit[n];";
    "                ";
    "                // Initialize with some state";
    "                for i in 0..n-1 {";
    "                    if i % 2 == 0 { X(qubits[i]); }";
    "                }";
    "                ";
    "                QFT(qubits);";
    "                ";
    "                return ForEach(M, qubits);";
    "            }";
    "        }";
    "        "])%string.

Definition qsharp_quantum_fourier_transform (num_qubits : nat) (rnd : nat -> bool) : qft_result :=
  QftResult num_qubits (build_counts (qsharp_qft_keys num_qubits rnd)) "Q#" (Some qsharp_qft_code).

(** ** Reference states *)

(** The basis state |j> of [n] qubits. *)
Definition basis_init (n j : nat) : qstate :=
  QS n 0 (tabulate n (fun i => if i =? j then cone else czero)).

(** The discrete Fourier transform of |j> on [n <= 4] qubits read by
    [idx]: amplitude [omega^(idx j * idx k) / sqrt2^n] at [k], where
    [omega = zeta^(2^(4-n))] is a primitive [2^n]-th root of unity. *)
Definition dft_state (n : nat) (idx : nat -> nat) (j : nat) : qstate :=
  QS n n (tabulate n (fun k => zeta_pow (2 ^ Z.of_nat (4 - n) * Z.of_nat (idx j) * Z.of_nat (idx k)))).

(** Cirq's reading of a basis index: qubit 0 is the most significant bit. *)
Definition cirq_index (n j : nat) : nat := be_value (bits_le n j) 0.

Fixpoint cyc_list_eqb (l1 l2 : list cyc) : bool :=
  match l1, l2 with
  | [], [] => true
  | x :: l1', y :: l2' => cyc_eqb x y && cyc_list_eqb l1' l2'
  | _, _ => false
  end.

Definition res_qs_eqb (r : res qstate) (s : qstate) : bool :=
  match r with
  | Ok s' => (qs_n s' =? qs_n s) && (qs_k s' =? qs_k s) && cyc_list_eqb (qs_amps s') (qs_amps s)
  | Raise _ => false
  end.

(** The check that [c] maps every basis state of [n] qubits to its
    Fourier transform. *)
Definition qft_check (n : nat) (c : circuit) (idx : nat -> nat) : bool :=
  forallb (fun j => res_qs_eqb (run_from c (basis_init n j)) (dft_state n idx j)) (seq 0 (2 ^ n)).

(** ** Lemmas *)

Lemma cyc_list_eqb_eq l1 l2 : cyc_list_eqb l1 l2 = true -> l1 = l2.
Proof.
  revert l2; induction l1 as [|x l1 IH]; intros [|y l2]; cbn; try discriminate; [reflexivity|].
  rewrite andb_true_iff. intros [Hxy H]. destruct (cyc_eqb_spec x y); [|discriminate].
  subst. f_equal. now apply IH.
Qed.

Lemma res_qs_eqb_eq r s : res_qs_eqb r s = true -> r = Ok s.
Proof.
  destruct r as [s'|]; cbn; [|discriminate]. rewrite !andb_true_iff, !Nat.eqb_eq.
  intros [[Hn Hk] Ha]. apply cyc_list_eqb_eq in Ha. destruct s, s'; cbn in *. now subst.
Qed.

Lemma qft_check_spec n c idx :
  qft_check n c idx = true -> forall j, j < 2 ^ n -> run_from c (basis_init n j) = Ok (dft_state n idx j).
Proof.
  intros H j Hj. apply res_qs_eqb_eq. unfold qft_check in H. rewrite forallb_forall in H.
  apply H, in_seq. lia.
Qed.

Lemma cp_exact d c t : d <= 3 -> gate_action (GCP (pi_over_pow2 d) c t) <> None.
Proof.
  intros Hd. unfold gate_action, phase_exp, pi_over_pow2. cbn [ang_log2den ang_num].
  rewrite (proj2 (Nat.leb_le d 3) Hd). discriminate.
Qed.

Lemma swap_gate_ok n a b : a < n -> b < n -> a <> b -> wf_gate n (GSWAP a b) = true.
Proof.
  intros Ha Hb Hab. apply wf_gate_spec. split; [repeat constructor; lia|].
  repeat constructor; cbn; intuition lia.
Qed.

Lemma h_gate_ok n q : q < n -> wf_gate n (GH q) = true.
Proof. intros Hq. apply wf_gate_spec. split; repeat constructor; [lia | intros []]. Qed.

(** The gates of a QFT: an H, a controlled phase between two distinct
    qubits at distance [d], or a SWAP of two distinct qubits. *)
Definition qft_gate_shape (n : nat) (g : gate_op) : Prop :=
  (exists q, q < n /\ g = GH q) \/
  (exists a b, a < n /\ b < n /\ a <> b /\ g = GCP (pi_over_pow2 (Nat.max a b - Nat.min a b)) a b) \/
  (exists a b, a < n /\ b < n /\ a <> b /\ g = GSWAP a b).

Lemma qft_gate_shape_ok n g :
  qft_gate_shape n g -> wf_gate n g = true /\ (n <= 4 -> gate_action g <> None).
Proof.
  intros [(q & Hq & ->)|[(a & b & Ha & Hb & Hab & ->)|(a & b & Ha & Hb & Hab & ->)]].
  - split; [now apply h_gate_ok | discriminate].
  - split.
    + apply wf_gate_spec. split; [repeat constructor; lia|]. repeat constructor; cbn; intuition lia.
    + intros Hn. apply cp_exact. lia.
  - split; [now apply swap_gate_ok | discriminate].
Qed.

Lemma qft_shape_circuit n c :
  Forall (qft_gate_shape n) c ->
  wf_circuit n c = true /\ (n <= 4 -> Forall (fun g => gate_action g <> None) c).
Proof.
  intros H. split.
  - unfold wf_circuit. apply forallb_forall. intros g Hg. rewrite Forall_forall in H.
    now apply qft_gate_shape_ok, H.
  - intros Hn. eapply Forall_impl; [|exact H]. intros g Hg. now apply (qft_gate_shape_ok n g Hg).
Qed.

Lemma half_lt n q : q < n / 2 -> q < n - q - 1.
Proof. intros H. assert (2 * (n / 2) <= n) by (apply Nat.Div0.mul_div_le). lia. Qed.

Lemma qft_rotations_shape n m : m <= n -> Forall (qft_gate_shape n) (qft_rotations m).
Proof.
  induction m as [|m IH]; intros Hm; cbn [qft_rotations]; [constructor|].
  constructor; [left; exists m; split; [lia | reflexivity]|].
  apply Forall_app. split; [|apply IH; lia].
  apply Forall_forall. intros g Hg. apply in_map_iff in Hg as (q & <- & Hq). apply in_seq in Hq.
  right; left. exists q, m. repeat split; try lia. do 2 f_equal. lia.
Qed.

Lemma qft_swaps_shape n : Forall (qft_gate_shape n) (qft_swaps n).
Proof.
  apply Forall_forall. intros g Hg. apply in_map_iff in Hg as (q & <- & Hq). apply in_seq in Hq.
  assert (q < n - q - 1) by (apply half_lt; lia).
  right; right. exists q, (n - q - 1). repeat split; lia.
Qed.

Lemma qiskit_qft_shape n : Forall (qft_gate_shape n) (qiskit_qft n).
Proof. apply Forall_app. split; [apply qft_rotations_shape; lia | apply qft_swaps_shape]. Qed.

Lemma cirq_apply_qft_shape n : Forall (qft_gate_shape n) (cirq_apply_qft (seq 0 n)).
Proof.
  unfold cirq_apply_qft. rewrite length_seq. apply Forall_app. split.
  - apply Forall_forall. intros g Hg. apply in_flat_map in Hg as (i & Hi & Hg). apply in_seq in Hi.
    rewrite seq_nth in Hg by lia. destruct Hg as [<-|Hg].
    + left. exists i. split; [lia | reflexivity].
    + apply in_map_iff in Hg as (j & <- & Hj). apply in_seq in Hj. rewrite seq_nth by lia.
      right; left. exists j, i. repeat split; try lia. do 2 f_equal. lia.
  - apply Forall_forall. intros g Hg. apply in_map_iff in Hg as (i & <- & Hi). apply in_seq in Hi.
    assert (i < n - i - 1) by (apply half_lt; lia).
    rewrite !seq_nth by lia. right; right. exists i, (n - 1 - i). repeat split; lia.
Qed.

Lemma zeta_pow_neq_0 e : zeta_pow e <> czero.
Proof. intros E. pose proof (cnorm2_zeta e) as H. rewrite E in H. discriminate H. Qed.

(** A Fourier-transformed basis state has the uniform distribution. *)
Lemma dft_state_uniform n idx j :
  outcomes (dft_state n idx j) = basis n /\
  forall k, k < 2 ^ n -> prob_num (dft_state n idx j) k = cone.
Proof.
  split.
  - unfold outcomes. apply filter_all. intros k Hk. unfold basis in Hk. apply in_seq in Hk.
    apply possible_spec. cbn [qs_n dft_state]. unfold dft_state. rewrite amp_tabulate by lia.
    split; [lia | apply zeta_pow_neq_0].
  - intros k Hk. unfold prob_num, dft_state. rewrite amp_tabulate by exact Hk. apply cnorm2_zeta.
Qed.

(** The X layer of the Cirq lab's QFT prepares a basis state. *)
Lemma cirq_qft_prepare_basis n :
  n <= 4 -> exists j, j < 2 ^ n /\ run n (cirq_qft_prepare n) = Ok (basis_init n j).
Proof.
  intros Hn. destruct n as [|[|[|[|[|n]]]]]; [| | | | |lia];
  [exists 0 | exists 1 | exists 1 | exists 5 | exists 5]; (split; [cbn; lia | vm_compute; reflexivity]).
Qed.

(** ** Theorems *)

(** on registers of at most 4 qubits, the QFT of [views.py]
    ([qiskit_qft]) maps every basis state |j> to its discrete Fourier
    transform [sum_k omega^(j k) |k> / sqrt2^n] with [omega] a primitive
    [2^n]-th root of unity, and the Cirq lab's [_apply_qft] on qubits
    [0 .. n-1] does the same for the big-endian index Cirq reads. *)
Theorem qft_dft n j :
  n <= 4 -> j < 2 ^ n ->
  run_from (qiskit_qft n) (basis_init n j) = Ok (dft_state n (fun i => i) j) /\
  run_from (cirq_apply_qft (seq 0 n)) (basis_init n j) = Ok (dft_state n (cirq_index n) j).
Proof.
  intros Hn Hj. split; apply qft_check_spec; try exact Hj;
  destruct n as [|[|[|[|[|n]]]]]; try lia; vm_compute; reflexivity.
Qed.


(** the Cirq lab's [quantum_fourier_transform] on at most 4
    qubits runs its circuit (X on the even qubits, then the QFT) to a
    register in which every [n]-bit outcome is possible with probability
    [1/2^n], and counts its shots under the Cirq keys; every key of the
    Q# lab's random QFT counts is the key of one of these outcomes. *)
Theorem quantum_fourier_transform_uniform n samples rnd :
  n <= 4 ->
  exists s r, run n (cirq_qft_circuit n) = Ok s /\ cirq_quantum_fourier_transform n samples = Ok r /\
    qft_counts r = build_counts (map (cirq_key n) samples) /\
    qs_k s = n /\ outcomes s = basis n /\ (forall k, k < 2 ^ n -> prob_num s k = cone) /\
    Forall (fun key => exists k, In k (outcomes s) /\ key = cirq_key n k)
           (map fst (qft_counts (qsharp_quantum_fourier_transform n rnd))).
Proof.
  intros Hn. destruct (cirq_qft_prepare_basis n Hn) as (j & Hj & Hp).
  assert (Hr : run n (cirq_qft_circuit n) = Ok (dft_state n (cirq_index n) j)).
  { unfold run, cirq_qft_circuit. rewrite run_from_app. unfold run in Hp. rewrite Hp.
    cbn [res_bind]. exact (proj2 (qft_dft n j Hn Hj)). }
  destruct (dft_state_uniform n (cirq_index n) j) as [Ho Hp1].
  exists (dft_state n (cirq_index n) j). eexists.
  split; [exact Hr|]. split; [unfold cirq_quantum_fourier_transform; rewrite Hr; reflexivity|].
  split; [reflexivity|]. split; [reflexivity|]. split; [exact Ho|]. split; [exact Hp1|].
  apply Forall_forall. intros key Hkey. apply in_keys_build in Hkey.
  unfold qsharp_qft_keys in Hkey. apply in_map_iff in Hkey as (shot & <- & _).
  set (l := map rnd (seq (shot * n) n)).
  destruct (bits_le_surj l) as (k & Hk & Hb). unfold l in Hk, Hb at 1.
  rewrite length_map, length_seq in Hk, Hb.
  exists k. rewrite Ho. split; [apply in_seq; lia|]. unfold cirq_key. now rewrite Hb.
Qed.

(** ** Witnesses *)

Lemma qft_dft_witness :
  3 <= 4 /\ 5 < 2 ^ 3 /\
  run_from (qiskit_qft 3) (basis_init 3 5) = Ok (dft_state 3 (fun i => i) 5) /\
  run_from (cirq_apply_qft (seq 0 3)) (basis_init 3 5) = Ok (dft_state 3 (cirq_index 3) 5).
Proof. split; [lia|]. split; [cbn; lia|]. apply qft_dft; cbn; lia. Defined.


Lemma quantum_fourier_transform_uniform_witness :
  exists s r, run 2 (cirq_qft_circuit 2) = Ok s /\ cirq_quantum_fourier_transform 2 [0; 3] = Ok r /\
    qft_counts r = build_counts (map (cirq_key 2) [0; 3]) /\
    qs_k s = 2 /\ outcomes s = basis 2 /\ (forall k, k < 2 ^ 2 -> prob_num s k = cone) /\
    Forall (fun key => exists k, In k (outcomes s) /\ key = cirq_key 2 k)
           (map fst (qft_counts (qsharp_quantum_fourier_transform 2 Nat.even))).
Proof. apply quantum_fourier_transform_uniform. lia. Defined.
