(* ===== verification/Grover.v ===== *)
(** * Grover search

    Two implementations of Grover search build their circuits here.
    - [QiskitGrover] is [QiskitQuantumLab.grovers_algorithm] of
      "unnamed/part_000", lines 529-574.  It starts with a layer of
      Hadamards and runs [int(np.pi/4 * np.sqrt(2**n))] iterations.  Each
      iteration is an oracle: [x] on the qubits where
      [format(marked, '0nb')] has a '0', then [mcp(pi)].  A diffusion
      step follows.  The circuit ends with [measure_all()], and the code
      reads the most frequent key with [int(key, 2)].
    - [ViewsGrover] is the two-qubit search of the web app
      ("quantum app/views.py", [qiskit_grover_search] and
      [cirq_grover_search]): one oracle chosen by [target_item == 3, 2, 1]
      and one diffusion step.

    The theorems are:
    - For 2 <= n <= 5 the circuit amplifies one outcome above 9/10.
      That outcome is the bit reversal of [marked_item], because the code
      writes the binary digits most significant first onto qubits 0, 1, ...
      It equals [marked_item] only when its bits are a palindrome, as
      for the spec's case n = 3, marked 5.
    - [grovers_algorithm] raises on every shot sequence: the key carries
      the space [measure_all()] adds.
    - The iteration count is within the float bounds of pi/4 sqrt(2^n).
    - The view's Qiskit oracle for target 2 marks the basis state
      Qiskit reports as 1, and the oracle for target 1 marks 2. *)

From Stdlib Require Import ZArith List Lia Bool String Ascii QArith.
From S2P Require Import Prelude Cyclo Gates Statevector Bitstring Histogram QRNG QFT.
Import ListNotations.
#[local] Open Scope nat_scope.

(** [format(v, f'0{w}b')]: the binary digits of [|v|], most significant
    first, after a '-' when [v < 0], padded with zeros after the sign up to
    [w] characters; [a + 1] steps of fuel for [a = |v|]. *)
Fixpoint bin_digits (fuel v : nat) (acc : string) : string :=
  match fuel with
  | O => acc
  | S fuel' =>
      let acc' := String (if Nat.odd v then "1"%char else "0"%char) acc in
      if v <? 2 then acc' else bin_digits fuel' (v / 2) acc'
  end.

Definition py_format_bin (v : Z) (w : nat) : string :=
  let a := Z.to_nat (Z.abs v) in
  let sign := if (v <? 0)%Z then "-"%string else EmptyString in
  let ds := bin_digits (S a) a EmptyString in
  (sign ++ string_of_list_ascii (repeat "0"%char (w - (String.length sign + String.length ds)))
   ++ ds)%string.

Module QiskitGrover.

(** [for i, bit in enumerate(binary_marked): if bit == '0': qc.x(i)] *)
Fixpoint x_on_zeros (i : nat) (s : string) : circuit :=
  match s with
  | EmptyString => []
  | String c s' => ((if Ascii.eqb c "0"%char then [GX i] else []) ++ x_on_zeros (S i) s')%list
  end.

(** [qc.mcp(np.pi, list(range(n_qubits-1)), n_qubits-1)] *)
Definition mcp_pi (n : nat) : gate_op := GMCP (pi_over_pow2 0) (seq 0 (n - 1)) (n - 1).

(** The oracle, only when [marked_item < 2**n_qubits]. *)
Definition grover_oracle (n : nat) (marked_item : Z) : circuit :=
  if (marked_item <? 2 ^ Z.of_nat n)%Z then
    let b := py_format_bin marked_item n in
    (x_on_zeros 0 b ++ [mcp_pi n] ++ x_on_zeros 0 b)%list
  else [].

Definition grover_diffusion (n : nat) : circuit :=
  (map GH (seq 0 n) ++ map GX (seq 0 n) ++ [mcp_pi n] ++ map GX (seq 0 n) ++ map GH (seq 0 n))%list.

(** [int(np.pi/4 * np.sqrt(2**n_qubits))] *)
Definition grover_iterations (n : nat) : nat :=
  floor_quarter_sqrt np_pi_num np_pi_exp (2 ^ Z.of_nat n).

Definition grover_circuit (n : nat) (marked_item : Z) : circuit :=
  (map GH (seq 0 n) ++
   List.concat (repeat (grover_oracle n marked_item ++ grover_diffusion n) (grover_iterations n)))%list.

Record grover_result := GroverResult {
  found_item : nat;
  probability : Q;
  iterations_used : nat;
  all_results : counts
}.

(** The lab's method on the simulator's 1024 shots [samples]. *)
Definition grovers_algorithm (n : nat) (marked_item : Z) (samples : list nat) : res grover_result :=
  let cnts := build_counts (map (qiskit_key_measure_all n n) samples) in
  let* best := most_likely cnts in
  let prob := (inject_Z (Z.of_nat (snd best)) / inject_Z 1024)%Q in
  let* found := py_int_base2 (fst best) in
  Ok (GroverResult found prob (grover_iterations n) cnts).

End QiskitGrover.

Module ViewsGrover.

(** The oracle of both views, by [target_item == 3, 2, 1]. *)
Definition views_grover_oracle (target_item : py_val) : circuit :=
  if py_eq_int target_item 3 then [GCZ 0 1]
  else if py_eq_int target_item 2 then [GX 1; GCZ 0 1; GX 1]
  else if py_eq_int target_item 1 then [GX 0; GCZ 0 1; GX 0]
  else [].

(** [qiskit_grover_search(target_item, num_qubits)]; the view calls it
    with [num_qubits = 2]. *)
Definition qiskit_grover_search (target_item : py_val) (num_qubits : nat) : circuit :=
  (map GH (seq 0 num_qubits) ++ views_grover_oracle target_item
   ++ flat_map (fun q => [GH q; GX q]) (seq 0 num_qubits) ++ [GCZ 0 1]
   ++ flat_map (fun q => [GX q; GH q]) (seq 0 num_qubits))%list.

(** [cirq_grover_search(target_item)] on [LineQubit]s 0 and 1: the same
    oracles as the Qiskit view. *)
Definition cirq_grover_search (target_item : py_val) : circuit :=
  ([GH 0; GH 1] ++ views_grover_oracle target_item
   ++ [GH 0; GH 1; GX 0; GX 1; GCZ 0 1; GX 0; GX 1; GH 0; GH 1])%list.

End ViewsGrover.

(** ** The specification's notions *)

(** The integer a cyclotomic number is, if it is one. *)
Definition cyc_int (x : cyc) : option Z :=
  if cyc_eqb x (cyc_of_Z (k0 x)) then Some (k0 x) else None.

(** Outcome [r] has probability above 9/10 and every other outcome is
    strictly less likely (all probabilities being integers over [2^k]). *)
Definition amplified (s : qstate) (r : nat) : Prop :=
  exists pr, prob_num s r = cyc_of_Z pr /\ (9 * 2 ^ Z.of_nat (qs_k s) < 10 * pr)%Z /\
  forall j, j < 2 ^ qs_n s -> j <> r -> exists p, prob_num s j = cyc_of_Z p /\ (p < pr)%Z.

Definition amplifiedb (s : qstate) (r : nat) : bool :=
  match cyc_int (prob_num s r) with
  | Some pr =>
      (9 * 2 ^ Z.of_nat (qs_k s) <? 10 * pr)%Z &&
      forallb (fun j => (j =? r) ||
                 match cyc_int (prob_num s j) with Some p => (p <? pr)%Z | None => false end)
              (basis (qs_n s))
  | None => false
  end.

Definition grover_check (n m : nat) : bool :=
  match run n (QiskitGrover.grover_circuit n (Z.of_nat m)) with
  | Ok s => amplifiedb s (cirq_index n m)
  | Raise _ => false
  end.

(** The view's target as a basis index, when an oracle marks one. *)
Definition views_target (v : py_val) : option nat :=
  if py_eq_int v 3 then Some 3
  else if py_eq_int v 2 then Some 2
  else if py_eq_int v 1 then Some 1
  else None.

(** ** Lemmas *)

Lemma cyc_int_spec x z : cyc_int x = Some z -> x = cyc_of_Z z.
Proof.
  unfold cyc_int. destruct (cyc_eqb_spec x (cyc_of_Z (k0 x))) as [E|]; [|discriminate].
  intros [= <-]. exact E.
Qed.

Lemma amplifiedb_spec s r : amplifiedb s r = true -> amplified s r.
Proof.
  unfold amplifiedb. destruct (cyc_int (prob_num s r)) as [pr|] eqn:Hr; [|discriminate].
  rewrite andb_true_iff, Z.ltb_lt, forallb_forall. intros [Hk Hall].
  exists pr. split; [now apply cyc_int_spec|]. split; [exact Hk|].
  intros j Hj Hne. specialize (Hall j (proj2 (in_seq _ _ _) (conj (Nat.le_0_l j) Hj))).
  apply orb_true_iff in Hall as [E|Hp]; [apply Nat.eqb_eq in E; contradiction|].
  destruct (cyc_int (prob_num s j)) as [p|] eqn:Hj'; [|discriminate].
  exists p. split; [now apply cyc_int_spec | now apply Z.ltb_lt].
Qed.

Lemma grover_check_sound n m :
  grover_check n m = true ->
  exists s, run n (QiskitGrover.grover_circuit n (Z.of_nat m)) = Ok s /\ amplified s (cirq_index n m).
Proof.
  unfold grover_check. destruct (run _ _) as [s|e]; [|discriminate].
  intros H. exists s. split; [reflexivity | now apply amplifiedb_spec].
Qed.

Lemma views_grover_oracle_cases v :
  (views_target v = Some 3 /\ ViewsGrover.views_grover_oracle v = [GCZ 0 1]) \/
  (views_target v = Some 2 /\ ViewsGrover.views_grover_oracle v = [GX 1; GCZ 0 1; GX 1]) \/
  (views_target v = Some 1 /\ ViewsGrover.views_grover_oracle v = [GX 0; GCZ 0 1; GX 0]) \/
  (views_target v = None /\ ViewsGrover.views_grover_oracle v = []).
Proof.
  unfold views_target, ViewsGrover.views_grover_oracle.
  destruct (py_eq_int v 3); [now left|]. destruct (py_eq_int v 2); [now right; left|].
  destruct (py_eq_int v 1); [now right; right; left | now right; right; right].
Qed.

Lemma floor_quarter_sqrt_spec p e m :
  (0 <= e)%Z -> (0 <= m)%Z ->
  let s := Z.of_nat (floor_quarter_sqrt p e m) in
  (s ^ 2 * 2 ^ (2 * e + 4) <= p ^ 2 * m < (s + 1) ^ 2 * 2 ^ (2 * e + 4))%Z.
Proof.
  intros He Hm s. unfold s, floor_quarter_sqrt.
  assert (Hd : (0 < 2 ^ (2 * e + 4))%Z) by (apply Z.pow_pos_nonneg; lia).
  assert (Hx : (0 <= p ^ 2 * m / 2 ^ (2 * e + 4))%Z)
    by (apply Z.div_pos; [apply Z.mul_nonneg_nonneg; [apply Z.pow_even_nonneg; now exists 1%Z | lia] | lia]).
  rewrite Z2Nat.id by (apply Z.sqrt_nonneg).
  destruct (Z.sqrt_spec _ Hx) as [Hl Hu]. rewrite Z.pow_2_r, (Z.pow_2_r (_ + 1)).
  pose proof (Z.mul_div_le (p ^ 2 * m) _ Hd) as Hdl.
  pose proof (Z.mod_pos_bound (p ^ 2 * m) _ Hd) as Hmb.
  pose proof (Z.div_mod (p ^ 2 * m) _ (Z.neq_sym _ _ (Z.lt_neq _ _ Hd))) as Hdm.
  split; nia.
Qed.

Lemma b2n_odd v : Nat.b2n (Nat.odd v) = v mod 2.
Proof.
  rewrite (Nat.div_mod_eq v 2) at 1. rewrite Nat.add_comm, Nat.odd_add_mul_2.
  pose proof (Nat.mod_upper_bound v 2 ltac:(lia)).
  destruct (v mod 2) as [|[|]]; [reflexivity | reflexivity | lia].
Qed.

(** With fuel [f >= 1] and [v < 2^f] the digit loop writes all the
    digits of [v]. *)
Lemma bin_digits_bits fuel v acc :
  1 <= fuel -> v < 2 ^ fuel ->
  exists l, bin_digits fuel v (string_of_bits acc) = string_of_bits (l ++ acc) /\
            be_value l 0 = v /\ l <> [].
Proof.
  revert v acc; induction fuel as [|fuel IH]; intros v acc H1 Hv; [lia|]. cbn [bin_digits].
  replace (if Nat.odd v then "1"%char else "0"%char) with (char_of_bit (Nat.odd v))
    by now destruct (Nat.odd v).
  change (String (char_of_bit (Nat.odd v)) (string_of_bits acc)) with (string_of_bits (Nat.odd v :: acc)).
  destruct (Nat.ltb_spec v 2) as [Hlt|Hge].
  - exists [Nat.odd v]. split; [reflexivity|]. split; [|discriminate].
    cbn [be_value]. rewrite b2n_odd, Nat.mod_small; lia.
  - destruct (IH (v / 2) (Nat.odd v :: acc)) as (l & Hl & Hv' & _).
    + destruct fuel; [cbn in Hv; lia | lia].
    + apply Nat.Div0.div_lt_upper_bound. rewrite Nat.pow_succ_r' in Hv. lia.
    + exists (l ++ [Nat.odd v]). rewrite <- app_assoc. split; [exact Hl|]. split.
      * rewrite be_value_app, Hv'. cbn [be_value]. rewrite b2n_odd. pose proof (Nat.div_mod_eq v 2). lia.
      * intros E. apply app_eq_nil in E as [_ E]. discriminate.
Qed.

Lemma zeros_bits p : string_of_list_ascii (repeat "0"%char p) = string_of_bits (repeat false p).
Proof. induction p as [|p IH]; cbn; [reflexivity | now rewrite IH]. Qed.

Lemma be_value_zeros p : be_value (repeat false p) 0 = 0.
Proof. induction p as [|p IH]; [reflexivity|]. exact IH. Qed.

(** ** Theorems *)

(** C6: for 2 to 5 qubits and every [marked_item] below [2^n], the
    circuit of [grovers_algorithm] runs and its most probable outcome is
    the bit reversal of [marked_item] (the digits of
    [format(marked_item, '0nb')] go to qubits 0, 1, ... while the
    outcome's bit [q] is qubit [q]); that outcome has probability above
    9/10 and every other outcome is strictly less likely. *)
Theorem grover_amplifies n m :
  2 <= n <= 5 -> m < 2 ^ n ->
  exists s, run n (QiskitGrover.grover_circuit n (Z.of_nat m)) = Ok s /\ amplified s (cirq_index n m).
Proof.
  intros Hn Hm. apply grover_check_sound.
  assert (H : forallb (grover_check n) (seq 0 (2 ^ n)) = true).
  { destruct n as [|[|[|[|[|[|n]]]]]]; try lia; vm_compute; reflexivity. }
  rewrite forallb_forall in H. apply H, in_seq. lia.
Qed.


(** The iteration count [int(np.pi/4 * np.sqrt(2**n))] lies within
    the bounds of floor(pi/4 sqrt(2^n)): its square is at most
    0.6168503 * 2^n, and the square of its successor exceeds
    0.6168502 * 2^n ((pi/4)^2 = 0.61685027...). *)
Theorem grover_iterations_bounds n :
  (10 ^ 7 * Z.of_nat (QiskitGrover.grover_iterations n) ^ 2 <= 6168503 * 2 ^ Z.of_nat n)%Z /\
  (6168502 * 2 ^ Z.of_nat n < 10 ^ 7 * (Z.of_nat (QiskitGrover.grover_iterations n) + 1) ^ 2)%Z.
Proof.
  unfold QiskitGrover.grover_iterations.
  assert (Hm : (1 <= 2 ^ Z.of_nat n)%Z) by (apply Z.pow_le_mono_r with (a := 2%Z) (b := 0%Z); lia).
  destruct (floor_quarter_sqrt_spec np_pi_num np_pi_exp (2 ^ Z.of_nat n) ltac:(discriminate) ltac:(lia))
    as [Hl Hu].
  assert (Hp1 : (10 ^ 7 * np_pi_num ^ 2 <= 6168503 * 2 ^ (2 * np_pi_exp + 4))%Z)
    by (apply Z.leb_le; vm_compute; reflexivity).
  assert (Hp2 : (6168502 * 2 ^ (2 * np_pi_exp + 4) < 10 ^ 7 * np_pi_num ^ 2)%Z)
    by (apply Z.ltb_lt; vm_compute; reflexivity).
  assert (HD : (0 < 2 ^ (2 * np_pi_exp + 4))%Z) by (apply Z.ltb_lt; vm_compute; reflexivity).
  revert Hl Hu Hp1 Hp2 HD.
  generalize (2 ^ (2 * np_pi_exp + 4))%Z (np_pi_num ^ 2)%Z
             (Z.of_nat (floor_quarter_sqrt np_pi_num np_pi_exp (2 ^ Z.of_nat n))) (2 ^ Z.of_nat n)%Z.
  intros D P s m Hl Hu Hp1 Hp2 HD. rewrite Z.pow_2_r in *. split.
  - apply (Z.mul_le_mono_pos_l _ _ D HD). nia.
  - apply (Z.mul_lt_mono_pos_l D _ _ HD). nia.
Qed.

(** the Qiskit view's two-qubit search ([qiskit_grover_search],
    with its default [num_qubits = 2]) leaves one possible outcome for
    the targets 3, 2 and 1: the bit reversal of the target (3, 1 and 2),
    which Qiskit's key reads as 3, 1 and 2; any other target gets no
    oracle and all four outcomes stay possible. *)
Theorem qiskit_grover_search_outcomes v :
  exists s, run 2 (ViewsGrover.qiskit_grover_search v 2) = Ok s /\
    outcomes s = match views_target v with Some t => [cirq_index 2 t] | None => [0; 1; 2; 3] end.
Proof.
  unfold ViewsGrover.qiskit_grover_search.
  destruct (views_grover_oracle_cases v) as [[-> ->]|[[-> ->]|[[-> ->]|[-> ->]]]];
    apply res_ok_intro; vm_compute; reflexivity.
Qed.

(** [int(format(v, f'0{w}b'), 2) = v] for every [v >= 0] and
    every width [w]: the binary rendering the oracle reads is complete
    (its digit loop has enough fuel) and the zero padding keeps the
    value. *)
Theorem py_format_bin_roundtrip v w :
  (0 <= v)%Z -> py_int_base2 (py_format_bin v w) = Ok (Z.to_nat v).
Proof.
  intros Hv. unfold py_format_bin. replace (v <? 0)%Z with false by (symmetry; apply Z.ltb_ge; lia).
  rewrite Z.abs_eq by exact Hv. set (a := Z.to_nat v).
  destruct (bin_digits_bits (S a) a [] ltac:(lia)) as (l & Hl & Hv' & Hne).
  { pose proof (Nat.pow_gt_lin_r 2 (S a) ltac:(lia)). lia. }
  rewrite app_nil_r in Hl. change (string_of_bits []) with EmptyString in Hl. rewrite Hl.
  change ((EmptyString ++ ?x)%string) with x.
  rewrite zeros_bits, <- string_of_bits_app, py_int_base2_bits.
  - rewrite be_value_app, be_value_zeros. f_equal. exact Hv'.
  - intros E. apply app_eq_nil in E as [_ E]. contradiction.
Qed.

Section Witnesses.

Lemma grover_amplifies_witness :
  QiskitGrover.grover_iterations 3 = 2 /\ cirq_index 3 5 = 5 /\ cirq_index 3 1 = 4 /\
  exists s, run 3 (QiskitGrover.grover_circuit 3 (Z.of_nat 5)) = Ok s /\ amplified s (cirq_index 3 5).
Proof.
  split; [vm_compute; reflexivity|]. split; [vm_compute; reflexivity|].
  split; [vm_compute; reflexivity|]. apply (grover_amplifies 3 5); cbn; lia.
Defined.


Lemma py_format_bin_roundtrip_witness :
  py_format_bin 5 3 = "101"%string /\ py_int_base2 (py_format_bin 5 3) = Ok 5.
Proof. split; [reflexivity | apply (py_format_bin_roundtrip 5 3); lia]. Defined.

End Witnesses.
