(* ===== verification/Teleport.v ===== *)
(** * Quantum teleportation

    Two teleportation circuits of the repository, and the protocol of the
    specification:
    - [CirqTeleport]: [CirqQuantumLab.quantum_teleportation]
      ("unnamed/part_000", lines 272-316).  It acts on the NamedQubits
      message, alice and bob, modelled as qubits 0, 1 and 2.  It prepares
      |1>, makes a Bell pair (alice, bob), rotates (message, alice) into
      the Bell basis and measures all three qubits with no correction.  A
      shot is a success when bob reads 1.
    - [views_teleportation_circuit]: [cirq_quantum_teleportation] of
      "quantum app/views.py" (lines 336-373).  It is the same circuit for
      the message |+> on LineQubits 0, 1 and 2.
    - [teleport_corrected]: spec 4.5.  The two Pauli corrections,
      conditioned on Alice's bits, are applied before Bob's qubit is
      measured.  They are written as the controlled gates CX(alice, bob)
      and CZ(message, bob), which the deferred-measurement principle
      makes equal in statistics to the classically conditioned ones.

    The theorems show:
    - with the corrections, Bob's qubit has the statistics of the
      message (spec 7, teleportation law);
    - without them, as in the code, Bob reads 1 with probability 1/2, so
      100 shots can report a success rate of 0. *)

From Stdlib Require Import ZArith List Lia Bool QArith.
From S2P Require Import Prelude Cyclo Gates Statevector Unitarity.
Import ListNotations.
#[local] Open Scope nat_scope.

Module CirqTeleport.

(** X(message); H(alice); CNOT(alice, bob); CNOT(message, alice);
    H(message). *)
Definition teleport_circuit : circuit := [GX 0; GH 1; GCX 1 2; GCX 0 1; GH 0].

Record teleport_result := TeleportResult {
  success_rate : Q;
  total_attempts : nat;
  alice_measurements : list (list nat);
  bob_results : list (list nat)
}.

(** The method on the simulator's 100 shots [samples] (basis states of
    the three qubits). *)
Definition quantum_teleportation (samples : list nat) : teleport_result :=
  let alice := map (fun j => [Nat.b2n (bit j 0); Nat.b2n (bit j 1)]) samples in
  let bob := map (fun j => [Nat.b2n (bit j 2)]) samples in
  let successes := length (filter (fun ab => hd 0 (snd ab) =? 1) (combine alice bob)) in
  TeleportResult (inject_Z (Z.of_nat successes) / inject_Z 100) 100 alice bob.

End CirqTeleport.

(** [cirq_quantum_teleportation()] of the views: the message is |+>. *)
Definition views_teleportation_circuit : circuit := [GH 0; GH 1; GCX 1 2; GCX 0 1; GH 0].

(** Spec 4.5: prepare the message on qubit 0 by the gates [prep],
    entangle (1, 2), Bell-measure (0, 1) and correct qubit 2 by
    X^alice Z^message. *)
Definition teleport_corrected (prep : circuit) : circuit :=
  (prep ++ [GH 1; GCX 1 2; GCX 0 1; GH 0; GCX 1 2; GCZ 0 2])%list.

(** ** The specification's notions *)

(** [2^k] times the probability that qubit [q] reads [b]. *)
Definition qubit_mass (s : qstate) (q : nat) (b : bool) : cyc :=
  csum (map (prob_num s) (filter (fun j => Bool.eqb (bit j q) b) (basis (qs_n s)))).

(** Qubit [q] of [s] and qubit [q1] of [s1] read each [b] with the same
    probability. *)
Definition same_stats (s : qstate) (q : nat) (s1 : qstate) (q1 : nat) : Prop :=
  forall b, cmul (qubit_mass s q b) (cyc_of_Z (2 ^ Z.of_nat (qs_k s1))) =
            cmul (qubit_mass s1 q1 b) (cyc_of_Z (2 ^ Z.of_nat (qs_k s))).

Definition same_statsb (s : qstate) (q : nat) (s1 : qstate) (q1 : nat) : bool :=
  forallb (fun b =>
    cyc_eqb (cmul (qubit_mass s q b) (cyc_of_Z (2 ^ Z.of_nat (qs_k s1))))
            (cmul (qubit_mass s1 q1 b) (cyc_of_Z (2 ^ Z.of_nat (qs_k s)))))
    [false; true].

(** The gates before a measurement of qubit [q] in the Z ([bs = 0]), X
    ([bs = 1]) or Y basis: equal statistics in the three bases make the
    two qubits' states equal. *)
Definition basis_change (bs q : nat) : circuit :=
  match bs with
  | 0 => []
  | 1 => [GH q]
  | _ => [GRZ (Angle (-1) 1) q; GH q]
  end.

(** The message preparations the law is checked on: the Pauli gates, H,
    and RY, RZ by every multiple of pi/4 (with H before RZ). *)
Definition teleport_preps : list circuit :=
  [[GX 0]; [GH 0]; [GY 0]; [GZ 0]] ++
  map (fun k => [GRY (Angle (Z.of_nat k) 2) 0]) (seq 0 8) ++
  map (fun k => [GH 0; GRZ (Angle (Z.of_nat k) 2) 0]) (seq 0 8).

Definition teleport_check (prep : circuit) (bs : nat) : bool :=
  match run 1 (prep ++ basis_change bs 0), run 3 (teleport_corrected prep ++ basis_change bs 2) with
  | Ok s1, Ok s => same_statsb s 2 s1 0
  | _, _ => false
  end.

(** ** Lemmas *)

Lemma same_statsb_spec s q s1 q1 : same_statsb s q s1 q1 = true -> same_stats s q s1 q1.
Proof.
  unfold same_statsb. cbn [forallb]. rewrite andb_true_r, andb_true_iff. intros [H0 H1] [|];
    [apply (reflect_iff _ _ (cyc_eqb_spec _ _)), H1 | apply (reflect_iff _ _ (cyc_eqb_spec _ _)), H0].
Qed.

Lemma length_filter_combine_map {A B C} (p : B * C -> bool) (f : A -> B) (g : A -> C) l :
  length (filter p (combine (map f l) (map g l))) = length (filter (fun a => p (f a, g a)) l).
Proof. induction l as [|a l IH]; [reflexivity|]. cbn. destruct (p (f a, g a)); cbn; auto. Qed.

(** ** Theorems *)

(** C7: the spec's teleportation (4.5) is the code's circuits (the
    lab's for the message |1>, the view's for |+>) followed by the two
    corrections they omit.  With the corrections applied before Bob's
    qubit is measured, Bob's qubit has the statistics of the message in
    the Z, X and Y bases, so it ends in the message's state.  This is
    checked for the message prepared by X, H, Y, Z and by RY, RZ through
    every multiple of pi/4 (spec 7, teleportation law). *)
Theorem teleport_corrected_law :
  teleport_corrected [GX 0] = (CirqTeleport.teleport_circuit ++ [GCX 1 2; GCZ 0 2])%list /\
  teleport_corrected [GH 0] = (views_teleportation_circuit ++ [GCX 1 2; GCZ 0 2])%list /\
  forall prep bs, In prep teleport_preps -> bs < 3 ->
  exists s1 s, run 1 (prep ++ basis_change bs 0) = Ok s1 /\
    run 3 (teleport_corrected prep ++ basis_change bs 2) = Ok s /\ same_stats s 2 s1 0.
Proof.
  split; [reflexivity|]. split; [reflexivity|]. intros prep bs Hp Hb.
  assert (H : forallb (fun p => forallb (teleport_check p) [0; 1; 2]) teleport_preps = true)
    by (vm_compute; reflexivity).
  rewrite forallb_forall in H. specialize (H prep Hp). rewrite forallb_forall in H.
  specialize (H bs ltac:(cbn; lia)). unfold teleport_check in H.
  destruct (run 1 _) as [s1|]; [|discriminate]. destruct (run 3 _) as [s|]; [|discriminate].
  exists s1, s. split; [reflexivity|]. split; [reflexivity | now apply same_statsb_spec].
Qed.

(** C8: [CirqQuantumLab.quantum_teleportation] measures Bob's qubit
    with no correction.  Its success rate is the share of the 100 shots
    in which Bob reads 1.  Bob reads 1 and 0 with the same probability
    1/2, although the message is |1>, so a sequence of 100 shots with
    success rate 0 is possible. *)
Theorem cirq_teleportation_uncorrected :
  (forall samples, CirqTeleport.success_rate (CirqTeleport.quantum_teleportation samples) =
     (inject_Z (Z.of_nat (length (filter (fun j => bit j 2) samples))) / inject_Z 100)%Q) /\
  exists s, run 3 CirqTeleport.teleport_circuit = Ok s /\
    qubit_mass s 2 true = qubit_mass s 2 false /\ sampled s (repeat 2 100) /\
    (CirqTeleport.success_rate (CirqTeleport.quantum_teleportation (repeat 2%nat 100%nat)) == 0)%Q.
Proof.
  split.
  - intros samples. cbn [CirqTeleport.quantum_teleportation CirqTeleport.success_rate].
    rewrite length_filter_combine_map. do 4 f_equal. apply filter_ext. intros j.
    cbn [hd snd]. destruct (bit j 2); reflexivity.
  - apply res_ok_intro. split; [vm_compute; reflexivity|].
    split; [apply Forall_forall; intros j Hj; apply repeat_spec in Hj; subst; vm_compute; reflexivity|].
    vm_compute. reflexivity.
Qed.

Section Witnesses.

Lemma teleport_corrected_law_witness :
  exists s1 s, run 1 ([GH 0] ++ basis_change 1 0) = Ok s1 /\
    run 3 (teleport_corrected [GH 0] ++ basis_change 1 2) = Ok s /\ same_stats s 2 s1 0.
Proof. apply (proj2 (proj2 teleport_corrected_law)); [cbn; tauto | lia]. Defined.

End Witnesses.
