(* ===== verification/Views.v ===== *)
(** * The web API ("quantum app/views.py")

    The Django view [execute_quantum_circuit] reads a JSON body and
    dispatches on its [framework] and [circuit_type] to one experiment of
    [QuantumCircuitImplementations]:
    - Qiskit: basic gates, Bell state, Grover search;
    - Cirq: the same three, plus teleportation.
    The response holds the Qiskit counts, or, for Cirq, the histogram of
    the single measurement key 'q0' (for teleportation, 'bob_final').
    [quantum_simulation] runs every example on [{"type": "all"}].

    How the model corresponds to the code:
    - The simulators are the typeclass [Simulator].  [sim_run r n c] is
      the list of basis states of [r] shots of circuit [c] on [n] qubits.
    - [SimulatorLaws] states what a simulator promises: [r] shots, each a
      possible outcome of the register [run n c].  The theorems are proved
      against these laws.
    - The basic-gates circuit rotates by [ry(np.pi/3)], outside the exact
      angles, so its shots are the separate input [sim_basic].
    - The parsed body is a dict of [py_val]s, or the message of the
      exception raised by [json.loads] or by [data.get] on a non-dict.
    - The response's 'circuit' text (the printed diagram) is not modelled.

    The theorems show two things.  The Cirq Grover response reports only
    qubit 0, so targets 2 and 3 give the same response.  A POST naming a
    pair the view does not handle is answered 'Invalid request method'. *)

From Stdlib Require Import ZArith List Lia Bool String Ascii.
From S2P Require Import Prelude Cyclo Gates Statevector Unitarity Bitstring Histogram QFT Grover Teleport.
Import ListNotations.
#[local] Open Scope nat_scope.

(** ** The simulator interface *)

Class Simulator := {
  sim_run : nat -> nat -> circuit -> list nat;
  sim_basic : nat -> list nat
}.

Class SimulatorLaws `{Simulator} : Prop := {
  sim_run_length : forall r n c, List.length (sim_run r n c) = r;
  sim_run_sampled : forall r n c s, run n c = Ok s -> sampled s (sim_run r n c)
}.

(** ** [QuantumCircuitImplementations] *)

Module QuantumCircuitImplementations.

(** [qiskit_bell_state] and [cirq_bell_state]: H(0); CX(0, 1). *)
Definition views_bell_circuit : circuit := [GH 0; GCX 0 1].

Section Experiments.
Context `{Simulator}.

(** [qiskit_basic_gates()]: [measure([0, 1], [0, 1])], 1000 shots. *)
Definition qiskit_basic_gates : counts := build_counts (map (qiskit_key 2) (sim_basic 1000)).

(** [qiskit_bell_state()]: [measure_all()] on [QuantumCircuit(2, 2)]. *)
Definition qiskit_bell_state : counts :=
  build_counts (map (qiskit_key_measure_all 2 2) (sim_run 1000 2 views_bell_circuit)).

Definition qiskit_grover_search (target_item : py_val) : counts :=
  build_counts (map (qiskit_key_measure_all 2 2)
                    (sim_run 1000 2 (ViewsGrover.qiskit_grover_search target_item 2))).

(** The Cirq experiments return the shots. *)
Definition cirq_basic_gates : list nat := sim_basic 1000.
Definition cirq_bell_state : list nat := sim_run 1000 2 views_bell_circuit.
Definition cirq_grover_search (target_item : py_val) : list nat :=
  sim_run 1000 2 (ViewsGrover.cirq_grover_search target_item).
Definition cirq_quantum_teleportation : list nat := sim_run 100 3 views_teleportation_circuit.

End Experiments.

End QuantumCircuitImplementations.

Import QuantumCircuitImplementations.

(** ** Requests and responses *)

(** The request body: the dict [json.loads] returns, or the message of
    the exception it (or [data.get] on a non-dict) raises. *)
Inductive json_body :=
| JsonObject (data : list (string * py_val))
| JsonError (msg : string).

Record request := Request { req_method : string; req_body : json_body }.

(** The JSON response: [{'success': True, 'results': ..., 'framework': ...}]
    or [{'success': False, 'error': ...}]. *)
Inductive response :=
| Success (results : counts) (framework : string)
| Failure (error : string).

(** [data.get(k, default)] *)
Fixpoint dict_get (d : list (string * py_val)) (k : string) (default : py_val) : py_val :=
  match d with
  | [] => default
  | (k', v) :: d' => if String.eqb k k' then v else dict_get d' k default
  end.

(** [{str(k): int(v) for k, v in result.histogram(key=...).items()}] for
    the measurement of qubit [q]: the keys "0" and "1" in the order of
    their first shot. *)
Definition cirq_histogram (q : nat) (shots : list nat) : counts :=
  build_counts (map (fun j => py_str_nat (Nat.b2n (bit j q))) shots).

Section Views.
Context `{Simulator}.

Definition execute_quantum_circuit (req : request) : response :=
  if String.eqb (req_method req) "POST" then
    match req_body req with
    | JsonError msg => Failure msg
    | JsonObject data =>
        let circuit_type := dict_get data "circuit_type" (PStr "basic") in
        let framework := dict_get data "framework" (PStr "qiskit") in
        if py_eq_str framework "qiskit" then
          if py_eq_str circuit_type "basic" then Success qiskit_basic_gates "Qiskit"
          else if py_eq_str circuit_type "bell" then Success qiskit_bell_state "Qiskit"
          else if py_eq_str circuit_type "grover" then
            Success (qiskit_grover_search (dict_get data "target" (PInt 3))) "Qiskit"
          else Failure "Invalid request method"
        else if py_eq_str framework "cirq" then
          if py_eq_str circuit_type "basic" then Success (cirq_histogram 0 cirq_basic_gates) "Cirq"
          else if py_eq_str circuit_type "bell" then Success (cirq_histogram 0 cirq_bell_state) "Cirq"
          else if py_eq_str circuit_type "grover" then
            Success (cirq_histogram 0 (cirq_grover_search (dict_get data "target" (PInt 3)))) "Cirq"
          else if py_eq_str circuit_type "teleportation" then
            Success (cirq_histogram 2 cirq_quantum_teleportation) "Cirq"
          else Failure "Invalid request method"
        else Failure "Invalid request method"
    end
  else Failure "Invalid request method".

(** [quantum_simulation]: [run_all_examples()] prints every experiment's
    results. *)
Inductive sim_response :=
| SimSuccess (message : string)
| SimFailure (error : string).

Definition quantum_simulation (req : request) : sim_response :=
  if String.eqb (req_method req) "POST" then
    match req_body req with
    | JsonError msg => SimFailure msg
    | JsonObject data =>
        if py_eq_str (dict_get data "type" (PStr "basic")) "all"
        then SimSuccess "All quantum simulations completed successfully"
        else SimFailure "Invalid request"
    end
  else SimFailure "Invalid request".

End Views.

(** The pairs (framework, circuit_type) the view answers. *)
Definition views_handled (framework circuit_type : py_val) : bool :=
  (py_eq_str framework "qiskit" &&
   existsb (py_eq_str circuit_type) ["basic"; "bell"; "grover"]%string) ||
  (py_eq_str framework "cirq" &&
   existsb (py_eq_str circuit_type) ["basic"; "bell"; "grover"; "teleportation"]%string).

(** ** Lemmas *)

Lemma cirq_grover_search_outcomes v t :
  views_target v = Some t ->
  exists s, run 2 (ViewsGrover.cirq_grover_search v) = Ok s /\ outcomes s = [cirq_index 2 t].
Proof.
  unfold ViewsGrover.cirq_grover_search.
  destruct (views_grover_oracle_cases v) as [[-> ->]|[[-> ->]|[[-> ->]|[-> ->]]]];
    intros E; try discriminate; injection E as <-; apply res_ok_intro; vm_compute; reflexivity.
Qed.

Lemma qiskit_grover_search_target v t :
  views_target v = Some t ->
  exists s, run 2 (ViewsGrover.qiskit_grover_search v 2) = Ok s /\ outcomes s = [cirq_index 2 t].
Proof.
  intros Ht. destruct (qiskit_grover_search_outcomes v) as (s & Hs & Ho). rewrite Ht in Ho. eauto.
Qed.

Lemma views_target_cases v t : views_target v = Some t -> t = 3 \/ t = 2 \/ t = 1.
Proof.
  destruct (views_grover_oracle_cases v) as [[-> _]|[[-> _]|[[-> _]|[-> _]]]];
    intros E; injection E as <- || discriminate; auto.
Qed.

(** The dispatch of a POST with a JSON object, by its two fields. *)
Lemma execute_quantum_circuit_post `{Simulator} data :
  execute_quantum_circuit (Request "POST" (JsonObject data)) =
  let circuit_type := dict_get data "circuit_type" (PStr "basic") in
  let framework := dict_get data "framework" (PStr "qiskit") in
  if py_eq_str framework "qiskit" then
    if py_eq_str circuit_type "basic" then Success qiskit_basic_gates "Qiskit"
    else if py_eq_str circuit_type "bell" then Success qiskit_bell_state "Qiskit"
    else if py_eq_str circuit_type "grover" then
      Success (qiskit_grover_search (dict_get data "target" (PInt 3))) "Qiskit"
    else Failure "Invalid request method"
  else if py_eq_str framework "cirq" then
    if py_eq_str circuit_type "basic" then Success (cirq_histogram 0 cirq_basic_gates) "Cirq"
    else if py_eq_str circuit_type "bell" then Success (cirq_histogram 0 cirq_bell_state) "Cirq"
    else if py_eq_str circuit_type "grover" then
      Success (cirq_histogram 0 (cirq_grover_search (dict_get data "target" (PInt 3)))) "Cirq"
    else if py_eq_str circuit_type "teleportation" then
      Success (cirq_histogram 2 cirq_quantum_teleportation) "Cirq"
    else Failure "Invalid request method"
  else Failure "Invalid request method".
Proof. reflexivity. Qed.

(** ** Theorems *)

(** C10: the Grover requests of the web API, for the targets 3, 2 and
    1 the view's oracles mark.  The Qiskit response counts all 1000 shots
    under the [measure_all()] key of the bit reversal of the target, which
    is "01 00" for target 2 and "10 00" for target 1.  The Cirq response
    holds only qubit 0's histogram: "1" for targets 3 and 2, and "0" for
    target 1. *)
Theorem views_grover_responses `{SimulatorLaws} data t :
  dict_get data "circuit_type" (PStr "basic") = PStr "grover" ->
  views_target (dict_get data "target" (PInt 3)) = Some t ->
  (dict_get data "framework" (PStr "qiskit") = PStr "qiskit" ->
   execute_quantum_circuit (Request "POST" (JsonObject data)) =
   Success [(qiskit_key_measure_all 2 2 (cirq_index 2 t), 1000)] "Qiskit") /\
  (dict_get data "framework" (PStr "qiskit") = PStr "cirq" ->
   execute_quantum_circuit (Request "POST" (JsonObject data)) =
   Success [(if Nat.eqb t 1 then "0"%string else "1"%string, 1000)] "Cirq").
Proof.
  intros Hct Ht. rewrite execute_quantum_circuit_post. cbv zeta. rewrite Hct.
  split; intros Hfw; rewrite Hfw; cbn [py_eq_str String.eqb Ascii.eqb Bool.eqb andb].
  - destruct (qiskit_grover_search_target _ _ Ht) as (s & Hs & Ho).
    unfold qiskit_grover_search. erewrite sampled_single by eauto using sim_run_sampled.
    rewrite sim_run_length, build_counts_repeat by lia. reflexivity.
  - destruct (cirq_grover_search_outcomes _ _ Ht) as (s & Hs & Ho).
    unfold cirq_histogram, cirq_grover_search. erewrite sampled_single by eauto using sim_run_sampled.
    rewrite sim_run_length, build_counts_repeat by lia.
    destruct (views_target_cases _ _ Ht) as [-> | [-> | ->]]; reflexivity.
Qed.

(** a POST whose JSON names a (framework, circuit_type) pair the
    view does not handle (Qiskit teleportation, an unknown framework or
    circuit type) falls out of the [try] block and is answered
    [{'success': False, 'error': 'Invalid request method'}], the message
    of a wrong HTTP method. *)
Theorem views_unhandled_invalid_method `{Simulator} data :
  views_handled (dict_get data "framework" (PStr "qiskit")) (dict_get data "circuit_type" (PStr "basic")) = false ->
  execute_quantum_circuit (Request "POST" (JsonObject data)) = Failure "Invalid request method".
Proof.
  rewrite execute_quantum_circuit_post. cbv zeta. unfold views_handled. cbn [existsb].
  generalize (dict_get data "framework" (PStr "qiskit")) (dict_get data "circuit_type" (PStr "basic")).
  intros fw ct.
  destruct (py_eq_str fw "qiskit"), (py_eq_str fw "cirq"), (py_eq_str ct "basic"),
    (py_eq_str ct "bell"), (py_eq_str ct "grover"), (py_eq_str ct "teleportation");
    cbn [andb orb]; congruence.
Qed.

Section Witnesses.

(** A simulator that returns the first possible outcome on every shot. *)
#[local] Instance first_outcome_sim : Simulator := {
  sim_run r n c := match run n c with Ok s => repeat (hd 0 (outcomes s)) r | Raise _ => repeat 0 r end;
  sim_basic r := repeat 0 r
}.

#[local] Instance first_outcome_laws : SimulatorLaws.
Proof.
  split.
  - intros r n c. cbn. destruct (run n c); apply repeat_length.
  - intros r n c s Hs. cbn. rewrite Hs. apply Forall_forall. intros j Hj.
    apply repeat_spec in Hj as ->. apply in_outcomes.
    pose proof (normalized_outcomes s (run_from_normalized _ _ _ (init_normalized n) Hs)) as Hne.
    destruct (outcomes s); [contradiction | now left].
Qed.

Lemma views_grover_responses_witness :
  execute_quantum_circuit (Request "POST" (JsonObject
    [("circuit_type"%string, PStr "grover"); ("framework"%string, PStr "qiskit"); ("target"%string, PInt 2)])) =
  Success [("01 00"%string, 1000)] "Qiskit" /\
  execute_quantum_circuit (Request "POST" (JsonObject
    [("circuit_type"%string, PStr "grover"); ("framework"%string, PStr "cirq"); ("target"%string, PInt 2)])) =
  Success [("1"%string, 1000)] "Cirq".
Proof.
  split.
  - refine (proj1 (views_grover_responses _ 2 _ _) _); reflexivity.
  - refine (proj2 (views_grover_responses _ 2 _ _) _); reflexivity.
Defined.

Lemma views_unhandled_invalid_method_witness :
  execute_quantum_circuit (Request "POST" (JsonObject
    [("framework"%string, PStr "qiskit"); ("circuit_type"%string, PStr "teleportation")])) =
  Failure "Invalid request method".
Proof. apply views_unhandled_invalid_method. reflexivity. Defined.

End Witnesses.
