(* ===== verification/Singles.v ===== *)
(** * The single-shot labs of "unnamed/part_000"

    [CirqQuantumLab] (lines 8-316) and [QiskitQuantumLab] (lines
    330-574) answer one request with one shot of a small circuit.  This
    file models their circuit execution, BB84 and random-number methods,
    and the Cirq entanglement figure:
    - [execute_quantum_circuit(gates)]: each known name adds one gate to
      qubit 0 (CNOT acts on 0 and 1).  All three qubits are measured once.
      Cirq returns the three bits.  Qiskit reads [reversed(key)] digit by
      digit, but the key carries the space [measure_all()] adds.
    - [bb84_key_distribution(key_length)]: up to [2 * key_length] trials,
      each with three draws of [random.choice([0, 1])].  It keeps the
      sender's bit on matching bases, counts the trials whose shot differs
      from it, and stops once [key_length] bits are kept.
    - [quantum_random_generator(num_bits)] of the Qiskit lab: H and
      [measure(i, i)] on every qubit, no [measure_all()].
    - [measure_entanglement()] of the Cirq lab: [2 * min(p00, p11)] of
      the Bell state.

    As in the other files the random draws ([rnd]) and the simulator's
    shots are inputs.  The theorems cover:
    - the Qiskit execution, which raises on every gate list;
    - the Cirq execution of classical gates, which returns the classical
      simulation;
    - BB84, whose counted error rate is 0 on every possible run;
    - the QRNG readings and the entanglement figure 1. *)

From Stdlib Require Import ZArith QArith Qminmax List Lia Bool String Ascii.
From S2P Require Import Prelude Cyclo Gates Statevector Unitarity Classical Bitstring Histogram BB84 QRNG.
Import ListNotations.
#[local] Open Scope nat_scope.

(** ** Shared parts *)

(** The BB84 loop of both labs: trial [t] draws the sender's bit, the
    sender's basis and the receiver's basis ([rnd (3t)], [rnd (3t+1)],
    [rnd (3t+2)]) and reads the bit of its shot [shots t]; [fuel] trials
    are left.  Returns the kept bits and the number of errors. *)
Fixpoint bb84_loop (fw : bb84_variant) (key_length t fuel : nat) (rnd : nat -> bool)
    (shots : nat -> nat) (shared_key : list bool) (errors : nat) : res (list bool * nat) :=
  match fuel with
  | O => Ok (shared_key, errors)
  | S fuel' =>
      let alice_bit := rnd (3 * t) in
      let alice_basis := rnd (3 * t + 1) in
      let bob_basis := rnd (3 * t + 2) in
      let* bob_result := bb84_measure fw alice_bit alice_basis bob_basis (shots t) in
      if Bool.eqb alice_basis bob_basis then
        let shared_key' := (shared_key ++ [alice_bit])%list in
        let errors' := if Nat.b2n alice_bit =? bob_result then errors else S errors in
        if key_length <=? List.length shared_key' then Ok (shared_key', errors')
        else bb84_loop fw key_length (S t) fuel' rnd shots shared_key' errors'
      else bb84_loop fw key_length (S t) fuel' rnd shots shared_key errors
  end.

(** [(errors / len(shared_key)) * 100 if shared_key else 0] *)
Definition single_error_rate (shared_key : list bool) (errors : nat) : Q :=
  match shared_key with
  | [] => 0%Q
  | _ => (inject_Z (Z.of_nat errors) / inject_Z (Z.of_nat (List.length shared_key)) * 100)%Q
  end.

Definition single_bb84 (fw : bb84_variant) (key_length : nat) (rnd : nat -> bool)
    (shots : nat -> nat) : res (list bool * Q) :=
  let* r := bb84_loop fw key_length 0 (key_length * 2) rnd shots [] 0 in
  Ok (fst r, single_error_rate (fst r) (snd r)).

Module CirqSingle.

(** The gate names of [execute_quantum_circuit]; any other name adds
    nothing. *)
Definition single_gate (gate : string) : list gate_op :=
  if String.eqb gate "H" then [GH 0]
  else if String.eqb gate "X" then [GX 0]
  else if String.eqb gate "Y" then [GY 0]
  else if String.eqb gate "Z" then [GZ 0]
  else if String.eqb gate "CNOT" then [GCX 0 1]
  else if String.eqb gate "RZ" then [GRZ (pi_over_pow2 2) 0]
  else if String.eqb gate "RY" then [GRY (pi_over_pow2 2) 0]
  else [].

Definition single_circuit (gates : list string) : circuit := flat_map single_gate gates.

(** [[int(bit) for bit in measurements]] of the one shot [shot]. *)
Definition execute_quantum_circuit (gates : list string) (shot : nat) : res (list nat) :=
  let* s := run 3 (single_circuit gates) in
  Ok (map (fun q => Nat.b2n (bit shot q)) [0; 1; 2]).

Definition bb84_key_distribution (key_length : nat) (rnd : nat -> bool) (shots : nat -> nat)
    : res (list bool * Q) :=
  single_bb84 BB84Cirq key_length rnd shots.

(** [measure_entanglement()]: [2 * min(|sv[0]|^2, |sv[3]|^2)] of H(0);
    CNOT(0, 1).  The squared moduli are read as integers over [2^k]
    (the Bell amplitudes are). *)
Definition prob_q (s : qstate) (j : nat) : Q :=
  (inject_Z (k0 (prob_num s j)) / inject_Z (2 ^ Z.of_nat (qs_k s)))%Q.

Definition measure_entanglement : res Q :=
  let* s := run 2 [GH 0; GCX 0 1] in
  Ok (2 * Qmin (prob_q s 0) (prob_q s 3))%Q.

(** [quantum_random_generator(num_bits)]: the measured bits of the one
    shot, qubit 0 first. *)
Definition quantum_random_generator (num_bits shot : nat) : res (string * nat * string) :=
  let* s := run num_bits (hadamard_all num_bits) in
  let binary := cirq_key num_bits shot in
  let* decimal := qrng_decimal binary in
  Ok (binary, decimal, py_hex_upper decimal).

End CirqSingle.

Module QiskitSingle.

Definition single_gate (gate : string) : list gate_op :=
  if String.eqb gate "H" then [GH 0]
  else if String.eqb gate "X" then [GX 0]
  else if String.eqb gate "Y" then [GY 0]
  else if String.eqb gate "Z" then [GZ 0]
  else if String.eqb gate "CNOT" then [GCX 0 1]
  else if String.eqb gate "RZ" then [GRZ (pi_over_pow2 2) 0]
  else if String.eqb gate "RY" then [GRY (pi_over_pow2 2) 0]
  else [].

Definition single_circuit (gates : list string) : circuit := flat_map single_gate gates.

(** [[int(bit) for bit in reversed(measurement)]] of the one key of
    [QuantumCircuit(3, 3)] after [measure_all()]. *)
Definition execute_quantum_circuit (gates : list string) (shot : nat) : res (list nat) :=
  let* s := run 3 (single_circuit gates) in
  let measurement := qiskit_key_measure_all 3 3 shot in
  res_mapM (fun c => py_int_base10 (String c EmptyString)) (list_ascii_of_string (rev_string measurement)).

Definition bb84_key_distribution (key_length : nat) (rnd : nat -> bool) (shots : nat -> nat)
    : res (list bool * Q) :=
  single_bb84 BB84Qiskit key_length rnd shots.

Record single_qrng := SingleQrng { sq_binary : string; sq_decimal : nat; sq_hex : string }.

(** [quantum_random_generator(num_bits)] *)
Definition quantum_random_generator (num_bits shot : nat) : res single_qrng :=
  let* s := run num_bits (hadamard_all num_bits) in
  let binary := qiskit_key num_bits shot in
  let* decimal := py_int_base2 binary in
  Ok (SingleQrng binary decimal (py_hex_upper decimal)).

End QiskitSingle.

(** ** Lemmas *)

Lemma qiskit_single_gate_eq : QiskitSingle.single_gate = CirqSingle.single_gate.
Proof. reflexivity. Qed.

Lemma single_gate_ok tok :
  wf_circuit 3 (CirqSingle.single_gate tok) = true /\
  Forall (fun g => gate_action g <> None) (CirqSingle.single_gate tok).
Proof.
  unfold CirqSingle.single_gate.
  repeat match goal with |- context [if ?c then _ else _] => destruct c end;
    split; try reflexivity; repeat constructor; discriminate.
Qed.

(** The circuits of [execute_quantum_circuit] run on three qubits. *)
Lemma single_circuit_runs gates :
  exists s, run 3 (CirqSingle.single_circuit gates) = Ok s /\ qs_n s = 3.
Proof.
  apply run_from_total. all: change (qs_n (init_state 3)) with 3.
  - induction gates as [|tok gates IH]; [reflexivity|]. cbn [CirqSingle.single_circuit flat_map].
    rewrite wf_circuit_app, (proj1 (single_gate_ok tok)). exact IH.
  - induction gates as [|tok gates IH]; [constructor|]. cbn [CirqSingle.single_circuit flat_map].
    apply Forall_app. split; [apply single_gate_ok | exact IH].
Qed.

(** Reading [reversed(key)] digit by digit stops at the space. *)
Lemma read_reversed_measure_all shot :
  res_mapM (fun c => py_int_base10 (String c EmptyString))
           (list_ascii_of_string (rev_string (qiskit_key_measure_all 3 3 shot))) =
  Raise (ValueError "invalid literal for int() with base 10"%string).
Proof.
  unfold qiskit_key_measure_all, qiskit_key, bits_le. cbn [seq map rev app].
  generalize (bit shot 0) (bit shot 1) (bit shot 2). intros [] [] []; reflexivity.
Qed.

Lemma bb84_loop_noiseless fw k fuel rnd shots :
  fw <> BB84QSharp ->
  (forall t, trial_ok (rnd (3 * t)) (rnd (3 * t + 1)) (rnd (3 * t + 2)) (shots t) = true) ->
  forall t key, List.length key < k ->
  exists key', bb84_loop fw k t fuel rnd shots key 0 = Ok (key', 0) /\ List.length key' <= k.
Proof.
  intros Hfw Hok. induction fuel as [|fuel IH]; intros t key Hk; cbn [bb84_loop].
  - exists key. split; [reflexivity | lia].
  - destruct (bb84_measure_ok fw _ _ _ (shots t) Hfw (Hok t)) as [-> Hb]. cbn [res_bind].
    destruct (Bool.eqb_spec (rnd (3 * t + 1)) (rnd (3 * t + 2))) as [E|E]; [|now apply IH].
    rewrite (Hb E), Nat.eqb_refl, length_app. cbn [List.length].
    destruct (Nat.leb_spec k (List.length key + 1)) as [Hle|Hgt].
    + eexists. split; [reflexivity|]. rewrite length_app. cbn. lia.
    + apply IH. rewrite length_app. cbn. lia.
Qed.

Lemma single_error_rate_zero key : (single_error_rate key 0 == 0)%Q.
Proof.
  destruct key; [reflexivity|]. unfold single_error_rate. change (inject_Z (Z.of_nat 0)) with 0%Q.
  unfold Qdiv. now rewrite !Qmult_0_l.
Qed.

(** ** Theorems *)

(** [execute_quantum_circuit] of the Qiskit single-shot lab
    raises ValueError for every list of gate names and every shot.
    [measure_all()] on [QuantumCircuit(3, 3)] makes the key
    '<b2><b1><b0> 000', so [reversed(key)] is '000 <b0><b1><b2>' and
    [int(' ')] fails at the fourth character. *)
Theorem qiskit_single_execute_raises gates shot :
  QiskitSingle.execute_quantum_circuit gates shot =
  Raise (ValueError "invalid literal for int() with base 10"%string).
Proof.
  unfold QiskitSingle.execute_quantum_circuit, QiskitSingle.single_circuit.
  rewrite qiskit_single_gate_eq. destruct (single_circuit_runs gates) as (s & Hs & _).
  unfold CirqSingle.single_circuit in Hs. rewrite Hs. apply read_reversed_measure_all.
Qed.

(** the Cirq single-shot [execute_quantum_circuit] on gate names
    that only permute the basis (no 'H' or 'RY') returns the bits of the
    classical simulation of the circuit from |000>: the register is that
    basis state, so every shot reads it. *)
Theorem cirq_single_execute_classical gates shot :
  forallb is_classical (CirqSingle.single_circuit gates) = true ->
  (exists s, run 3 (CirqSingle.single_circuit gates) = Ok s /\ sampled s [shot]) ->
  CirqSingle.execute_quantum_circuit gates shot =
  Ok (map (fun q => Nat.b2n (bit (classical_run (CirqSingle.single_circuit gates) 0) q)) [0; 1; 2]).
Proof.
  intros Hc (s & Hs & Hsh). unfold CirqSingle.execute_quantum_circuit. rewrite Hs. cbn [res_bind].
  destruct (run_from_classical _ _ _ 0 (init_basis_state 3) Hc Hs) as [Hb _].
  apply basis_state_outcomes in Hb. inversion Hsh as [|x l Hx _]; subst.
  apply in_outcomes in Hx. rewrite Hb in Hx. now destruct Hx as [<-|[]].
Qed.

(** The single-shot BB84 of the Qiskit and Cirq labs counts the
    sifted trials whose shot differs from the sender's bit.  On every
    run whose shots the simulator can return, that count is 0, so the
    reported error rate is 0 and at most [key_length] bits are kept
    (spec 4.4). *)
Theorem single_bb84_noiseless fw k rnd shots :
  fw <> BB84QSharp ->
  (forall t, trial_ok (rnd (3 * t)) (rnd (3 * t + 1)) (rnd (3 * t + 2)) (shots t) = true) ->
  exists key rate, single_bb84 fw k rnd shots = Ok (key, rate) /\ (rate == 0)%Q /\
    List.length key <= k.
Proof.
  intros Hfw Hok. unfold single_bb84. destruct k as [|k].
  - exists [], 0%Q. repeat split; reflexivity || lia.
  - destruct (bb84_loop_noiseless fw (S k) (S k * 2) rnd shots Hfw Hok 0 [] ltac:(cbn; lia))
      as (key & Hl & Hlen).
    rewrite Hl. exists key, (single_error_rate key 0). split; [reflexivity|].
    split; [apply single_error_rate_zero | exact Hlen].
Qed.

(** The Qiskit single-shot generator reads its key as the shot's number
    for every register of at least one qubit ([measure(i, i)] leaves no
    second register). *)
Theorem qiskit_single_qrng n shot :
  1 <= n -> shot < 2 ^ n ->
  QiskitSingle.quantum_random_generator n shot =
  Ok (QiskitSingle.SingleQrng (qiskit_key n shot) shot (py_hex_upper shot)).
Proof.
  intros Hn Hs. unfold QiskitSingle.quantum_random_generator. rewrite run_hadamard_all.
  cbn [res_bind]. now rewrite py_int_base2_qiskit_key.
Qed.

(** The Cirq [measure_entanglement()] of the Bell state is exactly 1. *)
Theorem cirq_single_entanglement :
  exists e, CirqSingle.measure_entanglement = Ok e /\ (e == 1)%Q.
Proof. apply res_ok_intro. reflexivity. Qed.

Section Witnesses.

Lemma cirq_single_execute_classical_witness :
  CirqSingle.execute_quantum_circuit ["X"; "CNOT"; "Z"]%string 3 = Ok [1; 1; 0].
Proof.
  apply (cirq_single_execute_classical ["X"; "CNOT"; "Z"]%string 3); [reflexivity|].
  apply res_ok_intro. vm_compute. repeat constructor.
Defined.

Lemma single_bb84_noiseless_witness :
  exists key rate, single_bb84 BB84Cirq 2 (fun _ => false) (fun _ => 0) = Ok (key, rate) /\
    (rate == 0)%Q /\ List.length key <= 2.
Proof. apply single_bb84_noiseless; [discriminate | intros t; reflexivity]. Defined.

Lemma qiskit_single_qrng_witness :
  QiskitSingle.quantum_random_generator 4 11 =
  Ok (QiskitSingle.SingleQrng "1011"%string 11 "B"%string).
Proof. apply (qiskit_single_qrng 4 11); cbn; lia. Defined.

End Witnesses.
