(* ===== verification/PhaseEst.v ===== *)
(** * Quantum phase estimation ("unnamed/part_000", lines 165-223)

    [CirqQuantumLab.quantum_phase_estimation(n_qubits)] works as follows.
    - Counting qubits are 0 .. n-1 and the eigenstate qubit is n,
      prepared in |1> by X.
    - H goes on every counting qubit, then [2^i] CZ gates controlled by
      counting qubit [i].  CZ on |1> is the phase -1, so the phase to
      estimate is 1/2.
    - Next comes the local [inverse_qft]: swaps, then
      [CZPowGate(exponent=-1/2^(i-j))] (the controlled phase
      -pi/2^(i-j)) and H on each qubit.
    - 100 shots of the counting qubits follow.  [Counter.most_common(1)]
      gives the first row of maximal count, and the code reads it with
      qubit 0 most significant.

    Counter keys are tuples of bits; here they are the bit strings of the
    rows (qubit 0 first), a one-to-one renaming.  Every angle is exact
    while [n <= 4] (pi/8 is the finest angle the model represents).

    The theorem shows the circuit does not give the phase the spec
    expects.  It leaves the counting register in the single basis state
    with qubit [n-1] set (the phase 1/2 written least significant qubit
    first).  The code reads that row most significant first, so it
    reports the phase 1/2^n with confidence 1, which is 1/2 only for
    n = 1. *)

From Stdlib Require Import ZArith QArith List Lia Bool String Ascii.
From S2P Require Import Prelude Cyclo Gates Statevector Unitarity Bitstring Histogram.
Import ListNotations.
#[local] Open Scope nat_scope.

Module CirqQPE.

(** [for i, control_qubit in enumerate(counting_qubits): for _ in
    range(2**i): circuit.append(cirq.CZ(control_qubit, eigenstate_qubit))] *)
Definition qpe_controlled (n : nat) : circuit :=
  flat_map (fun i => repeat (GCZ i n) (2 ^ i)) (seq 0 n).

(** The local [inverse_qft(qubits)]. *)
Definition inverse_qft (qubits : list nat) : circuit :=
  let n := List.length qubits in
  (map (fun i => GSWAP (nth i qubits 0) (nth (n - 1 - i) qubits 0)) (seq 0 (n / 2)) ++
   flat_map (fun i =>
     map (fun j => GCP (Angle (-1) (i - j)) (nth j qubits 0) (nth i qubits 0)) (seq 0 i) ++
     [GH (nth i qubits 0)]) (seq 0 n))%list.

Definition qpe_circuit (n : nat) : circuit :=
  ([GX n] ++ map GH (seq 0 n) ++ qpe_controlled n ++ inverse_qft (seq 0 n))%list.

Record qpe_result := QpeResult {
  estimated_phase : Q;
  measured_binary : string;
  confidence : Q;
  all_measurements : counts
}.

(** [counts.most_common(1)[0]]: the first key of maximal count;
    IndexError on an empty Counter. *)
Definition most_common (c : counts) : res (string * nat) :=
  match c with
  | [] => Raise IndexError
  | kv :: c' => Ok (max_by_count kv c')
  end.

(** [sum(bit * 2**(n_qubits-1-i) for i, bit in enumerate(row))] on the
    row's bit string. *)
Fixpoint row_value (row : string) (acc : nat) : nat :=
  match row with
  | EmptyString => acc
  | String c row' => row_value row' (2 * acc + (if Ascii.eqb c "1"%char then 1 else 0))
  end.

(** The method on the simulator's 100 shots [samples] (basis states of
    all [n + 1] qubits). *)
Definition quantum_phase_estimation (n : nat) (samples : list nat) : res qpe_result :=
  let* s := run (S n) (qpe_circuit n) in
  let cnts := build_counts (map (cirq_key n) samples) in
  let* best := most_common cnts in
  let measured_phase := row_value (fst best) 0 in
  Ok (QpeResult (inject_Z (Z.of_nat measured_phase) / inject_Z (2 ^ Z.of_nat n))%Q
                (fst best) (inject_Z (Z.of_nat (snd best)) / inject_Z 100)%Q cnts).

End CirqQPE.

(** ** Lemmas *)

(** The circuit leaves one basis state: eigenstate qubit [n] is 1 and
    the counting register holds [2^(n-1)], the phase 1/2 times [2^n]
    with qubit 0 least significant. *)
Lemma qpe_outcome n :
  1 <= n <= 4 ->
  exists s, run (S n) (CirqQPE.qpe_circuit n) = Ok s /\ outcomes s = [2 ^ (n - 1) + 2 ^ n].
Proof.
  intros Hn. destruct n as [|[|[|[|[|n]]]]]; try lia; apply res_ok_intro; vm_compute; reflexivity.
Qed.

Lemma testbit_add_pow2 a n q : q < n -> Nat.testbit (a + 2 ^ n) q = Nat.testbit a q.
Proof.
  intros Hq.
  assert (E : forall x, Nat.testbit x q = Nat.testbit (x mod 2 ^ n) q).
  { intros x. symmetry. now apply Nat.mod_pow2_bits_low. }
  rewrite E, (E a). f_equal. replace (a + 2 ^ n) with (a + 1 * 2 ^ n) by lia.
  apply Nat.Div0.mod_add.
Qed.

(** The row of that state, qubit 0 first, ignores the eigenstate
    qubit. *)
Lemma qpe_row n : cirq_key n (2 ^ (n - 1) + 2 ^ n) = cirq_key n (2 ^ (n - 1)).
Proof.
  unfold cirq_key, bits_le. f_equal. apply map_ext_in. intros q Hq. apply in_seq in Hq.
  apply testbit_add_pow2. lia.
Qed.

(** ** Theorems *)

(** C26: for 1 to 4 counting qubits (where the inverse QFT's angles
    are exact) every non-empty sequence of shots the simulator can return
    makes [quantum_phase_estimation] report the row "0...01" with
    confidence 1 (all shots agree), that is the estimated phase 1/2^n.
    The circuit encodes the phase 1/2 of CZ on |1> with qubit 0 least
    significant; the method reads the row with qubit 0 most significant,
    so the spec's phase 1/2 (4.5) is reported only for n = 1. *)
Theorem quantum_phase_estimation_reversed n samples :
  1 <= n <= 4 -> samples <> [] ->
  (exists s, run (S n) (CirqQPE.qpe_circuit n) = Ok s /\ sampled s samples) ->
  exists r, CirqQPE.quantum_phase_estimation n samples = Ok r /\
    CirqQPE.measured_binary r = cirq_key n (2 ^ (n - 1)) /\
    (CirqQPE.estimated_phase r == 1 / inject_Z (2 ^ Z.of_nat n))%Q /\
    (CirqQPE.confidence r == inject_Z (Z.of_nat (List.length samples)) / inject_Z 100)%Q.
Proof.
  intros Hn Hne (s & Hs & Hsam). destruct (qpe_outcome n Hn) as (s' & Hs' & Ho).
  rewrite Hs in Hs'. injection Hs' as <-.
  assert (Hv : CirqQPE.row_value (cirq_key n (2 ^ (n - 1))) 0 = 1)
    by (destruct n as [|[|[|[|[|n]]]]]; try lia; reflexivity).
  unfold CirqQPE.quantum_phase_estimation. rewrite Hs. cbn [res_bind].
  rewrite (sampled_single (cirq_key n) s samples _ Hsam Ho), qpe_row, build_counts_repeat.
  2:{ destruct samples; [contradiction | cbn; lia]. }
  cbn [CirqQPE.most_common res_bind max_by_count fst snd]. rewrite Hv.
  eexists. split; [reflexivity|]. cbn. split; [reflexivity|]. split; reflexivity.
Qed.

Section Witnesses.

Lemma quantum_phase_estimation_reversed_witness :
  exists r, CirqQPE.quantum_phase_estimation 3 [12; 12] = Ok r /\
    CirqQPE.measured_binary r = "001"%string /\
    (CirqQPE.estimated_phase r == 1 / inject_Z (2 ^ Z.of_nat 3))%Q /\
    (CirqQPE.confidence r == inject_Z (Z.of_nat 2) / inject_Z 100)%Q.
Proof.
  apply (quantum_phase_estimation_reversed 3 [12; 12]); [lia | discriminate|].
  apply res_ok_intro. vm_compute. repeat constructor.
Defined.

End Witnesses.
