(* ===== verification/Walk.v ===== *)
(** * Quantum walk ("unnamed/part_000", lines 225-270)

    [CirqQuantumLab.quantum_walk(steps, position_qubits)] works as
    follows.
    - The coin is qubit 0; the [n] position qubits are 1 .. n.
    - The coin gets H and, when [n > 1], position qubit [n // 2] of the
      list (qubit [1 + n / 2]) gets X.
    - Each step is a coin flip H, then for every position qubit but the
      last a CNOT from the coin and a CNOT to the next position qubit.
    - 1000 shots of all qubits follow; the positions (qubits 1 .. n,
      first first) are counted in a dict, and the most frequent one is
      reported.

    The theorem shows that a walk of one step never spreads.  The
    step's coin flip undoes the initial H, so the coin stays |0> and the
    walk ends in a single position, reported with all shots. *)

From Stdlib Require Import ZArith List Lia Bool String Ascii.
From S2P Require Import Prelude Cyclo Gates Statevector Unitarity Classical Bitstring Histogram.
Import ListNotations.
#[local] Open Scope nat_scope.

Module CirqWalk.

(** One iteration of [for step in range(steps)]. *)
Definition walk_step (n_pos : nat) : circuit :=
  GH 0 :: flat_map (fun i => GCX 0 (1 + i) :: (if i <? n_pos - 1 then [GCX (1 + i) (2 + i)] else []))
                   (seq 0 (n_pos - 1)).

Definition walk_circuit (steps n_pos : nat) : circuit :=
  ([GH 0] ++ (if 1 <? n_pos then [GX (1 + n_pos / 2)] else []) ++
   List.concat (repeat (walk_step n_pos) steps))%list.

(** [''.join(str(int(bit)) for bit in measurement[1:])] *)
Definition position_str (n_pos j : nat) : string := string_of_bits (map (bit j) (seq 1 n_pos)).

Record walk_result := WalkResult {
  position_distribution : counts;
  total_steps : nat;
  position_qubits : nat;
  most_likely_position : string
}.

(** The method on the simulator's 1000 shots [samples]. *)
Definition quantum_walk (steps n_pos : nat) (samples : list nat) : res walk_result :=
  let* s := run (S n_pos) (walk_circuit steps n_pos) in
  let position_counts := build_counts (map (position_str n_pos) samples) in
  let* best := most_likely position_counts in
  Ok (WalkResult position_counts steps n_pos (fst best)).

End CirqWalk.

(** The position a one-step walk ends in: the center X propagated along
    the CNOT chain. *)
Definition one_step_index (n_pos : nat) : nat :=
  classical_run (flat_map (fun i => [GCX (1 + i) (2 + i)]) (seq 0 (n_pos - 1)))
                (if 1 <? n_pos then 2 ^ (1 + n_pos / 2) else 0).

Definition one_step_position (n_pos : nat) : string :=
  CirqWalk.position_str n_pos (one_step_index n_pos).

(** ** Lemmas *)

Lemma walk_one_step_outcome n_pos :
  1 <= n_pos <= 6 ->
  exists s, run (S n_pos) (CirqWalk.walk_circuit 1 n_pos) = Ok s /\ outcomes s = [one_step_index n_pos].
Proof.
  intros Hn. destruct n_pos as [|[|[|[|[|[|[|n]]]]]]]; try lia.
  all: apply res_ok_intro; vm_compute; reflexivity.
Qed.

(** ** Theorems *)

(** A walk of one step on 1 to 6 position qubits is deterministic:
    every non-empty sequence of shots makes [quantum_walk] report the
    single position [one_step_position n] with all shots, so the
    distribution never spreads. *)
Theorem quantum_walk_one_step n_pos samples :
  1 <= n_pos <= 6 -> samples <> [] ->
  (exists s, run (S n_pos) (CirqWalk.walk_circuit 1 n_pos) = Ok s /\ sampled s samples) ->
  CirqWalk.quantum_walk 1 n_pos samples =
  Ok (CirqWalk.WalkResult [(one_step_position n_pos, List.length samples)] 1 n_pos (one_step_position n_pos)).
Proof.
  intros Hn Hne (s & Hs & Hsam). destruct (walk_one_step_outcome n_pos Hn) as (s' & Hs' & Ho).
  rewrite Hs in Hs'. injection Hs' as <-. unfold CirqWalk.quantum_walk. rewrite Hs. cbn [res_bind].
  rewrite (sampled_single _ s samples _ Hsam Ho), build_counts_repeat.
  - reflexivity.
  - destruct samples; [contradiction | cbn; lia].
Qed.

Section Witnesses.

Lemma quantum_walk_one_step_witness :
  one_step_position 3 = "011"%string /\
  CirqWalk.quantum_walk 1 3 [12; 12; 12] =
  Ok (CirqWalk.WalkResult [(one_step_position 3, 3)] 1 3 (one_step_position 3)).
Proof.
  split; [reflexivity|].
  apply (quantum_walk_one_step 3 [12; 12; 12]); [lia | discriminate|].
  apply res_ok_intro. vm_compute. repeat constructor.
Defined.

End Witnesses.
