(* ===== verification/Interface.v ===== *)
(** * The framework interface ("qsharp quantum lab.py", lines 1040-1251)

    [QuantumInterface] fronts part_000's single-shot labs ([qiskit_lab],
    [cirq_lab]).  [__init__] picks the backend from the two import
    flags: "qiskit" when Qiskit imports, otherwise "cirq" when Cirq
    imports, otherwise "fallback".  Every method calls the backend's
    method inside [try]; when the backend has no such method or the call
    raises, it returns a random fallback value.  The methods' test
    [self.backend == "qiskit" and QISKIT_AVAILABLE] reduces to the backend
    chosen at [__init__].  The fallback draws ([random.randint],
    [random.choice], [random.uniform]) are inputs: the stream [frnd] and
    the uniform draws [u].

    This composes with [Singles], [Bell], [Grover], [PhaseEst] and
    [Teleport].  The theorem shows that with the Qiskit backend, the
    default whenever Qiskit is installed, [execute_circuit] and
    [grovers_algorithm] always return their fallback, because part_000's
    Qiskit methods always raise.  [grovers_algorithm] then reports the
    marked item itself without any search.

    Not modelled: [measure_entanglement] and [calculate_fidelity] (a von
    Neumann entropy and an inner product of floating-point states),
    [vqe_simulation], and the legacy methods (base64, [hash], random
    properties). *)

From Stdlib Require Import ZArith QArith List Lia Bool String Ascii.
From S2P Require Import Prelude Cyclo Gates Statevector Unitarity Bitstring Histogram Bell BB84 QRNG.
From S2P Require Import Grover Teleport PhaseEst Singles.
Import ListNotations.
#[local] Open Scope nat_scope.

Module QuantumInterface.

Inductive backend := QiskitBackend | CirqBackend | FallbackBackend.

Definition init_backend (qiskit_available cirq_available : bool) : backend :=
  if qiskit_available then QiskitBackend
  else if cirq_available then CirqBackend
  else FallbackBackend.

(** [try: return <call>] then the fallback: [None] when the backend
    has no branch for the method. *)
Definition try_fallback {A} (call : option (res A)) (fallback : res A) : res A :=
  match call with
  | Some (Ok a) => Ok a
  | _ => fallback
  end.

Definition rand_bits (frnd : nat -> bool) (start len : nat) : list nat :=
  map (fun i => Nat.b2n (frnd i)) (seq start len).

Definition create_bell_state (b : backend) (shot : nat) (frnd : nat -> bool) : res (nat * nat) :=
  try_fallback (match b with
                | QiskitBackend => Some (bell_pair_qiskit shot)
                | CirqBackend => Some (Ok (bell_pair_cirq shot))
                | FallbackBackend => None
                end)
               (Ok (Nat.b2n (frnd 0), Nat.b2n (frnd 1))).

Definition execute_circuit (b : backend) (gates : list string) (shot : nat) (frnd : nat -> bool)
    : res (list nat) :=
  try_fallback (match b with
                | QiskitBackend => Some (QiskitSingle.execute_quantum_circuit gates shot)
                | CirqBackend => Some (CirqSingle.execute_quantum_circuit gates shot)
                | FallbackBackend => None
                end)
               (Ok (rand_bits frnd 0 3)).

(** The fallback key has [key_length // 2] bits and the error rate is
    [random.uniform(0, 5)], the draw [u]. *)
Definition bb84_key_distribution (b : backend) (key_length : nat) (rnd : nat -> bool)
    (shots : nat -> nat) (frnd : nat -> bool) (u : Q) : res (list bool * Q) :=
  try_fallback (match b with
                | QiskitBackend => Some (QiskitSingle.bb84_key_distribution key_length rnd shots)
                | CirqBackend => Some (CirqSingle.bb84_key_distribution key_length rnd shots)
                | FallbackBackend => None
                end)
               (Ok (map frnd (seq 0 (key_length / 2)), u)).

(** The fallback generator: [int(binary[:32], 2) if len(binary) >= 32
    else int(binary, 2)], outside the [try]. *)
Definition qrng_fallback (num_bits : nat) (frnd : nat -> bool) : res (string * nat * string) :=
  let binary := string_of_bits (map frnd (seq 0 num_bits)) in
  let* decimal := if 32 <=? String.length binary then py_int_base2 (substring 0 32 binary)
                  else py_int_base2 binary in
  Ok (binary, decimal, py_hex_upper decimal).

Definition quantum_random_generator (b : backend) (num_bits shot : nat) (frnd : nat -> bool)
    : res (string * nat * string) :=
  try_fallback (match b with
                | QiskitBackend =>
                    Some (res_map (fun r => (QiskitSingle.sq_binary r, QiskitSingle.sq_decimal r,
                                             QiskitSingle.sq_hex r))
                                  (QiskitSingle.quantum_random_generator num_bits shot))
                | CirqBackend => Some (CirqSingle.quantum_random_generator num_bits shot)
                | FallbackBackend => None
                end)
               (qrng_fallback num_bits frnd).

Record grover_answer := GroverAnswer {
  found_item : Z;
  probability : Q;
  iterations_used : nat;
  all_results : counts
}.

(** [3.14159] as a double: [3537115888337719 / 2^50]. *)
Definition approx_pi_num : Z := 3537115888337719.
Definition approx_pi_exp : Z := 50.

(** Qiskit only; the fallback answers [marked_item] itself. *)
Definition grovers_algorithm (b : backend) (n_qubits : nat) (marked_item : Z) (samples : list nat)
    (u : Q) : res grover_answer :=
  try_fallback (match b with
                | QiskitBackend =>
                    Some (res_map (fun r => GroverAnswer (Z.of_nat (QiskitGrover.found_item r))
                                              (QiskitGrover.probability r)
                                              (QiskitGrover.iterations_used r)
                                              (QiskitGrover.all_results r))
                                  (QiskitGrover.grovers_algorithm n_qubits marked_item samples))
                | _ => None
                end)
               (Ok (GroverAnswer marked_item u
                      (floor_quarter_sqrt approx_pi_num approx_pi_exp (2 ^ Z.of_nat n_qubits))
                      [(py_format_bin marked_item n_qubits, 800)])).

(** Cirq only; the fallback draws the phase, the bits and the
    confidence. *)
Definition quantum_phase_estimation (b : backend) (n_qubits : nat) (samples : list nat)
    (frnd : nat -> bool) (u1 u2 : Q) : res CirqQPE.qpe_result :=
  try_fallback (match b with
                | CirqBackend => Some (CirqQPE.quantum_phase_estimation n_qubits samples)
                | _ => None
                end)
               (Ok (CirqQPE.QpeResult u1 (string_of_bits (map frnd (seq 0 n_qubits))) u2 [])).

Definition quantum_teleportation (b : backend) (samples : list nat) (frnd : nat -> bool) (u : Q)
    : res CirqTeleport.teleport_result :=
  try_fallback (match b with
                | CirqBackend => Some (Ok (CirqTeleport.quantum_teleportation samples))
                | _ => None
                end)
               (Ok (CirqTeleport.TeleportResult u 100
                      (map (fun i => rand_bits frnd (2 * i) 2) (seq 0 100))
                      (map (fun i => rand_bits frnd (200 + i) 1) (seq 0 100)))).

End QuantumInterface.

Import QuantumInterface.

(** ** Lemmas *)

(** part_000's Qiskit [grovers_algorithm] raises on every run with a
    shot. *)
Lemma qiskit_grovers_raise n marked samples :
  1 <= n -> samples <> [] -> exists e, QiskitGrover.grovers_algorithm n marked samples = Raise e.
Proof.
  intros Hn Hs. unfold QiskitGrover.grovers_algorithm.
  destruct (most_likely_build (map (qiskit_key_measure_all n n) samples)) as (b & Hb & Hin).
  { intros E. apply Hs, map_eq_nil with (f := qiskit_key_measure_all n n), E. }
  rewrite Hb. cbn [res_bind]. apply in_map_iff in Hin as (j & Hj & _).
  rewrite <- Hj, py_int_base2_measure_all by lia. eauto.
Qed.

(** The fallback's [int(3.14159/4 * (2**n)**0.5)] is part_000's
    [int(np.pi/4 * np.sqrt(2**n))] for every [n <= 39] (from [n = 40]
    on it is smaller). *)
Lemma approx_pi_iterations n :
  n <= 39 ->
  floor_quarter_sqrt approx_pi_num approx_pi_exp (2 ^ Z.of_nat n) = QiskitGrover.grover_iterations n.
Proof.
  intros Hn. unfold QiskitGrover.grover_iterations, floor_quarter_sqrt. f_equal.
  assert (H : forallb (fun n =>
            Z.eqb (Z.sqrt (approx_pi_num ^ 2 * 2 ^ Z.of_nat n / 2 ^ (2 * approx_pi_exp + 4)))
                  (Z.sqrt (np_pi_num ^ 2 * 2 ^ Z.of_nat n / 2 ^ (2 * np_pi_exp + 4)))) (seq 0 40) = true)
    by (vm_compute; reflexivity).
  rewrite forallb_forall in H. apply Z.eqb_eq, H, in_seq. lia.
Qed.

(** ** Theorems *)

(** C27: with the Qiskit backend, the default whenever Qiskit imports,
    [execute_circuit] returns three random bits whatever the gates,
    because part_000's Qiskit [execute_quantum_circuit] always raises.
    Likewise [grovers_algorithm] on at least one qubit returns its
    fallback: [found_item] is [marked_item] itself with a random
    probability, and the counts are [{format(marked_item, '0nb'): 800}].
    Its iteration count [int(3.14159/4 * (2**n)**0.5)] is part_000's count
    for every [n <= 39]. *)
Theorem interface_qiskit_fallbacks gates shot frnd n marked samples u :
  1 <= n <= 39 -> samples <> [] ->
  execute_circuit QiskitBackend gates shot frnd = Ok (rand_bits frnd 0 3) /\
  grovers_algorithm QiskitBackend n marked samples u =
  Ok (GroverAnswer marked u (QiskitGrover.grover_iterations n) [(py_format_bin marked n, 800)]).
Proof.
  intros Hn Hs. split.
  - unfold execute_circuit. now rewrite qiskit_single_execute_raises.
  - unfold grovers_algorithm. destruct (qiskit_grovers_raise n marked samples ltac:(lia) Hs) as [e ->].
    cbn. now rewrite approx_pi_iterations by lia.
Qed.

Section Witnesses.

Lemma interface_qiskit_fallbacks_witness :
  execute_circuit QiskitBackend ["H"; "CNOT"]%string 3 (fun _ => true) = Ok [1; 1; 1] /\
  grovers_algorithm QiskitBackend 3 5 [5; 5] (9 # 10) =
  Ok (GroverAnswer 5 (9 # 10) (QiskitGrover.grover_iterations 3) [("101"%string, 800)]).
Proof. apply (interface_qiskit_fallbacks ["H"; "CNOT"]%string 3 (fun _ => true) 3 5 [5; 5]); [lia | discriminate]. Defined.

End Witnesses.
