(* ===== verification/PQC.v ===== *)
(** * Post-quantum encryption simulation

    [post_quantum_encrypt(message, algorithm)] of the Qiskit lab ("qiskit
    quantum.py", lines 283-311) and the Cirq lab ("cirqa quantum.py",
    lines 291-323) works as follows.
    - It draws a 256-bit key from one shot of 256 Hadamard qubits.
    - It reads the key with [int(quantum_key, 2)] and turns it into 32
      bytes with [.to_bytes(32, 'big')].
    - It XORs byte [i] of [message.encode('utf-8')] with key byte
      [i % 32] and returns the result as [encrypted.hex()] with the first
      32 key bits as [key_id].

    A Rocq [string] is a sequence of bytes; the message is taken to be
    given by its UTF-8 encoding.  The 256-qubit register is never
    evaluated: [run_hadamard_all] gives it symbolically.

    The theorems show:
    - the Cirq ciphertext decrypts with the 32-byte key back to the
      message (a round trip through the hex encoding and the XOR);
    - the Qiskit method raises ValueError on every call, because its key
      [max(counts.keys())] carries the space [measure_all()] adds. *)

From Stdlib Require Import ZArith List Lia Bool String Ascii.
From S2P Require Import Prelude Cyclo Gates Statevector Bitstring QRNG.
Import ListNotations.
#[local] Open Scope nat_scope.

(** [message.encode('utf-8')] *)
Definition utf8_bytes (message : string) : list nat := map nat_of_ascii (list_ascii_of_string message).

(** [v.to_bytes(len, 'big')]: OverflowError when [v] needs more bytes. *)
Definition int_to_bytes (len v : nat) : res (list nat) :=
  if v <? 256 ^ len then Ok (map (fun i => v / 256 ^ (len - 1 - i) mod 256) (seq 0 len))
  else Raise (OverflowError "int too big to convert").

(** The loop [for i, byte in enumerate(message_bytes):
    encrypted.append(byte ^ key_bytes[i % len(key_bytes)])]. *)
Definition xor_bytes (message_bytes key_bytes : list nat) : list nat :=
  map (fun i => Nat.lxor (nth i message_bytes 0) (nth (i mod List.length key_bytes) key_bytes 0))
      (seq 0 (List.length message_bytes)).

(** [bytearray.hex()]: two lower-case digits per byte. *)
Fixpoint bytes_hex (bs : list nat) : string :=
  match bs with
  | [] => EmptyString
  | b :: bs' => String (hex_digit (b / 16)) (String (hex_digit (b mod 16)) (bytes_hex bs'))
  end.

Record pqc_result := PqcResult {
  pq_algorithm : string;
  pq_framework : option string;
  pq_original_message : string;
  pq_encrypted_data : string;
  pq_key_id : string;
  pq_quantum_safe : bool;
  pq_key_size : nat
}.

(** The encryption step both labs share, from the key string on. *)
Definition encrypt_with_key (quantum_key message : string) : res (string * string) :=
  let message_bytes := utf8_bytes message in
  let* key_int := py_int_base2 quantum_key in
  let* key_bytes := int_to_bytes 32 key_int in
  Ok (bytes_hex (xor_bytes message_bytes key_bytes), substring 0 32 quantum_key).

Module QiskitPQC.

(** [QuantumCircuit(256, 256)], H on every qubit, [measure_all()], one
    shot [shot]; the key is the only count key. *)
Definition post_quantum_encrypt (message algorithm : string) (shot : nat) : res pqc_result :=
  let* s := run 256 (hadamard_all 256) in
  let quantum_key := qiskit_key_measure_all 256 256 shot in
  let* r := encrypt_with_key quantum_key message in
  Ok (PqcResult algorithm None message (fst r) (snd r) true 256).

End QiskitPQC.

Module CirqPQC.

(** The key qubits measured under key 'quantum_key', one repetition: the
    row joined qubit 0 first. *)
Definition post_quantum_encrypt (message algorithm : string) (shot : nat) : res pqc_result :=
  let* s := run 256 (hadamard_all 256) in
  let quantum_key := cirq_key 256 shot in
  let* r := encrypt_with_key quantum_key message in
  Ok (PqcResult algorithm (Some "Cirq"%string) message (fst r) (snd r) true 256).

End CirqPQC.

(** ** The specification's notions *)

(** [bytes.fromhex]: pairs of hexadecimal digits. *)
Fixpoint bytes_of_hex (s : string) : option (list nat) :=
  match s with
  | EmptyString => Some []
  | String c1 (String c2 s') =>
      match hex_value_of c1, hex_value_of c2, bytes_of_hex s' with
      | Some d1, Some d2, Some bs => Some ((16 * d1 + d2) :: bs)
      | _, _, _ => None
      end
  | String _ EmptyString => None
  end.

(** Decryption by the holder of the key bits [quantum_key]. *)
Definition pqc_decrypt (quantum_key encrypted_data : string) : option (list nat) :=
  match py_int_base2 quantum_key, bytes_of_hex encrypted_data with
  | Ok key_int, Some bs =>
      match int_to_bytes 32 key_int with
      | Ok key_bytes => Some (xor_bytes bs key_bytes)
      | Raise _ => None
      end
  | _, _ => None
  end.

(** ** Lemmas *)

Lemma bytes_of_hex_hex bs : Forall (fun b => b < 256) bs -> bytes_of_hex (bytes_hex bs) = Some bs.
Proof.
  induction 1 as [|b bs Hb _ IH]; [reflexivity|]. cbn [bytes_hex bytes_of_hex].
  rewrite !hex_value_of_digit, IH.
  - f_equal. f_equal. pose proof (Nat.div_mod_eq b 16). lia.
  - apply Nat.mod_upper_bound. lia.
  - apply Nat.Div0.div_lt_upper_bound. lia.
Qed.

Lemma utf8_bytes_lt message : Forall (fun b => b < 256) (utf8_bytes message).
Proof.
  apply Forall_forall. intros b Hb. apply in_map_iff in Hb as (c & <- & _). apply nat_ascii_bounded.
Qed.

Lemma xor_bytes_lt m k :
  Forall (fun b => b < 256) m -> Forall (fun b => b < 256) k -> Forall (fun b => b < 256) (xor_bytes m k).
Proof.
  rewrite !Forall_forall. intros Hm Hk b Hb. apply in_map_iff in Hb as (i & <- & Hi). apply in_seq in Hi.
  change 256 with (2 ^ 8). apply lxor_lt_pow2.
  - apply Hm, nth_In. lia.
  - destruct (Nat.lt_ge_cases (i mod List.length k) (List.length k)) as [Hl|Hl].
    + apply Hk, nth_In, Hl.
    + rewrite nth_overflow by exact Hl. cbn. lia.
Qed.

Lemma length_xor_bytes m k : List.length (xor_bytes m k) = List.length m.
Proof. unfold xor_bytes. now rewrite length_map, length_seq. Qed.

(** XOR with the same key twice gives the message back. *)
Lemma xor_bytes_involutive m k : xor_bytes (xor_bytes m k) k = m.
Proof.
  apply nth_ext with (d := 0) (d' := 0); [now rewrite !length_xor_bytes|].
  intros i Hi. rewrite !length_xor_bytes in Hi. unfold xor_bytes at 1.
  rewrite length_xor_bytes, nth_map_seq by exact Hi. unfold xor_bytes.
  rewrite nth_map_seq by exact Hi. now rewrite Nat.lxor_assoc, Nat.lxor_nilpotent, Nat.lxor_0_r.
Qed.

Lemma int_to_bytes_ok len v :
  v < 256 ^ len ->
  exists bs, int_to_bytes len v = Ok bs /\ Forall (fun b => b < 256) bs.
Proof.
  intros Hv. unfold int_to_bytes. destruct (Nat.ltb_spec v (256 ^ len)) as [_|]; [|lia].
  eexists. split; [reflexivity|]. apply Forall_forall. intros b Hb.
  apply in_map_iff in Hb as (i & <- & _). apply Nat.mod_upper_bound. lia.
Qed.

(** The Cirq key reads as a number below [2^256 = 256^32]. *)
Lemma cirq_key_256 shot :
  exists v, py_int_base2 (cirq_key 256 shot) = Ok v /\ v < 256 ^ 32.
Proof.
  exists (be_value (bits_le 256 shot) 0). split.
  - apply py_int_base2_bits. intros E. apply (f_equal (@List.length bool)) in E.
    rewrite length_bits_le in E. discriminate.
  - replace (256 ^ 32) with (2 ^ List.length (bits_le 256 shot)).
    + apply be_value_lt.
    + rewrite length_bits_le. change 256 with (2 ^ 8) at 2. rewrite <- Nat.pow_mul_r. reflexivity.
Qed.

(** ** Theorems *)

(** C40: the Cirq lab's [post_quantum_encrypt] succeeds on every
    message and every shot.  Its [key_id] is the first 32 key bits, and
    whoever holds the 256 key bits recovers the message's bytes from
    [encrypted_data]: the hex encoding and the XOR with the 32 key bytes
    undo each other. *)
Theorem cirq_pqc_roundtrip message algorithm shot :
  exists r, CirqPQC.post_quantum_encrypt message algorithm shot = Ok r /\
    pq_key_id r = substring 0 32 (cirq_key 256 shot) /\
    pqc_decrypt (cirq_key 256 shot) (pq_encrypted_data r) = Some (utf8_bytes message).
Proof.
  destruct (cirq_key_256 shot) as (v & Hv & Hlt).
  destruct (int_to_bytes_ok 32 v Hlt) as (kb & Hkb & Hk).
  unfold CirqPQC.post_quantum_encrypt. rewrite run_hadamard_all. cbn [res_bind].
  unfold encrypt_with_key. rewrite Hv. cbn [res_bind]. rewrite Hkb. cbn [res_bind].
  eexists. split; [reflexivity|]. split; [reflexivity|]. cbn [pq_encrypted_data fst].
  unfold pqc_decrypt. rewrite Hv, bytes_of_hex_hex, Hkb.
  - now rewrite xor_bytes_involutive.
  - apply xor_bytes_lt; [apply utf8_bytes_lt | exact Hk].
Qed.

(** the Qiskit lab's [post_quantum_encrypt] raises ValueError on
    every message and every shot.  [measure_all()] on
    [QuantumCircuit(256, 256)] makes the key '<256 bits> <256 zeros>', and
    [int(quantum_key, 2)] rejects the space. *)
Theorem qiskit_pqc_raises message algorithm shot :
  QiskitPQC.post_quantum_encrypt message algorithm shot =
  Raise (ValueError "invalid literal for int() with base 2"%string).
Proof.
  unfold QiskitPQC.post_quantum_encrypt. rewrite run_hadamard_all. cbn [res_bind].
  unfold encrypt_with_key. rewrite py_int_base2_measure_all by lia. reflexivity.
Qed.
