(* ===== verification/Factor.v ===== *)
(** * Trial-division factorisation ("qiskit implementation.py", lines 159-178)

    [QiskitQuantumLab.shors_algorithm(N)] of the algorithms lab does no
    quantum work.  For [N >= 2] it factors [N] by trial division:
    [for i in range(2, int(np.sqrt(N)) + 1): while N % i == 0:
    factors.append(i); N //= i], then appends the cofactor when it is
    still [> 1].  The range is computed once, from the original [N].

    This file is written with MathComp (ssrnat, div, prime, path, bigop),
    whose prime library gives the reference: [prime_factorization N] is
    the sorted list of the primes of [N], each repeated [logn p N] times.
    - [divide_out] is the [while] loop, with fuel.  From every [m >= 1] it
      exits within [m] steps; from [m = 0] it never exits, as Python's loop
      would spin on [0 % i == 0] (the code never reaches it: [N >= 2]).
    - [trial_loop] is the [for] loop; [trial_division] adds the cofactor.
    - The loop invariant: the product of the factors found times the
      remaining [N] is the original [N]; the factors are prime, in
      increasing order and below the current [i]; no [d] in
      [2 .. i-1] divides the remaining [N].
    - The theorem: [trial_division N = prime_factorization N] for every
      [N], by the uniqueness of sorted prime factorisations.

    [int(np.sqrt(N))] is modelled by [Nat.sqrt N]: the double square root
    is correctly rounded, so its floor is the integer square root for
    every [N < 2^52] (checked for every [N < 2^26]). *)

From Stdlib Require Import PeanoNat.
From mathcomp Require Import ssreflect ssrfun ssrbool eqtype ssrnat seq path div prime bigop.

Set Implicit Arguments.
Unset Strict Implicit.
Unset Printing Implicit Defensive.

(** [while N % i == 0: factors.append(i); N //= i] *)
Fixpoint divide_out (fuel i m : nat) : seq nat * nat :=
  if fuel is fuel'.+1 then
    if m %% i == 0 then
      let: (fs, m') := divide_out fuel' i (m %/ i) in (i :: fs, m')
    else ([::], m)
  else ([::], m).

(** [for i in range(2, int(np.sqrt(N)) + 1)]: [count] iterations from
    [i]; the [while] loop gets [m] steps of fuel. *)
Fixpoint trial_loop (count i m : nat) : seq nat * nat :=
  if count is count'.+1 then
    let: (fs, m1) := divide_out m i m in
    let: (gs, m2) := trial_loop count' i.+1 m1 in (fs ++ gs, m2)
  else ([::], m).

(** Lines 165-171: the loop over [range(2, isqrt(N) + 1)], which has
    [isqrt(N) - 1] elements, then [if N > 1: factors.append(N)]. *)
Definition trial_division (N : nat) : seq nat :=
  let: (fs, m) := trial_loop (Nat.sqrt N).-1 2 N in
  if 1 < m then rcons fs m else fs.

(** ** The reference: the prime factorisation of MathComp *)

Definition prime_factorization (N : nat) : seq nat :=
  flatten [seq nseq (logn p N) p | p <- primes N].

(** ** Lemmas on products, paths and divisors *)

Lemma prod_nseq k i : \prod_(p <- nseq k i) p = i ^ k.
Proof. by elim: k => [|k IH]; rewrite ?big_nil //= big_cons IH expnS. Qed.

Lemma prod_primes_gt0 s : all prime s -> 0 < \prod_(p <- s) p.
Proof.
  elim: s => [|q s IH] /=; first by rewrite big_nil.
  by move=> /andP [Hq Hs]; rewrite big_cons muln_gt0 prime_gt0 // IH.
Qed.

Lemma path_leq_nseq x k i : x <= i -> path leq x (nseq k i).
Proof. by elim: k x => [|k IH] x Hx //=; rewrite Hx (IH _ (leqnn i)). Qed.

Lemma path_leq_weaken x y s : x <= y -> path leq y s -> path leq x s.
Proof. by case: s => [|z s] //= Hxy /andP [Hyz ->]; rewrite (leq_trans Hxy Hyz). Qed.

Lemma last_nseq_leq x k i : x <= i -> last x (nseq k i) <= i.
Proof. by elim: k x => [|k IH] x Hx //=; apply: IH. Qed.

(** [x * x <= N] bounds [x] by the integer square root. *)
Lemma leq_sqrt x N : x * x <= N -> x <= Nat.sqrt N.
Proof. by move=> H; apply/leP/Nat.sqrt_le_square/leP. Qed.

(** The least divisor [>= 2] of [m] is prime. *)
Lemma prime_least_divisor i m :
  1 < i -> i %| m -> (forall d, 1 < d < i -> ~~ (d %| m)) -> prime i.
Proof.
  move=> Hi Him Hd. have Hp := pdiv_prime Hi.
  move: (pdiv_leq (ltnW Hi)); rewrite leq_eqVlt => /orP [/eqP E | Hlt]; first by rewrite -E.
  by move: (Hd _ (introT andP (conj (prime_gt1 Hp) Hlt))); rewrite (dvdn_trans (pdiv_dvd i) Him).
Qed.

(** A number [1 < m <= N] with no divisor in [2 .. isqrt N] is prime. *)
Lemma prime_no_divisor_sqrt m N :
  1 < m -> m <= N -> (forall d, 1 < d <= Nat.sqrt N -> ~~ (d %| m)) -> prime m.
Proof.
  move=> Hm HmN Hd. apply/negPn/negP => /primePn [|[d /andP [Hd1 Hdm] Hdvd]].
  - by rewrite ltnNge Hm.
  - have Hm0 : 0 < m by apply: ltnW.
    have He : m %/ d * d = m := divnK Hdvd.
    have He1 : 1 < m %/ d.
    { rewrite ltnNge; apply/negP => Hle. move: He Hdm.
      case: (m %/ d) Hle => [|[|]] // _; first by move=> <-. by rewrite mul1n => ->; rewrite ltnn. }
    have Hdv : m %/ d %| m by rewrite -{2}He dvdn_mulr.
    case: (leqP d (m %/ d)) => Hde.
    + have Hsq : d <= Nat.sqrt N by rewrite leq_sqrt // (leq_trans (leq_mul (leqnn d) Hde)) // mulnC He.
      by move: (Hd d); rewrite Hd1 Hsq Hdvd => /(_ isT).
    + have Hsq : m %/ d <= Nat.sqrt N.
      { by rewrite leq_sqrt // (leq_trans (leq_mul (leqnn _) (ltnW Hde))) // He. }
      by move: (Hd (m %/ d)); rewrite He1 Hsq Hdv => /(_ isT).
Qed.

(** ** The loops *)

(** The [while] loop divides [i] out of [m >= 1] within [m] steps. *)
Lemma divide_out_spec fuel i m :
  1 < i -> 0 < m -> m <= fuel ->
  exists k m', [/\ divide_out fuel i m = (nseq k i, m'), m = i ^ k * m', 0 < m' & ~~ (i %| m')].
Proof.
  move=> Hi; elim: fuel m => [|fuel IH] m Hm Hf.
  - by rewrite leqn0 in Hf; rewrite (eqP Hf) in Hm.
  - rewrite /=; case: ifP => Hdiv.
    + have Hd : i %| m by rewrite /dvdn Hdiv.
      have Hq : 0 < m %/ i by rewrite divn_gt0 ?(ltnW Hi) // dvdn_leq.
      have Hlt : m %/ i <= fuel by rewrite -ltnS (leq_trans (ltn_Pdiv Hi Hm) Hf).
      have [k [m' [-> Em Hm' Hnd]]] := IH _ Hq Hlt.
      by exists k.+1, m'; split => //; rewrite expnS -mulnA -Em mulnC divnK.
    + by exists 0, m; split; rewrite ?mul1n // /dvdn Hdiv.
Qed.

(** From [m = 0] the [while] loop never exits. *)
Lemma divide_out_zero fuel i : divide_out fuel i 0 = (nseq fuel i, 0).
Proof. by elim: fuel => [|fuel IH] //=; rewrite mod0n div0n IH. Qed.

(** The invariant of the [for] loop. *)
Lemma trial_loop_spec count i m :
  1 < i -> 0 < m -> (forall d, 1 < d < i -> ~~ (d %| m)) ->
  let: (gs, m2) := trial_loop count i m in
  [/\ m = \prod_(p <- gs) p * m2, all prime gs, path leq i gs,
      all (fun p => p < i + count) gs
    & forall d, 1 < d < i + count -> ~~ (d %| m2)].
Proof.
  elim: count i m => [|count IH] i m Hi Hm Hd /=.
  - by rewrite big_nil mul1n addn0.
  - have [k [m1 [-> Em Hm1 Hnd]]] := divide_out_spec Hi Hm (leqnn m).
    have Hd1 : forall d, 1 < d < i.+1 -> ~~ (d %| m1).
    { move=> d /andP [H1]; rewrite ltnS leq_eqVlt => /orP [/eqP -> // | H2].
      apply: contra (Hd d _); last by rewrite H1 H2.
      by rewrite Em; apply: dvdn_mull. }
    move: (IH i.+1 m1 (ltnW Hi) Hm1 Hd1).
    case: (trial_loop count i.+1 m1) => gs m2 [E Hp Hpath Hlt Hd2].
    rewrite addSnnS in Hlt Hd2; split => //.
    + by rewrite big_cat /= prod_nseq Em E mulnA.
    + rewrite all_cat Hp andbT all_nseq; case: k Em => [|k] Em //=.
      apply: (prime_least_divisor Hi _ Hd). by rewrite Em expnS -mulnA dvdn_mulr.
    + rewrite cat_path path_leq_nseq //=.
      exact: path_leq_weaken (leq_trans (last_nseq_leq k (leqnn i)) (leqnSn i)) Hpath.
    + by rewrite all_cat Hlt andbT all_nseq addnS ltnS leq_addr orbT.
Qed.

(** ** Uniqueness of sorted prime factorisations *)

Lemma count_prime_prod s p :
  all prime s -> prime p -> count_mem p s = logn p (\prod_(q <- s) q).
Proof.
  elim: s => [|q s IH] /=; first by rewrite big_nil logn1.
  move=> /andP [Hq Hs] Hp.
  by rewrite big_cons lognM ?prod_primes_gt0 ?prime_gt0 // logn_prime // eq_sym IH.
Qed.

Lemma factorization_unique s1 s2 :
  all prime s1 -> all prime s2 -> sorted leq s1 -> sorted leq s2 ->
  \prod_(p <- s1) p = \prod_(p <- s2) p -> s1 = s2.
Proof.
  move=> P1 P2 S1 S2 E. apply: (sorted_eq leq_trans anti_leq S1 S2).
  apply/allP => p; rewrite mem_cat => Hp /=.
  have Hpr : prime p by case/orP: Hp => Hp; [exact: (allP P1) | exact: (allP P2)].
  by rewrite !count_prime_prod // E.
Qed.

Lemma prime_factorization_all_prime N : all prime (prime_factorization N).
Proof.
  apply/allP => x /flattenP [s /mapP [p Hp ->]]; rewrite mem_nseq => /andP [_ /eqP ->].
  by move: Hp; rewrite mem_primes => /andP [].
Qed.

Lemma path_flatten_nseq x s (f : nat -> nat) :
  path ltn x s -> path leq x (flatten [seq nseq (f q) q | q <- s]).
Proof.
  elim: s x => [|q s IH] x //= /andP [Hxq Hs].
  rewrite cat_path path_leq_nseq ?(ltnW Hxq) //=.
  exact: path_leq_weaken (last_nseq_leq _ (ltnW Hxq)) (IH q Hs).
Qed.

Lemma prime_factorization_sorted N : sorted leq (prime_factorization N).
Proof.
  apply: (@path_sorted _ _ 0). apply: path_flatten_nseq.
  case E: (primes N) (sorted_primes N) => [|p s] //= ->; rewrite andbT prime_gt0 //.
  have : p \in primes N by rewrite E mem_head.
  by rewrite mem_primes => /andP [].
Qed.

Lemma prod_prime_factorization N : 0 < N -> \prod_(p <- prime_factorization N) p = N.
Proof.
  move=> HN. rewrite /prime_factorization big_flatten big_map.
  transitivity (\prod_(p <- primes N) p ^ logn p N); first by apply: eq_bigr => p _; apply: prod_nseq.
  by symmetry; rewrite {1}(prod_prime_decomp HN) prime_decompE big_map.
Qed.

(** ** Theorems *)

(** C34: termination of the [while] loop.  From every [m >= 1] the loop
    [while N % i == 0: N //= i] exits within [m] iterations: any fuel of
    at least [m] steps gives the same result, and the [N] it leaves is
    not divisible by [i]. *)
Theorem divide_out_terminates fuel fuel' i m :
  1 < i -> 0 < m -> m <= fuel -> m <= fuel' ->
  divide_out fuel i m = divide_out fuel' i m /\ ~~ (i %| (divide_out fuel i m).2).
Proof.
  move=> Hi Hm Hf Hf'; split; last by have [k [m' [-> _ _ Hnd]]] := divide_out_spec Hi Hm Hf.
  elim: fuel fuel' m Hm Hf Hf' => [|fuel IH] [|fuel'] m Hm Hf Hf' //=;
    try by rewrite leqn0 in Hf Hf'; move: Hm; rewrite ?(eqP Hf) ?(eqP Hf').
  case: ifP => Hdiv //. have Hd : i %| m by rewrite /dvdn Hdiv.
  have Hq : 0 < m %/ i by rewrite divn_gt0 ?(ltnW Hi) // dvdn_leq.
  rewrite (IH fuel' (m %/ i) Hq) // -ltnS (leq_trans (ltn_Pdiv Hi Hm)) //.
Qed.

(** [shors_algorithm]'s trial division is the prime factorisation.
    For every [N], the list of factors lines 165-171 compute (the loop
    over [range(2, isqrt(N) + 1)] and the cofactor) is the sorted list of
    the prime factors of [N], each repeated as often as it divides [N]. *)
Lemma trial_division_correct N : trial_division N = prime_factorization N.
Proof.
  case: N => [|N]; first by [].
  have HM : 0 < N.+1 by [].
  have Hs : 0 < Nat.sqrt N.+1 by apply: leq_sqrt.
  rewrite /trial_division.
  have := trial_loop_spec (Nat.sqrt N.+1).-1 (isT : 1 < 2) HM.
  case: (trial_loop _ 2 N.+1) => [gs m2] /(_ _) [].
  { by move=> d /andP [H1 H2]; rewrite ltnS in H2; rewrite ltnNge H2 in H1. }
  rewrite add2n prednK // => E Hp Hpath Hlt Hd.
  have Hm2 : 0 < m2 by move: HM; rewrite E muln_gt0 => /andP [].
  apply: factorization_unique (prime_factorization_all_prime _) _ (prime_factorization_sorted _) _;
    last 1 [rewrite prod_prime_factorization //]; case: ifP => Hm2'.
  - have HmN : m2 <= N.+1 by apply: dvdn_leq => //; rewrite E dvdn_mull.
    have Hpm : prime m2 by apply: (prime_no_divisor_sqrt Hm2' HmN) => d /andP [H1 H2]; apply: Hd; rewrite H1 ltnS.
    by rewrite all_rcons Hpm Hp.
  - by [].
  - have Hsm : Nat.sqrt N.+1 < m2.
    { rewrite ltnNge; apply/negP => H. by move: (Hd m2); rewrite Hm2' ltnS H dvdnn => /(_ isT). }
    apply: (@path_sorted _ _ 2); rewrite rcons_path Hpath /=.
    move: (mem_last 2 gs); rewrite in_cons => /orP [/eqP -> | Hl]; first exact: Hm2'.
    by move: (allP Hlt _ Hl); rewrite ltnS => H; apply: leq_trans H (ltnW Hsm).
  - exact: path_sorted Hpath.
  - by rewrite E -cats1 big_cat big_seq1.
  - have Em : m2 = 1 by apply/eqP; rewrite eqn_leq Hm2 leqNgt Hm2'.
    by rewrite E Em muln1.
Qed.

Section Witnesses.

Lemma divide_out_terminates_witness :
  divide_out 12 2 12 = divide_out 20 2 12 /\ ~~ (2 %| (divide_out 12 2 12).2).
Proof. by apply: divide_out_terminates. Defined.

End Witnesses.
