(* ===== verification/AlgoLab.v ===== *)
(** * The Qiskit algorithms lab ("quantum algorithms/qiskit implementation.py")

    [QiskitQuantumLab] of the algorithms folder is the lab the Django
    [quantum_api] view serves (see [AlgoApi]).  Its methods, as modelled
    here, are the following.
    - [shors_algorithm(N)]: trial division ([Factor]) behind the guard
      [N < 2].
    - [grovers_search(target, size)]: returns
      [int(np.pi * np.sqrt(size) / 4)] iterations and the speedup
      [size / iterations].  Negative sizes fail in [int(nan)], size 0 in
      [random.randint(0, -1)], and size 1 divides by zero.
    - [quantum_random_generator(num_bits)]: [min(num_bits, 32)] Hadamard
      qubits, [measure_all()], and the loop
      [while len(binary) < num_bits: binary += binary] on the count key,
      which carries the space [measure_all()] adds.
    - [build_quantum_circuit(gates)] and [execute_circuit(circuit)]: the
      token chain on a 3-qubit circuit, and an execution that needs
      exactly one final [measure_all()].
    - [bb84_key_distribution(key_length)]: one circuit [qc] that every
      trial extends with [reset], the trial's gates and [measure(0, 0)],
      and executes from the start, one shot.

    The BB84 circuit is shared state: trial [i] runs the gates of every
    trial before it.  [trajectories] gives the semantics of a 1-qubit
    circuit with mid-circuit [reset] and [measure] (spec 4.3, step 4).
    [measure] collapses the qubit to the basis state it reports, and
    [reset] sets it to |0>; on one qubit both are exact up to a global
    phase.  A shot is one trajectory, chosen by the input [shot].

    Floating point: [floor_quarter_sqrt np_pi_num np_pi_exp m] is
    [int(np.pi * np.sqrt(m) / 4)] for every [m < 3000000] (checked against
    the double computation); [round(x, 2)] is [py_round2], half to even
    on the exact rational.

    Not modelled: [create_molecular_simulation] and
    [simulate_material_properties] (rotations by [pi/4 * (i+1)] and
    [temperature / 1000 * pi], outside the exact angles, and random
    fidelities), and [calculate_entanglement] (a random draw).  The
    simulator raises ValueError on the token "RY" ([ry(pi/4)] needs
    cos(pi/8)); the theorems about [execute_circuit] are about circuits
    without it. *)

From Stdlib Require Import ZArith QArith List Lia Bool String Ascii.
From S2P Require Import Prelude Cyclo Gates Statevector Unitarity Bitstring Histogram QRNG Factor.
Import ListNotations.
#[local] Open Scope nat_scope.

(** [round(x, 2)]: the nearest multiple of 1/100, ties to even. *)
Definition py_round2 (x : Q) : Q :=
  let n := (100 * Qnum x)%Z in
  let d := Zpos (Qden x) in
  let f := (n / d)%Z in
  let k := match Z.compare (2 * (n mod d)) d with
           | Lt => f
           | Gt => (f + 1)%Z
           | Eq => if Z.even f then f else (f + 1)%Z
           end in
  (k # 100)%Q.

Module QiskitAlgoLab.

(** [self.shots = 1024] *)
Definition shots : nat := 1024.

(** ** [shors_algorithm] (lines 159-178) *)

(** The two dicts the method returns: [{"factors": []}] for [N < 2], and
    the factors with the constant fields [quantum_speedup],
    [classical_complexity] and [quantum_complexity]. *)
Inductive shor_result :=
| ShorEmpty
| ShorReport (factors : list nat).

Definition shors_algorithm (N : Z) : shor_result :=
  if (N <? 2)%Z then ShorEmpty else ShorReport (trial_division (Z.to_nat N)).

(** ** [grovers_search] (lines 180-194) *)

Record grover_search_result (A : Type) := GroverSearchResult {
  gs_target : A;
  gs_position : Z;
  gs_iterations : nat;
  gs_speedup : Q;
  gs_found : bool
}.
Arguments GroverSearchResult {A}.
Arguments gs_target {A}.
Arguments gs_position {A}.
Arguments gs_iterations {A}.
Arguments gs_speedup {A}.
Arguments gs_found {A}.

(** [position] is the draw [random.randint(0, database_size - 1)]. *)
Definition grovers_search {A} (target_item : A) (database_size position : Z)
    : res (grover_search_result A) :=
  if (database_size <? 0)%Z then Raise (ValueError "cannot convert float NaN to integer")
  else
    let optimal_iterations := floor_quarter_sqrt np_pi_num np_pi_exp database_size in
    if (database_size - 1 <? 0)%Z then Raise (ValueError "empty range in randrange(0, 0)")
    else if optimal_iterations =? 0 then Raise ZeroDivisionError
    else Ok (GroverSearchResult target_item position optimal_iterations
               (py_round2 (inject_Z database_size / inject_Z (Z.of_nat optimal_iterations)))
               true).

(** ** [quantum_random_generator] (lines 133-157) *)

(** [while len(binary) < num_bits: binary += binary], with [fuel]
    passes; [None] when the fuel runs out. *)
Fixpoint extend_binary (fuel num_bits : nat) (binary : string) : option string :=
  match fuel with
  | O => None
  | S fuel' =>
      if String.length binary <? num_bits then extend_binary fuel' num_bits (binary ++ binary)
      else Some binary
  end.

Record qrng_out := QrngOut { qo_binary : string; qo_decimal : nat; qo_hex : string }.

(** The method on the one shot [shot]; [None] when the loop does not
    stop.  [num_bits + 1] passes are enough whenever the key is not
    empty, since every pass doubles its length. *)
Definition quantum_random_generator (num_bits shot : nat) : option (res qrng_out) :=
  let m := Nat.min num_bits 32 in
  match run m (hadamard_all m) with
  | Raise e => Some (Raise e)
  | Ok _ =>
      match extend_binary (S num_bits) num_bits (qiskit_key_measure_all m m shot) with
      | None => None
      | Some b =>
          let binary := substring 0 num_bits b in
          Some (let* decimal := if 32 <=? String.length binary then py_int_base2 (substring 0 32 binary)
                                else py_int_base2 binary in
                Ok (QrngOut binary decimal (py_hex_upper decimal)))
      end
  end.

(** ** [build_quantum_circuit] and [execute_circuit] (lines 55-88) *)

(** An instruction of [QuantumCircuit(3, 3)]: a gate, or [measure_all()]. *)
Inductive instr := IGate (g : gate_op) | IMeasureAll.

(** The [if gate == ...] chain; other tokens add nothing. *)
Definition build_gate (gate : py_val) : list instr :=
  if py_eq_str gate "H" then [IGate (GH 0)]
  else if py_eq_str gate "X" then [IGate (GX 0)]
  else if py_eq_str gate "Y" then [IGate (GY 0)]
  else if py_eq_str gate "Z" then [IGate (GZ 0)]
  else if py_eq_str gate "CNOT" then [IGate (GCX 0 1)]
  else if py_eq_str gate "RZ" then [IGate (GRZ (pi_over_pow2 2) 0)]
  else if py_eq_str gate "RY" then [IGate (GRY (pi_over_pow2 2) 0)]
  else if py_eq_str gate "Measure" then [IMeasureAll]
  else [].

Definition build_quantum_circuit (gates : list py_val) : list instr := flat_map build_gate gates.

(** The gates before the first [measure_all()] and the instructions
    after it; [None] when the circuit measures nothing. *)
Fixpoint split_measure (c : list instr) : option (circuit * list instr) :=
  match c with
  | [] => None
  | IMeasureAll :: rest => Some ([], rest)
  | IGate g :: c' =>
      match split_measure c' with
      | Some (gs, rest) => Some (g :: gs, rest)
      | None => None
      end
  end.

Definition is_gate (i : instr) : bool := match i with IGate _ => true | IMeasureAll => false end.

Record exec_out := ExecOut { eo_counts : counts; eo_statevector : qstate; eo_success : bool }.

(** [execute(circuit, backend, shots=1024)], [get_counts()] and
    [Statevector.from_instruction(circuit.remove_final_measurements())]
    on the [shots] basis states [samples].
    - Without a measurement there are no counts (QiskitError).
    - With a gate after a measurement, that measurement stays in the
      circuit and the state vector cannot be computed (QiskitError).
    - With one final [measure_all()] the counts are keyed
      '<meas> <c>' and the state is that of the gates.
    - [None]: several final [measure_all()], which add several registers,
      are not modelled. *)
Definition execute_circuit (c : list instr) (samples : list nat) : option (res exec_out) :=
  match split_measure c with
  | None => Some (Raise (QiskitError "No counts for experiment"))
  | Some (gs, rest) =>
      if existsb is_gate rest then
        Some (Raise (QiskitError "Cannot apply instruction with classical bits: measure"))
      else match rest with
           | [] => Some (let* s := run 3 gs in
                         Ok (ExecOut (build_counts (map (qiskit_key_measure_all 3 3) samples)) s true))
           | _ :: _ => None
           end
  end.

(** ** [bb84_key_distribution] (lines 90-131) *)

(** An instruction of [QuantumCircuit(1, 1)]. *)
Inductive binstr := BReset | BGate (g : gate_op) | BMeasure.

(** The qubit after [measure] reported [b]. *)
Definition collapsed (b : bool) : qstate :=
  QS 1 0 (tabulate 1 (fun j => if j =? Nat.b2n b then cone else czero)).

(** The runs of a circuit from state [s] with classical bit [cl]: the
    final state and classical bit of every branch of the measurements. *)
Fixpoint trajectories (c : list binstr) (s : qstate) (cl : bool) : list (qstate * bool) :=
  match c with
  | [] => [(s, cl)]
  | BReset :: c' => trajectories c' (init_state 1) cl
  | BGate g :: c' =>
      match apply_gate g s with
      | Ok s' => trajectories c' s' cl
      | Raise _ => []
      end
  | BMeasure :: c' =>
      flat_map (fun b => if qubit_possible s 0 b then trajectories c' (collapsed b) b else [])
               [false; true]
  end.

(** What trial [i] appends to [qc]. *)
Definition bb84_segment (bit abasis bbasis : bool) : list binstr :=
  [BReset] ++ (if bit then [BGate (GX 0)] else []) ++ (if abasis then [BGate (GH 0)] else []) ++
  (if bbasis then [BGate (GH 0)] else []) ++ [BMeasure].

(** The [for i in range(key_length)] loop from trial [i], with [todo]
    trials left, the circuit [qc] so far, the shared key and the error
    count.  [execute(qc, shots=1)] runs trajectory [shot i] of [qc];
    [int(list(counts.keys())[0])] is its classical bit. *)
Fixpoint bb84_loop (abits abases bbases : list bool) (shot : nat -> nat)
    (i todo : nat) (qc : list binstr) (shared : list bool) (errors : nat) : list bool * nat :=
  match todo with
  | O => (shared, errors)
  | S todo' =>
      let a := nth i abits false in
      let ab := nth i abases false in
      let bb := nth i bbases false in
      let qc' := (qc ++ bb84_segment a ab bb)%list in
      let measured := snd (nth (shot i) (trajectories qc' (init_state 1) false) (init_state 1, false)) in
      if Bool.eqb ab bb then
        bb84_loop abits abases bbases shot (S i) todo' qc' (shared ++ [measured])%list
                  (if Bool.eqb measured a then errors else S errors)
      else bb84_loop abits abases bbases shot (S i) todo' qc' shared errors
  end.

Record bb84_out := BB84Out { bo_shared_key : string; bo_key_length : nat; bo_error_rate : Q }.

(** [rnd] is the stream of [random.randint(0, 1)]: the sender's bits,
    then the sender's bases, then the receiver's bases. *)
Definition bb84_key_distribution (key_length : nat) (rnd : nat -> bool) (shot : nat -> nat) : bb84_out :=
  let abits := draws rnd 0 key_length in
  let abases := draws rnd key_length key_length in
  let bbases := draws rnd (2 * key_length) key_length in
  let (shared, errors) := bb84_loop abits abases bbases shot 0 key_length [] [] 0 in
  let error_rate := match shared with
                    | [] => 0%Q
                    | _ => py_round2 (inject_Z (Z.of_nat errors) / inject_Z (Z.of_nat (List.length shared)) * 100)
                    end in
  BB84Out (string_of_bits shared) (List.length shared) error_rate.

End QiskitAlgoLab.

Import QiskitAlgoLab.

(** ** The specification's notions *)

(** The gates of a circuit, its measurements dropped. *)
Definition circuit_gates (c : list instr) : circuit :=
  flat_map (fun i => match i with IGate g => [g] | IMeasureAll => [] end) c.

(** The two runs of a trial: with matching bases the receiver reads the
    sender's bit, otherwise either bit. *)
Definition seg_outcomes (a ab bb : bool) : list (qstate * bool) :=
  if Bool.eqb ab bb then [(collapsed a, a)] else [(collapsed false, false); (collapsed true, true)].

Section BB84Trials.

Variables abits abases bbases : list bool.

(** [qc] after [n] trials: the loop's invariant. *)
Definition bb84_qc (n : nat) : list binstr :=
  flat_map (fun t => bb84_segment (nth t abits false) (nth t abases false) (nth t bbases false)) (seq 0 n).

(** The sifted key of trials [i .. i+n-1]. *)
Definition sifted (i n : nat) : list bool :=
  flat_map (fun t => if Bool.eqb (nth t abases false) (nth t bbases false) then [nth t abits false] else [])
           (seq i n).

End BB84Trials.

(** ** Lemmas on [grovers_search] *)

Lemma quarter_sqrt_np_pi_pos m : (2 <= m)%Z -> 1 <= floor_quarter_sqrt np_pi_num np_pi_exp m.
Proof.
  intros Hm. unfold floor_quarter_sqrt.
  assert (H : (1 <= np_pi_num ^ 2 * m / 2 ^ (2 * np_pi_exp + 4))%Z).
  { apply Z.div_le_lower_bound; [reflexivity|].
    transitivity (np_pi_num ^ 2 * 2)%Z; [vm_compute; discriminate|].
    apply Z.mul_le_mono_nonneg_l; [vm_compute; discriminate | exact Hm]. }
  apply Z.sqrt_le_mono in H. change (Z.sqrt 1) with 1%Z in H. lia.
Qed.

Lemma quarter_sqrt_np_pi_le m : (0 <= m)%Z -> floor_quarter_sqrt np_pi_num np_pi_exp m <= Z.to_nat (Z.sqrt m).
Proof.
  intros Hm. unfold floor_quarter_sqrt. apply Z2Nat.inj_le; try apply Z.sqrt_nonneg.
  apply Z.sqrt_le_mono, Z.div_le_upper_bound; [reflexivity|].
  apply Z.mul_le_mono_nonneg_r; [exact Hm | vm_compute; discriminate].
Qed.

(** ** Lemmas on the generator's loop *)

Lemma extend_binary_ok fuel n binary :
  binary <> EmptyString -> n - String.length binary < fuel ->
  exists b, extend_binary fuel n binary = Some b /\ n <= String.length b /\
    (exists rest, b = (binary ++ rest)%string) /\
    forall fuel', n - String.length binary < fuel' -> extend_binary fuel' n binary = Some b.
Proof.
  revert binary. induction fuel as [|fuel IH]; intros binary Hne Hf; [lia|].
  assert (Hpos : 0 < String.length binary) by (destruct binary; [contradiction | cbn; lia]).
  cbn [extend_binary]. destruct (Nat.ltb_spec (String.length binary) n) as [Hl|Hl].
  - assert (Hlen : String.length (binary ++ binary) = 2 * String.length binary)
      by (rewrite string_length_app; lia).
    destruct (IH (binary ++ binary)%string) as (b & Hb & Hn & [rest Hr] & Hall).
    { destruct binary; [contradiction | discriminate]. }
    { rewrite Hlen. lia. }
    exists b. repeat split; [exact Hb | exact Hn | |].
    + exists (binary ++ rest)%string. now rewrite Hr, string_app_assoc.
    + intros [|fuel'] Hf'; [lia|]. cbn [extend_binary].
      destruct (Nat.ltb_spec (String.length binary) n); [|lia]. apply Hall. rewrite Hlen. lia.
  - exists binary. repeat split; [lia | exists EmptyString; now rewrite string_app_nil_r |].
    intros [|fuel'] Hf'; [lia|]. cbn [extend_binary].
    destruct (Nat.ltb_spec (String.length binary) n); [lia | reflexivity].
Qed.

(** ** Lemmas on [build_quantum_circuit] *)

Lemma build_gate_gates g :
  py_eq_str g "Measure" = false -> forallb is_gate (build_gate g) = true.
Proof. intros H. unfold build_gate. repeat (destruct (py_eq_str g _); try reflexivity). discriminate. Qed.

(** The token gates other than "RY" act on qubits 0 and 1 with exact angles. *)
Lemma build_gate_exact g :
  py_eq_str g "RY" = false ->
  Forall (fun g => wf_gate 3 g = true /\ gate_action g <> None) (circuit_gates (build_gate g)).
Proof.
  intros H. unfold build_gate.
  repeat (destruct (py_eq_str g _); [try discriminate; repeat constructor; discriminate|]); constructor.
Qed.

Lemma circuit_gates_app c1 c2 : circuit_gates (c1 ++ c2) = (circuit_gates c1 ++ circuit_gates c2)%list.
Proof. apply flat_map_app. Qed.

Lemma split_measure_gates c rest :
  forallb is_gate c = true -> split_measure (c ++ IMeasureAll :: rest) = Some (circuit_gates c, rest).
Proof.
  induction c as [|[g|] c IH]; cbn; intros H; [reflexivity | | discriminate].
  now rewrite IH.
Qed.

Lemma split_measure_none c : forallb is_gate c = true -> split_measure c = None.
Proof. induction c as [|[g|] c IH]; cbn; intros H; [reflexivity | now rewrite IH | discriminate]. Qed.

Lemma build_no_measure gates :
  Forall (fun g => py_eq_str g "Measure" = false) gates ->
  forallb is_gate (build_quantum_circuit gates) = true.
Proof.
  induction 1 as [|g gs Hg _ IH]; [reflexivity|].
  unfold build_quantum_circuit. cbn [flat_map]. rewrite forallb_app, build_gate_gates by exact Hg.
  exact IH.
Qed.

(** ** Lemmas on the trajectories of the BB84 circuit *)

Lemma trajectories_app c1 c2 s cl :
  trajectories (c1 ++ c2) s cl = flat_map (fun p => trajectories c2 (fst p) (snd p)) (trajectories c1 s cl).
Proof.
  revert s cl; induction c1 as [|[|g|] c1 IH]; intros s cl; cbn [app trajectories].
  - cbn. now rewrite app_nil_r.
  - apply IH.
  - destruct (apply_gate g s); [apply IH | reflexivity].
  - cbn [flat_map]. rewrite !flat_map_app, !app_nil_r.
    destruct (qubit_possible s 0 false), (qubit_possible s 0 true); cbn; rewrite ?IH, ?app_nil_r; reflexivity.
Qed.

(** Every trial starts with [reset]: its runs do not depend on the state
    before it. *)
Lemma segment_trajectories a ab bb s cl :
  trajectories (bb84_segment a ab bb) s cl = seg_outcomes a ab bb.
Proof. destruct a, ab, bb; reflexivity. Qed.

Lemma bb84_qc_S abits abases bbases n :
  bb84_qc abits abases bbases (S n) =
  (bb84_qc abits abases bbases n ++ bb84_segment (nth n abits false) (nth n abases false) (nth n bbases false))%list.
Proof. unfold bb84_qc. rewrite seq_S, flat_map_app. cbn. now rewrite app_nil_r. Qed.

Lemma bb84_qc_runs abits abases bbases n :
  trajectories (bb84_qc abits abases bbases n) (init_state 1) false <> [].
Proof.
  induction n as [|n IH]; [discriminate|].
  rewrite bb84_qc_S, trajectories_app.
  destruct (trajectories _ (init_state 1) false) as [|p ps]; [contradiction|].
  cbn [flat_map]. rewrite segment_trajectories. unfold seg_outcomes.
  destruct (Bool.eqb _ _); discriminate.
Qed.

(** The classical bits trial [n] can read: those of the trial alone. *)
Lemma bb84_qc_bits abits abases bbases n b :
  In b (map snd (trajectories (bb84_qc abits abases bbases (S n)) (init_state 1) false)) <->
  In b (map snd (seg_outcomes (nth n abits false) (nth n abases false) (nth n bbases false))).
Proof.
  rewrite bb84_qc_S, trajectories_app. pose proof (bb84_qc_runs abits abases bbases n) as Hne.
  destruct (trajectories _ (init_state 1) false) as [|p ps]; [contradiction|]. clear Hne.
  split.
  - intros H. apply in_map_iff in H as (q & <- & Hq). apply in_flat_map in Hq as (p' & _ & Hq).
    rewrite segment_trajectories in Hq. now apply in_map.
  - intros H. apply in_map_iff in H as (q & <- & Hq). apply in_map, in_flat_map.
    exists p. split; [now left | now rewrite segment_trajectories].
Qed.

(** ** Lemmas on the BB84 loop *)

Section BB84Loop.

Variables (abits abases bbases : list bool) (shot : nat -> nat).

(** Trial [i]'s shot is one of the runs of [qc]. *)
Definition shot_valid (i : nat) : Prop :=
  shot i < List.length (trajectories (bb84_qc abits abases bbases (S i)) (init_state 1) false).

(** The measured bit of a trial with matching bases is the sender's. *)
Lemma bb84_measured i :
  shot_valid i -> nth i abases false = nth i bbases false ->
  snd (nth (shot i) (trajectories (bb84_qc abits abases bbases (S i)) (init_state 1) false)
           (init_state 1, false)) = nth i abits false.
Proof.
  intros Hv Hb.
  assert (Hin : In (snd (nth (shot i) (trajectories (bb84_qc abits abases bbases (S i)) (init_state 1) false)
                              (init_state 1, false)))
                   (map snd (trajectories (bb84_qc abits abases bbases (S i)) (init_state 1) false)))
    by (apply in_map, nth_In, Hv).
  apply bb84_qc_bits in Hin. unfold seg_outcomes in Hin. rewrite Hb, eqb_reflx in Hin.
  destruct Hin as [<- | []]. reflexivity.
Qed.

Lemma algo_bb84_loop_noiseless i todo shared errors :
  (forall t, i <= t < i + todo -> shot_valid t) ->
  bb84_loop abits abases bbases shot i todo (bb84_qc abits abases bbases i) shared errors =
  ((shared ++ sifted abits abases bbases i todo)%list, errors).
Proof.
  revert i shared. induction todo as [|todo IH]; intros i shared Hv; cbn [bb84_loop].
  - now rewrite app_nil_r.
  - rewrite <- bb84_qc_S. unfold sifted. cbn [seq flat_map].
    destruct (Bool.eqb_spec (nth i abases false) (nth i bbases false)) as [Hb|Hb].
    + rewrite bb84_measured, eqb_reflx by (auto; apply Hv; lia).
      rewrite IH by (intros t Ht; apply Hv; lia). cbn [app]. now rewrite <- app_assoc.
    + rewrite IH by (intros t Ht; apply Hv; lia). reflexivity.
Qed.

End BB84Loop.

(** ** Theorems *)



(** Termination of [while len(binary) < num_bits: binary +=
    binary].  From a non-empty string the loop stops within [num_bits]
    passes with at least [num_bits] characters, and more fuel gives the
    same string; from the empty string it never stops. *)
Theorem extend_binary_terminates num_bits binary :
  (binary <> EmptyString -> exists b, extend_binary (S num_bits) num_bits binary = Some b /\
     num_bits <= String.length b /\
     forall fuel, num_bits - String.length binary < fuel -> extend_binary fuel num_bits binary = Some b) /\
  (0 < num_bits -> forall fuel, extend_binary fuel num_bits EmptyString = None).
Proof.
  split.
  - intros Hne. destruct (extend_binary_ok (S num_bits) num_bits binary Hne) as (b & Hb & Hn & _ & Hall);
      [lia|]. eauto.
  - intros Hn fuel. induction fuel as [|fuel IH]; [reflexivity|]. cbn [extend_binary].
    cbn [String.length append]. destruct (Nat.ltb_spec 0 num_bits); [exact IH | lia].
Qed.

(** The algorithms lab's [quantum_random_generator] returns on
    every shot of [min(num_bits, 32)] qubits: the [while] loop stops and
    ['binary'] has [num_bits] characters, ['decimal'] is the measured
    value and ['hex'] its hexadecimal.  Up to 32 bits ['binary'] is the
    measured key; beyond 32 bits its character 32 is the space that
    [measure_all()] puts in the count key, so ['binary'] is not a string
    of bits (the spec asks for the [num_bits] measured bits). *)
Theorem qiskit_algo_qrng num_bits shot :
  1 <= num_bits -> shot < 2 ^ Nat.min num_bits 32 ->
  exists r, quantum_random_generator num_bits shot = Some (Ok r) /\
    String.length (qo_binary r) = num_bits /\ qo_decimal r = shot /\ qo_hex r = py_hex_upper shot /\
    (num_bits <= 32 -> qo_binary r = qiskit_key num_bits shot) /\
    (32 < num_bits -> String.get 32 (qo_binary r) = Some " "%char).
Proof.
  intros Hn Hs. unfold quantum_random_generator. rewrite run_hadamard_all.
  set (m := Nat.min num_bits 32) in *.
  assert (Hm : 1 <= m <= 32) by lia.
  set (key := qiskit_key_measure_all m m shot).
  assert (Hkey : String.length key = m + S m) by apply length_qiskit_key_measure_all.
  destruct (extend_binary_ok (S num_bits) num_bits key) as (b & Hb & Hlen & [rest Hr] & _);
    [intros E; rewrite E in Hkey; cbn in Hkey; lia | lia |].
  rewrite Hb. set (binary := substring 0 num_bits b).
  assert (Hbl : String.length binary = num_bits) by (apply length_substring_prefix; lia).
  assert (Hqk : substring 0 m (qiskit_key m shot) = qiskit_key m shot).
  { pose proof (substring_full (qiskit_key m shot)) as F. now rewrite length_qiskit_key in F. }
  assert (Hpre : substring 0 m binary = qiskit_key m shot).
  { unfold binary. rewrite substring_prefix_prefix, Hr by lia. unfold key, qiskit_key_measure_all.
    rewrite string_app_assoc, substring_prefix_app by (rewrite length_qiskit_key; lia). exact Hqk. }
  assert (Hval : py_int_base2 (qiskit_key m shot) = Ok shot) by (apply py_int_base2_qiskit_key; lia).
  destruct (Nat.le_gt_cases num_bits 32) as [Hle|Hgt].
  - assert (Em : m = num_bits) by lia.
    assert (Hbin : binary = qiskit_key m shot).
    { rewrite <- Hpre, Em, <- Hbl. symmetry. apply substring_full. }
    assert (Hdec : (if 32 <=? String.length binary then py_int_base2 (substring 0 32 binary)
                    else py_int_base2 binary) = Ok shot).
    { rewrite Hbl. destruct (Nat.leb_spec 32 num_bits); [|now rewrite Hbin].
      replace 32 with m by lia. now rewrite Hpre. }
    rewrite Hdec. cbn [res_bind]. eexists. split; [reflexivity|]. cbn.
    split; [exact Hbl|]. split; [reflexivity|]. split; [reflexivity|].
    split; [now rewrite Hbin, Em | lia].
  - assert (Em : m = 32) by lia.
    rewrite Hbl, (proj2 (Nat.leb_le 32 num_bits)) by lia. rewrite <- Em, Hpre, Hval. cbn [res_bind].
    eexists. split; [reflexivity|]. cbn.
    split; [exact Hbl|]. split; [reflexivity|]. split; [reflexivity|]. split; [lia|].
    intros _. unfold binary. rewrite get_substring_prefix, Hr, get_app_left by (rewrite ?Hkey; lia).
    unfold key, qiskit_key_measure_all.
    rewrite <- (length_qiskit_key m shot) at 1. rewrite <- (Nat.add_0_r (String.length _)), get_app_right.
    reflexivity.
Qed.

Lemma build_exact gates :
  Forall (fun g => py_eq_str g "RY" = false) gates ->
  Forall (fun g => wf_gate 3 g = true /\ gate_action g <> None) (circuit_gates (build_quantum_circuit gates)).
Proof.
  induction 1 as [|g gs Hg _ IH]; [constructor|].
  unfold build_quantum_circuit. cbn [flat_map]. rewrite circuit_gates_app.
  apply Forall_app. split; [now apply build_gate_exact | exact IH].
Qed.

Lemma build_measure_app gates extra :
  build_quantum_circuit (gates ++ PStr "Measure" :: extra) =
  (build_quantum_circuit gates ++ IMeasureAll :: build_quantum_circuit extra)%list.
Proof. unfold build_quantum_circuit. now rewrite flat_map_app. Qed.

(** C31: [execute_circuit(build_quantum_circuit(gates))] needs exactly
    one final "Measure" token.  Without one, Aer has no counts and
    QiskitError is raised; with gates after it, the measurement is not
    final and [Statevector.from_instruction] raises QiskitError.  With
    one final "Measure" (and no "RY"), it returns the counts keyed
    '<meas> <c>' and the state of the gates. *)
Theorem execute_circuit_measure gates extra samples :
  Forall (fun g => py_eq_str g "Measure" = false) gates ->
  Forall (fun g => py_eq_str g "Measure" = false) extra ->
  execute_circuit (build_quantum_circuit gates) samples = Some (Raise (QiskitError "No counts for experiment")) /\
  (build_quantum_circuit extra <> [] ->
   execute_circuit (build_quantum_circuit (gates ++ PStr "Measure" :: extra)) samples =
   Some (Raise (QiskitError "Cannot apply instruction with classical bits: measure"))) /\
  (Forall (fun g => py_eq_str g "RY" = false) gates ->
   exists s, run 3 (circuit_gates (build_quantum_circuit gates)) = Ok s /\
     execute_circuit (build_quantum_circuit (gates ++ [PStr "Measure"])) samples =
     Some (Ok (ExecOut (build_counts (map (qiskit_key_measure_all 3 3) samples)) s true))).
Proof.
  intros Hg He. pose proof (build_no_measure gates Hg) as Bg. pose proof (build_no_measure extra He) as Be.
  split; [|split].
  - unfold execute_circuit. now rewrite split_measure_none.
  - intros Hne. unfold execute_circuit. rewrite build_measure_app, split_measure_gates by exact Bg.
    destruct (build_quantum_circuit extra) as [|i l]; [contradiction|].
    cbn in Be. apply andb_true_iff in Be as [Bi _]. cbn [existsb]. now rewrite Bi.
  - intros Hry. destruct (run_from_total (circuit_gates (build_quantum_circuit gates)) (init_state 3))
      as (s & Hs & _).
    + pose proof (build_exact gates Hry) as Hx. unfold wf_circuit. apply forallb_forall.
      intros g Hin. rewrite Forall_forall in Hx. now apply Hx.
    + eapply Forall_impl; [|exact (build_exact gates Hry)]. cbn. tauto.
    + exists s. split; [exact Hs|]. unfold execute_circuit. rewrite build_measure_app.
      rewrite split_measure_gates by exact Bg. cbn [existsb]. unfold run. now rewrite Hs.
Qed.

(** The shared BB84 circuit.  Trial [i] executes [qc], which holds
    the [reset], gates and [measure] of every trial [0 .. i]; because
    every trial starts with [reset(0)] and its [measure(0, 0)] overwrites
    the classical bit, the bits trial [i] can read are exactly those of
    trial [i]'s circuit alone. *)
Theorem bb84_shared_circuit_fresh abits abases bbases i b :
  In b (map snd (trajectories (bb84_qc abits abases bbases (S i)) (init_state 1) false)) <->
  In b (map snd (trajectories (bb84_segment (nth i abits false) (nth i abases false) (nth i bbases false))
                              (init_state 1) false)).
Proof. now rewrite bb84_qc_bits, segment_trajectories. Qed.

(** The algorithms lab's BB84 on a noiseless channel.  Whatever
    runs the simulator picks, the shared key is the sender's bits of the
    trials with matching bases (sifting, not truncation) and the error
    rate is exactly 0. *)
Theorem qiskit_algo_bb84_noiseless key_length rnd shot :
  (forall t, t < key_length ->
     shot_valid (draws rnd 0 key_length) (draws rnd key_length key_length)
                (draws rnd (2 * key_length) key_length) shot t) ->
  let r := bb84_key_distribution key_length rnd shot in
  let key := sifted (draws rnd 0 key_length) (draws rnd key_length key_length)
                    (draws rnd (2 * key_length) key_length) 0 key_length in
  bo_shared_key r = string_of_bits key /\ bo_key_length r = List.length key /\ (bo_error_rate r == 0)%Q.
Proof.
  intros Hv r key. unfold r, bb84_key_distribution. cbv zeta.
  change (bb84_loop ?a ?b ?c ?s 0 ?k [] [] 0) with (bb84_loop a b c s 0 k (bb84_qc a b c 0) [] 0).
  rewrite algo_bb84_loop_noiseless by (intros t Ht; apply Hv; lia). cbn [app fst snd].
  fold key. split; [reflexivity | split; [reflexivity|]].
  destruct key; [reflexivity|]. unfold py_round2. cbn. reflexivity.
Qed.

Section Witnesses.


Lemma extend_binary_terminates_witness : extend_binary 7 3 EmptyString = None.
Proof. apply (proj2 (extend_binary_terminates 3 EmptyString)). lia. Defined.

Lemma qiskit_algo_qrng_witness :
  exists r, quantum_random_generator 40 5 = Some (Ok r) /\ String.get 32 (qo_binary r) = Some " "%char.
Proof.
  assert (H2 : 5 < 2 ^ Nat.min 40 32).
  { change (Nat.min 40 32) with 32. apply Nat.lt_trans with 32; [lia | apply Nat.pow_gt_lin_r; lia]. }
  destruct (qiskit_algo_qrng 40 5 ltac:(lia) H2) as (r & E & _ & _ & _ & _ & G).
  exists r. split; [exact E | apply G; lia].
Defined.

Lemma execute_circuit_measure_witness :
  execute_circuit (build_quantum_circuit [PStr "H"; PStr "CNOT"]) [0; 3] =
  Some (Raise (QiskitError "No counts for experiment")).
Proof. apply (execute_circuit_measure [PStr "H"; PStr "CNOT"] [] [0; 3]); repeat constructor. Defined.

(** Sender bits 1 0, sender bases 1 0, receiver bases 1 1. *)
Definition rnd_trials (i : nat) : bool := negb ((i =? 1) || (i =? 3)).

Lemma qiskit_algo_bb84_noiseless_witness :
  (bo_error_rate (bb84_key_distribution 2 rnd_trials (fun _ => 0%nat)) == 0)%Q.
Proof.
  refine (proj2 (proj2 (qiskit_algo_bb84_noiseless 2 rnd_trials (fun _ => 0) _))).
  intros [|[|t]] Ht; [| | lia]; unfold shot_valid; apply Nat.ltb_lt; vm_compute; reflexivity.
Defined.

End Witnesses.
