(* ===== verification/QSharpAlgo.v ===== *)
(** * The Q# algorithms lab ("quantum algorithms/qsharp implementation.py")

    [QSharpQuantumLab] of the algorithms folder runs no quantum code: each
    method returns a dict with a Q# program as text ([qsharp_code], never
    compiled or run) and fields drawn with [random].  The model keeps the
    text exactly (the f-strings with [str] of their integer arguments) and
    takes the random draws, and their renderings by f-string formats such
    as [{x:.4f}], as inputs.

    - [quantum_phase_estimation] reports a random phase: the draw
      [random.uniform(0, 2*pi)], whatever the circuit text says.
    - [quantum_cryptography_protocols] and [quantum_optimization_suite]
      choose a text by comparing their argument with "QKD" and "MaxCut".
    - [azure_quantum_integration] looks its argument up in a dict of
      three hardware names: any other name raises KeyError, after the
      draws of [job_config].

    The theorem shows the KeyError of [azure_quantum_integration] and the
    specifications it returns for the three names. *)

From Stdlib Require Import ZArith QArith List Lia Bool String Ascii.
From S2P Require Import Prelude.
Import ListNotations.

Module QSharpAlgoLab.

(** [__init__]: the lab's two attributes. *)
Record lab := Lab { azure_connected : bool; quantum_processors : list string }.

Definition lab_init : lab := Lab true ["IonQ"; "Honeywell"; "Rigetti"]%string.

(** The f-string [qsharp_code] of [quantum_phase_estimation] (lines 22-45) *)
Definition qpe_code (eigenvalue_bits : Z) : string :=
  ("
        operation QuantumPhaseEstimation() : Result[] {
            use qubits = Qubit["
  ++ py_str_int (eigenvalue_bits + 1)
  ++ "];
            let eigenQubit = qubits[0];
            let phaseQubits = qubits[1.."
  ++ py_str_int eigenvalue_bits
  ++ "];
            
            // Prepare eigenstate
            X(eigenQubit);
            
            // Apply controlled unitaries
            for i in 0.."
  ++ py_str_int (eigenvalue_bits - 1)
  ++ " {
                H(phaseQubits[i]);
                for j in 0..2^i-1 {
                    Controlled U([phaseQubits[i]], eigenQubit);
                }
            }
            
            // Inverse QFT
            InverseQFT(phaseQubits);
            
            // Measure phase register
            return ForEach(M, phaseQubits);
        }
        ")%string.

(** The f-string [qsharp_code] of [quantum_dynamics_simulation] (lines 57-84) *)
Definition dynamics_code (time_steps : Z) : string :=
  ("
        operation HamiltonianSimulation(time : Double) : Unit {
            use qubits = Qubit[4];
            
            // Initialize system state
            ApplyToEach(H, qubits);
            
            // Trotter steps
            for step in 0.."
  ++ py_str_int (time_steps - 1)
  ++ " {
                let dt = time / IntAsDouble("
  ++ py_str_int time_steps
  ++ ");
                
                // Apply X terms
                for i in 0..3 {
                    Rx(2.0 * dt, qubits[i]);
                }
                
                // Apply ZZ interactions
                for i in 0..2 {
                    CNOT(qubits[i], qubits[i+1]);
                    Rz(2.0 * dt, qubits[i+1]);
                    CNOT(qubits[i], qubits[i+1]);
                }
            }
            
            // Measure all qubits
            let results = ForEach(M, qubits);
        }
        ")%string.

(** The [qsharp_code] of [quantum_machine_learning_training] (lines 96-130) *)
Definition qml_code : string :=
  ("
        operation QuantumNeuralNetwork(
            trainingData : Double[][], 
            labels : Int[]
        ) : Double[] {
            mutable parameters = [0.0, size = 8];
            
            for epoch in 0..99 {
                mutable totalLoss = 0.0;
                
                for i in 0..Length(trainingData)-1 {
                    use qubits = Qubit[4];
                    
                    // Encode data
                    EncodeClassicalData(trainingData[i], qubits);
                    
                    // Apply variational circuit
                    VariationalLayer(parameters[0..3], qubits);
                    EntanglingLayer(qubits);
                    VariationalLayer(parameters[4..7], qubits);
                    
                    // Measure and calculate loss
                    let prediction = MeasureClassification(qubits[0]);
                    set totalLoss += CalculateLoss(prediction, labels[i]);
                    
                    ResetAll(qubits);
                }
                
                // Update parameters using gradient descent
                set parameters = UpdateParameters(parameters, totalLoss);
            }
            
            return parameters;
        }
        ")%string.

(** The [qsharp_code] of the QKD protocol (lines 146-177) *)
Definition qkd_code : string :=
  ("
            operation BB84Protocol(keyLength : Int) : Result[] {
                mutable sharedKey = [];
                use (alice, bob) = (Qubit(), Qubit());
                
                for i in 0..keyLength-1 {
                    // Alice prepares random bit in random basis
                    let bit = RandomInt(2);
                    let basis = RandomInt(2);
                    
                    if bit == 1 { X(alice); }
                    if basis == 1 { H(alice); }
                    
                    // Quantum channel transmission (perfect here)
                    CNOT(alice, bob);
                    
                    // Bob measures in random basis
                    let bobBasis = RandomInt(2);
                    if bobBasis == 1 { H(bob); }
                    let measurement = M(bob);
                    
                    // Public basis comparison
                    if basis == bobBasis {
                        set sharedKey += [measurement];
                    }
                    
                    ResetAll([alice, bob]);
                }
                
                return sharedKey;
            }
            ")%string.

(** The [qsharp_code] of the quantum digital signature (lines 180-203) *)
Definition signature_code : string :=
  ("
            operation QuantumDigitalSignature(message : Int[]) : Result[] {
                use signatureQubits = Qubit[Length(message) * 2];
                
                // Generate quantum signature
                for i in 0..Length(message)-1 {
                    let bit = message[i];
                    let sigQubit1 = signatureQubits[2*i];
                    let sigQubit2 = signatureQubits[2*i + 1];
                    
                    // Encode message bit
                    if bit == 1 {
                        X(sigQubit1);
                        X(sigQubit2);
                    }
                    
                    // Add quantum signature
                    H(sigQubit1);
                    CNOT(sigQubit1, sigQubit2);
                }
                
                return ForEach(M, signatureQubits);
            }
            ")%string.

(** The [qsharp_submission] of [azure_quantum_integration] (lines 230-247) *)
Definition azure_submission : string :=
  ("
        // Submit to Azure Quantum
        open Microsoft.Quantum.Intrinsic;
        open Microsoft.Azure.Quantum;
        
        @EntryPoint()
        operation RunOnAzure() : Result[] {
            use qubits = Qubit[5];
            
            // Create Bell states
            H(qubits[0]);
            for i in 0..3 {
                CNOT(qubits[0], qubits[i+1]);
            }
            
            return ForEach(M, qubits);
        }
        ")%string.

(** The [qsharp_code] of the MaxCut problem (lines 264-291) *)
Definition maxcut_code : string :=
  ("
            operation QAOAMaxCut(graph : (Int, Int)[], p : Int) : Double {
                let n = GetMaxVertex(graph) + 1;
                use qubits = Qubit[n];
                
                // Initialize superposition
                ApplyToEach(H, qubits);
                
                for layer in 0..p-1 {
                    // Cost Hamiltonian
                    for edge in graph {
                        let (u, v) = edge;
                        CNOT(qubits[u], qubits[v]);
                        Rz(gamma, qubits[v]);
                        CNOT(qubits[u], qubits[v]);
                    }
                    
                    // Mixer Hamiltonian
                    for i in 0..n-1 {
                        Rx(beta, qubits[i]);
                    }
                }
                
                // Measure and calculate cost
                let results = ForEach(M, qubits);
                return CalculateMaxCutValue(results, graph);
            }
            ")%string.

(** The [qsharp_code] of portfolio optimisation (lines 294-322) *)
Definition portfolio_code : string :=
  ("
            operation QuantumPortfolioOptimization(
                returns : Double[], 
                risks : Double[][]
            ) : Int[] {
                let n = Length(returns);
                use qubits = Qubit[n];
                
                // Encode expected returns
                for i in 0..n-1 {
                    Ry(2.0 * ArcSin(Sqrt(returns[i])), qubits[i]);
                }
                
                // Apply risk correlations
                for i in 0..n-2 {
                    for j in i+1..n-1 {
                        let correlation = risks[i][j];
                        Controlled Rz([qubits[i]], (correlation, qubits[j]));
                    }
                }
                
                // Optimization layers
                for layer in 0..4 {
                    ApplyVariationalLayer(qubits);
                }
                
                return ForEach(M, qubits);
            }
            ")%string.

(** ** The methods *)

Record qpe_out := QpeOut {
  qpe_qsharp_code : string;
  qpe_estimated_phase : string;
  qpe_precision_bits : Z;
  qpe_success_probability : Q
}.

(** [phase] renders the draw [random.uniform(0, 2*pi)] as [{:.4f}];
    [success] is [random.uniform(0.85, 0.95)]. *)
Definition quantum_phase_estimation (eigenvalue_bits : Z) (phase : string) (success : Q) : qpe_out :=
  QpeOut (qpe_code eigenvalue_bits) (phase ++ " radians") eigenvalue_bits success.

Record dynamics_out := DynamicsOut {
  dyn_qsharp_code : string;
  dyn_time_evolution : string;
  dyn_simulation_time : string;
  dyn_system_size : Z
}.

(** [time] renders [random.uniform(0.1, 2.0)] as [{:.2f}]. *)
Definition quantum_dynamics_simulation (time_steps : Z) (time : string) : dynamics_out :=
  DynamicsOut (dynamics_code time_steps) (py_str_int time_steps ++ " Trotter steps")
              (time ++ " Î¼s") 4.

Record qml_out := QmlOut {
  qml_qsharp_code : string;
  qml_training_accuracy : string;
  qml_epochs : Z;
  qml_data_size : jvalue;
  qml_quantum_advantage : string
}.

(** [accuracy] renders [random.uniform(0.85, 0.95)] as [{:.3f}]. *)
Definition quantum_machine_learning_training (data_size : jvalue) (accuracy : string) : qml_out :=
  QmlOut qml_code accuracy 100 data_size "Exponential feature space".

Record crypto_out := CryptoOut {
  cr_qsharp_code : string;
  cr_protocol : jvalue;
  cr_security_level : string;
  cr_key_rate : string
}.

(** [rate] is [random.randint(1, 10)]. *)
Definition quantum_cryptography_protocols (protocol : jvalue) (rate : Z) : crypto_out :=
  CryptoOut (if py_eq_str (jv_val protocol) "QKD" then qkd_code else signature_code)
            protocol "Information-theoretic" (py_str_int rate ++ " Mbps").

(** [azure_config] *)
Definition azure_config : list (string * string) :=
  [("subscription_id", "xxxxxxxx-xxxx-xxxx-xxxx-xxxxxxxxxxxx");
   ("resource_group", "quantum-lab-rg");
   ("workspace_name", "quantum-computing-workspace");
   ("location", "East US")]%string.

Record job_config := JobConfig {
  job_target : jvalue;
  job_shots : Z;
  job_name : string;
  job_estimated_cost : string;
  job_queue_position : Z
}.

(** The dict [hardware_specs] indexed by the target: KeyError (its
    message is the key's repr) for a name it does not hold, TypeError for
    a list or an object, which cannot be dict keys. *)
Definition hardware_specs (target_hardware : jvalue) : res string :=
  match target_hardware with
  | JStr s =>
      if String.eqb s "IonQ" then Ok "Trapped ion, 32 qubits, 99.8% fidelity"
      else if String.eqb s "Honeywell" then Ok "Trapped ion, 20 qubits, 99.9% fidelity"
      else if String.eqb s "Rigetti" then Ok "Superconducting, 80 qubits, 99.5% fidelity"
      else Raise (KeyError ("'" ++ s ++ "'"))
  | JInt z => Raise (KeyError (py_str_int z))
  | JList _ => Raise (TypeError "unhashable type: 'list'")
  | JObj _ => Raise (TypeError "unhashable type: 'dict'")
  end%string.

Record azure_out := AzureOut {
  az_config : list (string * string);
  az_job_config : job_config;
  az_qsharp_code : string;
  az_hardware_specs : string
}.

(** [name_draw] is [random.randint(1000, 9999)], [cost] renders
    [random.uniform(0.1, 5.0)] as [{:.2f}], [queue] is
    [random.randint(1, 20)]. *)
Definition azure_quantum_integration (target_hardware : jvalue) (name_draw : Z) (cost : string)
    (queue : Z) : res azure_out :=
  let job := JobConfig target_hardware 1000 ("quantum-lab-" ++ py_str_int name_draw) ("$" ++ cost) queue in
  let* specs := hardware_specs target_hardware in
  Ok (AzureOut azure_config job azure_submission specs).

Record optimization_out := OptimizationOut {
  opt_qsharp_code : string;
  opt_problem_type : jvalue;
  opt_quantum_speedup : string;
  opt_approximation_ratio : Q
}.

(** [ratio] is [random.uniform(0.8, 0.95)]. *)
Definition quantum_optimization_suite (problem_type : jvalue) (ratio : Q) : optimization_out :=
  OptimizationOut (if py_eq_str (jv_val problem_type) "MaxCut" then maxcut_code else portfolio_code)
                  problem_type "Quadratic for unstructured problems" ratio.

End QSharpAlgoLab.

Import QSharpAlgoLab.

(** ** Theorem *)

(** [azure_quantum_integration] answers only for the three
    hardware names of its dict, with their specifications; every other
    name raises KeyError carrying the name (after the job's random draws),
    and a list or an object raises TypeError. *)
Theorem azure_quantum_integration_targets target name_draw cost queue :
  (forall s, target = JStr s -> ~ In s ["IonQ"; "Honeywell"; "Rigetti"]%string ->
     azure_quantum_integration target name_draw cost queue = Raise (KeyError ("'" ++ s ++ "'"))) /\
  (azure_quantum_integration (JStr "IonQ") name_draw cost queue =
     Ok (AzureOut azure_config (JobConfig (JStr "IonQ") 1000 ("quantum-lab-" ++ py_str_int name_draw) ("$" ++ cost) queue)
                  azure_submission "Trapped ion, 32 qubits, 99.8% fidelity")) /\
  (exists e, azure_quantum_integration (JList []) name_draw cost queue = Raise e).
Proof.
  split; [|split; [reflexivity | eexists; reflexivity]].
  intros s -> Hs. unfold azure_quantum_integration, hardware_specs.
  destruct (String.eqb_spec s "IonQ"); [subst; cbn in Hs; tauto|].
  destruct (String.eqb_spec s "Honeywell"); [subst; cbn in Hs; tauto|].
  destruct (String.eqb_spec s "Rigetti"); [subst; cbn in Hs; tauto|].
  reflexivity.
Qed.

Section Witnesses.

Lemma azure_quantum_integration_targets_witness :
  azure_quantum_integration (JStr "D-Wave") 1234 "0.50" 3 = Raise (KeyError "'D-Wave'").
Proof.
  apply (proj1 (azure_quantum_integration_targets (JStr "D-Wave") 1234 "0.50" 3) "D-Wave"%string); [reflexivity|].
  cbn. intuition discriminate.
Defined.

End Witnesses.
