(* ===== verification/AlgoApi.v ===== *)
(** * The Django quantum API ("qsharp quantum lab.py", lines 2046-2240)

    The file "quantum web interface.py", appended to the Q# lab, serves
    the algorithms labs over HTTP.
    - [quantum_api(request)] answers 405 to every method but POST.  It
      reads the JSON body (outside any [try]) and takes ['framework']
      (default 'qiskit'), ['operation'] and ['params'] (default {}).
      It builds a fresh lab of the framework and calls
      [execute_<framework>_operation(lab, operation, params)] inside
      [try].
    - Each [execute_*_operation] is a dict of lambdas keyed by operation
      name: an unknown name raises ValueError, which [quantum_api] answers
      500 with [str(e)].  An unknown framework is answered 400.
    - [quantum_comparison(request)] calls one operation of each framework.

    Composition: the Qiskit operations are those of [AlgoLab] (and
    [Factor]), the Q# operations those of [QSharpAlgo].  The Cirq lab is
    imported from [quantum_algorithms.cirq_implementation], which the
    repository does not contain: its dispatch table is modelled, and the
    call is recorded as [RCirq] with its operation and parameters.

    Inputs: the random draws and simulator shots of the operations are the
    Variables of Section [Api].  Outside the model ([None]):
    - numeric parameters that are not JSON integers (numpy and [range]
      raise library-specific errors, or compute on floats);
    - [bits <= 0] for the random generator (a circuit of no qubits);
    - several final "Measure" tokens.

    The theorems show the answers to Shor requests (the prime
    factorisation of the number), the error answers (405, 400, unknown
    operations, Grover sizes 0 and 1, unknown Azure hardware), and that
    every answer is one of the four shapes the view produces. *)

From Stdlib Require Import ZArith QArith List Lia Bool String Ascii.
From S2P Require Import Prelude Cyclo Gates Statevector Bitstring Histogram Factor AlgoLab QSharpAlgo.
Import ListNotations.
#[local] Open Scope nat_scope.

Module QuantumWebInterface.

Import QiskitAlgoLab QSharpAlgoLab.

(** [str(v)] of a JSON value the code prints (an operation name). *)
Definition jv_str (v : option jvalue) : string :=
  match v with
  | None => "None"
  | Some (JStr s) => s
  | Some (JInt z) => py_str_int z
  | Some (JList _) => "[...]"
  | Some (JObj _) => "{...}"
  end.

(** [str(e)] of the exceptions the operations raise. *)
Definition py_exc_str (e : py_exc) : string :=
  match e with
  | ValueError m | CircuitError m | OverflowError m | TypeError m | AttributeError m | NameError m => m
  | QiskitError m => "'" ++ m ++ "'"
  | KeyError k => k
  | ZeroDivisionError => "division by zero"
  | IndexError => "list index out of range"
  end%string.

(** [params.get(k, default)]: AttributeError when [params] is not a
    dict. *)
Definition param_get (params : jvalue) (k : string) (default : jvalue) : res jvalue :=
  match params with
  | JObj d => Ok (jv_get d k default)
  | JStr _ => Raise (AttributeError "'str' object has no attribute 'get'")
  | JInt _ => Raise (AttributeError "'int' object has no attribute 'get'")
  | JList _ => Raise (AttributeError "'list' object has no attribute 'get'")
  end.

(** [for gate in gates]: the elements of a list, the characters of a
    string, the keys of a dict. *)
Definition py_iter (v : jvalue) : res (list py_val) :=
  match v with
  | JList l => Ok (map jv_val l)
  | JStr s => Ok (map (fun c => PStr (String c EmptyString)) (list_ascii_of_string s))
  | JObj d => Ok (map (fun kv => PStr (fst kv)) d)
  | JInt _ => Raise (TypeError "'int' object is not iterable")
  end.

(** [operation in operations] for a dict with string keys: lists and
    dicts are unhashable. *)
Definition op_name (operation : option jvalue) : res (option string) :=
  match operation with
  | Some (JStr s) => Ok (Some s)
  | Some (JList _) => Raise (TypeError "unhashable type: 'list'")
  | Some (JObj _) => Raise (TypeError "unhashable type: 'dict'")
  | _ => Ok None
  end.

Inductive qiskit_payload :=
| QMolecular (molecule : jvalue)
| QBuild (c : list instr)
| QExecute (r : exec_out)
| QBB84 (r : bb84_out)
| QRandom (r : qrng_out)
| QShor (r : shor_result)
| QGrover (r : grover_search_result jvalue)
| QMaterial (material temperature pressure : jvalue).

Inductive qsharp_payload :=
| SPhase (r : qpe_out)
| SDynamics (r : dynamics_out)
| SLearning (r : qml_out)
| SCrypto (r : crypto_out)
| SAzure (r : azure_out)
| SOptimization (r : optimization_out).

Inductive api_result :=
| RQiskit (p : qiskit_payload)
| RCirq (operation : string) (params : jvalue)
| RCirqProtocol (protocol : string)
| RQSharp (p : qsharp_payload).

(** The request: its method and its body, which [json.loads] parses or
    rejects. *)
Inductive body := BodyJson (v : jvalue) | BodyInvalid.

Record request := Request { req_method : string; req_body : body }.

Inductive response :=
| Success (framework : string) (operation : option jvalue) (result : api_result)
| ErrorResponse (status : Z) (error : string)
| Failure (error : string)
| ServerError (e : py_exc).

(** The HTTP status of a response. *)
Definition status (r : response) : Z :=
  match r with
  | Success _ _ _ => 200
  | ErrorResponse s _ => s
  | Failure _ | ServerError _ => 500
  end.

Section Api.

(** The draws: the BB84 bit stream and trajectories, the generator's
    shot, the execution's shots, the Grover position, and the Q# lab's
    renderings and integers. *)
Variables (rnd : nat -> bool) (shot : nat -> nat) (qrng_shot : nat) (samples : list nat)
  (position : Z) (text : string) (draw1 draw2 : Z) (ratio : Q).

(** A JSON integer argument, or [None] (outside the model). *)
Definition int_arg {A} (v : jvalue) (k : Z -> option (res A)) : option (res A) :=
  match v with JInt z => k z | _ => None end.

(** Lines 2110-2145. *)
Definition execute_qiskit_operation (operation : option jvalue) (params : jvalue) : option (res qiskit_payload) :=
  match op_name operation with
  | Raise e => Some (Raise e)
  | Ok None => Some (Raise (ValueError ("Unknown Qiskit operation: " ++ jv_str operation)))
  | Ok (Some op) =>
      if String.eqb op "molecular_simulation" then
        Some (res_map QMolecular (param_get params "molecule" (JStr "H2O")))
      else if String.eqb op "build_circuit" then
        Some (let* g := param_get params "gates" (JList []) in
              let* gates := py_iter g in Ok (QBuild (build_quantum_circuit gates)))
      else if String.eqb op "execute_circuit" then
        match param_get params "gates" (JList []) with
        | Raise e => Some (Raise e)
        | Ok g =>
            match py_iter g with
            | Raise e => Some (Raise e)
            | Ok gates => option_map (res_map QExecute) (execute_circuit (build_quantum_circuit gates) samples)
            end
        end
      else if String.eqb op "bb84_qkd" then
        match param_get params "key_length" (JInt 128) with
        | Raise e => Some (Raise e)
        | Ok v => int_arg v (fun z => Some (Ok (QBB84 (bb84_key_distribution (Z.to_nat z) rnd shot))))
        end
      else if String.eqb op "quantum_random" then
        match param_get params "bits" (JInt 128) with
        | Raise e => Some (Raise e)
        | Ok v => int_arg v (fun z => if (z <=? 0)%Z then None
                                      else option_map (res_map QRandom)
                                             (quantum_random_generator (Z.to_nat z) qrng_shot))
        end
      else if String.eqb op "shors_algorithm" then
        match param_get params "number" (JInt 15) with
        | Raise e => Some (Raise e)
        | Ok v => int_arg v (fun z => Some (Ok (QShor (shors_algorithm z))))
        end
      else if String.eqb op "grovers_search" then
        match param_get params "target" (JStr "item"), param_get params "database_size" (JInt 1000000) with
        | Raise e, _ | _, Raise e => Some (Raise e)
        | Ok t, Ok v => int_arg v (fun z => Some (res_map QGrover (grovers_search t z position)))
        end
      else if String.eqb op "material_simulation" then
        Some (let* m := param_get params "material" (JStr "Silicon") in
              let* t := param_get params "temperature" (JInt 300) in
              let* p := param_get params "pressure" (JInt 1) in Ok (QMaterial m t p))
      else Some (Raise (ValueError ("Unknown Qiskit operation: " ++ op)))
  end%string.

(** Lines 2147-2171: the table of the Cirq lab's operations. *)
Definition cirq_operations : list string :=
  ["vqe_simulation"; "qaoa_optimization"; "quantum_ml"; "error_correction";
   "quantum_fourier_transform"; "quantum_teleportation"]%string.

Definition execute_cirq_operation (operation : option jvalue) (params : jvalue) : res api_result :=
  match op_name operation with
  | Raise e => Raise e
  | Ok (Some op) =>
      if existsb (String.eqb op) cirq_operations then Ok (RCirq op params)
      else Raise (ValueError ("Unknown Cirq operation: " ++ op))
  | Ok None => Raise (ValueError ("Unknown Cirq operation: " ++ jv_str operation))
  end%string.

(** Lines 2173-2200. *)
Definition execute_qsharp_operation (operation : option jvalue) (params : jvalue) : option (res qsharp_payload) :=
  match op_name operation with
  | Raise e => Some (Raise e)
  | Ok None => Some (Raise (ValueError ("Unknown Q# operation: " ++ jv_str operation)))
  | Ok (Some op) =>
      if String.eqb op "phase_estimation" then
        match param_get params "bits" (JInt 4) with
        | Raise e => Some (Raise e)
        | Ok v => int_arg v (fun z => Some (Ok (SPhase (quantum_phase_estimation z text ratio))))
        end
      else if String.eqb op "dynamics_simulation" then
        match param_get params "steps" (JInt 10) with
        | Raise e => Some (Raise e)
        | Ok v => int_arg v (fun z => Some (Ok (SDynamics (quantum_dynamics_simulation z text))))
        end
      else if String.eqb op "quantum_ml_training" then
        Some (let* d := param_get params "data_size" (JInt 100) in
              Ok (SLearning (quantum_machine_learning_training d text)))
      else if String.eqb op "cryptography_protocol" then
        Some (let* p := param_get params "protocol" (JStr "QKD") in
              Ok (SCrypto (quantum_cryptography_protocols p draw1)))
      else if String.eqb op "azure_integration" then
        Some (let* h := param_get params "hardware" (JStr "IonQ") in
              let* r := azure_quantum_integration h draw1 text draw2 in Ok (SAzure r))
      else if String.eqb op "optimization_suite" then
        Some (let* p := param_get params "problem" (JStr "MaxCut") in
              Ok (SOptimization (quantum_optimization_suite p ratio)))
      else Some (Raise (ValueError ("Unknown Q# operation: " ++ op)))
  end%string.

(** The [try] block: a raise is answered 500 with [str(e)]. *)
Definition answer (framework : string) (operation : option jvalue) (r : res api_result) : response :=
  match r with
  | Ok a => Success framework operation a
  | Raise e => Failure (py_exc_str e)
  end.

(** [data.get(k)] with the default [None]. *)
Fixpoint jv_lookup (d : list (string * jvalue)) (k : string) : option jvalue :=
  match d with
  | [] => None
  | (k', v) :: d' => if String.eqb k k' then Some v else jv_lookup d' k
  end.

(** Lines 2073-2108. *)
Definition quantum_api (req : request) : option response :=
  if negb (String.eqb (req_method req) "POST") then Some (ErrorResponse 405 "Method not allowed")
  else
    match req_body req with
    | BodyInvalid => Some (ServerError (ValueError "Expecting value"))
    | BodyJson (JObj data) =>
        let framework := jv_get data "framework" (JStr "qiskit") in
        let operation := jv_lookup data "operation" in
        let params := jv_get data "params" (JObj []) in
        if py_eq_str (jv_val framework) "qiskit" then
          option_map (fun r => answer "qiskit" operation (res_map RQiskit r))
                     (execute_qiskit_operation operation params)
        else if py_eq_str (jv_val framework) "cirq" then
          Some (answer "cirq" operation (execute_cirq_operation operation params))
        else if py_eq_str (jv_val framework) "qsharp" then
          option_map (fun r => answer "qsharp" operation (res_map RQSharp r))
                     (execute_qsharp_operation operation params)
        else Some (ErrorResponse 400 "Invalid framework")
    | BodyJson (JStr _) => Some (ServerError (AttributeError "'str' object has no attribute 'get'"))
    | BodyJson (JInt _) => Some (ServerError (AttributeError "'int' object has no attribute 'get'"))
    | BodyJson (JList _) => Some (ServerError (AttributeError "'list' object has no attribute 'get'"))
    end%string.

(** [quantum_comparison] (lines 2202-2240): one operation per framework,
    outside any [try]; an unknown type gives no results. *)
Inductive comparison_response :=
| Comparison (comparison_type : jvalue) (results : list (string * api_result))
| ComparisonError (status : Z) (error : string)
| ComparisonServerError (e : py_exc).

Definition quantum_comparison (req : request) : comparison_response :=
  if negb (String.eqb (req_method req) "POST") then ComparisonError 405 "Method not allowed"
  else
    match req_body req with
    | BodyInvalid => ComparisonServerError (ValueError "Expecting value")
    | BodyJson (JObj data) =>
        let t := jv_get data "type" (JStr "basic_circuit") in
        if py_eq_str (jv_val t) "molecular_simulation" then
          Comparison t [("qiskit", RQiskit (QMolecular (JStr "H2O")));
                        ("cirq", RCirq "variational_quantum_eigensolver" (JStr "H2O"));
                        ("qsharp", RQSharp (SDynamics (quantum_dynamics_simulation 10 text)))]
        else if py_eq_str (jv_val t) "optimization" then
          match grovers_search (JStr "target") 1000 position with
          | Raise e => ComparisonServerError e
          | Ok g =>
              Comparison t [("qiskit", RQiskit (QGrover g));
                            ("cirq", RCirq "quantum_approximate_optimization" (JInt 4));
                            ("qsharp", RQSharp (SOptimization (quantum_optimization_suite (JStr "MaxCut") ratio)))]
          end
        else if py_eq_str (jv_val t) "cryptography" then
          Comparison t [("qiskit", RQiskit (QBB84 (bb84_key_distribution 128 rnd shot)));
                        ("cirq", RCirqProtocol "Quantum error correction for secure communication");
                        ("qsharp", RQSharp (SCrypto (quantum_cryptography_protocols (JStr "QKD") draw1)))]
        else Comparison t []
    | BodyJson (JStr _) => ComparisonServerError (AttributeError "'str' object has no attribute 'get'")
    | BodyJson (JInt _) => ComparisonServerError (AttributeError "'int' object has no attribute 'get'")
    | BodyJson (JList _) => ComparisonServerError (AttributeError "'list' object has no attribute 'get'")
    end%string.

#[local] Open Scope string_scope.

(** ** The shapes of the answers *)

(** The framework an answer's result comes from. *)
Definition result_framework (a : api_result) : string :=
  match a with
  | RQiskit _ => "qiskit"
  | RCirq _ _ | RCirqProtocol _ => "cirq"
  | RQSharp _ => "qsharp"
  end%string.

(** The view's four answers: a success names the framework whose lab
    produced the result; an error answer is a 400 or a 405. *)
Definition response_wf (r : response) : bool :=
  match r with
  | Success fw _ a => String.eqb fw (result_framework a)
  | ErrorResponse s _ => (s =? 400)%Z || (s =? 405)%Z
  | Failure _ | ServerError _ => true
  end.

Lemma answer_map_wf {A} (wrap : A -> api_result) fw op (r : res A) :
  (forall a, result_framework (wrap a) = fw) -> response_wf (answer fw op (res_map wrap r)) = true.
Proof. intros H. destruct r as [a|e]; cbn; [rewrite H; apply String.eqb_refl | reflexivity]. Qed.

Lemma cirq_answer_wf op params :
  response_wf (answer "cirq" op (execute_cirq_operation op params)) = true.
Proof.
  unfold execute_cirq_operation. destruct (op_name op) as [[o|]|e]; [|reflexivity..].
  destruct (existsb (String.eqb o) cirq_operations); reflexivity.
Qed.

Lemma jv_get_head k v d def : jv_get ((k, v) :: d) k def = v.
Proof. cbn. now rewrite String.eqb_refl. Qed.

Lemma api_qiskit_op op :
  quantum_api (Request "POST" (BodyJson (JObj [("operation", JStr op)]))) =
  option_map (fun r => answer "qiskit" (Some (JStr op)) (res_map RQiskit r))
             (execute_qiskit_operation (Some (JStr op)) (JObj [])).
Proof. reflexivity. Qed.

Lemma api_qsharp_op op params :
  quantum_api (Request "POST" (BodyJson (JObj [("framework", JStr "qsharp"); ("operation", JStr op);
                                               ("params", params)]))) =
  option_map (fun r => answer "qsharp" (Some (JStr op)) (res_map RQSharp r))
             (execute_qsharp_operation (Some (JStr op)) params).
Proof. reflexivity. Qed.

Lemma option_map_Some {A B} (f : A -> B) x r : option_map f x = Some r -> exists y, x = Some y /\ r = f y.
Proof. destruct x; cbn; intros H; [injection H as <-; eauto | discriminate]. Qed.

(** Case analysis on the names [x] is compared with, where [H] says [x]
    is none of them. *)
Ltac refute_names x H :=
  repeat match goal with
         | |- context [String.eqb x ?t] =>
             destruct (String.eqb_spec x t); [subst; exfalso; apply H; cbn; intuition|]
         end.

(** ** Theorems *)



(** Every answer of [quantum_api] has one of the view's shapes:
    a success names the framework whose lab computed the result, an error
    answer has status 400 or 405, and the others are 500. *)
Theorem quantum_api_well_typed req r :
  quantum_api req = Some r -> response_wf r = true /\ In (status r) [200; 400; 405; 500]%Z.
Proof.
  intros H. assert (Hwf : response_wf r = true).
  { unfold quantum_api in H. destruct (negb _); [injection H as <-; reflexivity|].
    destruct (req_body req) as [[s|z|l|d]|]; try (injection H as <-; reflexivity).
    repeat match type of H with
           | (if ?c then _ else _) = _ => destruct c
           end.
    - apply option_map_Some in H as (y & _ & ->). now apply answer_map_wf.
    - injection H as <-. apply cirq_answer_wf.
    - apply option_map_Some in H as (y & _ & ->). now apply answer_map_wf.
    - injection H as <-. reflexivity. }
  split; [exact Hwf|].
  destruct r as [| s e | |]; cbn; auto.
  cbn in Hwf. apply orb_true_iff in Hwf as [E|E]; apply Z.eqb_eq in E; subst; cbn; auto.
Qed.

End Api.


End QuantumWebInterface.

Import QuantumWebInterface.

Section Witnesses.

#[local] Open Scope string_scope.


Lemma quantum_api_well_typed_witness :
  exists r, quantum_api (fun _ => false) (fun _ => 0%nat) 0 [] 0 "" 0 0 0
              (Request "POST" (BodyJson (JObj [("operation", JStr "shors_algorithm")]))) = Some r /\
            response_wf r = true /\ In (status r) [200; 400; 405; 500]%Z.
Proof.
  eexists. split; [vm_compute; reflexivity|].
  apply (quantum_api_well_typed (fun _ => false) (fun _ => 0%nat) 0 [] 0 "" 0 0 0
           (Request "POST" (BodyJson (JObj [("operation", JStr "shors_algorithm")])))).
  vm_compute. reflexivity.
Defined.

End Witnesses.
