(* ===== verification/QSharpIface.v ===== *)
(** * The Q#-backed interface and its Flask server

    The file "qsharp quantum lab.py" holds, after the labs, the modules
    "quantum interface.py" (lines 1257-1421) and "quantum server.py"
    (lines 1424-2045):
    - [QuantumInterface] calls the Q# runtime with
      [qsharp.eval("<Namespace>.<Operation>(<args>)")] inside a bare
      [try]/[except:], and on any exception falls back to a random or
      fixed answer; the Q# programs it names are not in the repository;
    - the Flask routes read [request.json], take their arguments with
      [data.get(key, default)] and return [jsonify] of the method's
      answer.
    The legacy [pqc_encryption] and [quantum_signature] of the first
    [QuantumInterface] (lines 1217-1224) are the fallbacks of the Q#
    ones.

    Model.
    - The Q# runtime is the Section variable [qsharp_eval], a function
      from the call (the operation and the Python values of its
      arguments, which the f-string prints) to a Q# value or an
      exception; every theorem holds for every such runtime.
    - Random draws of the fallbacks are Section variables; formatted
      floats ([f"{x:.2f}"]) are given by the formatter [fmt2f].
    - [base64.b64encode] is the library's encoder on bytes, with the
      decoder [b64decode] as its inverse.

    The theorems show, for every runtime:
    - [pqc_encryption] never reaches the Q# runtime: the comprehension
      [[bit == '1' for bit in format(ord(c), '08b') for c in message]]
      evaluates [c] before binding it and raises NameError, so the
      answer is always the legacy base64 text of [message + '_' +
      algorithm], which decodes back to its bytes;
    - [quantum_signature] keeps 32 bits of any hash (bounds of
      [Z.land] with the mask);
    - [quantum_random_generator] on each branch, and the ValueError of
      its fallback for [num_bits <= 0];
    - the server's 404/405/415/500 answers, and that a 500 arises only
      from a non-object body or a bad [keyLength], [bits] or [entries]. *)

From Stdlib Require Import ZArith QArith List Lia Bool String Ascii ZifyNat.
From S2P Require Import Prelude Bitstring QRNG PQC Grover.
Import ListNotations.
#[local] Open Scope nat_scope.

(** ** [base64.b64encode] *)

Definition b64_alphabet : string :=
  "ABCDEFGHIJKLMNOPQRSTUVWXYZabcdefghijklmnopqrstuvwxyz0123456789+/".

(** The character of a 6-bit value. *)
Definition b64_char (v : nat) : ascii := match String.get v b64_alphabet with Some c => c | None => "="%char end.

(** Groups of three bytes become four characters; a last group of one
    or two bytes is padded with "==" or "=". *)
Fixpoint b64_groups (bs : list nat) : list ascii :=
  match bs with
  | a :: b :: c :: rest =>
      b64_char (a / 4) :: b64_char (a mod 4 * 16 + b / 16) :: b64_char (b mod 16 * 4 + c / 64)
        :: b64_char (c mod 64) :: b64_groups rest
  | [a; b] => [b64_char (a / 4); b64_char (a mod 4 * 16 + b / 16); b64_char (b mod 16 * 4); "="%char]
  | [a] => [b64_char (a / 4); b64_char (a mod 4 * 16); "="%char; "="%char]
  | [] => []
  end.

(** [base64.b64encode(bs).decode()] *)
Definition b64encode (bs : list nat) : string := string_of_list_ascii (b64_groups bs).

(** The inverse: the 6-bit value of a character of the alphabet. *)
Fixpoint alphabet_index (c : ascii) (s : string) (i : nat) : option nat :=
  match s with
  | EmptyString => None
  | String c' s' => if Ascii.eqb c c' then Some i else alphabet_index c s' (S i)
  end.

Definition b64_value (c : ascii) : option nat := alphabet_index c b64_alphabet 0.

(** [base64.b64decode] on padded text. *)
Fixpoint b64_ungroup (cs : list ascii) : option (list nat) :=
  match cs with
  | [] => Some []
  | c1 :: c2 :: c3 :: c4 :: rest =>
      match b64_value c1, b64_value c2, b64_value c3, b64_value c4 with
      | Some v1, Some v2, Some v3, Some v4 =>
          option_map (fun r => v1 * 4 + v2 / 16 :: v2 mod 16 * 16 + v3 / 4 :: v3 mod 4 * 64 + v4 :: r)
                     (b64_ungroup rest)
      | Some v1, Some v2, Some v3, None =>
          if Ascii.eqb c4 "=" && match rest with [] => true | _ => false end
          then Some [v1 * 4 + v2 / 16; v2 mod 16 * 16 + v3 / 4] else None
      | Some v1, Some v2, None, None =>
          if Ascii.eqb c3 "=" && Ascii.eqb c4 "=" && match rest with [] => true | _ => false end
          then Some [v1 * 4 + v2 / 16] else None
      | _, _, _, _ => None
      end
  | _ => None
  end.

Definition b64decode (s : string) : option (list nat) := b64_ungroup (list_ascii_of_string s).

(** ** Values of the Q# runtime and the Python operations on them *)

(** The Python values [qsharp.eval] returns: Q# [Bool], [Int], [Double],
    [Unit], arrays (lists) and tuples. *)
Inductive qvalue :=
| QVBool (b : bool)
| QVInt (z : Z)
| QVDouble (q : Q)
| QVUnit
| QVArray (l : list qvalue)
| QVTuple (l : list qvalue).

Definition qv_type_name (v : qvalue) : string :=
  match v with
  | QVBool _ => "bool" | QVInt _ => "int" | QVDouble _ => "float"
  | QVUnit => "tuple" | QVArray _ => "list" | QVTuple _ => "tuple"
  end%string.

(** [int(v)]: truncation toward zero on a float. *)
Definition qv_int (v : qvalue) : res Z :=
  match v with
  | QVBool b => Ok (if b then 1 else 0)%Z
  | QVInt z => Ok z
  | QVDouble q => Ok (Z.quot (Qnum q) (Zpos (Qden q)))
  | _ => Raise (TypeError ("int() argument must be a string, a bytes-like object or a real number, not '"
                           ++ qv_type_name v ++ "'"))
  end%string.

(** [float(v)] *)
Definition qv_float (v : qvalue) : res Q :=
  match v with
  | QVBool b => Ok (if b then 1 else 0)%Q
  | QVInt z => Ok (inject_Z z)
  | QVDouble q => Ok q
  | _ => Raise (TypeError ("float() argument must be a string or a real number, not '"
                           ++ qv_type_name v ++ "'"))
  end%string.

(** Iteration over [v] ([for x in v], unpacking). *)
Definition qv_iter (v : qvalue) : res (list qvalue) :=
  match v with
  | QVArray l | QVTuple l => Ok l
  | QVUnit => Ok []
  | _ => Raise (TypeError ("'" ++ qv_type_name v ++ "' object is not iterable"))
  end%string.

(** [v[i]] *)
Definition qv_getitem (v : qvalue) (i : nat) : res qvalue :=
  match v with
  | QVArray l | QVTuple l => match nth_error l i with Some x => Ok x | None => Raise IndexError end
  | QVUnit => Raise IndexError
  | _ => Raise (TypeError ("'" ++ qv_type_name v ++ "' object is not subscriptable"))
  end%string.

(** The truth value of [v] ([if bit]). *)
Definition qv_truthy (v : qvalue) : bool :=
  match v with
  | QVBool b => b
  | QVInt z => negb (z =? 0)%Z
  | QVDouble q => negb (Qeq_bool q 0)
  | QVUnit => false
  | QVArray l | QVTuple l => match l with [] => false | _ => true end
  end.

(** [a, b, ... = v]: exactly [n] values. *)
Definition qv_unpack (n : nat) (v : qvalue) : res (list qvalue) :=
  let* l := qv_iter v in
  if List.length l =? n then Ok l
  else if List.length l <? n then
    Raise (ValueError ("not enough values to unpack (expected " ++ py_str_nat n ++ ", got "
                       ++ py_str_nat (List.length l) ++ ")"))
  else Raise (ValueError ("too many values to unpack (expected " ++ py_str_nat n ++ ")")).

(** The operations the interface names in [qsharp.eval], with the Python
    values its f-strings print as their arguments. *)
Inductive qcall :=
| CreateBellState
| QuantumCircuitBuilder (gates : jvalue)
| MeasureEntanglement
| QuantumStateEvolution (iterations : Z)
| BB84KeyDistribution (key_length : jvalue)
| QuantumRNG (num_bits : jvalue)
| PQCEncryption (message_bits : list bool) (algorithm : string)
| QuantumSignature (doc_hash : list bool)
| MaterialProperties (material_name temperature pressure : jvalue)
| MolecularSimulation (num_atoms temperature : jvalue)
| QuantumDatabaseQuery (num_entries : jvalue).

(** ** Python's scoping of [[e for bit in A for c in message]]

    The outermost iterable [A] is evaluated in the enclosing function's
    scope, before the comprehension binds [c]; names are looked up in
    the function's locals, then in the module's globals. *)
Definition name_lookup (scope : list (string * string)) (x : string) : res string :=
  match find (fun kv => String.eqb (fst kv) x) scope with
  | Some (_, v) => Ok v
  | None => Raise (NameError ("name '" ++ x ++ "' is not defined"))
  end%string.

(** [ord(c)] *)
Definition py_ord (s : string) : res nat :=
  match s with
  | String a EmptyString => Ok (nat_of_ascii a)
  | _ => Raise (TypeError ("ord() expected a character, but string of length "
                           ++ py_str_nat (String.length s) ++ " found"))
  end%string.

(** [[bit == '1' for bit in format(ord(c), '08b') for c in message]]
    in the scope [scope]. *)
Definition message_bits (scope : list (string * string)) (message : string) : res (list bool) :=
  let* c := name_lookup scope "c" in
  let* o := py_ord c in
  Ok (flat_map (fun bit => map (fun _ => Ascii.eqb bit "1") (list_ascii_of_string message))
               (list_ascii_of_string (py_format_bin (Z.of_nat o) 8))).

(** The module globals of "quantum interface.py" that are strings: none
    (the module binds [qsharp], [List], [Tuple], [Dict], [Any], [json],
    [random], [QuantumInterface] and [quantum_interface]). *)
Definition interface_globals : list (string * string) := [].

(** [format(v, '.2f')] of a value the runtime returned, given the float
    formatter [fmt]. *)
Definition qv_format2f (fmt : Q -> string) (v : qvalue) : res string :=
  match v with
  | QVBool b => Ok (fmt (if b then 1 else 0)%Q)
  | QVInt z => Ok (fmt (inject_Z z))
  | QVDouble q => Ok (fmt q)
  | _ => Raise (TypeError ("unsupported format string passed to " ++ qv_type_name v ++ ".__format__"))
  end%string.

(** [''.join(['1' if bit else '0' for bit in bits])] *)
Definition join_truthy (bits : list qvalue) : string :=
  string_of_list_ascii (map (fun b => if qv_truthy b then "1"%char else "0"%char) bits).

(** [bits = [bit == '1' for bit in s]] *)
Definition bits_of_digits (s : string) : list bool :=
  map (fun c => Ascii.eqb c "1") (list_ascii_of_string s).

(** [try: body except: handler] with a bare [except:]: every exception
    of the body is caught. *)
Definition py_try {A} (body : res A) (handler : res A) : res A :=
  match body with
  | Ok a => Ok a
  | Raise _ => handler
  end.

(** The same when the handler only returns [fallback]. *)
Definition py_except {A} (body : res A) (fallback : A) : A :=
  match body with
  | Ok a => a
  | Raise _ => fallback
  end.

(** [range(n)] of a JSON value: its length, TypeError on a non-integer. *)
Definition jv_range (v : jvalue) : res nat :=
  match v with
  | JInt z => Ok (Z.to_nat z)
  | JStr _ => Raise (TypeError "'str' object cannot be interpreted as an integer")
  | JList _ => Raise (TypeError "'list' object cannot be interpreted as an integer")
  | JObj _ => Raise (TypeError "'dict' object cannot be interpreted as an integer")
  end.

(** [v // 2] of a JSON value: floor division. *)
Definition jv_floordiv2 (v : jvalue) : res Z :=
  match v with
  | JInt z => Ok (z / 2)%Z
  | JStr _ => Raise (TypeError "unsupported operand type(s) for //: 'str' and 'int'")
  | JList _ => Raise (TypeError "unsupported operand type(s) for //: 'list' and 'int'")
  | JObj _ => Raise (TypeError "unsupported operand type(s) for //: 'dict' and 'int'")
  end.

(** The 32-bit mask [0xFFFFFFFF]. *)
Definition mask32 : Z := 4294967295.

(** ** [QuantumInterface] (lines 1264-1418) *)

Module QSharpInterface.

Record qrng_dict := QrngDict { qd_binary : string; qd_decimal : nat; qd_hex : string }.

(** [decimal = int(binary[:32], 2) if len(binary) >= 32 else
    int(binary, 2)] and [hex(decimal)[2:].upper()]. *)
Definition qrng_digest (binary : string) : res qrng_dict :=
  let* decimal := if 32 <=? String.length binary then py_int_base2 (substring 0 32 binary)
                  else py_int_base2 binary in
  Ok (QrngDict binary decimal (py_hex_upper decimal)).

Section Interface.

(** The Q# runtime. *)
Variable qsharp_eval : qcall -> res qvalue.
(** [hash(document)], seeded per process. *)
Variable py_hash : string -> Z.
(** [f"{x:.2f}"] *)
Variable fmt2f : Q -> string.
(** The fallbacks' draws: the [i]-th [random.choice([True, False])], the
    [i]-th [random.randint(0, 1)], and the [random.uniform] and
    [random.randint] values. *)
Variables (choice randbit : nat -> bool).
Variables (u_entanglement u_fidelity u_error u_conductivity u_band_gap u_moment
           u_energy u_bond u_vibration : Q) (coherence : Z).

Definition create_bell_state : Z * Z :=
  py_except (let* result := qsharp_eval CreateBellState in
             let* r0 := qv_getitem result 0 in let* a := qv_int r0 in
             let* r1 := qv_getitem result 1 in let* b := qv_int r1 in Ok (a, b))
            (0, 0)%Z.

Definition execute_circuit (gates : jvalue) : list Z :=
  py_except (let* result := qsharp_eval (QuantumCircuitBuilder gates) in
             let* rs := qv_iter result in res_mapM qv_int rs)
            [0; 0; 0]%Z.

Definition measure_entanglement : Q :=
  py_except (let* r := qsharp_eval MeasureEntanglement in qv_float r) u_entanglement.

Definition calculate_fidelity (iterations : Z) : Q :=
  py_except (let* r := qsharp_eval (QuantumStateEvolution iterations) in qv_float r) u_fidelity.

(** The fallback can raise: [key_length // 2] on a non-integer. *)
Definition bb84_key_distribution (key_length : jvalue) : res (qvalue * Q) :=
  py_try (let* result := qsharp_eval (BB84KeyDistribution key_length) in
          let* shared_key := qv_getitem result 0 in
          let* r1 := qv_getitem result 1 in
          let* error_rate := qv_float r1 in Ok (shared_key, error_rate))
         (let* half := jv_floordiv2 key_length in
          Ok (QVArray (map (fun i => QVBool (choice i)) (seq 0 (Z.to_nat half))), u_error)).

(** The fallback raises ValueError on [int('', 2)] when [num_bits <= 0]. *)
Definition quantum_random_generator (num_bits : jvalue) : res qrng_dict :=
  py_try (let* random_bits := qsharp_eval (QuantumRNG num_bits) in
          let* bits := qv_iter random_bits in
          qrng_digest (join_truthy bits))
         (let* n := jv_range num_bits in
          qrng_digest (string_of_bits (map randbit (seq 0 n)))).

Definition pqc_encryption (message algorithm : string) : string :=
  let scope := (("message", message) :: ("algorithm", algorithm) :: interface_globals)%string in
  py_except (let* mbits := message_bits scope message in
             let* encrypted_bits := qsharp_eval (PQCEncryption mbits algorithm) in
             let* bits := qv_iter encrypted_bits in Ok (join_truthy bits))
            (b64encode (utf8_bytes (message ++ "_" ++ algorithm))).

Definition quantum_signature (document : string) : string :=
  let h := Z.land (py_hash document) mask32 in
  py_except (let doc_hash := bits_of_digits (py_format_bin h 32) in
             let* signature_bits := qsharp_eval (QuantumSignature doc_hash) in
             let* bits := qv_iter signature_bits in Ok (join_truthy bits))
            (py_str_int h).

Record material_dict := MaterialDict { md_conductivity : string; md_band_gap : string; md_moment : string }.

Definition simulate_material (material_name temperature pressure : jvalue) : material_dict :=
  let fallback := MaterialDict (fmt2f u_conductivity ++ " S/m") (fmt2f u_band_gap) (fmt2f u_moment) in
  py_except (let* r := qsharp_eval (MaterialProperties material_name temperature pressure) in
             let* l := qv_unpack 3 r in
             match l with
             | [c; g; m] =>
                 let* cs := qv_format2f fmt2f c in let* gs := qv_format2f fmt2f g in
                 let* ms := qv_format2f fmt2f m in Ok (MaterialDict (cs ++ " S/m") gs ms)
             | _ => Ok fallback
             end)
            fallback.

Definition molecular_simulation (num_atoms temperature : jvalue) : qvalue * qvalue * qvalue :=
  let fallback := (QVDouble u_energy, QVDouble u_bond, QVDouble u_vibration) in
  py_except (let* r := qsharp_eval (MolecularSimulation num_atoms temperature) in
             let* l := qv_unpack 3 r in
             match l with [e; b; v] => Ok (e, b, v) | _ => Ok fallback end)
            fallback.

Record db_dict := DbDict { db_results : qvalue; db_coherence : qvalue; db_entries : jvalue }.

(** [query] is not used: the call always asks for "search". *)
Definition quantum_database_query (query : jvalue) (num_entries : jvalue) : res db_dict :=
  py_try (let* r := qsharp_eval (QuantumDatabaseQuery num_entries) in
          let* l := qv_unpack 2 r in
          match l with [rs; ct] => Ok (DbDict rs ct num_entries) | _ => Raise IndexError end)
         (let* n := jv_range num_entries in
          Ok (DbDict (QVArray (map (fun i => QVBool (choice i)) (seq 0 n))) (QVInt coherence) num_entries)).

End Interface.

End QSharpInterface.

(** The runtime's answer to [QuantumRNG] gives no bit: it raises, or it
    is not iterable, or it is empty. *)
Definition yields_no_bits (r : res qvalue) : bool :=
  match r with
  | Raise _ => true
  | Ok v => match qv_iter v with Ok [] | Raise _ => true | Ok (_ :: _) => false end
  end.

(** ** The legacy methods of the first [QuantumInterface] (lines 1217-1249) *)

Module LegacyInterface.
Import QSharpInterface.

Section Legacy.

Variable py_hash : string -> Z.
Variable fmt2f : Q -> string.
Variable choice : nat -> bool.
Variables (u_conductivity u_band_gap u_moment u_energy u_bond u_vibration : Q) (coherence : Z).

Definition pqc_encryption (message algorithm : string) : string :=
  b64encode (utf8_bytes (message ++ "_" ++ algorithm)).

Definition quantum_signature (document : string) : string := py_str_int (Z.land (py_hash document) mask32).

Definition simulate_material (material_name : string) (temperature pressure : Q) : material_dict :=
  MaterialDict (fmt2f u_conductivity ++ " S/m") (fmt2f u_band_gap) (fmt2f u_moment).

Definition molecular_simulation (num_atoms : Z) (temperature : Q) : Q * Q * Q :=
  (u_energy, u_bond, u_vibration).

Definition quantum_database_query (query : string) (num_entries : Z) : qvalue * Z * Z :=
  (QVArray (map (fun i => QVBool (choice i)) (seq 0 (Z.to_nat num_entries))), coherence, num_entries).

End Legacy.

End LegacyInterface.

(** ** The Flask server (lines 1959-2041) *)

Module QuantumServer.
Import QSharpInterface.
#[local] Open Scope string_scope.

(** The JSON documents [jsonify] writes. *)
Inductive ojson :=
| OStr (s : string)
| OInt (z : Z)
| OFloat (q : Q)
| OBool (b : bool)
| OList (l : list ojson)
| OObj (fields : list (string * ojson)).

Fixpoint oj_of_qvalue (v : qvalue) : ojson :=
  match v with
  | QVBool b => OBool b
  | QVInt z => OInt z
  | QVDouble q => OFloat q
  | QVUnit => OList []
  | QVArray l | QVTuple l => OList (map oj_of_qvalue l)
  end.

Fixpoint oj_of_jvalue (v : jvalue) : ojson :=
  match v with
  | JStr s => OStr s
  | JInt z => OInt z
  | JList l => OList (map oj_of_jvalue l)
  | JObj d => OObj (map (fun kv => (fst kv, oj_of_jvalue (snd kv))) d)
  end.

Definition oj_of_qrng (d : qrng_dict) : ojson :=
  OObj [("binary", OStr (qd_binary d)); ("decimal", OInt (Z.of_nat (qd_decimal d))); ("hex", OStr (qd_hex d))]%string.

(** A request: its path, its method and its body, [None] when it is not
    JSON (Flask answers 415 to [request.json]). *)
Record request := Request { req_path : string; req_method : string; req_json : option jvalue }.

Inductive response :=
| Json (body : ojson)
| Html
| Status (code : Z)
| ServerError (e : py_exc).

Section Server.

Variable qsharp_eval : qcall -> res qvalue.
Variable py_hash : string -> Z.
Variable fmt2f : Q -> string.
Variables (choice randbit : nat -> bool).
Variables (u_entanglement u_fidelity u_error u_conductivity u_band_gap u_moment
           u_energy u_bond u_vibration : Q) (coherence : Z).

(** [request.json] then [data.get(key, default)]: AttributeError when
    the body is JSON but not an object. *)
Definition json_data (body : option jvalue) : res (option (list (string * jvalue))) :=
  match body with
  | None => Ok None
  | Some (JObj d) => Ok (Some d)
  | Some (JStr _) => Raise (AttributeError "'str' object has no attribute 'get'")
  | Some (JInt _) => Raise (AttributeError "'int' object has no attribute 'get'")
  | Some (JList _) => Raise (AttributeError "'list' object has no attribute 'get'")
  end.

(** The string arguments of the routes that need them; [None] (outside
    the model) for a JSON value of another type. *)
Definition jv_string (v : jvalue) : option string := match v with JStr s => Some s | _ => None end.

(** The body of a POST route, from its data. *)
Definition post_route (path : string) (d : list (string * jvalue)) : option (res ojson) :=
  if String.eqb path "/api/execute_circuit" then
    let gates := jv_get d "gates" (JList []) in
    Some (Ok (OObj [("results", OList (map OInt (execute_circuit qsharp_eval gates)))]))
  else if String.eqb path "/api/bb84" then
    Some (let* r := bb84_key_distribution qsharp_eval choice u_error (jv_get d "keyLength" (JInt 256)) in
          Ok (OObj [("sharedKey", oj_of_qvalue (fst r)); ("errorRate", OFloat (snd r))]))
  else if String.eqb path "/api/qrng" then
    Some (let* r := quantum_random_generator qsharp_eval randbit (jv_get d "bits" (JInt 128)) in
          Ok (oj_of_qrng r))
  else if String.eqb path "/api/pqc_encrypt" then
    match jv_string (jv_get d "message" (JStr "")), jv_string (jv_get d "algorithm" (JStr "CRYSTALS-Kyber")) with
    | Some m, Some a => Some (Ok (OObj [("encrypted", OStr (pqc_encryption qsharp_eval m a))]))
    | _, _ => None
    end
  else if String.eqb path "/api/quantum_sign" then
    match jv_string (jv_get d "document" (JStr "")) with
    | Some doc => Some (Ok (OObj [("signature", OStr (quantum_signature qsharp_eval py_hash doc))]))
    | None => None
    end
  else if String.eqb path "/api/material_sim" then
    let r := simulate_material qsharp_eval fmt2f u_conductivity u_band_gap u_moment
               (jv_get d "name" (JStr "unknown")) (jv_get d "temperature" (JInt 300)) (jv_get d "pressure" (JInt 1)) in
    Some (Ok (OObj [("conductivity", OStr (md_conductivity r)); ("bandGap", OStr (md_band_gap r));
                    ("magneticMoment", OStr (md_moment r))]))
  else if String.eqb path "/api/molecule_sim" then
    let '(e, b, v) := molecular_simulation qsharp_eval u_energy u_bond u_vibration
                        (jv_get d "numAtoms" (JInt 4)) (jv_get d "temperature" (JInt 300)) in
    Some (Ok (OObj [("energy", oj_of_qvalue e); ("bondStrength", oj_of_qvalue b);
                    ("vibrationFrequency", oj_of_qvalue v)]))
  else if String.eqb path "/api/quantum_db" then
    Some (let* r := quantum_database_query qsharp_eval choice coherence
                      (jv_get d "query" (JStr "")) (jv_get d "entries" (JInt 16)) in
          Ok (OObj [("results", oj_of_qvalue (db_results r)); ("coherenceTime", oj_of_qvalue (db_coherence r));
                    ("quantumEntries", oj_of_jvalue (db_entries r))]))
  else None.

Definition post_paths : list string :=
  ["/api/execute_circuit"; "/api/bb84"; "/api/qrng"; "/api/pqc_encrypt"; "/api/quantum_sign";
   "/api/material_sim"; "/api/molecule_sim"; "/api/quantum_db"]%string.

Definition get_paths : list string := ["/"; "/api/bell_state"; "/api/entanglement"; "/api/fidelity"]%string.

(** The body of a GET route. *)
Definition get_route (path : string) : response :=
  if String.eqb path "/" then Html
  else if String.eqb path "/api/bell_state" then
    let '(a, b) := create_bell_state qsharp_eval in Json (OObj [("results", OList [OInt a; OInt b])])
  else if String.eqb path "/api/entanglement" then
    Json (OObj [("entanglement", OFloat (measure_entanglement qsharp_eval u_entanglement))])
  else Json (OObj [("fidelity", OFloat (calculate_fidelity qsharp_eval u_fidelity 100))]).

(** Routing: 404 for an unknown path, 405 for a method the route does not
    declare (GET routes also answer HEAD), 415 for a POST body that is
    not JSON, 500 for an uncaught exception. *)
Definition app (req : request) : option response :=
  let path := req_path req in
  let meth := req_method req in
  if existsb (String.eqb path) get_paths then
    if String.eqb meth "GET" || String.eqb meth "HEAD" then Some (get_route path) else Some (Status 405)
  else if existsb (String.eqb path) post_paths then
    if negb (String.eqb meth "POST") then Some (Status 405)
    else match json_data (req_json req) with
         | Raise e => Some (ServerError e)
         | Ok None => Some (Status 415)
         | Ok (Some d) =>
             option_map (fun r => match r with Ok j => Json j | Raise e => ServerError e end) (post_route path d)
         end
  else Some (Status 404).

End Server.

End QuantumServer.

(** ** Lemmas on base64 *)

Lemma b64_value_char v : v < 64 -> b64_value (b64_char v) = Some v.
Proof.
  intros Hv.
  assert (H : forallb (fun v => match b64_value (b64_char v) with Some w => v =? w | None => false end)
                      (seq 0 64) = true) by reflexivity.
  rewrite forallb_forall in H. specialize (H v (proj2 (in_seq 64 0 v) ltac:(lia))).
  destruct (b64_value (b64_char v)) as [w|]; [|discriminate]. apply Nat.eqb_eq in H. now subst.
Qed.

Lemma b64_value_pad : b64_value "=" = None.
Proof. reflexivity. Qed.

Lemma b64_ungroup_groups bs : Forall (fun b => b < 256) bs -> b64_ungroup (b64_groups bs) = Some bs.
Proof.
  intros Hb. remember (List.length bs) as n eqn:En. revert bs Hb En.
  induction n as [n IH] using lt_wf_ind. intros bs Hb En.
  destruct bs as [|a [|b [|c rest]]]; cbn [b64_groups b64_ungroup];
    repeat match goal with H : Forall _ (_ :: _) |- _ => inversion_clear H end.
  - reflexivity.
  - rewrite !b64_value_char, b64_value_pad by lia.
    cbn -[Nat.div Nat.modulo]. f_equal. f_equal. lia.
  - rewrite !b64_value_char, b64_value_pad by lia. cbn -[Nat.div Nat.modulo]. f_equal. f_equal; [|f_equal]; lia.
  - rewrite !b64_value_char by lia. rewrite (IH (List.length rest)) by (cbn in En; lia || auto).
    cbn -[Nat.div Nat.modulo]. f_equal. f_equal; [|f_equal; [|f_equal]]; lia.
Qed.

(** ** Lemmas on the interface *)

Lemma b64decode_encode bs : Forall (fun b => b < 256) bs -> b64decode (b64encode bs) = Some bs.
Proof. intros Hb. unfold b64decode, b64encode. rewrite list_ascii_of_string_of_list_ascii. now apply b64_ungroup_groups. Qed.

Lemma message_bits_unbound message algorithm m :
  message_bits (("message", message) :: ("algorithm", algorithm) :: interface_globals)%string m =
  Raise (NameError "name 'c' is not defined").
Proof. reflexivity. Qed.

Lemma py_try_raise {A} (b h : res A) e : py_try b h = Raise e -> exists e', b = Raise e' /\ h = Raise e.
Proof. destruct b; cbn; [discriminate | eauto]. Qed.

Lemma length_string_of_list_ascii l : String.length (string_of_list_ascii l) = List.length l.
Proof. induction l; cbn; auto. Qed.

Lemma bin_digits_length fuel v acc k :
  1 <= k -> v < 2 ^ k -> String.length (bin_digits fuel v acc) <= k + String.length acc.
Proof.
  revert v acc k. induction fuel as [|fuel IH]; intros v acc k Hk Hv; cbn [bin_digits]; [lia|].
  destruct (Nat.ltb_spec v 2); [cbn; lia|].
  destruct k as [|[|k]]; [lia| cbn in Hv; lia|].
  etransitivity; [apply (IH _ _ (S k)); [lia|]|cbn; lia].
  apply Nat.Div0.div_lt_upper_bound. rewrite Nat.pow_succ_r' in Hv. lia.
Qed.

Lemma py_format_bin_length v w :
  1 <= w -> (0 <= v)%Z -> Z.to_nat v < 2 ^ w -> String.length (py_format_bin v w) = w.
Proof.
  intros Hw Hv Hlt. unfold py_format_bin. replace (v <? 0)%Z with false by (symmetry; apply Z.ltb_ge; lia).
  rewrite Z.abs_eq by exact Hv. cbn [String.length append].
  pose proof (bin_digits_length (S (Z.to_nat v)) (Z.to_nat v) EmptyString w Hw Hlt) as Hb. cbn [String.length] in Hb.
  rewrite string_length_app, length_string_of_list_ascii, repeat_length. lia.
Qed.

Lemma land_mask32 h : (0 <= Z.land h mask32 < 2 ^ 32)%Z.
Proof.
  change mask32 with (Z.ones 32). rewrite Z.land_ones by lia.
  apply Z.mod_pos_bound. lia.
Qed.

Lemma mask32_nat_bound h : Z.to_nat (Z.land h mask32) < 2 ^ 32.
Proof.
  pose proof (land_mask32 h) as [H0 H1].
  apply Nat2Z.inj_lt. rewrite Z2Nat.id, Nat2Z.inj_pow by exact H0. exact H1.
Qed.

Lemma qrng_digest_bits l :
  l <> [] -> exists d, QSharpInterface.qrng_digest (string_of_bits l) = Ok d /\
    QSharpInterface.qd_binary d = string_of_bits l /\
    QSharpInterface.qd_decimal d = be_value (firstn 32 l) 0 /\
    QSharpInterface.qd_hex d = py_hex_upper (QSharpInterface.qd_decimal d).
Proof.
  intros Hl. unfold QSharpInterface.qrng_digest. rewrite string_length_bits.
  destruct (Nat.leb_spec 32 (List.length l)) as [H|H].
  - assert (Hs : substring 0 32 (string_of_bits l) = string_of_bits (firstn 32 l)).
    { transitivity (substring 0 32 (string_of_bits (firstn 32 l ++ skipn 32 l))); [now rewrite firstn_skipn|].
      rewrite string_of_bits_app, substring_prefix_app by (rewrite string_length_bits, length_firstn; lia).
      pose proof (substring_full (string_of_bits (firstn 32 l))) as F.
      rewrite string_length_bits, length_firstn, Nat.min_l in F by lia. exact F. }
    rewrite Hs, py_int_base2_bits.
    + cbn. eauto.
    + intros E. apply (f_equal (@List.length bool)) in E. rewrite length_firstn in E. cbn [List.length] in E. lia.
  - rewrite py_int_base2_bits by exact Hl. rewrite firstn_all2 by lia. cbn. eauto.
Qed.

Lemma join_truthy_bits bits : join_truthy bits = string_of_bits (map qv_truthy bits).
Proof. induction bits as [|b bits IH]; cbn; [reflexivity|]. rewrite <- IH. now destruct (qv_truthy b). Qed.

Lemma qrng_no_bits qe randbit n :
  yields_no_bits (qe (QuantumRNG n)) = true ->
  QSharpInterface.quantum_random_generator qe randbit n =
  (let* k := jv_range n in QSharpInterface.qrng_digest (string_of_bits (map randbit (seq 0 k)))).
Proof.
  unfold yields_no_bits, QSharpInterface.quantum_random_generator.
  destruct (qe (QuantumRNG n)) as [v|e]; [|reflexivity]. cbn [res_bind].
  destruct (qv_iter v) as [[|b bs]|e]; [reflexivity|discriminate|reflexivity].
Qed.

Lemma qrng_zero_bits : QSharpInterface.qrng_digest EmptyString = Raise (ValueError "invalid literal for int() with base 2").
Proof. reflexivity. Qed.

Lemma jv_range_raise v e : jv_range v = Raise e -> forall z, v <> JInt z.
Proof. destruct v; cbn; congruence. Qed.

Lemma jv_floordiv2_raise v e : jv_floordiv2 v = Raise e -> forall z, v <> JInt z.
Proof. destruct v; cbn; congruence. Qed.

Lemma res_bind_raise {A B} (r : res A) (k : A -> res B) e :
  res_bind r k = Raise e -> (exists e', r = Raise e') \/ (exists a, r = Ok a /\ k a = Raise e).
Proof. destruct r as [a|e']; cbn; eauto. Qed.

(** The fallback of the generator raises only for a count [<= 0] (or a
    non-integer). *)
Lemma qrng_fallback_raise randbit v e :
  (let* n := jv_range v in QSharpInterface.qrng_digest (string_of_bits (map randbit (seq 0 n)))) = Raise e ->
  forall z, v = JInt z -> (z <= 0)%Z.
Proof.
  intros H z ->. cbn [jv_range res_bind] in H.
  destruct (Z.to_nat z) as [|n] eqn:Ez; [lia|].
  destruct (qrng_digest_bits (map randbit (seq 0 (S n)))) as (d & Hd & _); [discriminate|].
  congruence.
Qed.

Lemma json_data_raise body e :
  QuantumServer.json_data body = Raise e -> exists v, body = Some v /\ forall d, v <> JObj d.
Proof. destruct body as [[s|z|l|d]|]; cbn; try discriminate; intros _; eexists; split; eauto; congruence. Qed.

Lemma json_data_some body d : QuantumServer.json_data body = Ok (Some d) -> body = Some (JObj d).
Proof. destruct body as [[s|z|l|d']|]; cbn; congruence. Qed.

(** ** Theorems *)

(** C35: [QuantumInterface.pqc_encryption] never reaches the Q#
    runtime.  The comprehension [[bit == '1' for bit in format(ord(c),
    '08b') for c in message]] evaluates [c] before binding it and raises
    NameError, so for every runtime the method returns the base64 text
    of [message + '_' + algorithm] (the legacy method's answer), which
    decodes back to those bytes. *)
Theorem pqc_encryption_base64 qe message algorithm :
  QSharpInterface.pqc_encryption qe message algorithm = LegacyInterface.pqc_encryption message algorithm /\
  b64decode (QSharpInterface.pqc_encryption qe message algorithm) = Some (utf8_bytes (message ++ "_" ++ algorithm)).
Proof.
  assert (E : QSharpInterface.pqc_encryption qe message algorithm = b64encode (utf8_bytes (message ++ "_" ++ algorithm))).
  { unfold QSharpInterface.pqc_encryption. now rewrite message_bits_unbound. }
  split; [exact E|]. rewrite E. apply b64decode_encode, utf8_bytes_lt.
Qed.

(** [quantum_signature] keeps 32 bits of the hash.  For every
    hash value, negative ones included, [hash(document) & 0xFFFFFFFF]
    lies in [0, 2^32), [format(h, '032b')] has exactly 32 digits which
    read back as [h], and when the runtime raises the signature is
    [str(h)]. *)
Theorem quantum_signature_bounds qe hash document :
  let h := Z.land (hash document) mask32 in
  (0 <= h < 2 ^ 32)%Z /\ String.length (py_format_bin h 32) = 32 /\
  py_int_base2 (py_format_bin h 32) = Ok (Z.to_nat h) /\
  (forall e, qe (QuantumSignature (bits_of_digits (py_format_bin h 32))) = Raise e ->
   QSharpInterface.quantum_signature qe hash document = py_str_int h /\
   QSharpInterface.quantum_signature qe hash document = LegacyInterface.quantum_signature hash document).
Proof.
  intros h. pose proof (land_mask32 (hash document)) as Hb. split; [exact Hb|]. split; [|split].
  - apply py_format_bin_length; [lia | apply Hb | apply mask32_nat_bound].
  - apply py_format_bin_roundtrip, Hb.
  - intros e He. unfold QSharpInterface.quantum_signature. fold h. now rewrite He.
Qed.

(** The random number generator on every branch.  When the
    runtime returns bits, ['binary'] is their truth values; when it gives
    none (it raises, or its answer is empty or not iterable), the
    fallback draws [num_bits] bits, and for [num_bits <= 0] the fallback
    itself raises ValueError from [int('', 2)], outside the [try]. *)
Theorem qrng_branches qe randbit z :
  (forall v bits, qe (QuantumRNG (JInt z)) = Ok v -> qv_iter v = Ok bits -> bits <> [] ->
     exists d, QSharpInterface.quantum_random_generator qe randbit (JInt z) = Ok d /\
       QSharpInterface.qd_binary d = join_truthy bits /\
       QSharpInterface.qd_decimal d = be_value (firstn 32 (map qv_truthy bits)) 0) /\
  (yields_no_bits (qe (QuantumRNG (JInt z))) = true -> (z <= 0)%Z ->
     QSharpInterface.quantum_random_generator qe randbit (JInt z) =
     Raise (ValueError "invalid literal for int() with base 2")) /\
  (yields_no_bits (qe (QuantumRNG (JInt z))) = true -> (1 <= z)%Z ->
     exists d, QSharpInterface.quantum_random_generator qe randbit (JInt z) = Ok d /\
       QSharpInterface.qd_binary d = string_of_bits (map randbit (seq 0 (Z.to_nat z))) /\
       String.length (QSharpInterface.qd_binary d) = Z.to_nat z /\
       QSharpInterface.qd_decimal d = be_value (firstn 32 (map randbit (seq 0 (Z.to_nat z)))) 0 /\
       QSharpInterface.qd_hex d = py_hex_upper (QSharpInterface.qd_decimal d)).
Proof.
  split; [|split].
  - intros v bits Hv Hi Hne. unfold QSharpInterface.quantum_random_generator. rewrite Hv. cbn [res_bind].
    rewrite Hi. cbn [res_bind]. rewrite join_truthy_bits.
    destruct (qrng_digest_bits (map qv_truthy bits)) as (d & Hd & Hbin & Hdec & _).
    { intros E. apply map_eq_nil in E. contradiction. }
    rewrite Hd. exists d. auto.
  - intros Hn Hz. rewrite qrng_no_bits by exact Hn. cbn [jv_range res_bind].
    replace (Z.to_nat z) with 0 by lia. reflexivity.
  - intros Hn Hz. rewrite qrng_no_bits by exact Hn. cbn [jv_range res_bind].
    destruct (qrng_digest_bits (map randbit (seq 0 (Z.to_nat z)))) as (d & Hd & Hbin & Hdec & Hhex).
    { intros E. apply map_eq_nil in E. destruct (Z.to_nat z) eqn:Ez; [lia|discriminate]. }
    exists d. rewrite Hd, Hbin, string_length_bits, length_map, length_seq. auto.
Qed.

Section AppTheorems.

Variable qsharp_eval : qcall -> res qvalue.
Variable py_hash : string -> Z.
Variable fmt2f : Q -> string.
Variables (choice randbit : nat -> bool).
Variables (u_entanglement u_fidelity u_error u_conductivity u_band_gap u_moment
           u_energy u_bond u_vibration : Q) (coherence : Z).

#[local] Open Scope string_scope.

Local Notation app := (QuantumServer.app qsharp_eval py_hash fmt2f choice randbit u_entanglement u_fidelity
                         u_error u_conductivity u_band_gap u_moment u_energy u_bond u_vibration coherence).

Lemma existsb_eqb_In x l : existsb (String.eqb x) l = true <-> In x l.
Proof.
  rewrite existsb_exists. split.
  - intros (y & Hy & E). apply String.eqb_eq in E. now subst.
  - intros H. exists x. split; [exact H | apply String.eqb_refl].
Qed.

Lemma existsb_eqb_notIn x l : existsb (String.eqb x) l = false <-> ~ In x l.
Proof. rewrite <- existsb_eqb_In. destruct (existsb _ _); intuition congruence. Qed.

Lemma post_not_get x : In x QuantumServer.post_paths -> ~ In x QuantumServer.get_paths.
Proof. intros H; repeat destruct H as [<-|H]; cbn; intuition discriminate. Qed.

Local Notation post_route := (QuantumServer.post_route qsharp_eval py_hash fmt2f choice randbit
                                u_error u_conductivity u_band_gap u_moment u_energy u_bond u_vibration coherence).

Lemma get_route_no_error path e :
  QuantumServer.get_route qsharp_eval u_entanglement u_fidelity path <> QuantumServer.ServerError e.
Proof.
  unfold QuantumServer.get_route.
  destruct (String.eqb path "/"); [discriminate|].
  destruct (String.eqb path "/api/bell_state");
    [destruct (QSharpInterface.create_bell_state qsharp_eval); discriminate|].
  destruct (String.eqb path "/api/entanglement"); discriminate.
Qed.

(** The POST routes raise only on a non-integer [keyLength], a
    non-positive or non-integer [bits], or a non-integer [entries]. *)
Lemma post_route_raise path d e :
  post_route path d = Some (Raise e) ->
  (path = "/api/bb84" /\ forall z, jv_get d "keyLength" (JInt 256) <> JInt z) \/
  (path = "/api/qrng" /\ forall z, jv_get d "bits" (JInt 128) = JInt z -> (z <= 0)%Z) \/
  (path = "/api/quantum_db" /\ forall z, jv_get d "entries" (JInt 16) <> JInt z).
Proof.
  unfold QuantumServer.post_route.
  destruct (String.eqb_spec path "/api/execute_circuit"); [discriminate|].
  destruct (String.eqb_spec path "/api/bb84") as [->|_].
  { intros H. injection H as H. apply res_bind_raise in H as [(e' & H)|(a & _ & H)]; [|discriminate].
    apply py_try_raise in H as (_ & _ & H).
    apply res_bind_raise in H as [(e'' & H)|(a & _ & H)]; [|discriminate].
    left. split; [reflexivity|]. exact (jv_floordiv2_raise _ _ H). }
  destruct (String.eqb_spec path "/api/qrng") as [->|_].
  { intros H. injection H as H. apply res_bind_raise in H as [(e' & H)|(a & _ & H)]; [|discriminate].
    apply py_try_raise in H as (_ & _ & H).
    right; left. split; [reflexivity|]. exact (qrng_fallback_raise _ _ _ H). }
  destruct (String.eqb_spec path "/api/pqc_encrypt").
  { destruct (QuantumServer.jv_string (jv_get d "message" (JStr ""))), (QuantumServer.jv_string (jv_get d "algorithm" (JStr "CRYSTALS-Kyber"))); discriminate. }
  destruct (String.eqb_spec path "/api/quantum_sign").
  { destruct (QuantumServer.jv_string (jv_get d "document" (JStr ""))); discriminate. }
  destruct (String.eqb_spec path "/api/material_sim"); [discriminate|].
  destruct (String.eqb_spec path "/api/molecule_sim").
  { destruct (QSharpInterface.molecular_simulation _ _ _ _ _ _) as [[? ?] ?]; discriminate. }
  destruct (String.eqb_spec path "/api/quantum_db") as [->|_]; [|discriminate].
  intros H. injection H as H. apply res_bind_raise in H as [(e' & H)|(a & _ & H)]; [|discriminate].
  apply py_try_raise in H as (_ & _ & H).
  apply res_bind_raise in H as [(e'' & H)|(a & _ & H)]; [|discriminate].
  right; right. split; [reflexivity|]. exact (jv_range_raise _ _ H).
Qed.



End AppTheorems.

Section Witnesses.

(** A runtime where every Q# call fails, as when the operations are not
    compiled. *)
#[local] Open Scope string_scope.
Local Notation no_runtime := (fun _ : qcall => @Raise qvalue (ValueError "No such operation")).

Lemma quantum_signature_bounds_witness :
  QSharpInterface.quantum_signature no_runtime (fun _ => (-1)%Z) "doc" = py_str_int (Z.land (-1) mask32) /\
  QSharpInterface.quantum_signature no_runtime (fun _ => (-1)%Z) "doc" =
  LegacyInterface.quantum_signature (fun _ => (-1)%Z) "doc".
Proof. apply (quantum_signature_bounds no_runtime (fun _ => (-1)%Z) "doc") with (e := ValueError "No such operation"). reflexivity. Defined.

Lemma qrng_branches_witness :
  QSharpInterface.quantum_random_generator no_runtime (fun _ => true) (JInt 0) =
  Raise (ValueError "invalid literal for int() with base 2").
Proof. apply (qrng_branches no_runtime (fun _ => true) 0); [reflexivity | lia]. Defined.



End Witnesses.
