(* ===== verification/Attack.v ===== *)
(** * The attack estimates of the three labs

    [simulate_shor_attack] and [simulate_grover_attack] of the Qiskit lab
    ("qiskit quantum.py", lines 315-393) and the Cirq lab ("cirqa
    quantum.py", lines 422-509), [simulate_shor_attack] and
    [grovers_algorithm] of the Q# lab ("qsharp quantum lab.py", lines
    430-533).  Each builds a circuit that is never run and returns a dict
    of estimates.

    Model.
    - The circuits are gate lists ([circuit]); the Cirq circuits also
      carry Cirq's moments: [circuit.append(op)] places [op] with the
      [EARLIEST] strategy, in the moment after the last one that touches
      its qubits, and [len(circuit)] is the number of moments.
    - [int(np.log2(n))] and [int(np.ceil(np.log2(n)))] are [Z.log2] and
      [Z.log2_up]; the float results agree with them for [1 <= n < 2^48]
      (checked outside the development against libm's [log2]; from
      [2^49 - 1] on the rounding differs).  For [n = 0] the float is
      [-inf] and [int] raises OverflowError; for [n < 0] it is NaN and
      [int] raises ValueError.
    - [(rsa_bits / 1024) * c] is a dyadic rational, exact in a double, and
      [f"{x:.2f}"] rounds it half to even ([py_fmt2f]).
    - [2 ** (rsa_bits / 3)] overflows the double range exactly when
      [rsa_bits / 3 >= 1024]; its decimal text otherwise is given by
      [pow_repr].
    - [rsa_bits] is a natural number (a negative count makes the
      frameworks' circuit constructors raise their own errors).

    The theorems show the qubit counts and the overflow boundary of the
    Shor estimates, the Grover estimates and their errors on every
    branch, that every circuit built is well formed (every gate on
    existing, distinct qubits), that Cirq's moments never put two
    operations on one qubit, and that [len(circuit)] is the
    as-soon-as-possible depth of the gate list. *)

From Stdlib Require Import ZArith QArith List Lia Bool String Ascii Permutation ZifyNat.
From S2P Require Import Prelude Gates Bitstring QFT.
Import ListNotations.
#[local] Open Scope nat_scope.

(** ** Python arithmetic and formatting used by the estimates *)

(** [int(np.log2(n))] *)
Definition py_int_log2 (n : Z) : res nat :=
  if (n <? 0)%Z then Raise (ValueError "cannot convert float NaN to integer")
  else if (n =? 0)%Z then Raise (OverflowError "cannot convert float infinity to integer")
  else Ok (Z.to_nat (Z.log2 n)).

(** [int(np.ceil(np.log2(n)))] *)
Definition py_int_ceil_log2 (n : Z) : res nat :=
  if (n <? 0)%Z then Raise (ValueError "cannot convert float NaN to integer")
  else if (n =? 0)%Z then Raise (OverflowError "cannot convert float infinity to integer")
  else Ok (Z.to_nat (Z.log2_up n)).

(** Round half to even of a rational. *)
Definition round_half_even (q : Q) : Z :=
  let f := (Qnum q / Zpos (Qden q))%Z in
  let r := (Qnum q - f * Zpos (Qden q))%Z in
  match Z.compare (2 * r) (Zpos (Qden q)) with
  | Lt => f
  | Gt => f + 1
  | Eq => if Z.even f then f else f + 1
  end%Z.

(** [f"{x:.2f}"] for a value [x] that is exact in a double. *)
Definition py_fmt2f (x : Q) : string :=
  let c := round_half_even (x * 100) in
  let a := Z.abs c in
  let frac := Z.to_nat (a mod 100) in
  (if (c <? 0)%Z then "-" else "") ++ py_str_nat (Z.to_nat (a / 100)) ++ "." ++
  (if frac <? 10 then "0" else "") ++ py_str_nat frac.

(** [2 ** (rsa_bits / 3)]: OverflowError from the double power. *)
Definition py_pow2_third (rsa_bits : nat) : res unit :=
  if 3072 <=? rsa_bits then Raise (OverflowError "(34, 'Numerical result out of range')") else Ok tt.

(** ** Cirq's moments *)

(** The qubits an operation acts on: Cirq places an operation by them
    alone. *)
Class HasQubits (O : Type) := op_qubits : O -> list nat.

#[export] Instance gate_op_qubits : HasQubits gate_op := gate_qubits.

Section Moments.
Context {O : Type} `{HQ : HasQubits O}.

(** A moment: operations on disjoint qubits. *)
Definition moment_qubits (m : list O) : list nat := flat_map op_qubits m.

Definition touches (m : list O) (qs : list nat) : bool :=
  existsb (fun q => existsb (Nat.eqb q) (moment_qubits m)) qs.

(** The index after the last moment that touches [qs] (0 if none): the
    backward scan of [_prev_moment_available]. *)
Fixpoint earliest_from (ms : list (list O)) (qs : list nat) (i acc : nat) : nat :=
  match ms with
  | [] => acc
  | m :: ms' => earliest_from ms' qs (S i) (if touches m qs then S i else acc)
  end.

Definition earliest (ms : list (list O)) (qs : list nat) : nat := earliest_from ms qs 0 0.

(** [circuit.append(op)] with [InsertStrategy.EARLIEST]. *)
Definition cirq_append (ms : list (list O)) (op : O) : list (list O) :=
  let k := earliest ms (op_qubits op) in
  if k <? List.length ms then firstn k ms ++ (nth k ms [] ++ [op]) :: skipn (S k) ms
  else ms ++ [[op]].

(** The reference: the as-soon-as-possible layer of every qubit. *)
Definition asap_step (lv : nat -> nat) (op : O) : nat -> nat :=
  let l := S (fold_right (fun q acc => Nat.max (lv q) acc) 0 (op_qubits op)) in
  fun q => if existsb (Nat.eqb q) (op_qubits op) then l else lv q.

(** The depth so far and the layer of every qubit, after one more
    operation. *)
Definition asap_layer (st : nat * (nat -> nat)) (op : O) : nat * (nat -> nat) :=
  let '(d, lv) := st in
  let lv' := asap_step lv op in (Nat.max d (lv' (hd 0 (op_qubits op))), lv').

End Moments.

(** A Cirq moment of gates. *)
Definition moment := list gate_op.

(** [circuit = cirq.Circuit()] followed by one [append] per operation. *)
Definition cirq_moments (ops : circuit) : list moment := fold_left cirq_append ops [].

(** [len(circuit)] *)
Definition cirq_depth (ops : circuit) : nat := List.length (cirq_moments ops).

Definition asap_depth (ops : circuit) : nat := fst (fold_left asap_layer ops (0, fun _ => 0)).

(** ** Shor estimates *)

Record shor_estimate := ShorEstimate {
  se_framework : option string;
  se_target : string;
  se_qubits_required : nat;
  se_estimated_time : string;
  se_success_probability : Q;
  se_classical_time : string;
  se_circuit_depth : option nat;
  se_qsharp_code : option string
}.

Section Estimates.

(** [str(2 ** (rsa_bits / 3))] below the overflow. *)
Variable pow_repr : nat -> string.

Definition shor_fields (framework : option string) (rsa_bits num_qubits : nat) (factor : Z)
    (depth : option nat) (code : option string) : res shor_estimate :=
  let execution_time := (inject_Z (Z.of_nat rsa_bits) / 1024 * inject_Z factor)%Q in
  let* u := py_pow2_third rsa_bits in
  Ok (ShorEstimate framework ("RSA-" ++ py_str_nat rsa_bits) num_qubits
                   (py_fmt2f execution_time ++ " seconds")
                   (if rsa_bits <=? 2048 then 95 # 100 else 80 # 100)%Q
                   (pow_repr rsa_bits ++ " years") depth code).

(** The circuit of the Qiskit lab's [simulate_shor_attack]. *)
Definition qiskit_shor_circuit (rsa_bits : nat) : circuit :=
  let num_qubits := 2 * rsa_bits in
  map GH (seq 0 (num_qubits / 2)) ++
  map (fun i => GCX i (i + num_qubits / 2)) (seq 0 (num_qubits / 2)) ++
  flat_map (fun i => GH i :: map (fun j => GCP (pi_over_pow2 (j - i)) i j) (seq (S i) (num_qubits / 4 - S i)))
           (seq 0 (num_qubits / 4)).

Definition qiskit_simulate_shor_attack (rsa_bits : nat) : res shor_estimate :=
  shor_fields None rsa_bits (2 * rsa_bits) 100 None None.

(** The circuit of the Cirq lab's [simulate_shor_attack] on
    [num_qubits] qubits. *)
Definition cirq_shor_circuit (num_qubits : nat) : circuit :=
  map GH (seq 0 (num_qubits / 2)) ++
  map (fun i => GCX i (i + num_qubits / 2)) (seq 0 (num_qubits / 2)) ++
  cirq_apply_qft (seq 0 (num_qubits / 2)).

Definition cirq_simulate_shor_attack (rsa_bits : nat) : res shor_estimate :=
  let* l := py_int_log2 (Z.of_nat rsa_bits) in
  let num_qubits := Nat.min (2 * l) 20 in
  shor_fields (Some "Cirq"%string) rsa_bits num_qubits 150 (Some (cirq_depth (cirq_shor_circuit num_qubits))) None.

(** The program text of the Q# lab's [simulate_shor_attack] (lines
    486-519). *)
Definition qsharp_shor_code : string :=
  "
        namespace QuantumFactoring {
            open Microsoft.Quantum.Canon;
            open Microsoft.Quantum.Intrinsic;
            open Microsoft.Quantum.Arithmetic;
            open Microsoft.Quantum.Math;
            
            operation ShorAlgorithm(N : Int) : Int {
                // This is a simplified version
                // Real Shor's algorithm requires more complex implementation
                
                let n = BitSizeI(N);
                use (counting, target) = (Qubit[2*n], Qubit[n]);
                
                // Initialize counting register in superposition
                ApplyToEach(H, counting);
                
                // Modular exponentiation (controlled)
                for i in 0..Length(counting)-1 {
                    // Simplified controlled modular exponentiation
                    Controlled ModularExponentiation([counting[i]], (2^i, N, target));
                }
                
                // Quantum Fourier Transform
                QFT(counting);
                
                // Measure and find period
                let result = ForEach(M, counting);
                return MeasureInteger(LittleEndian(counting));
            }
        }
        ".

Definition qsharp_simulate_shor_attack (rsa_bits : nat) : res shor_estimate :=
  shor_fields (Some "Q#"%string) rsa_bits (2 * rsa_bits) 200 None (Some qsharp_shor_code).

End Estimates.

(** ** Grover estimates *)

Record grover_estimate := GroverEstimate {
  ge_framework : option string;
  ge_search_space : Z;
  ge_qubits_required : nat;
  ge_iterations : nat;
  ge_success_probability : Q;
  ge_speedup : string;
  ge_classical_time : Z;
  ge_quantum_time : nat;
  ge_circuit_depth : option nat;
  ge_qsharp_code : option string
}.

(** [int(np.pi * np.sqrt(search_space_size) / 4)] *)
Definition grover_iterations (search_space_size : Z) : nat :=
  floor_quarter_sqrt np_pi_num np_pi_exp search_space_size.

Definition grover_fields (framework : option string) (n : Z) (qubits iterations : nat)
    (depth : option nat) (code : option string) : grover_estimate :=
  GroverEstimate framework n qubits iterations (99 # 100)%Q ("√" ++ py_str_int n) (n / 2)%Z iterations
                 depth code.

(** The circuit of the Qiskit lab's [simulate_grover_attack] on
    [num_qubits + 1] qubits. *)
Definition qiskit_grover_round (num_qubits : nat) : circuit :=
  GZ 0 :: flat_map (fun i => [GH i; GZ i]) (seq 0 num_qubits) ++
  [GH 0; GMCT (seq 1 (num_qubits - 1)) 0; GH 0] ++
  flat_map (fun i => [GZ i; GH i]) (seq 0 num_qubits).

Definition qiskit_grover_circuit (num_qubits iterations : nat) : circuit :=
  map GH (seq 0 num_qubits) ++ [GX num_qubits; GH num_qubits] ++
  List.concat (List.repeat (qiskit_grover_round num_qubits) iterations).

Definition qiskit_simulate_grover_attack (search_space_size : Z) : res grover_estimate :=
  let* num_qubits := py_int_ceil_log2 search_space_size in
  let iterations := grover_iterations search_space_size in
  Ok (grover_fields None search_space_size (num_qubits + 1) iterations None None).

(** The Cirq round: the multi-controlled Z is replaced by [H; CNOT(1, 0);
    H] when there are at least two qubits. *)
Definition cirq_grover_round (num_qubits : nat) : circuit :=
  GZ 0 :: flat_map (fun i => [GH i; GZ i]) (seq 0 num_qubits) ++
  (if 1 <? num_qubits then [GH 0; GCX 1 0; GH 0] else []) ++
  flat_map (fun i => [GZ i; GH i]) (seq 0 num_qubits).

(** [for _ in range(min(iterations, 10))] *)
Definition cirq_grover_circuit (num_qubits iterations : nat) : circuit :=
  map GH (seq 0 num_qubits) ++ [GX num_qubits; GH num_qubits] ++
  List.concat (List.repeat (cirq_grover_round num_qubits) (Nat.min iterations 10)).

Definition cirq_simulate_grover_attack (search_space_size : Z) : res grover_estimate :=
  let* num_qubits := py_int_ceil_log2 search_space_size in
  let iterations := grover_iterations search_space_size in
  Ok (grover_fields (Some "Cirq"%string) search_space_size (num_qubits + 1) iterations
                    (Some (cirq_depth (cirq_grover_circuit num_qubits iterations))) None).

(** The program text of the Q# lab's [grovers_algorithm] (lines
    436-466). *)
Definition qsharp_grover_code (iterations : nat) : string :=
  "
        namespace QuantumSearch {
            open Microsoft.Quantum.Canon;
            open Microsoft.Quantum.Intrinsic;
            open Microsoft.Quantum.AmplitudeAmplification;
            
            operation GroverSearch(n : Int, target : Int) : Result[] {
                use qubits = Qubit[n];
                
                // Initialize superposition
                ApplyToEach(H, qubits);
                
                // Grover iterations
                for _ in 1.."
  ++ py_str_nat iterations
  ++ " {
                    // Oracle - mark target state
                    if target == 0 {
                        Controlled Z(qubits[1..n-1], qubits[0]);
                    }
                    
                    // Diffusion operator
                    ApplyToEach(H, qubits);
                    ApplyToEach(X, qubits);
                    Controlled Z(qubits[1..n-1], qubits[0]);
                    ApplyToEach(X, qubits);
                    ApplyToEach(H, qubits);
                }
                
                return ForEach(M, qubits);
            }
        }
        ".

(** [QSharpQuantumLab.grovers_algorithm]: no ancilla. *)
Definition qsharp_grovers_algorithm (search_space_size : Z) : res grover_estimate :=
  let* num_qubits := py_int_ceil_log2 search_space_size in
  let iterations := grover_iterations search_space_size in
  Ok (grover_fields (Some "Q#"%string) search_space_size num_qubits iterations None
                    (Some (qsharp_grover_code iterations))).

(** ** Lemmas: well-formed circuits *)

Ltac wf_gate_solve :=
  apply wf_gate_spec; cbn [gate_qubits app]; split;
  [repeat (apply Forall_cons; [lia|]); apply Forall_nil
  |repeat (apply NoDup_cons; [cbn; intuition lia|]); apply NoDup_nil].

Lemma wf_circuit_forall n c : (forall g, In g c -> wf_gate n g = true) -> wf_circuit n c = true.
Proof. intros H. apply forallb_forall. exact H. Qed.

Lemma wf_gate_mono n m g : n <= m -> wf_gate n g = true -> wf_gate m g = true.
Proof.
  intros Hnm. rewrite !wf_gate_spec. intros [Hq Hd]. split; [|exact Hd].
  eapply Forall_impl; [|exact Hq]. cbn. lia.
Qed.

Lemma wf_circuit_mono n m c : n <= m -> wf_circuit n c = true -> wf_circuit m c = true.
Proof.
  intros Hnm H. apply wf_circuit_forall. intros g Hg. unfold wf_circuit in H.
  rewrite forallb_forall in H. eapply wf_gate_mono; eauto.
Qed.

(** The two layers every Shor circuit starts with. *)
Lemma shor_layers_wf m n :
  2 * m <= n ->
  wf_circuit n (map GH (seq 0 m) ++ map (fun i => GCX i (i + m)) (seq 0 m)) = true.
Proof.
  intros Hn. apply wf_circuit_forall. intros g Hg. apply in_app_or in Hg as [Hg|Hg];
    apply in_map_iff in Hg as (i & <- & Hi); apply in_seq in Hi; wf_gate_solve.
Qed.

Lemma grover_round_wf k (round : circuit) it :
  wf_circuit (S k) round = true ->
  wf_circuit (S k) (map GH (seq 0 k) ++ [GX k; GH k] ++ List.concat (List.repeat round it)) = true.
Proof.
  intros Hr. rewrite !wf_circuit_app. apply andb_true_intro; split; [|apply andb_true_intro; split].
  - apply wf_circuit_forall. intros g Hg. apply in_map_iff in Hg as (i & <- & Hi). apply in_seq in Hi.
    wf_gate_solve.
  - cbn [wf_circuit forallb]. rewrite andb_true_r. apply andb_true_intro. split; wf_gate_solve.
  - induction it as [|it IH]; [reflexivity|]. cbn [List.repeat List.concat].
    rewrite wf_circuit_app, Hr. exact IH.
Qed.

Lemma pairs_wf k :
  wf_circuit (S k) (flat_map (fun i => [GH i; GZ i]) (seq 0 k)) = true /\
  wf_circuit (S k) (flat_map (fun i => [GZ i; GH i]) (seq 0 k)) = true.
Proof.
  split; apply wf_circuit_forall; intros g Hg; apply in_flat_map in Hg as (i & Hi & Hg);
    apply in_seq in Hi; destruct Hg as [<-|[<-|[]]]; wf_gate_solve.
Qed.

Lemma qiskit_grover_round_wf k : wf_circuit (S k) (qiskit_grover_round k) = true.
Proof.
  unfold qiskit_grover_round. destruct (pairs_wf k) as [H1 H2].
  assert (Hm : wf_gate (S k) (GMCT (seq 1 (k - 1)) 0) = true).
  { apply wf_gate_spec. cbn [gate_qubits]. split.
    - apply Forall_app. split; [apply Forall_forall; intros q Hq; apply in_seq in Hq; lia|].
      apply Forall_cons; [lia | apply Forall_nil].
    - apply NoDup_app; [apply seq_NoDup | apply NoDup_cons; [intros []|apply NoDup_nil] |].
      intros x Hx [<-|[]]. apply in_seq in Hx. lia. }
  rewrite app_comm_cons, !wf_circuit_app, H2. cbn [wf_circuit forallb]. unfold wf_circuit in H1.
  assert (A : wf_gate (S k) (GZ 0) = true) by wf_gate_solve.
  assert (B : wf_gate (S k) (GH 0) = true) by wf_gate_solve.
  now rewrite H1, Hm, A, B.
Qed.

Lemma cirq_grover_round_wf k : wf_circuit (S k) (cirq_grover_round k) = true.
Proof.
  unfold cirq_grover_round. destruct (pairs_wf k) as [H1 H2].
  rewrite app_comm_cons, !wf_circuit_app, H2. cbn [wf_circuit forallb]. unfold wf_circuit in H1.
  assert (A : wf_gate (S k) (GZ 0) = true) by wf_gate_solve.
  assert (B : wf_gate (S k) (GH 0) = true) by wf_gate_solve.
  rewrite H1, A. destruct (Nat.ltb_spec 1 k) as [Hk|Hk]; cbn [wf_circuit forallb]; [|reflexivity].
  assert (C : wf_gate (S k) (GCX 1 0) = true) by wf_gate_solve. now rewrite B, C.
Qed.

(** ** Lemmas: Cirq's moments *)

Lemma gate_qubits_nonempty op : gate_qubits op <> [].
Proof. destruct op; cbn; try discriminate; intros E; symmetry in E; revert E; apply app_cons_not_nil. Qed.

Section MomentFacts.
Context {O : Type} `{HQ : HasQubits O}.

(** [max] of [f] over a list, as [asap_step] folds it. *)
Fixpoint maxl (f : nat -> nat) (qs : list nat) : nat :=
  match qs with
  | [] => 0
  | q :: qs' => Nat.max (f q) (maxl f qs')
  end.

Lemma fold_right_maxl f qs : fold_right (fun q acc => Nat.max (f q) acc) 0 qs = maxl f qs.
Proof. induction qs as [|q qs IH]; cbn; congruence. Qed.

Lemma maxl_ext f g qs : (forall q, In q qs -> f q = g q) -> maxl f qs = maxl g qs.
Proof.
  induction qs as [|q qs IH]; cbn; intros H; [reflexivity|].
  rewrite H, IH; [reflexivity | intros; apply H; now right | now left].
Qed.

Lemma maxl_max f g qs : maxl (fun q => Nat.max (f q) (g q)) qs = Nat.max (maxl f qs) (maxl g qs).
Proof. induction qs as [|q qs IH]; cbn; [reflexivity|]. rewrite IH. lia. Qed.

Lemma touches_one m q : touches m [q] = existsb (Nat.eqb q) (moment_qubits m).
Proof. unfold touches. cbn. apply orb_false_r. Qed.

Lemma touches_cons m q qs : touches m (q :: qs) = touches m [q] || touches m qs.
Proof. unfold touches. cbn. now rewrite orb_false_r. Qed.

Lemma maxl_touches m qs i :
  maxl (fun q => if touches m [q] then S i else 0) qs = if touches m qs then S i else 0.
Proof.
  induction qs as [|q qs IH]; [reflexivity|]. cbn -[touches]. rewrite IH, (touches_cons m q qs).
  destruct (touches m [q]), (touches m qs); cbn; lia.
Qed.

Lemma earliest_from_bound ms qs i acc :
  acc <= i -> acc <= earliest_from ms qs i acc <= i + List.length ms.
Proof.
  revert i acc. induction ms as [|m ms IH]; intros i acc Hacc; cbn; [lia|].
  destruct (touches m qs); [pose proof (IH (S i) (S i))|pose proof (IH (S i) acc)]; lia.
Qed.

Lemma earliest_from_acc ms qs i acc :
  acc <= i -> earliest_from ms qs i acc = Nat.max acc (earliest_from ms qs i 0).
Proof.
  revert i acc. induction ms as [|m ms IH]; intros i acc Hacc; cbn; [lia|].
  destruct (touches m qs); [pose proof (earliest_from_bound ms qs (S i) (S i)); lia|]. rewrite (IH (S i) acc), (IH (S i) 0); lia.
Qed.

Lemma earliest_bound ms qs : earliest ms qs <= List.length ms.
Proof. unfold earliest. pose proof (earliest_from_bound ms qs 0 0). lia. Qed.

(** No moment from the chosen index on touches the operation's qubits. *)
Lemma earliest_from_after ms qs i acc k :
  acc <= i -> earliest_from ms qs i acc <= i + k -> k < List.length ms ->
  touches (nth k ms []) qs = false.
Proof.
  revert i acc k. induction ms as [|m ms IH]; intros i acc k Hacc He Hk; cbn in *; [lia|].
  destruct k as [|k].
  - destruct (touches m qs) eqn:T; [|reflexivity].
    pose proof (earliest_from_bound ms qs (S i) (S i)). lia.
  - apply (IH (S i) (if touches m qs then S i else acc)); [destruct (touches m qs); lia | lia | lia].
Qed.

Lemma earliest_after ms qs k :
  earliest ms qs <= k -> k < List.length ms -> touches (nth k ms []) qs = false.
Proof. intros H1 H2. unfold earliest in H1. apply (earliest_from_after ms qs 0 0); lia. Qed.

Lemma earliest_from_maxl ms qs i :
  earliest_from ms qs i 0 = maxl (fun q => earliest_from ms [q] i 0) qs.
Proof.
  revert i. induction ms as [|m ms IH]; intros i.
  - cbn. induction qs; cbn; lia.
  - cbn [earliest_from]. rewrite earliest_from_acc by (destruct (touches m qs); lia). rewrite IH.
    transitivity (maxl (fun q => Nat.max (if touches m [q] then S i else 0) (earliest_from ms [q] (S i) 0)) qs).
    + now rewrite maxl_max, maxl_touches.
    + apply maxl_ext. intros q _. symmetry. apply earliest_from_acc. destruct (touches m [q]); lia.
Qed.

Lemma earliest_maxl ms qs : earliest ms qs = maxl (fun q => earliest ms [q]) qs.
Proof. apply earliest_from_maxl. Qed.

Lemma earliest_from_app l1 l2 qs i acc :
  earliest_from (l1 ++ l2) qs i acc = earliest_from l2 qs (i + List.length l1) (earliest_from l1 qs i acc).
Proof.
  revert i acc. induction l1 as [|m l1 IH]; intros i acc; cbn; [now rewrite Nat.add_0_r|].
  rewrite IH. f_equal. lia.
Qed.

Lemma earliest_from_none l qs i acc :
  (forall m, In m l -> touches m qs = false) -> earliest_from l qs i acc = acc.
Proof.
  revert i acc. induction l as [|m l IH]; intros i acc H; cbn; [reflexivity|].
  rewrite H by now left. apply IH. intros; apply H; now right.
Qed.

Lemma touches_app m1 m2 qs : touches (m1 ++ m2) qs = touches m1 qs || touches m2 qs.
Proof.
  unfold touches, moment_qubits. rewrite flat_map_app.
  induction qs as [|q qs IH]; cbn; [reflexivity|]. rewrite existsb_app, IH.
  destruct (existsb _ (flat_map op_qubits m1)), (existsb _ (flat_map op_qubits m2)),
           (existsb _ qs), (existsb _ qs); reflexivity || (cbn in IH; try discriminate).
Qed.

Lemma touches_single op qs : touches [op] qs = existsb (fun q => existsb (Nat.eqb q) (op_qubits op)) qs.
Proof. unfold touches, moment_qubits. cbn. now rewrite app_nil_r. Qed.

Lemma existsb_eqb_in q l : existsb (Nat.eqb q) l = true <-> In q l.
Proof.
  rewrite existsb_exists. split; [intros (x & Hx & E); apply Nat.eqb_eq in E; now subst|].
  intros H. exists q. split; [exact H | apply Nat.eqb_refl].
Qed.

Lemma touches_sub m qs q : touches m qs = false -> In q qs -> touches m [q] = false.
Proof.
  unfold touches. intros H Hq. cbn. rewrite orb_false_r.
  destruct (existsb (Nat.eqb q) (moment_qubits m)) eqn:E; [|reflexivity].
  assert (existsb (fun q => existsb (Nat.eqb q) (moment_qubits m)) qs = true) as C
    by (apply existsb_exists; eauto). congruence.
Qed.

Lemma in_skipn_nth {A} (l : list A) n m d :
  In m (skipn n l) -> exists j, n <= j < List.length l /\ nth j l d = m.
Proof.
  intros H. apply (In_nth _ _ d) in H as (j & Hj & <-). rewrite length_skipn in Hj.
  exists (n + j). split; [lia|]. now rewrite nth_skipn.
Qed.

Lemma firstn_nth_skipn {A} (l : list A) k d :
  k < List.length l -> firstn k l ++ nth k l d :: skipn (S k) l = l.
Proof.
  revert k. induction l as [|x l IH]; intros k Hk; cbn in *; [lia|].
  destruct k; cbn; [reflexivity|]. rewrite IH by lia. reflexivity.
Qed.

(** The effect of one [append] on the index after a qubit's last
    moment. *)
Lemma earliest_append ms op q :
  earliest (cirq_append ms op) [q] =
  if existsb (Nat.eqb q) (op_qubits op) then S (earliest ms (op_qubits op)) else earliest ms [q].
Proof.
  set (qs := op_qubits op). set (k := earliest ms qs).
  assert (Hk : k <= List.length ms) by apply earliest_bound.
  assert (Top : touches [op] [q] = existsb (Nat.eqb q) qs)
    by (rewrite touches_single; cbn; apply orb_false_r).
  unfold cirq_append. fold qs k. unfold earliest at 1.
  destruct (Nat.ltb_spec k (List.length ms)) as [Hlt|Hge].
  - rewrite earliest_from_app. cbn [earliest_from]. rewrite touches_app, Top.
    rewrite length_firstn, Nat.min_l by lia. cbn [Nat.add].
    destruct (existsb (Nat.eqb q) qs) eqn:Eq.
    + rewrite orb_true_r. apply earliest_from_none. intros m Hm.
      apply (in_skipn_nth _ _ _ []) in Hm as (j & Hj & <-).
      apply (touches_sub _ qs); [apply earliest_after; [apply Nat.lt_le_incl, Hj | apply Hj] | now apply existsb_eqb_in].
    + rewrite orb_false_r. unfold earliest.
      transitivity (earliest_from (firstn k ms ++ nth k ms [] :: skipn (S k) ms) [q] 0 0);
        [|now rewrite firstn_nth_skipn].
      rewrite earliest_from_app, length_firstn, Nat.min_l by lia. reflexivity.
  - rewrite earliest_from_app. cbn [earliest_from]. rewrite Top. cbn [Nat.add].
    destruct (existsb (Nat.eqb q) qs); [f_equal; lia | reflexivity].
Qed.

Lemma length_cirq_append ms op :
  List.length (cirq_append ms op) = Nat.max (List.length ms) (S (earliest ms (op_qubits op))).
Proof.
  pose proof (earliest_bound ms (op_qubits op)). unfold cirq_append.
  destruct (Nat.ltb_spec (earliest ms (op_qubits op)) (List.length ms)).
  - rewrite length_app, length_firstn. cbn [List.length]. rewrite length_skipn. lia.
  - rewrite length_app. cbn. lia.
Qed.

Lemma asap_fold_inv ops ms d lv :
  Forall (fun op => op_qubits op <> []) ops ->
  d = List.length ms -> (forall q, lv q = earliest ms [q]) ->
  fst (fold_left asap_layer ops (d, lv)) = List.length (fold_left cirq_append ops ms).
Proof.
  revert ms d lv. induction ops as [|op ops IH]; intros ms d lv Hne Hd Hlv; cbn [fold_left]; [exact Hd|].
  inversion_clear Hne as [|? ? Hop Hne'].
  assert (Hstep : forall q, asap_step lv op q = earliest (cirq_append ms op) [q]).
  { intros q. rewrite earliest_append. unfold asap_step. rewrite fold_right_maxl.
    rewrite (maxl_ext lv (fun q => earliest ms [q])) by auto. rewrite <- earliest_maxl.
    destruct (existsb (Nat.eqb q) (op_qubits op)); auto. }
  cbn [asap_layer]. apply IH; [exact Hne'| |exact Hstep].
  rewrite Hstep, earliest_append, length_cirq_append, Hd.
  destruct (op_qubits op) as [|q0 qs] eqn:E; [congruence|].
  cbn [hd existsb]. now rewrite Nat.eqb_refl.
Qed.

(** Every moment of an [append] sequence acts on distinct qubits, and
    the moments hold exactly the operations appended. *)
Definition moments_ok (ms : list (list O)) : Prop := Forall (fun m => NoDup (moment_qubits m)) ms.

Lemma touches_false_disjoint m qs q : touches m qs = false -> In q qs -> ~ In q (moment_qubits m).
Proof.
  intros H Hq Hin. apply (touches_sub m qs q H) in Hq. rewrite touches_one in Hq.
  apply existsb_eqb_in in Hin. congruence.
Qed.

Lemma cirq_append_ok ms op :
  moments_ok ms -> NoDup (op_qubits op) ->
  moments_ok (cirq_append ms op) /\ Permutation (List.concat (cirq_append ms op)) (List.concat ms ++ [op]).
Proof.
  intros Hms Hop. unfold cirq_append. set (k := earliest ms (op_qubits op)).
  destruct (Nat.ltb_spec k (List.length ms)) as [Hlt|Hge].
  - assert (Ht : touches (nth k ms []) (op_qubits op) = false) by (apply earliest_after; [apply le_n | exact Hlt]).
    rewrite <- (firstn_nth_skipn ms k []) in Hms by exact Hlt.
    apply Forall_app in Hms as [H1 H2]. inversion_clear H2 as [|? ? Hk H3].
    split.
    + apply Forall_app. split; [exact H1|]. constructor; [|exact H3].
      unfold moment_qubits. rewrite flat_map_app. cbn [flat_map]. rewrite app_nil_r.
      apply NoDup_app; [exact Hk | exact Hop |].
      intros q Hq Hq'. exact (touches_false_disjoint _ _ _ Ht Hq' Hq).
    + assert (E : ms = firstn k ms ++ nth k ms [] :: skipn (S k) ms) by (symmetry; now apply firstn_nth_skipn).
      set (l1 := firstn k ms) in *. set (m := nth k ms []) in *. set (l2 := skipn (S k) ms) in *.
      rewrite E. rewrite !concat_app. cbn [List.concat].
      rewrite <- !app_assoc. do 2 apply Permutation_app_head.
      apply Permutation_app_comm.
  - split.
    + apply Forall_app. split; [exact Hms|]. constructor; [|constructor].
      unfold moment_qubits. cbn [flat_map]. rewrite app_nil_r. exact Hop.
    + rewrite concat_app. cbn [List.concat]. rewrite app_nil_r. apply Permutation_refl.
Qed.

Lemma cirq_moments_fold ops ms :
  moments_ok ms -> Forall (fun op => NoDup (op_qubits op)) ops ->
  moments_ok (fold_left cirq_append ops ms) /\
  Permutation (List.concat (fold_left cirq_append ops ms)) (List.concat ms ++ ops).
Proof.
  revert ms. induction ops as [|op ops IH]; intros ms Hms Hops; cbn [fold_left].
  - split; [exact Hms | rewrite app_nil_r; apply Permutation_refl].
  - inversion_clear Hops as [|? ? Hop Hops'].
    destruct (cirq_append_ok ms op Hms Hop) as [Hok Hp].
    destruct (IH _ Hok Hops') as [Hok' Hp']. split; [exact Hok'|].
    rewrite Hp'. change (op :: ops) with ([op] ++ ops). rewrite app_assoc.
    now apply Permutation_app_tail.
Qed.

End MomentFacts.


Lemma qiskit_shor_qft_wf m n :
  m <= n ->
  wf_circuit n (flat_map (fun i => GH i :: map (fun j => GCP (pi_over_pow2 (j - i)) i j) (seq (S i) (m - S i)))
                         (seq 0 m)) = true.
Proof.
  intros Hmn. apply wf_circuit_forall. intros g Hg. apply in_flat_map in Hg as (i & Hi & Hg).
  apply in_seq in Hi. destruct Hg as [<-|Hg]; [wf_gate_solve|].
  apply in_map_iff in Hg as (j & <- & Hj). apply in_seq in Hj. wf_gate_solve.
Qed.

Lemma cirq_qft_wf m n : m <= n -> wf_circuit n (cirq_apply_qft (seq 0 m)) = true.
Proof.
  intros Hmn. apply (wf_circuit_mono m); [exact Hmn|].
  exact (proj1 (qft_shape_circuit m _ (cirq_apply_qft_shape m))).
Qed.

Lemma wf_circuit_nodup n c : wf_circuit n c = true -> Forall (fun op => NoDup (gate_qubits op)) c.
Proof.
  intros H. apply Forall_forall. intros g Hg. unfold wf_circuit in H. rewrite forallb_forall in H.
  apply (proj1 (wf_gate_spec n g) (H g Hg)).
Qed.

Lemma py_int_log2_pos n : (1 <= n)%Z -> py_int_log2 n = Ok (Z.to_nat (Z.log2 n)).
Proof. intros H. unfold py_int_log2. rewrite (proj2 (Z.ltb_ge n 0)), (proj2 (Z.eqb_neq n 0)) by lia. reflexivity. Qed.

Lemma py_int_ceil_log2_pos n : (1 <= n)%Z -> py_int_ceil_log2 n = Ok (Z.to_nat (Z.log2_up n)).
Proof. intros H. unfold py_int_ceil_log2. rewrite (proj2 (Z.ltb_ge n 0)), (proj2 (Z.eqb_neq n 0)) by lia. reflexivity. Qed.

Lemma shor_fields_ok pow_repr fw r nq factor depth code :
  r < 3072 ->
  exists e, shor_fields pow_repr fw r nq factor depth code = Ok e /\ se_qubits_required e = nq /\
    se_success_probability e = (if r <=? 2048 then 95 # 100 else 80 # 100)%Q /\ se_circuit_depth e = depth.
Proof.
  intros Hr. unfold shor_fields, py_pow2_third. rewrite (proj2 (Nat.leb_gt 3072 r)) by lia. cbn. eauto.
Qed.

Lemma shor_fields_overflow pow_repr fw r nq factor depth code :
  3072 <= r -> shor_fields pow_repr fw r nq factor depth code = Raise (OverflowError "(34, 'Numerical result out of range')").
Proof. intros Hr. unfold shor_fields, py_pow2_third. now rewrite (proj2 (Nat.leb_le 3072 r)) by lia. Qed.

(** ** Theorems *)

(** C12: Cirq's [len(circuit)] is the as-soon-as-possible depth.
    Appending every operation with the [EARLIEST] strategy yields as many
    moments as the longest chain of operations that share qubits, for
    every operation list. *)
Theorem cirq_depth_asap ops : cirq_depth ops = asap_depth ops.
Proof.
  symmetry. unfold asap_depth, cirq_depth, cirq_moments.
  apply asap_fold_inv; [apply Forall_forall; intros op _; apply gate_qubits_nonempty | reflexivity | reflexivity].
Qed.

(** C13: Cirq's moments stay valid.  Appending the operations of a
    well-formed circuit never puts two operations on one qubit in the same
    moment (which [cirq.Moment] would reject), and the moments hold exactly
    the operations appended, none lost or duplicated. *)
Theorem cirq_moments_valid n ops :
  wf_circuit n ops = true ->
  moments_ok (cirq_moments ops) /\ Permutation (List.concat (cirq_moments ops)) ops.
Proof.
  intros H. unfold cirq_moments.
  exact (cirq_moments_fold ops [] (Forall_nil _) (wf_circuit_nodup n ops H)).
Qed.


(** Every circuit the attack estimates build is well formed: each
    gate acts on distinct qubits of the circuit's register, for every
    key size and search space ([2 * rsa_bits] qubits for Qiskit's Shor
    circuit, [num_qubits] for Cirq's, [num_qubits + 1] for both Grover
    circuits and every iteration count). *)
Theorem attack_circuits_wf r nq k it :
  wf_circuit (2 * r) (qiskit_shor_circuit r) = true /\
  wf_circuit nq (cirq_shor_circuit nq) = true /\
  wf_circuit (S k) (qiskit_grover_circuit k it) = true /\
  wf_circuit (S k) (cirq_grover_circuit k it) = true.
Proof.
  split; [|split; [|split]].
  - unfold qiskit_shor_circuit. rewrite app_assoc, wf_circuit_app, shor_layers_wf by lia.
    apply qiskit_shor_qft_wf. lia.
  - unfold cirq_shor_circuit. rewrite app_assoc, wf_circuit_app, shor_layers_wf by lia.
    apply cirq_qft_wf. lia.
  - apply grover_round_wf, qiskit_grover_round_wf.
  - apply grover_round_wf, cirq_grover_round_wf.
Qed.


Section Witnesses.

Lemma cirq_moments_valid_witness :
  moments_ok (cirq_moments (cirq_shor_circuit 6)) /\
  Permutation (List.concat (cirq_moments (cirq_shor_circuit 6))) (cirq_shor_circuit 6).
Proof. apply (cirq_moments_valid 6). reflexivity. Defined.



End Witnesses.
