(* ===== verification/CircuitInfo.v ===== *)
(** * Circuit information of the Qiskit and Cirq labs

    [create_quantum_circuit] ends every circuit with a measurement of all
    qubits, and both the dict it returns and [get_circuit_info] report a
    ['depth']: the Qiskit lab ("qiskit quantum.py", lines 33-79 and
    430-459) calls [QuantumCircuit.depth()] after
    [circuit.measure(qreg, creg)]; the Cirq lab ("cirqa quantum.py",
    lines 27-75 and 559-588) takes [len(circuit)], the number of moments,
    after [circuit.append(cirq.measure( *qubits, key='result'))].
    [list_circuits] maps [get_circuit_info] over the ids, and
    [get_system_status] reports the registry sizes and the framework's
    constants.

    Model.
    - A Qiskit circuit is its instruction list: the gates of [Lab.v]'s
      binder followed by one [measure(q_i, c_i)] per qubit.
      [QuantumCircuit.depth()] is the library's loop over the instructions
      with one level counter per bit, the [n] qubits first and then the
      [n] clbits ([qiskit_depth]; modelled from the library).
    - A Cirq circuit is its list of moments, built by [Attack.v]'s
      [cirq_append] over operations that are gates or a measurement of a
      list of qubits.
    - The QASM text and [str(circuit)] are renderings of these values and
      are not modelled; [get_circuit_info] returns the values they render.

    The theorems show that the two labs report the same depth for the
    same gate tokens, one more than the as-soon-as-possible depth of the
    bound gates (at most the number of tokens plus one), and that
    [list_circuits] of a reachable lab lists every stored circuit in id
    order with that depth.  A circuit on zero qubits is outside these
    theorems: Cirq's treatment of a measurement of no qubits depends on
    its version. *)

From Stdlib Require Import String List Lia Bool Arith.
From stdpp Require Import gmap.
From S2P Require Import Prelude Gates Lab Labs Attack.
Import ListNotations.
#[local] Open Scope nat_scope.

(** ** Qiskit: instructions and [QuantumCircuit.depth()] *)

Inductive qk_instr :=
| QkGate (g : gate_op)
| QkMeasure (qubit clbit : nat).

(** [circuit.measure(qreg, creg)]: qubit [i] into clbit [i]. *)
Definition qiskit_measure_all (n : nat) : list qk_instr := map (fun i => QkMeasure i i) (seq 0 n).

(** The instructions of a lab circuit on [n] qubits with bound gates [c]. *)
Definition qiskit_lab_circuit (n : nat) (c : circuit) : list qk_instr :=
  map QkGate c ++ qiskit_measure_all n.

(** [bit_indices]: the qubits, then the clbits, of a circuit on [n] qubits. *)
Definition qk_wires (n : nat) (ins : qk_instr) : list nat :=
  match ins with
  | QkGate g => gate_qubits g
  | QkMeasure q c => [q; n + c]
  end.

(** One iteration of [depth()]: [levels] are the counters of the
    instruction's bits plus one, and every one of its bits gets their
    maximum. *)
Definition qk_step (n : nat) (op_stack : nat -> nat) (ins : qk_instr) : nat -> nat :=
  let ws := qk_wires n ins in
  let max_level := fold_right Nat.max 0 (map (fun w => S (op_stack w)) ws) in
  fun w => if existsb (Nat.eqb w) ws then max_level else op_stack w.

(** [QuantumCircuit.depth()] of a circuit with [n] qubits and [n]
    clbits: [max(op_stack)], or 0 without bits. *)
Definition qiskit_depth (n : nat) (data : list qk_instr) : nat :=
  if n =? 0 then 0
  else let op_stack := fold_left (qk_step n) data (fun _ => 0) in
       fold_right Nat.max 0 (map op_stack (seq 0 (n + n))).

(** ** Cirq: operations and moments *)

Inductive cirq_op :=
| CirqGate (g : gate_op)
| CirqMeasure (qs : list nat) (key : string).

#[export] Instance cirq_op_qubits : HasQubits cirq_op :=
  fun op => match op with CirqGate g => gate_qubits g | CirqMeasure qs _ => qs end.

(** The operations a lab circuit on [n] qubits appends. *)
Definition cirq_lab_ops (n : nat) (c : circuit) : list cirq_op :=
  map CirqGate c ++ [CirqMeasure (seq 0 n) "result"].

(** The moments of [circuit] after [create_quantum_circuit]. *)
Definition cirq_lab_moments (n : nat) (c : circuit) : list (list cirq_op) :=
  fold_left cirq_append (cirq_lab_ops n c) [].

(** ** The circuit a lab stores, and what it reports *)

Inductive fw_circuit :=
| QiskitData (data : list qk_instr)
| CirqMoments (moments : list (list cirq_op)).

Definition fw_lab_circuit (fw : framework) (n : nat) (c : circuit) : fw_circuit :=
  match fw with
  | Qiskit => QiskitData (qiskit_lab_circuit n c)
  | Cirq => CirqMoments (cirq_lab_moments n c)
  end.

(** ['depth']: [circuit.depth()] or [len(circuit)]. *)
Definition fw_depth (n : nat) (x : fw_circuit) : nat :=
  match x with
  | QiskitData data => qiskit_depth n data
  | CirqMoments ms => List.length ms
  end.

(** The ['depth'] of the dict [create_quantum_circuit] returns. *)
Definition circuit_depth (fw : framework) (n : nat) (c : circuit) : nat :=
  fw_depth n (fw_lab_circuit fw n c).

(** The dict of [get_circuit_info]; [ci_circuit] is what ['qasm'] or
    ['circuit_str'] renders. *)
Record circuit_info := CircuitInfo {
  ci_id : nat;
  ci_name : string;
  ci_num_qubits : nat;
  ci_gates : list string;
  ci_depth : nat;
  ci_circuit : fw_circuit
}.

(** The dict [get_circuit_info] builds from a stored entry. *)
Definition fw_circuit_info (fw : framework) (e : circuit_entry) : circuit_info :=
  let x := fw_lab_circuit fw (ce_num_qubits e) (ce_circuit e) in
  CircuitInfo (ce_id e) (ce_name e) (ce_num_qubits e) (ce_gates e) (fw_depth (ce_num_qubits e) x) x.

(** [get_circuit_info(circuit_id)] of the Qiskit or Cirq lab. *)
Definition fw_get_circuit_info (fw : framework) (l : lab) (circuit_id : nat) : res circuit_info :=
  let* e := get_circuit_info l circuit_id in Ok (fw_circuit_info fw e).

(** [[self.get_circuit_info(cid) for cid in self.circuits.keys()]]: the
    keys in insertion order, which is id order. *)
Definition fw_list_circuits (fw : framework) (l : lab) : res (list circuit_info) :=
  res_mapM (fw_get_circuit_info fw l) (seq 1 (size (circuits l))).

(** The dict of [get_system_status]. *)
Record system_status := SystemStatus {
  ss_total_circuits : nat;
  ss_total_molecules : nat;
  ss_total_keys : nat;
  ss_backend : string;
  ss_max_qubits : nat;
  ss_extra : string * py_val;   (** ['quantum_volume'] or ['framework'] *)
  ss_status : string
}.

Definition fw_get_system_status (fw : framework) (l : lab) : system_status :=
  let '(c, m, k) := get_system_status l in
  match fw with
  | Qiskit => SystemStatus c m k "Qiskit Aer Simulator" 32 ("quantum_volume"%string, PInt 64) "active"
  | Cirq => SystemStatus c m k "Cirq Simulator" 20 ("framework"%string, PStr "Google Cirq") "active"
  end.

(** ** Lemmas: maxima and the as-soon-as-possible layers *)

Lemma maxl_app f l1 l2 : maxl f (l1 ++ l2) = Nat.max (maxl f l1) (maxl f l2).
Proof. induction l1 as [|x l1 IH]; cbn; [reflexivity|]. rewrite IH. lia. Qed.

Lemma maxl_ge f l x : In x l -> f x <= maxl f l.
Proof. induction l as [|y l IH]; cbn; [contradiction|]. intros [<-|H]; [lia|]. specialize (IH H). lia. Qed.

Lemma maxl_S f l : l <> [] -> maxl (fun w => S (f w)) l = S (maxl f l).
Proof.
  induction l as [|x l IH]; intros Hne; [congruence|]. destruct l as [|y l]; [cbn; lia|].
  change (Nat.max (S (f x)) (maxl (fun w => S (f w)) (y :: l)) = S (Nat.max (f x) (maxl f (y :: l)))).
  rewrite IH by discriminate. lia.
Qed.

Lemma fold_max_map f l : fold_right Nat.max 0 (map f l) = maxl f l.
Proof. induction l; cbn; congruence. Qed.

Lemma maxl_le f l m : (forall x, In x l -> f x <= m) -> maxl f l <= m.
Proof. induction l as [|y l IH]; cbn; intros H; [lia|]. pose proof (H y (or_introl eq_refl)). specialize (IH (fun x Hx => H x (or_intror Hx))). lia. Qed.

Lemma snd_fold_asap_layer {O} `{HQ : HasQubits O} (ops : list O) d lv :
  snd (fold_left asap_layer ops (d, lv)) = fold_left asap_step ops lv.
Proof. revert d lv. induction ops as [|op ops IH]; intros d lv; cbn; [reflexivity|]. apply IH. Qed.

(** Raising the qubits [qs] to one more than their highest layer. *)
Lemma maxl_raise lv qs ws :
  maxl (fun q => if existsb (Nat.eqb q) qs then S (maxl lv qs) else lv q) ws =
  Nat.max (maxl lv ws) (if existsb (fun w => existsb (Nat.eqb w) qs) ws then S (maxl lv qs) else 0).
Proof.
  induction ws as [|w ws IH]; cbn; [reflexivity|]. rewrite IH.
  destruct (existsb (Nat.eqb w) qs) eqn:E; cbn.
  - apply existsb_eqb_in in E. pose proof (maxl_ge lv qs w E). destruct (existsb _ ws); lia.
  - destruct (existsb _ ws); lia.
Qed.

Lemma existsb_seq_hd n q qs : q < n -> existsb (fun w => existsb (Nat.eqb w) (q :: qs)) (seq 0 n) = true.
Proof.
  intros Hq. apply existsb_exists. exists q. split; [apply in_seq; lia | cbn; now rewrite Nat.eqb_refl].
Qed.

(** One [asap_step] on a gate raises its qubits to one more than their
    highest layer. *)
Lemma asap_step_gate lv g q :
  asap_step lv g q = if existsb (Nat.eqb q) (gate_qubits g) then S (maxl lv (gate_qubits g)) else lv q.
Proof. unfold asap_step. now rewrite fold_right_maxl. Qed.

(** On a circuit of the register's qubits, the depth is the highest layer
    of a qubit of the register, and the other layers stay 0. *)
Lemma asap_fold_wf n c d lv :
  wf_circuit n c = true -> d = maxl lv (seq 0 n) -> (forall q, n <= q -> lv q = 0) ->
  fst (fold_left asap_layer c (d, lv)) = maxl (fold_left asap_step c lv) (seq 0 n) /\
  (forall q, n <= q -> fold_left asap_step c lv q = 0).
Proof.
  revert d lv. induction c as [|g c IH]; intros d lv Hwf Hd Hz; cbn [fold_left]; [auto|].
  cbn in Hwf. apply andb_true_iff in Hwf as [Hg Hwf]. apply wf_gate_spec in Hg as [Hlt _].
  rewrite List.Forall_forall in Hlt. cbn [asap_layer]. apply IH; [exact Hwf| |].
  - transitivity (maxl (fun q => if existsb (Nat.eqb q) (gate_qubits g) then S (maxl lv (gate_qubits g)) else lv q) (seq 0 n));
      [|apply maxl_ext; intros q _; symmetry; apply asap_step_gate].
    rewrite maxl_raise, <- Hd, asap_step_gate. change (op_qubits g) with (gate_qubits g).
    destruct (gate_qubits g) as [|q0 qs] eqn:E; [now destruct (gate_qubits_nonempty g)|].
    cbn [hd]. rewrite existsb_seq_hd by (apply Hlt; now left). cbn [existsb]. now rewrite Nat.eqb_refl.
  - intros q Hq. rewrite asap_step_gate. destruct (existsb (Nat.eqb q) (gate_qubits g)) eqn:E; [|auto].
    apply existsb_eqb_in, Hlt in E. lia.
Qed.

Corollary asap_depth_wf n c :
  wf_circuit n c = true ->
  asap_depth c = maxl (fold_left asap_step c (fun _ => 0)) (seq 0 n) /\
  (forall q, n <= q -> fold_left asap_step c (fun _ => 0) q = 0).
Proof.
  intros H. apply asap_fold_wf; [exact H| |reflexivity].
  symmetry. apply Nat.le_0_r, maxl_le. reflexivity.
Qed.

(** Every gate adds at most one layer. *)
Lemma asap_fold_le {O} `{HQ : HasQubits O} (ops : list O) d lv :
  (forall q, lv q <= d) -> fst (fold_left asap_layer ops (d, lv)) <= d + List.length ops.
Proof.
  revert d lv. induction ops as [|op ops IH]; intros d lv H; cbn [fold_left List.length]; [cbn; lia|].
  cbn [asap_layer]. unfold asap_step at 1 2.
  set (qs := op_qubits op). set (l := S (fold_right (fun q acc => Nat.max (lv q) acc) 0 qs)).
  assert (Hl : l <= S d) by (unfold l; rewrite fold_right_maxl; pose proof (maxl_le lv qs d (fun x _ => H x)); lia).
  eapply Nat.le_trans; [apply IH|].
  - intros q. destruct (existsb (Nat.eqb q) qs) eqn:E.
    + destruct qs as [|q0 qs']; [discriminate|]. cbn [hd existsb]. rewrite Nat.eqb_refl. cbn. lia.
    + specialize (H q). destruct (existsb (Nat.eqb (hd 0 qs)) qs); lia.
  - specialize (H (hd 0 qs)). destruct (existsb (Nat.eqb (hd 0 qs)) qs); lia.
Qed.

(** ** Lemmas: Qiskit's [depth()] *)

(** On a gate, [depth()]'s counters move as the ASAP layers. *)
Lemma qk_fold_gates n c st lv :
  (forall w, st w = lv w) -> forall w, fold_left (qk_step n) (map QkGate c) st w = fold_left asap_step c lv w.
Proof.
  revert st lv. induction c as [|g c IH]; intros st lv H; cbn [map fold_left]; [exact H|].
  apply IH. intros w. rewrite asap_step_gate. unfold qk_step. cbn [qk_wires].
  rewrite fold_max_map, maxl_S by apply gate_qubits_nonempty. rewrite (maxl_ext st lv) by auto. now rewrite H.
Qed.

(** [measure(i, i)] for [i < k] puts qubit [i] and clbit [i] one layer
    above the qubit's last gate. *)
Lemma qk_fold_measure n k st :
  k <= n -> (forall w, n <= w -> st w = 0) ->
  forall w, fold_left (qk_step n) (map (fun i => QkMeasure i i) (seq 0 k)) st w =
    if w <? k then S (st w) else if (n <=? w) && (w <? n + k) then S (st (w - n)) else st w.
Proof.
  induction k as [|k IH]; intros Hk Hz w.
  - cbn [seq map fold_left]. rewrite Nat.add_0_r.
    destruct (Nat.ltb_spec w 0), (Nat.leb_spec n w), (Nat.ltb_spec w n); cbn; reflexivity || lia.
  - rewrite seq_S, map_app, fold_left_app. cbn [map fold_left]. unfold qk_step at 1. cbn [qk_wires map fold_right existsb].
    specialize (IH ltac:(lia) Hz). rewrite !Nat.add_0_l, !IH. rewrite (Hz (n + k)) by lia.
    repeat qcase; cbn in *; try lia; try reflexivity; subst; [lia|]. replace (n + k - n) with k by lia. lia.
Qed.

(** The Qiskit lab's ['depth'] is one more than the ASAP depth of the
    bound gates. *)
Lemma qiskit_lab_depth n c :
  1 <= n -> wf_circuit n c = true -> qiskit_depth n (qiskit_lab_circuit n c) = S (asap_depth c).
Proof.
  intros Hn Hwf. destruct (asap_depth_wf n c Hwf) as [Hd Hz].
  set (lv := fold_left asap_step c (fun _ => 0)) in *.
  unfold qiskit_depth. destruct (Nat.eqb_spec n 0) as [|_]; [lia|].
  unfold qiskit_lab_circuit, qiskit_measure_all. rewrite fold_left_app, fold_max_map.
  set (st := fold_left (qk_step n) (map QkGate c) (fun _ => 0)).
  assert (Hst : forall w, st w = lv w) by (apply qk_fold_gates; reflexivity).
  assert (Hzst : forall w, n <= w -> st w = 0) by (intros w Hw; rewrite Hst; auto).
  pose proof (qk_fold_measure n n st (le_n n) Hzst) as Hm.
  rewrite seq_app, maxl_app, (maxl_ext _ (fun w => S (lv w)) (seq 0 n)).
  - rewrite maxl_S by (destruct n; [lia | discriminate]). rewrite <- Hd. apply Nat.max_l, maxl_le.
    intros w Hw. apply in_seq in Hw. rewrite Hm. qcase; [lia|].
    replace ((n <=? w) && (w <? n + n)) with true by (symmetry; apply andb_true_iff; split; [apply Nat.leb_le | apply Nat.ltb_lt]; lia).
    rewrite Hst, Hd. apply le_n_S, maxl_ge, in_seq. lia.
  - intros w Hw. apply in_seq in Hw. rewrite Hm, Hst. qcase; [reflexivity | lia].
Qed.

(** ** Lemmas: Cirq's moments of a lab circuit *)

Lemma asap_layer_gates (c : circuit) st :
  fold_left asap_layer (map CirqGate c) st = fold_left asap_layer c st.
Proof. revert st. induction c as [|g c IH]; intros st; cbn; [reflexivity|]. rewrite IH. now destruct st. Qed.

(** The Cirq lab's ['depth'] is one more than the ASAP depth of the
    bound gates. *)
Lemma cirq_lab_depth n c :
  1 <= n -> wf_circuit n c = true -> List.length (cirq_lab_moments n c) = S (asap_depth c).
Proof.
  intros Hn Hwf. destruct (asap_depth_wf n c Hwf) as [Hd _].
  unfold cirq_lab_moments. rewrite <- (asap_fold_inv _ [] 0 (fun _ => 0)); [|..|reflexivity|reflexivity].
  - unfold cirq_lab_ops. rewrite fold_left_app, asap_layer_gates.
    unfold asap_depth in Hd |- *. rewrite (surjective_pairing (fold_left asap_layer c _)), snd_fold_asap_layer.
    cbn [fold_left asap_layer fst]. rewrite Hd. unfold asap_step.
    change (op_qubits (CirqMeasure (seq 0 n) "result")) with (seq 0 n).
    destruct n as [|n]; [lia|]. cbn [seq hd existsb]. rewrite Nat.eqb_refl. cbn [orb].
    rewrite fold_right_maxl. lia.
  - apply Forall_app. split.
    + apply List.Forall_forall. intros op Hop. apply in_map_iff in Hop as (g & <- & _). apply gate_qubits_nonempty.
    + repeat constructor. cbn. destruct n; [lia | discriminate].
Qed.

(** Both labs' ['depth'] of a well-formed circuit. *)
Lemma lab_depth_wf n c :
  1 <= n -> wf_circuit n c = true ->
  circuit_depth Qiskit n c = S (asap_depth c) /\ circuit_depth Cirq n c = S (asap_depth c).
Proof. intros Hn Hwf. split; [apply qiskit_lab_depth | apply cirq_lab_depth]; assumption. Qed.

Lemma asap_depth_le c : asap_depth c <= List.length c.
Proof. apply (asap_fold_le c 0 (fun _ => 0)). auto. Qed.

Lemma bind_gates_length n i toks c : bind_gates n i toks = Ok c -> List.length c <= List.length toks.
Proof.
  revert i c. induction toks as [|tok toks IH]; intros i c H; cbn in H; [injection H as <-; cbn; lia|].
  destruct (py_mod i n) as [q|]; cbn in H; [|discriminate].
  destruct (bind_gates n (S i) toks) as [c'|] eqn:E; cbn in H; [|discriminate]. injection H as <-.
  specialize (IH _ _ E). destruct (bind_gate n q tok); cbn; lia.
Qed.

Lemma fw_get_circuit_info_lookup fw l cid :
  fw_get_circuit_info fw l cid =
  match circuits l !! cid with
  | Some e => Ok (fw_circuit_info fw e)
  | None => Raise (ValueError ("Circuit " ++ py_str_nat cid ++ " not found"))
  end.
Proof. unfold fw_get_circuit_info, get_circuit_info. now destruct (circuits l !! cid). Qed.

(** ** Theorems *)

(** C14: the Qiskit and Cirq labs report the same ['depth'].  For every
    gate-token list on [n >= 1] qubits, [create_quantum_circuit] succeeds
    in both labs, and Qiskit's [circuit.depth()] after [measure(qreg,
    creg)] and Cirq's [len(circuit)] after the [EARLIEST] appends and the
    final [measure( *qubits)] are both one more than the
    as-soon-as-possible depth of the bound gates, which is at most the
    number of tokens. *)
Theorem create_depth_frameworks l name n gates t :
  1 <= n ->
  exists l' r, create_quantum_circuit l name n gates t = Ok (l', r) /\
    circuit_depth Qiskit n (cr_circuit r) = S (asap_depth (cr_circuit r)) /\
    circuit_depth Cirq n (cr_circuit r) = S (asap_depth (cr_circuit r)) /\
    asap_depth (cr_circuit r) <= List.length gates.
Proof.
  intros Hn. destruct (bind_gates_ok n 0 gates ltac:(lia)) as (c & Hc & Hwf & _).
  unfold create_quantum_circuit. rewrite Hc, res_bind_Ok. do 2 eexists. split; [reflexivity|]. cbn [cr_circuit].
  destruct (lab_depth_wf n c Hn Hwf) as [-> ->]. repeat split.
  pose proof (asap_depth_le c). pose proof (bind_gates_length n 0 gates c Hc). lia.
Qed.

(** C15: [list_circuits] and [get_circuit_info] of a reachable lab.
    In every lab reachable from [__init__], [list_circuits] of the Qiskit
    or Cirq lab succeeds and lists, for the ids [1 .. len(circuits)] in
    order, the dict of the stored circuit, whose ['depth'] is one more
    than the as-soon-as-possible depth of its gates when it has a qubit;
    [get_circuit_info] of any other id raises ValueError. *)
Theorem list_circuits_reachable `{QuantumLab} fw l :
  reachable l ->
  (exists infos, fw_list_circuits fw l = Ok infos /\
     Forall2 (fun cid i => exists e, circuits l !! cid = Some e /\ i = fw_circuit_info fw e /\
                (1 <= ce_num_qubits e -> ci_depth i = S (asap_depth (ce_circuit e))))
             (seq 1 (size (circuits l))) infos) /\
  (forall cid, cid = 0 \/ size (circuits l) < cid ->
     fw_get_circuit_info fw l cid = Raise (ValueError ("Circuit " ++ py_str_nat cid ++ " not found"))).
Proof.
  intros R. destruct (reachable_lab_inv l R) as [Hids _]. split.
  - apply res_mapM_Forall2. intros cid Hcid. apply in_seq in Hcid.
    destruct (proj2 (Hids cid) ltac:(lia)) as [e He].
    rewrite fw_get_circuit_info_lookup, He. eexists. split; [reflexivity|]. exists e. do 2 (split; [reflexivity|]).
    intros Hn. destruct (reachable_entries l R cid e He) as [Hwf _].
    destruct (lab_depth_wf _ _ Hn Hwf). destruct fw; assumption.
  - intros cid Hcid. rewrite fw_get_circuit_info_lookup.
    destruct (circuits l !! cid) eqn:E; [|reflexivity].
    destruct (proj1 (Hids cid) ltac:(rewrite E; eauto)). lia.
Qed.

(** ** Witnesses *)

Section Witnesses.
#[local] Open Scope string_scope.

Lemma create_depth_frameworks_witness :
  exists l' r, create_quantum_circuit lab_init "Bell" 2 ["H"; "CNOT"] "t0" = Ok (l', r) /\
    circuit_depth Qiskit 2 (cr_circuit r) = S (asap_depth (cr_circuit r)) /\
    circuit_depth Cirq 2 (cr_circuit r) = S (asap_depth (cr_circuit r)) /\
    asap_depth (cr_circuit r) <= 2.
Proof. apply (create_depth_frameworks lab_init "Bell" 2 ["H"; "CNOT"] "t0"). lia. Defined.

Lemma list_circuits_reachable_witness :
  match create_quantum_circuit lab_init "Bell" 2 ["H"; "CNOT"] "t0" with
  | Ok (l', _) => (exists infos, fw_list_circuits Cirq l' = Ok infos /\ List.length infos = 1) /\
                  fw_get_circuit_info Cirq l' 2 = Raise (ValueError "Circuit 2 not found")
  | Raise _ => False
  end.
Proof.
  pose proof create_step_qiskit as Hs.
  destruct (create_quantum_circuit lab_init "Bell" 2 ["H"; "CNOT"] "t0") as [[l' r]|] eqn:E; [|contradiction].
  destruct (list_circuits_reachable (H := qiskit_lab) Cirq l' (reach_step lab_init l' reach_init Hs))
    as [(infos & Hl & HF) Hn].
  vm_compute in E. injection E as <- _. split.
  - exists infos. split; [exact Hl|]. apply Forall2_length in HF. rewrite <- HF. reflexivity.
  - apply Hn. right. vm_compute. lia.
Defined.

End Witnesses.
