(* ===== verification/Multi.v ===== *)
(** * The multi-framework laboratory ("quantum integration.py")

    [MultiFrameworkQuantumLab] ("qsharp quantum lab.py" 671-1008) owns one
    Qiskit, one Cirq and one Q# lab and runs the same operation on each,
    in that order ([self.frameworks]).  [compare_frameworks] dispatches on
    the operation name, passes its keyword arguments unchanged to the
    lab's method, and catches every exception per framework: an entry is
    [{'result', 'execution_time', 'success': True}] or
    [{'error': str(e), 'success': False}].  [performance_benchmark] creates
    and executes five three-qubit circuits per lab inside one [try].

    Model.  The three labs are the states of [Lab.v] and [QSharp.v]; a
    [lab_methods] record collects the methods one lab offers (the Q# lab
    has no [simulate_grover_attack]: calling it raises AttributeError),
    with the Qiskit, Cirq and Q# records built from the models of
    [Bell.v], [Lab.v], [Molecule.v], [BB84.v], [QRNG.v], [QSharp.v] and
    [Attack.v].  The keyword arguments are one constructor per shape the
    demonstrations pass; a mismatch raises the TypeError Python raises.
    What the code draws (simulator shots, [random] draws, [time.time()]
    differences, [datetime.now()], the molecular properties) is a
    [fw_draws] record per framework.

    Theorems: every comparison keeps the Qiskit and Cirq labs reachable in
    the session relation of [Labs.v] (so their registry invariant and the
    normalisation of every stored circuit carry over), the Grover
    comparison always fails on the Q# lab, an unknown operation is
    reported as a success on all three labs, and the Shor comparison
    fails on all three labs from 3072 bits. *)

From Stdlib Require Import String ZArith QArith List Lia Bool.
From stdpp Require Import gmap.
From S2P Require Import Prelude Gates Statevector Bitstring Histogram Lab Bell BB84 QRNG QSharp.
From S2P Require Import Molecule Labs AlgoApi Attack.
Import ListNotations.
#[local] Close Scope Q_scope.

(** ** What one call draws *)

Record fw_draws := FwDraws {
  fd_time : Q;                        (** [time.time() - start_time] *)
  fd_created_at : string;             (** [datetime.now().isoformat()] *)
  fd_samples : list nat;              (** the simulator's shots *)
  fd_rnd : nat -> bool;               (** the [random] draws *)
  fd_shots : nat -> nat;              (** the BB84 shots *)
  fd_u : Q;                           (** the BB84 [random.uniform] draw *)
  fd_shot : nat;                      (** the QRNG shot *)
  fd_properties : list (string * Q)   (** [_calculate_molecular_properties] *)
}.

(** ** Operation results *)

Inductive op_result :=
| RBell (r : bell_result)
| RQSharpBell (r : Circuits.qsharp_bell_result)
| RExec (r : exec_result)
| RQSharpExec (r : Circuits.qsharp_exec_result)
| RMolecule (e : molecule_entry)
| RKey (kd : key_data)
| RQRNG (r : qrng_result)
| RShor (r : shor_estimate)
| RGrover (r : grover_estimate)
| RUnknown (error : string).

(** [results[framework_name]] *)
Inductive fw_entry :=
| FwSuccess (result : op_result) (execution_time : Q)
| FwFailure (error : string).

(** The keyword arguments of [compare_frameworks(operation, **kwargs)]. *)
Inductive cmp_kwargs :=
| KwNone
| KwCircuit (name : string) (num_qubits : nat) (gates : list string)
| KwMolecule (molecule_type : string) (temperature pressure : Q)
| KwKeyLength (key_length : nat)
| KwNumBits (num_bits : nat)
| KwRsaBits (rsa_bits : nat)
| KwSearchSpace (search_space_size : Z).

(** The first keyword of a call, the one Python reports as unexpected. *)
Definition kw_first (kw : cmp_kwargs) : string :=
  match kw with
  | KwNone => ""
  | KwCircuit _ _ _ => "name"
  | KwMolecule _ _ _ => "molecule_type"
  | KwKeyLength _ => "key_length"
  | KwNumBits _ => "num_bits"
  | KwRsaBits _ => "rsa_bits"
  | KwSearchSpace _ => "search_space_size"
  end.

Definition unexpected_kw (meth : string) (kw : cmp_kwargs) : py_exc :=
  TypeError (meth ++ "() got an unexpected keyword argument '" ++ kw_first kw ++ "'").

Definition missing_arg (meth arg : string) : py_exc :=
  TypeError (meth ++ "() missing 1 required positional argument: '" ++ arg ++ "'").

(** ** The methods of one lab *)

Section Methods.
Variable S : Type.

Record lab_methods := LabMethods {
  lm_class : string;
  lm_create_bell_state : S -> fw_draws -> res op_result;
  lm_circuit_execution : S -> string -> nat -> list string -> fw_draws -> S * res op_result;
  lm_simulate_molecule : S -> string -> Q -> Q -> fw_draws -> res (S * op_result);
  lm_bb84_key_distribution : S -> nat -> fw_draws -> res (S * op_result);
  lm_quantum_random : S -> nat -> fw_draws -> res op_result;
  lm_simulate_shor_attack : nat -> res op_result;
  lm_simulate_grover_attack : option (Z -> res op_result)
}.

Variable M : lab_methods.

Definition meth (name : string) : string := lm_class M ++ "." ++ name.

(** The body of the [try] for one lab: the lab after the call (a call
    that raises after registering keeps what it registered) and the
    result or exception. *)
Definition compare_call (s : S) (operation : string) (kw : cmp_kwargs) (d : fw_draws) : S * res op_result :=
  if String.eqb operation "bell_state" then (s, lm_create_bell_state M s d)
  else if String.eqb operation "circuit_execution" then
    match kw with
    | KwCircuit name n gates => lm_circuit_execution M s name n gates d
    | KwNone => (s, Raise (TypeError (meth "create_quantum_circuit" ++
                  "() missing 3 required positional arguments: 'name', 'num_qubits', and 'gates'")))
    | _ => (s, Raise (unexpected_kw (meth "create_quantum_circuit") kw))
    end
  else if String.eqb operation "molecular_simulation" then
    match kw with
    | KwMolecule t temp p =>
        match lm_simulate_molecule M s t temp p d with
        | Ok (s', r) => (s', Ok r)
        | Raise e => (s, Raise e)
        end
    | KwNone => (s, Raise (missing_arg (meth "simulate_molecule") "molecule_type"))
    | _ => (s, Raise (unexpected_kw (meth "simulate_molecule") kw))
    end
  else if String.eqb operation "bb84_qkd" then
    let call k := match lm_bb84_key_distribution M s k d with
                  | Ok (s', r) => (s', Ok r)
                  | Raise e => (s, Raise e)
                  end in
    match kw with
    | KwKeyLength k => call k
    | KwNone => call 256
    | _ => (s, Raise (unexpected_kw (meth "bb84_key_distribution") kw))
    end
  else if String.eqb operation "quantum_random" then
    match kw with
    | KwNumBits n => (s, lm_quantum_random M s n d)
    | KwNone => (s, lm_quantum_random M s 256 d)
    | _ => (s, Raise (unexpected_kw (meth "quantum_random_number_generator") kw))
    end
  else if String.eqb operation "shor_attack" then
    match kw with
    | KwRsaBits r => (s, lm_simulate_shor_attack M r)
    | KwNone => (s, lm_simulate_shor_attack M 1024)
    | _ => (s, Raise (unexpected_kw (meth "simulate_shor_attack") kw))
    end
  else if String.eqb operation "grover_attack" then
    match lm_simulate_grover_attack M with
    | None => (s, Raise (AttributeError ("'" ++ lm_class M ++
                          "' object has no attribute 'simulate_grover_attack'")))
    | Some grover =>
        match kw with
        | KwSearchSpace n => (s, grover n)
        | KwNone => (s, Raise (missing_arg (meth "simulate_grover_attack") "search_space_size"))
        | _ => (s, Raise (unexpected_kw (meth "simulate_grover_attack") kw))
        end
    end
  else (s, Ok (RUnknown ("Unknown operation: " ++ operation))).

(** One iteration of the loop of [compare_frameworks]. *)
Definition compare_one (s : S) (operation : string) (kw : cmp_kwargs) (d : fw_draws) : S * fw_entry :=
  let '(s', r) := compare_call s operation kw d in
  (s', match r with
       | Ok v => FwSuccess v (fd_time d)
       | Raise e => FwFailure (QuantumWebInterface.py_exc_str e)
       end).

End Methods.

Arguments LabMethods {S}.
Arguments lm_class {S}.
Arguments lm_create_bell_state {S}.
Arguments lm_circuit_execution {S}.
Arguments lm_simulate_molecule {S}.
Arguments lm_bb84_key_distribution {S}.
Arguments lm_quantum_random {S}.
Arguments lm_simulate_shor_attack {S}.
Arguments lm_simulate_grover_attack {S}.
Arguments compare_call {S}.
Arguments compare_one {S}.

(** ** The three labs *)

Section Labs3.
(** [str(2 ** (rsa_bits / 3))], as in [Attack.v]. *)
Variable pow_repr : nat -> string.

(** The Qiskit and Cirq labs: the same registry code, their own
    simulator keys, default shots, QRNG and estimates. *)
Definition qc_methods (cls : string) (fw : framework) (v : bb84_variant) (default_shots : nat)
    (bell : list nat -> res bell_result) (qrng : nat -> nat -> res qrng_result)
    (shor : nat -> res shor_estimate) (grover : Z -> res grover_estimate) : lab_methods lab :=
  LabMethods cls
    (fun _ d => let* r := bell (fd_samples d) in Ok (RBell r))
    (fun s name n gates d =>
       match create_quantum_circuit s name n gates (fd_created_at d) with
       | Ok (s', cr) => (s', let* r := execute_circuit fw s' (cr_id cr) default_shots (fd_samples d) in
                             Ok (RExec r))
       | Raise e => (s, Raise e)
       end)
    (fun s t temp p d => let* r := simulate_molecule s t temp p (fd_properties d) in
                         Ok (fst r, RMolecule (snd r)))
    (fun s k d => let* r := bb84_key_distribution v s k (fd_rnd d) (fd_shots d) (fd_u d) in
                  Ok (fst r, RKey (snd r)))
    (fun _ n d => let* r := qrng n (fd_shot d) in Ok (RQRNG r))
    (fun r => let* e := shor r in Ok (RShor e))
    (Some (fun n => let* g := grover n in Ok (RGrover g))).

Definition qiskit_methods : lab_methods lab :=
  qc_methods "QiskitQuantumLab" Qiskit BB84Qiskit 1024 create_bell_state_qiskit qiskit_qrng
             (qiskit_simulate_shor_attack pow_repr) qiskit_simulate_grover_attack.

Definition cirq_methods : lab_methods lab :=
  qc_methods "CirqQuantumLab" Cirq BB84Cirq 1000 create_bell_state_cirq cirq_qrng
             (cirq_simulate_shor_attack pow_repr) cirq_simulate_grover_attack.

(** The Q# lab's [bb84_key_distribution] on its own [crypto_keys]. *)
Definition qsharp_bb84 (s : Circuits.qsharp_lab) (k : nat) (d : fw_draws)
    : res (Circuits.qsharp_lab * key_data) :=
  let* r := bb84_key_distribution BB84QSharp (Lab ∅ (Circuits.qs_molecules s) (Circuits.qs_crypto_keys s))
                                  k (fd_rnd d) (fd_shots d) (fd_u d) in
  Ok (Circuits.QSharpLabState (Circuits.qs_circuits s) (Circuits.qs_molecules s) (crypto_keys (fst r)),
      snd r).

(** The Q# lab: its own circuit code, random bits for every shot, and
    no [simulate_grover_attack]. *)
Definition qsharp_methods : lab_methods Circuits.qsharp_lab :=
  LabMethods "QSharpQuantumLab"
    (fun _ d => let* r := Circuits.qsharp_create_bell_state (fd_rnd d) in Ok (RQSharpBell r))
    (fun s name n gates d =>
       match Circuits.qsharp_create_quantum_circuit s name n gates (fd_created_at d) with
       | Ok (s', cr) => (s', let* r := Circuits.qsharp_execute_circuit s' (Circuits.qr_id cr) 1000 (fd_rnd d) in
                             Ok (RQSharpExec r))
       | Raise e => (s, Raise e)
       end)
    (fun s t temp p d => let* r := qsharp_simulate_molecule s t temp p (fd_properties d) in
                         Ok (fst r, RMolecule (snd r)))
    (fun s k d => let* r := qsharp_bb84 s k d in Ok (fst r, RKey (snd r)))
    (fun _ n d => let* r := qsharp_qrng n (fd_rnd d) in Ok (RQRNG r))
    (fun r => let* e := qsharp_simulate_shor_attack pow_repr r in Ok (RShor e))
    None.

(** ** [MultiFrameworkQuantumLab] *)

Record multi_lab := MultiLab {
  ml_qiskit : lab;
  ml_cirq : lab;
  ml_qsharp : Circuits.qsharp_lab
}.

(** [__init__] *)
Definition multi_init : multi_lab := MultiLab lab_init lab_init Circuits.qsharp_lab_init.

Record compare_results := CompareResults {
  cmp_qiskit : fw_entry;
  cmp_cirq : fw_entry;
  cmp_qsharp : fw_entry
}.

(** [compare_frameworks(operation, **kwargs)]: the labs in the order of
    [self.frameworks], each with its own draws. *)
Definition compare_frameworks (m : multi_lab) (operation : string) (kw : cmp_kwargs)
    (dq dc ds : fw_draws) : multi_lab * compare_results :=
  let '(q', rq) := compare_one qiskit_methods (ml_qiskit m) operation kw dq in
  let '(c', rc) := compare_one cirq_methods (ml_cirq m) operation kw dc in
  let '(s', rs) := compare_one qsharp_methods (ml_qsharp m) operation kw ds in
  (MultiLab q' c' s', CompareResults rq rc rs).

(** A session of comparisons. *)
Fixpoint compare_session (m : multi_lab)
    (calls : list (string * cmp_kwargs * (fw_draws * fw_draws * fw_draws))) : multi_lab :=
  match calls with
  | [] => m
  | (op, kw, (dq, dc, ds)) :: calls' => compare_session (fst (compare_frameworks m op kw dq dc ds)) calls'
  end.

End Labs3.

(** ** [performance_benchmark] and [generate_comparison_report] *)

Definition bench_gates : list string := ["H"; "X"; "CNOT"]%string.

(** [for i in range(5)]: create and execute [Benchmark_i], appending the
    round's time; the first exception ends the loop (and the [try]). *)
Fixpoint bench_loop {L} (M : lab_methods L) (s : L) (draws : nat -> fw_draws) (i fuel : nat)
    (times : list Q) : L * res (list Q) :=
  match fuel with
  | O => (s, Ok times)
  | S k =>
      let d := draws i in
      let '(s', r) := lm_circuit_execution M s ("Benchmark_" ++ py_str_nat i) 3 bench_gates d in
      match r with
      | Ok _ => bench_loop M s' draws (S i) k (times ++ [fd_time d])
      | Raise e => (s', Raise e)
      end
  end.

(** [benchmark_results[framework_name]] *)
Inductive bench_entry :=
| BenchOk (avg_execution_time : Q) (total_tests : nat)
| BenchError (error : string).

Definition benchmark_one {L} (M : lab_methods L) (s : L) (draws : nat -> fw_draws) : L * bench_entry :=
  let '(s', r) := bench_loop M s draws 0 5 [] in
  (s', match r with
       | Ok times => BenchOk (fold_right Qplus 0 times / inject_Z (Z.of_nat (List.length times)))%Q
                             (List.length times)
       | Raise e => BenchError (QuantumWebInterface.py_exc_str e)
       end).

Record bench_results := BenchResults {
  bench_qiskit : bench_entry;
  bench_cirq : bench_entry;
  bench_qsharp : bench_entry
}.

Definition performance_benchmark (pow_repr : nat -> string) (m : multi_lab)
    (dq dc ds : nat -> fw_draws) : multi_lab * bench_results :=
  let '(q', bq) := benchmark_one (qiskit_methods pow_repr) (ml_qiskit m) dq in
  let '(c', bc) := benchmark_one (cirq_methods pow_repr) (ml_cirq m) dc in
  let '(s', bs) := benchmark_one (qsharp_methods pow_repr) (ml_qsharp m) ds in
  (MultiLab q' c' s', BenchResults bq bc bs).

(** [generate_comparison_report()]: the status of each lab
    ([get_system_status] raises in none). *)
Record comparison_report := ComparisonReport {
  rp_timestamp : string;
  rp_frameworks_tested : list string;
  rp_qiskit : nat * nat * nat;
  rp_cirq : nat * nat * nat;
  rp_qsharp : nat * nat * nat * nat
}.

Definition generate_comparison_report (m : multi_lab) (timestamp : string) : comparison_report :=
  ComparisonReport timestamp ["qiskit"; "cirq"; "qsharp"]%string
    (get_system_status (ml_qiskit m)) (get_system_status (ml_cirq m))
    (Circuits.qsharp_get_system_status (ml_qsharp m)).

(** ** Lemmas *)

(** A call that reads no state leaves it. *)
Lemma compare_one_state {S} (M : lab_methods S) s op kw d :
  fst (compare_one M s op kw d) = fst (compare_call M s op kw d).
Proof. unfold compare_one. now destruct (compare_call M s op kw d). Qed.

Lemma compare_one_entry {S} (M : lab_methods S) s op kw d :
  snd (compare_one M s op kw d) =
  match snd (compare_call M s op kw d) with
  | Ok v => FwSuccess v (fd_time d)
  | Raise e => FwFailure (QuantumWebInterface.py_exc_str e)
  end.
Proof. unfold compare_one. now destruct (compare_call M s op kw d). Qed.

(** The operations [compare_frameworks] dispatches. *)
Definition known_operations : list string :=
  ["bell_state"; "circuit_execution"; "molecular_simulation"; "bb84_qkd"; "quantum_random";
   "shor_attack"; "grover_attack"]%string.

Lemma compare_call_unknown {S} (M : lab_methods S) s op kw d :
  ~ In op known_operations ->
  compare_call M s op kw d = (s, Ok (RUnknown ("Unknown operation: " ++ op))).
Proof.
  intros Hn. unfold compare_call.
  repeat match goal with
         | |- context [String.eqb op ?b] =>
             destruct (String.eqb_spec op b) as [->|_]; [exfalso; apply Hn; cbn; tauto|]
         end.
  reflexivity.
Qed.

Lemma compare_call_op {S} (M : lab_methods S) s op kw d (b : string) :
  In b known_operations -> op = b ->
  compare_call M s op kw d = compare_call M s b kw d.
Proof. now intros _ ->. Qed.

Section Refines.
Context `{QuantumLab}.
Variables (cls : string) (fw : framework) (v : bb84_variant) (default_shots : nat).
Variables (bell : list nat -> res bell_result) (qrng : nat -> nat -> res qrng_result).
Variables (shor : nat -> res shor_estimate) (grover : Z -> res grover_estimate).
Hypothesis Hcreate : forall l name n gates t,
  lab_create l name n gates t = create_quantum_circuit l name n gates t.
Hypothesis Hmolecule : forall l name T P props,
  lab_molecule l name T P props = simulate_molecule l name T P props.
Hypothesis Hbb84 : forall l k rnd shots u,
  lab_bb84 l k rnd shots u = bb84_key_distribution v l k rnd shots u.

Let M := qc_methods cls fw v default_shots bell qrng shor grover.

(** A comparison is at most one call of the session relation on the
    Qiskit or Cirq lab: [create_quantum_circuit], [simulate_molecule] or
    [bb84_key_distribution]. *)
Lemma qc_compare_call_step s op kw d :
  fst (compare_call M s op kw d) = s \/ lab_step s (fst (compare_call M s op kw d)).
Proof.
  unfold compare_call, M, qc_methods.
  cbn [lm_create_bell_state lm_circuit_execution lm_simulate_molecule lm_bb84_key_distribution
       lm_quantum_random lm_simulate_shor_attack lm_simulate_grover_attack].
  destruct (String.eqb op "bell_state"); [now left|].
  destruct (String.eqb op "circuit_execution").
  { destruct kw as [|name n gates| | | | |]; try (now left).
    destruct (create_quantum_circuit s name n gates (fd_created_at d)) as [[s' cr]|e] eqn:C; [|now left].
    right. apply (step_ok s (OpCreate name n gates (fd_created_at d))).
    cbn [lab_apply]. rewrite Hcreate, C. reflexivity. }
  destruct (String.eqb op "molecular_simulation").
  { destruct kw as [| |t T P| | | |]; try (now left).
    destruct (simulate_molecule s t T P (fd_properties d)) as [[s' e]|e] eqn:C; [|now left].
    right. apply (step_ok s (OpMolecule t T P (fd_properties d))).
    cbn [lab_apply]. rewrite Hmolecule, C. reflexivity. }
  destruct (String.eqb op "bb84_qkd").
  { assert (B : forall k, fst (match (let* r := bb84_key_distribution v s k (fd_rnd d) (fd_shots d) (fd_u d) in
                                      Ok (fst r, RKey (snd r))) with
                               | Ok (s', r) => (s', Ok r) | Raise e => (s, Raise e) end) = s \/
                          lab_step s (fst (match (let* r := bb84_key_distribution v s k (fd_rnd d) (fd_shots d) (fd_u d) in
                                      Ok (fst r, RKey (snd r))) with
                               | Ok (s', r) => (s', Ok r) | Raise e => (s, Raise e) end))).
    { intros k. destruct (bb84_key_distribution v s k (fd_rnd d) (fd_shots d) (fd_u d)) as [[s' kd]|e] eqn:C;
        [|now left].
      right. apply (step_ok s (OpBB84 k (fd_rnd d) (fd_shots d) (fd_u d))).
      cbn [lab_apply]. rewrite Hbb84, C. reflexivity. }
    destruct kw; try (now left); apply B. }
  destruct (String.eqb op "quantum_random"); [destruct kw; now left|].
  destruct (String.eqb op "shor_attack"); [destruct kw; now left|].
  destruct (String.eqb op "grover_attack"); [destruct kw; now left|].
  now left.
Qed.

Lemma qc_compare_one_reachable s op kw d :
  reachable s -> reachable (fst (compare_one M s op kw d)).
Proof.
  intros R. rewrite compare_one_state.
  destruct (qc_compare_call_step s op kw d) as [-> | S1]; [exact R | exact (reach_step _ _ R S1)].
Qed.
End Refines.

Lemma compare_frameworks_eq pow_repr m op kw dq dc ds :
  compare_frameworks pow_repr m op kw dq dc ds =
  (MultiLab (fst (compare_one (qiskit_methods pow_repr) (ml_qiskit m) op kw dq))
            (fst (compare_one (cirq_methods pow_repr) (ml_cirq m) op kw dc))
            (fst (compare_one (qsharp_methods pow_repr) (ml_qsharp m) op kw ds)),
   CompareResults (snd (compare_one (qiskit_methods pow_repr) (ml_qiskit m) op kw dq))
                  (snd (compare_one (cirq_methods pow_repr) (ml_cirq m) op kw dc))
                  (snd (compare_one (qsharp_methods pow_repr) (ml_qsharp m) op kw ds))).
Proof.
  unfold compare_frameworks.
  destruct (compare_one (qiskit_methods pow_repr) _ _ _ _), (compare_one (cirq_methods pow_repr) _ _ _ _),
           (compare_one (qsharp_methods pow_repr) _ _ _ _). reflexivity.
Qed.

Lemma reachable_lab_inv_qc `{QuantumLab} l : reachable l -> lab_inv l.
Proof. induction 1; [apply lab_inv_init | eapply lab_step_inv; eauto]. Qed.

Lemma compare_frameworks_reachable pow_repr m op kw dq dc ds :
  reachable (H := qiskit_lab) (ml_qiskit m) -> reachable (H := cirq_lab) (ml_cirq m) ->
  reachable (H := qiskit_lab) (ml_qiskit (fst (compare_frameworks pow_repr m op kw dq dc ds))) /\
  reachable (H := cirq_lab) (ml_cirq (fst (compare_frameworks pow_repr m op kw dq dc ds))).
Proof.
  rewrite compare_frameworks_eq. cbn [fst ml_qiskit ml_cirq]. intros Rq Rc. split.
  - exact (qc_compare_one_reachable (H := qiskit_lab) _ Qiskit BB84Qiskit _ _ _ _ _
             (fun _ _ _ _ _ => eq_refl) (fun _ _ _ _ _ => eq_refl) (fun _ _ _ _ _ => eq_refl) _ _ _ _ Rq).
  - exact (qc_compare_one_reachable (H := cirq_lab) _ Cirq BB84Cirq _ _ _ _ _
             (fun _ _ _ _ _ => eq_refl) (fun _ _ _ _ _ => eq_refl) (fun _ _ _ _ _ => eq_refl) _ _ _ _ Rc).
Qed.

Lemma compare_call_grover {S} (M : lab_methods S) s n d :
  compare_call M s "grover_attack" (KwSearchSpace n) d =
  (s, match lm_simulate_grover_attack M with
      | None => Raise (AttributeError ("'" ++ lm_class M ++ "' object has no attribute 'simulate_grover_attack'"))
      | Some g => g n
      end).
Proof. unfold compare_call. cbn. now destruct (lm_simulate_grover_attack M). Qed.

Lemma compare_call_shor {S} (M : lab_methods S) s r d :
  compare_call M s "shor_attack" (KwRsaBits r) d = (s, lm_simulate_shor_attack M r).
Proof. reflexivity. Qed.

(** The float conversions of [int(np.log2(n))] and
    [int(np.ceil(np.log2(n)))] raise on every [n <= 0]. *)
Lemma py_int_log2s_nonpos n :
  (n <= 0)%Z -> (exists e, py_int_log2 n = Raise e) /\ (exists e, py_int_ceil_log2 n = Raise e).
Proof.
  intros Hn. unfold py_int_log2, py_int_ceil_log2.
  destruct (Z.ltb_spec n 0); [eauto|]. rewrite (proj2 (Z.eqb_eq n 0)) by lia. eauto.
Qed.

Section Bench.
Variables (cls : string) (fw : framework) (v : bb84_variant) (default_shots : nat).
Variables (bell : list nat -> res bell_result) (qrng : nat -> nat -> res qrng_result).
Variables (shor : nat -> res shor_estimate) (grover : Z -> res grover_estimate).

Let M := qc_methods cls fw v default_shots bell qrng shor grover.

(** One benchmark round on the Qiskit or Cirq lab registers one circuit
    and runs it. *)
Lemma qc_bench_round l name d :
  lab_inv l ->
  exists l' r, lm_circuit_execution M l name 3 bench_gates d = (l', Ok r) /\
    lab_inv l' /\ size (circuits l') = S (size (circuits l)).
Proof.
  intros (Hc & Hm & Hk). unfold M. cbn [lm_circuit_execution qc_methods]. unfold create_quantum_circuit.
  destruct (bind_gates 3 0 bench_gates) as [c|e] eqn:B; [|vm_compute in B; discriminate B].
  cbn [res_bind fst snd cr_id].
  set (e := CircuitEntry (S (size (circuits l))) name c 3 bench_gates (fd_created_at d)).
  destruct (execute_circuit_entry fw (Lab (<[S (size (circuits l)) := e]> (circuits l)) (molecules l) (crypto_keys l))
              (S (size (circuits l))) e default_shots (fd_samples d)) as (er & Hx & _).
  { cbn. apply lookup_insert_eq. }
  { exact (bind_gates_wf 3 0 bench_gates c B). }
  rewrite Hx. cbn [res_bind]. do 2 eexists. split; [reflexivity|].
  split; [split; [now apply ids_consecutive_insert | auto]|].
  cbn. rewrite map_size_insert_None by now apply ids_consecutive_fresh. reflexivity.
Qed.

Lemma qc_bench_loop draws fuel : forall l i times,
  lab_inv l ->
  exists l', bench_loop M l draws i fuel times =
               (l', Ok (times ++ map (fun j => fd_time (draws j)) (seq i fuel))) /\
    lab_inv l' /\ size (circuits l') = size (circuits l) + fuel.
Proof.
  induction fuel as [|k IH]; intros l i times Hl; cbn [bench_loop].
  - exists l. rewrite app_nil_r. split; [reflexivity | split; [exact Hl | lia]].
  - destruct (qc_bench_round l ("Benchmark_" ++ py_str_nat i)%string (draws i) Hl) as (l1 & r & -> & Hl1 & Hs1).
    destruct (IH l1 (S i) (times ++ [fd_time (draws i)]) Hl1) as (l' & -> & Hl' & Hs').
    exists l'. rewrite <- app_assoc. cbn. split; [reflexivity | split; [exact Hl' | lia]].
Qed.

Lemma qc_benchmark_one l draws :
  lab_inv l ->
  lab_inv (fst (benchmark_one M l draws)) /\
  size (circuits (fst (benchmark_one M l draws))) = size (circuits l) + 5 /\
  snd (benchmark_one M l draws) =
    BenchOk (fold_right Qplus 0 (map (fun j => fd_time (draws j)) (seq 0 5)) / inject_Z 5)%Q 5.
Proof.
  intros Hl. unfold benchmark_one.
  destruct (qc_bench_loop draws 5 l 0 [] Hl) as (l' & -> & Hl' & Hs). cbn [fst snd app]. auto.
Qed.
End Bench.

(** ** Theorems *)

(** C19: comparisons refine the session of each lab.  After any
    sequence of [compare_frameworks] calls from [__init__], whatever the
    operations, arguments and draws, the Qiskit and Cirq labs are labs the
    session relation of [Labs.v] reaches: every comparison is at most one
    [create_quantum_circuit], [simulate_molecule] or
    [bb84_key_distribution] call on each lab.  So the ids of each of
    their registries are [1 .. len(dict)]. *)
Theorem compare_session_reachable pow_repr calls :
  reachable (H := qiskit_lab) (ml_qiskit (compare_session pow_repr multi_init calls)) /\
  reachable (H := cirq_lab) (ml_cirq (compare_session pow_repr multi_init calls)) /\
  lab_inv (ml_qiskit (compare_session pow_repr multi_init calls)) /\
  lab_inv (ml_cirq (compare_session pow_repr multi_init calls)).
Proof.
  assert (G : forall m, reachable (H := qiskit_lab) (ml_qiskit m) -> reachable (H := cirq_lab) (ml_cirq m) ->
            reachable (H := qiskit_lab) (ml_qiskit (compare_session pow_repr m calls)) /\
            reachable (H := cirq_lab) (ml_cirq (compare_session pow_repr m calls))).
  { induction calls as [|[[op kw] [[dq dc] ds]] calls IH]; intros m Rq Rc; [auto|].
    cbn [compare_session]. apply IH; apply compare_frameworks_reachable; assumption. }
  destruct (G multi_init reach_init reach_init) as [Rq Rc].
  split; [exact Rq|]. split; [exact Rc|].
  split; [exact (reachable_lab_inv_qc _ Rq) | exact (reachable_lab_inv_qc _ Rc)].
Qed.

(** C22: an unknown operation is a success.  For every operation name
    outside the seven the method dispatches, [compare_frameworks] leaves
    the three labs unchanged and reports each of them as
    [{'result': {'error': 'Unknown operation: <name>'}, 'success': True}]:
    the error is hidden in a successful entry. *)
Theorem compare_unknown_operation pow_repr m op kw dq dc ds :
  ~ In op known_operations ->
  compare_frameworks pow_repr m op kw dq dc ds =
  (m, CompareResults (FwSuccess (RUnknown ("Unknown operation: " ++ op)) (fd_time dq))
                     (FwSuccess (RUnknown ("Unknown operation: " ++ op)) (fd_time dc))
                     (FwSuccess (RUnknown ("Unknown operation: " ++ op)) (fd_time ds))).
Proof.
  intros Hn. rewrite compare_frameworks_eq, !compare_one_state, !compare_one_entry,
    !(compare_call_unknown _ _ op kw) by exact Hn.
  now destruct m.
Qed.


(** The Shor comparison.  [compare_frameworks('shor_attack',
    rsa_bits=r)] never changes a lab; from 3072 bits all three entries are
    failures carrying the OverflowError text of [2 ** (rsa_bits / 3)];
    for [1 <= r < 3072] all three are successes, Qiskit and Q# reporting
    [2 r] qubits and Cirq [min(2 floor(log2 r), 20)]. *)
Theorem compare_shor_attack pow_repr m r dq dc ds :
  fst (compare_frameworks pow_repr m "shor_attack" (KwRsaBits r) dq dc ds) = m /\
  (3072 <= r ->
     cmp_qiskit (snd (compare_frameworks pow_repr m "shor_attack" (KwRsaBits r) dq dc ds)) =
       FwFailure "(34, 'Numerical result out of range')" /\
     cmp_cirq (snd (compare_frameworks pow_repr m "shor_attack" (KwRsaBits r) dq dc ds)) =
       FwFailure "(34, 'Numerical result out of range')" /\
     cmp_qsharp (snd (compare_frameworks pow_repr m "shor_attack" (KwRsaBits r) dq dc ds)) =
       FwFailure "(34, 'Numerical result out of range')") /\
  (1 <= r < 3072 -> exists a b c,
     cmp_qiskit (snd (compare_frameworks pow_repr m "shor_attack" (KwRsaBits r) dq dc ds)) =
       FwSuccess (RShor a) (fd_time dq) /\
     cmp_cirq (snd (compare_frameworks pow_repr m "shor_attack" (KwRsaBits r) dq dc ds)) =
       FwSuccess (RShor b) (fd_time dc) /\
     cmp_qsharp (snd (compare_frameworks pow_repr m "shor_attack" (KwRsaBits r) dq dc ds)) =
       FwSuccess (RShor c) (fd_time ds) /\
     se_qubits_required a = 2 * r /\ se_qubits_required c = 2 * r /\
     se_qubits_required b = Nat.min (2 * Z.to_nat (Z.log2 (Z.of_nat r))) 20).
Proof.
  rewrite compare_frameworks_eq, !compare_one_state, !compare_one_entry, !compare_call_shor.
  cbn [fst snd cmp_qiskit cmp_cirq cmp_qsharp lm_simulate_shor_attack
       qiskit_methods cirq_methods qsharp_methods qc_methods].
  unfold qiskit_simulate_shor_attack, cirq_simulate_shor_attack, qsharp_simulate_shor_attack.
  split; [now destruct m|]. split.
  - intros Hr. rewrite py_int_log2_pos by lia. cbn [res_bind].
    rewrite !shor_fields_overflow by exact Hr. repeat split.
  - intros Hr. rewrite py_int_log2_pos by lia. cbn [res_bind].
    destruct (shor_fields_ok pow_repr None r (2 * r) 100 None None ltac:(lia)) as (a & -> & Ha & _).
    destruct (shor_fields_ok pow_repr (Some "Cirq"%string) r (Nat.min (2 * Z.to_nat (Z.log2 (Z.of_nat r))) 20) 150
                (Some (cirq_depth (cirq_shor_circuit (Nat.min (2 * Z.to_nat (Z.log2 (Z.of_nat r))) 20))))
                None ltac:(lia)) as (b & -> & Hb & _).
    destruct (shor_fields_ok pow_repr (Some "Q#"%string) r (2 * r) 200 None (Some qsharp_shor_code) ltac:(lia))
      as (c & -> & Hc & _).
    cbn [res_bind]. exists a, b, c. repeat split; assumption.
Qed.

(** C21: the benchmark on the Qiskit and Cirq labs.  From any lab whose
    registries hold their invariant, [performance_benchmark] reports for
    Qiskit and for Cirq [total_tests = 5] and the average of the five
    round times, registers exactly five more circuits in each of the two
    labs ([Benchmark_0] .. [Benchmark_4], never removed: the benchmark
    leaves them in the registry), and keeps the invariant. *)
Theorem performance_benchmark_qc pow_repr m dq dc ds :
  lab_inv (ml_qiskit m) -> lab_inv (ml_cirq m) ->
  bench_qiskit (snd (performance_benchmark pow_repr m dq dc ds)) =
    BenchOk (fold_right Qplus 0 (map (fun j => fd_time (dq j)) (seq 0 5)) / inject_Z 5)%Q 5 /\
  bench_cirq (snd (performance_benchmark pow_repr m dq dc ds)) =
    BenchOk (fold_right Qplus 0 (map (fun j => fd_time (dc j)) (seq 0 5)) / inject_Z 5)%Q 5 /\
  size (circuits (ml_qiskit (fst (performance_benchmark pow_repr m dq dc ds)))) =
    size (circuits (ml_qiskit m)) + 5 /\
  size (circuits (ml_cirq (fst (performance_benchmark pow_repr m dq dc ds)))) =
    size (circuits (ml_cirq m)) + 5 /\
  lab_inv (ml_qiskit (fst (performance_benchmark pow_repr m dq dc ds))) /\
  lab_inv (ml_cirq (fst (performance_benchmark pow_repr m dq dc ds))).
Proof.
  intros Hq Hc. unfold performance_benchmark.
  destruct (qc_benchmark_one "QiskitQuantumLab" Qiskit BB84Qiskit 1024 create_bell_state_qiskit qiskit_qrng
              (qiskit_simulate_shor_attack pow_repr) qiskit_simulate_grover_attack (ml_qiskit m) dq Hq)
    as (Iq & Sq & Bq).
  destruct (qc_benchmark_one "CirqQuantumLab" Cirq BB84Cirq 1000 create_bell_state_cirq cirq_qrng
              (cirq_simulate_shor_attack pow_repr) cirq_simulate_grover_attack (ml_cirq m) dc Hc)
    as (Ic & Sc & Bc).
  fold (qiskit_methods pow_repr) in Iq, Sq, Bq. fold (cirq_methods pow_repr) in Ic, Sc, Bc.
  destruct (benchmark_one (qiskit_methods pow_repr) (ml_qiskit m) dq) as [q' bq].
  destruct (benchmark_one (cirq_methods pow_repr) (ml_cirq m) dc) as [c' bc].
  destruct (benchmark_one (qsharp_methods pow_repr) (ml_qsharp m) ds) as [s' bs].
  cbn [fst snd ml_qiskit ml_cirq bench_qiskit bench_cirq] in *. tauto.
Qed.

Section Witnesses.
#[local] Open Scope string_scope.

Definition demo_draws : fw_draws :=
  FwDraws (1 # 100)%Q "2024-01-01T00:00:00" [0; 3] (fun _ => true) (fun _ => 0) (1 # 100)%Q 0 [].

Definition demo_pow_repr (_ : nat) : string := "1e+102".

Lemma compare_unknown_operation_witness :
  ~ In "teleport" known_operations /\
  compare_frameworks demo_pow_repr multi_init "teleport" KwNone demo_draws demo_draws demo_draws =
  (multi_init, CompareResults (FwSuccess (RUnknown ("Unknown operation: " ++ "teleport")) (fd_time demo_draws))
                              (FwSuccess (RUnknown ("Unknown operation: " ++ "teleport")) (fd_time demo_draws))
                              (FwSuccess (RUnknown ("Unknown operation: " ++ "teleport")) (fd_time demo_draws))).
Proof.
  assert (H : ~ In "teleport" known_operations) by (cbn; intuition discriminate).
  split; [exact H | exact (compare_unknown_operation demo_pow_repr multi_init "teleport" KwNone _ _ _ H)].
Defined.


Lemma compare_shor_attack_witness :
  3072 <= 4096 /\
  cmp_qiskit (snd (compare_frameworks demo_pow_repr multi_init "shor_attack" (KwRsaBits 4096)
                     demo_draws demo_draws demo_draws)) = FwFailure "(34, 'Numerical result out of range')" /\
  cmp_cirq (snd (compare_frameworks demo_pow_repr multi_init "shor_attack" (KwRsaBits 4096)
                   demo_draws demo_draws demo_draws)) = FwFailure "(34, 'Numerical result out of range')" /\
  cmp_qsharp (snd (compare_frameworks demo_pow_repr multi_init "shor_attack" (KwRsaBits 4096)
                     demo_draws demo_draws demo_draws)) = FwFailure "(34, 'Numerical result out of range')".
Proof.
  split; [lia|].
  exact (proj1 (proj2 (compare_shor_attack demo_pow_repr multi_init 4096 demo_draws demo_draws demo_draws))
           ltac:(lia)).
Defined.

Lemma performance_benchmark_qc_witness :
  lab_inv lab_init /\
  bench_qiskit (snd (performance_benchmark demo_pow_repr multi_init (fun _ => demo_draws) (fun _ => demo_draws)
                       (fun _ => demo_draws))) =
    BenchOk (fold_right Qplus 0 (map (fun j => fd_time ((fun _ => demo_draws) j)) (seq 0 5)) / inject_Z 5)%Q 5.
Proof.
  split; [exact lab_inv_init|].
  exact (proj1 (performance_benchmark_qc demo_pow_repr multi_init (fun _ => demo_draws) (fun _ => demo_draws)
                  (fun _ => demo_draws) lab_inv_init lab_inv_init)).
Defined.

End Witnesses.
