(* ===== verification/Client.v ===== *)
(** * The browser page of the Flask server ("quantum server.py")

    [HTML_TEMPLATE] ("qsharp quantum lab.py" 1433-1957) is a Vue
    application: its [data()] (lines 1734-1784) is one JavaScript object,
    its buttons call the methods of lines 1786-1952, each of which sends
    one [fetch] to the server of [QSharpIface.v] and copies fields of the
    JSON answer into the object; an answer that is not JSON (Flask's HTML
    error pages for 404, 405, 415 and 500) makes [response.json()] throw,
    and the [catch] only logs it.  The inputs are bound with [v-model]
    (strings) or [v-model.number] (Vue's [looseToNumber]: [parseFloat],
    or the text itself when that is NaN).

    Model.  The page object is a map from the property paths the template
    uses ("qkd.keyLength", ...) to JavaScript values ([jsval]); the server
    is [QuantumServer.app] with its parameters in a [server_env]; a user
    event (a gate button, another button, an input, the select) is one
    step of [page_step].  Inputs whose number reading is not an integer
    (fractions, exponents) are outside the model.

    Theorems: every request a button sends is routed by the server (never
    404, 405 or 415); executing a circuit built with the gate buttons
    shows exactly the results the interface computes for those gates; a
    key-length field the user clears is sent as "" and, when the Q#
    runtime is unavailable, answered 500 while the page keeps showing the
    old key. *)

From Stdlib Require Import ZArith QArith List Lia Bool String Ascii.
From stdpp Require Import gmap strings.
From S2P Require Import Prelude QSharpIface.
Import ListNotations.
#[local] Close Scope Q_scope.

Module QuantumPage.
Import QSharpInterface QuantumServer.
#[local] Open Scope string_scope.

(** ** JavaScript values and the page object *)

Inductive jsval := JsUndefined | JsNull | JsVal (o : ojson).

Abbreviation page := (gmap string jsval).

(** [data()] *)
Definition page_init : page :=
  list_to_map
    [("activeTab", JsVal (OStr "quantum"));
     ("quantumCircuit", JsVal (OList [])); ("circuitResults", JsVal (OList []));
     ("bellState", JsVal (OList [])); ("entanglement", JsVal (OInt 0)); ("fidelity", JsVal (OInt 0));
     ("qkd.keyLength", JsVal (OInt 256)); ("qkd.sharedKey", JsVal (OList [])); ("qkd.errorRate", JsVal (OInt 0));
     ("qrng.bits", JsVal (OInt 128)); ("qrng.result", JsNull);
     ("pqc.algorithm", JsVal (OStr "CRYSTALS-Kyber")); ("pqc.message", JsVal (OStr ""));
     ("pqc.encrypted", JsVal (OStr ""));
     ("qsign.document", JsVal (OStr "")); ("qsign.signature", JsVal (OStr "")); ("qsign.valid", JsVal (OBool false));
     ("material.name", JsVal (OStr "")); ("material.temperature", JsVal (OInt 300));
     ("material.pressure", JsVal (OInt 1)); ("material.results", JsNull);
     ("molecule.numAtoms", JsVal (OInt 4)); ("molecule.temperature", JsVal (OInt 300));
     ("molecule.results", JsNull);
     ("db.query", JsVal (OStr "")); ("db.entries", JsVal (OInt 16)); ("db.result", JsNull)].

(** [this.<path>]: [undefined] for a path the object does not hold. *)
Definition pg_get (p : page) (k : string) : jsval := default JsUndefined (p !! k).

(** [result.<key>] of a parsed answer. *)
Definition js_field (o : ojson) (k : string) : jsval :=
  match o with
  | OObj fs => match find (fun kv => String.eqb (fst kv) k) fs with
               | Some kv => JsVal (snd kv)
               | None => JsUndefined
               end
  | _ => JsUndefined
  end.

(** ** [JSON.stringify] of a request body, as the server parses it *)

(** The JSON text of a value, read back by Flask; [None] for values the
    server's JSON model does not hold (floats, booleans, null). *)
Fixpoint oj_to_jv (o : ojson) : option jvalue :=
  match o with
  | OStr s => Some (JStr s)
  | OInt z => Some (JInt z)
  | OList l =>
      (fix go (l : list ojson) : option (list jvalue) :=
         match l with
         | [] => Some []
         | x :: xs => match oj_to_jv x, go xs with Some v, Some vs => Some (v :: vs) | _, _ => None end
         end) l ≫= fun vs => Some (JList vs)
  | OObj fs =>
      (fix go (fs : list (string * ojson)) : option (list (string * jvalue)) :=
         match fs with
         | [] => Some []
         | (k, x) :: fs' => match oj_to_jv x, go fs' with
                            | Some v, Some vs => Some ((k, v) :: vs)
                            | _, _ => None
                            end
         end) fs ≫= fun vs => Some (JObj vs)
  | OFloat _ | OBool _ => None
  end.

(** [JSON.stringify({k: v, ...})]: an [undefined] property is left out. *)
Fixpoint json_fields (fs : list (string * jsval)) : option (list (string * jvalue)) :=
  match fs with
  | [] => Some []
  | (k, JsUndefined) :: fs' => json_fields fs'
  | (k, JsNull) :: _ => None
  | (k, JsVal o) :: fs' => v ← oj_to_jv o; vs ← json_fields fs'; Some ((k, v) :: vs)
  end.

(** [fetch(path, {method: 'POST', headers: JSON, body: JSON.stringify(...)})] *)
Definition post (path : string) (fs : list (string * jsval)) : option request :=
  d ← json_fields fs; Some (Request path "POST" (Some (JObj d))).

(** [fetch(path)]: a GET without body. *)
Definition get (path : string) : option request := Some (Request path "GET" None).

(** ** The methods *)

Inductive page_method :=
| executeCircuit | createBellState | measureEntanglement | calculateFidelity | startQKD
| generateQuantumRandom | pqcEncrypt | quantumSign | simulateMaterial | simulateMolecule | executeQuery.

(** The request each [async] method sends. *)
Definition method_request (p : page) (m : page_method) : option request :=
  let g := pg_get p in
  match m with
  | executeCircuit => post "/api/execute_circuit" [("gates", g "quantumCircuit")]
  | createBellState => get "/api/bell_state"
  | measureEntanglement => get "/api/entanglement"
  | calculateFidelity => get "/api/fidelity"
  | startQKD => post "/api/bb84" [("keyLength", g "qkd.keyLength")]
  | generateQuantumRandom => post "/api/qrng" [("bits", g "qrng.bits")]
  | pqcEncrypt => post "/api/pqc_encrypt" [("message", g "pqc.message"); ("algorithm", g "pqc.algorithm")]
  | quantumSign => post "/api/quantum_sign" [("document", g "qsign.document")]
  | simulateMaterial =>
      post "/api/material_sim" [("name", g "material.name"); ("temperature", g "material.temperature");
                                ("pressure", g "material.pressure")]
  | simulateMolecule =>
      post "/api/molecule_sim" [("numAtoms", g "molecule.numAtoms"); ("temperature", g "molecule.temperature")]
  | executeQuery => post "/api/quantum_db" [("query", g "db.query"); ("entries", g "db.entries")]
  end.

(** The assignments after [const result = await response.json()]. *)
Definition on_result (m : page_method) (result : ojson) (p : page) : page :=
  match m with
  | executeCircuit => <["circuitResults" := js_field result "results"]> p
  | createBellState => <["bellState" := js_field result "results"]> p
  | measureEntanglement => <["entanglement" := js_field result "entanglement"]> p
  | calculateFidelity => <["fidelity" := js_field result "fidelity"]> p
  | startQKD => <["qkd.errorRate" := js_field result "errorRate"]> (<["qkd.sharedKey" := js_field result "sharedKey"]> p)
  | generateQuantumRandom => <["qrng.result" := JsVal result]> p
  | pqcEncrypt => <["pqc.encrypted" := js_field result "encrypted"]> p
  | quantumSign => <["qsign.valid" := JsVal (OBool true)]> (<["qsign.signature" := js_field result "signature"]> p)
  | simulateMaterial => <["material.results" := JsVal result]> p
  | simulateMolecule => <["molecule.results" := JsVal result]> p
  | executeQuery => <["db.result" := JsVal result]> p
  end.

(** ** The server *)

Record server_env := ServerEnv {
  se_eval : qcall -> res qvalue;
  se_hash : string -> Z;
  se_fmt2f : Q -> string;
  se_choice : nat -> bool;
  se_randbit : nat -> bool;
  se_u_entanglement : Q; se_u_fidelity : Q; se_u_error : Q; se_u_conductivity : Q; se_u_band_gap : Q;
  se_u_moment : Q; se_u_energy : Q; se_u_bond : Q; se_u_vibration : Q;
  se_coherence : Z
}.

Definition server (E : server_env) : request -> option response :=
  app (se_eval E) (se_hash E) (se_fmt2f E) (se_choice E) (se_randbit E)
      (se_u_entanglement E) (se_u_fidelity E) (se_u_error E) (se_u_conductivity E) (se_u_band_gap E)
      (se_u_moment E) (se_u_energy E) (se_u_bond E) (se_u_vibration E) (se_coherence E).

(** ** User events *)

(** The gate buttons ([addGate('H')], ...). *)
Definition page_gates : list string := ["H"; "X"; "Y"; "Z"; "CNOT"; "RZ"; "RY"].

(** The options of the [pqc.algorithm] select. *)
Definition pqc_algorithms : list string := ["CRYSTALS-Kyber"; "CRYSTALS-Dilithium"; "SPHINCS+"; "FALCON"].

(** The inputs bound with [v-model.number] and with [v-model]. *)
Definition number_inputs : list string :=
  ["qkd.keyLength"; "qrng.bits"; "material.temperature"; "material.pressure"; "molecule.numAtoms";
   "molecule.temperature"; "db.entries"].

Definition text_inputs : list string := ["pqc.message"; "qsign.document"; "material.name"; "db.query"].

Definition is_digit (c : ascii) : bool := Nat.leb 48 (nat_of_ascii c) && Nat.leb (nat_of_ascii c) 57.

Fixpoint digits_value (s : string) (acc : Z) : option Z :=
  match s with
  | EmptyString => Some acc
  | String c s' => if is_digit c then digits_value s' (10 * acc + Z.of_nat (nat_of_ascii c - 48)%nat)%Z else None
  end.

(** A whole decimal integer literal, optionally negative. *)
Definition int_literal (s : string) : option Z :=
  match s with
  | EmptyString => None
  | String "-" EmptyString => None
  | String "-" s' => option_map Z.opp (digits_value s' 0)
  | _ => digits_value s 0
  end.

(** Texts [parseFloat] reads as NaN: the empty text and texts starting
    with a letter other than the [I] of [Infinity]. *)
Definition nan_text (s : string) : bool :=
  match s with
  | EmptyString => true
  | String c _ =>
      let n := nat_of_ascii c in
      negb (Ascii.eqb c "I"%char) && ((Nat.leb 65 n && Nat.leb n 90) || (Nat.leb 97 n && Nat.leb n 122))
  end.

(** [looseToNumber(text)] where the model holds its value. *)
Definition loose_to_number (s : string) : option jsval :=
  match int_literal s with
  | Some z => Some (JsVal (OInt z))
  | None => if nan_text s then Some (JsVal (OStr s)) else None
  end.

Inductive page_event :=
| EvAddGate (gate : string)
| EvReset
| EvClick (m : page_method)
| EvInput (key text : string)
| EvSelect (option : string).

(** One event; [None] for an event the page does not have or whose value
    is outside the model. *)
Definition page_step (E : server_env) (p : page) (ev : page_event) : option page :=
  match ev with
  | EvAddGate g =>
      if existsb (String.eqb g) page_gates then
        match pg_get p "quantumCircuit" with
        | JsVal (OList l) => Some (<["quantumCircuit" := JsVal (OList (l ++ [OStr g]))]> p)
        | _ => None
        end
      else None
  | EvReset => Some (<["circuitResults" := JsVal (OList [])]> (<["quantumCircuit" := JsVal (OList [])]> p))
  | EvClick m =>
      req ← method_request p m;
      match server E req with
      | Some (Json o) => Some (on_result m o p)
      | Some _ => Some p
      | None => None
      end
  | EvInput key text =>
      if existsb (String.eqb key) number_inputs then v ← loose_to_number text; Some (<[key := v]> p)
      else if existsb (String.eqb key) text_inputs then Some (<[key := JsVal (OStr text)]> p)
      else None
  | EvSelect o => if existsb (String.eqb o) pqc_algorithms then Some (<["pqc.algorithm" := JsVal (OStr o)]> p)
                  else None
  end.

Fixpoint page_run (E : server_env) (p : page) (evs : list page_event) : option page :=
  match evs with
  | [] => Some p
  | ev :: evs' => p' ← page_step E p ev; page_run E p' evs'
  end.

(** ** Lemmas *)

Lemma page_run_app E p evs1 evs2 :
  page_run E p (evs1 ++ evs2) = (p' ← page_run E p evs1; page_run E p' evs2).
Proof.
  revert p; induction evs1 as [|ev evs1 IH]; intros p; cbn; [reflexivity|].
  destruct (page_step E p ev); cbn; [apply IH | reflexivity].
Qed.

Lemma pg_get_insert p k v : pg_get (<[k := v]> p) k = v.
Proof. unfold pg_get. now rewrite lookup_insert_eq. Qed.

(** The gate buttons append their names to [quantumCircuit]. *)
Lemma page_add_gates E p l gs :
  pg_get p "quantumCircuit" = JsVal (OList l) -> Forall (fun g => In g page_gates) gs ->
  exists p', page_run E p (map EvAddGate gs) = Some p' /\
    pg_get p' "quantumCircuit" = JsVal (OList (l ++ map OStr gs)) /\
    (forall k, k <> "quantumCircuit" -> pg_get p' k = pg_get p k).
Proof.
  revert p l; induction gs as [|g gs IH]; intros p l Hp Hg.
  - exists p. rewrite app_nil_r. auto.
  - inversion Hg as [|? ? Hin Hgs]; subst. cbn [map page_run page_step].
    assert (E1 : existsb (String.eqb g) page_gates = true)
      by (apply existsb_exists; exists g; split; [exact Hin | apply String.eqb_refl]).
    rewrite E1, Hp. cbn [mbind option_bind].
    destruct (IH (<["quantumCircuit" := JsVal (OList (l ++ [OStr g])%list)]> p) (l ++ [OStr g])%list
                (pg_get_insert _ _ _) Hgs) as (p' & -> & Hq & Hk).
    exists p'. rewrite Hq, <- app_assoc. split; [reflexivity|]. split; [reflexivity|].
    intros k Hk'. rewrite Hk by exact Hk'. unfold pg_get. now rewrite lookup_insert_ne by congruence.
Qed.

Lemma json_fields_strings gs :
  oj_to_jv (OList (map OStr gs)) = Some (JList (map JStr gs)).
Proof.
  induction gs as [|g gs IH]; [reflexivity|]. simpl in *.
  match type of IH with context [mbind _ ?X] => destruct X as [vs|] eqn:EX end; simpl in IH; [|discriminate].
  injection IH as ->. reflexivity.
Qed.

(** ** Theorems *)

(** C23: the page and the server agree on every route.  Whatever the
    page holds, every request one of its buttons sends names a route of
    the server with the method the route declares and, for a POST, a
    JSON object as body: the server never answers it 404, 405 or 415. *)
Theorem page_requests_routed E p m req :
  method_request p m = Some req ->
  server E req <> Some (Status 404) /\ server E req <> Some (Status 405) /\ server E req <> Some (Status 415).
Proof.
  intros Hr.
  assert (Hpost : forall path d, In path post_paths ->
            forall c, c = 404%Z \/ c = 405%Z \/ c = 415%Z ->
            server E (Request path "POST" (Some (JObj d))) <> Some (Status c)).
  { intros path d Hin c Hc. unfold server, app. cbn [req_path req_method req_json json_data].
    destruct (existsb (String.eqb path) get_paths) eqn:Eg.
    - exfalso. apply existsb_exists in Eg as (x & Hx & Ex). apply String.eqb_eq in Ex as ->.
      cbn in Hin, Hx. intuition congruence.
    - rewrite (proj2 (existsb_exists _ _)) by (exists path; split; [exact Hin | apply String.eqb_refl]).
      cbn. destruct (post_route _ _ _ _ _ _ _ _ _ _ _ _ _ path d) as [[j|e]|]; cbn; discriminate. }
  assert (Hget : forall path, In path get_paths -> forall c, server E (Request path "GET" None) <> Some (Status c)).
  { intros path Hin c. unfold server, app. cbn [req_path req_method req_json].
    rewrite (proj2 (existsb_exists _ _)) by (exists path; split; [exact Hin | apply String.eqb_refl]).
    change (Some (get_route (se_eval E) (se_u_entanglement E) (se_u_fidelity E) path) <> Some (Status c)).
    intros H. injection H as H. unfold get_route in H.
    cbn in Hin. destruct Hin as [<-|[<-|[<-|[<-|[]]]]]; cbn in H;
      try destruct (create_bell_state _); discriminate. }
  destruct m; unfold method_request, post, get in Hr;
    try (destruct (json_fields _) as [d|]; [|discriminate Hr]); cbn in Hr; injection Hr as <-;
    repeat split; try (apply Hget; cbn; tauto); apply Hpost; cbn; tauto.
Qed.

(** C24: executing a circuit from the page.  After any sequence of
    gate buttons from the initial page, "Execute Q# Circuit" sends exactly
    those gate names, and the page shows exactly the results
    [QuantumInterface.execute_circuit] computes for them (the runtime's
    measurements, or [0, 0, 0] when it raises); the circuit shown is the
    gates in click order. *)
Theorem page_execute_circuit E gs :
  Forall (fun g => In g page_gates) gs ->
  exists p, page_run E page_init (map EvAddGate gs ++ [EvClick executeCircuit]) = Some p /\
    pg_get p "circuitResults" = JsVal (OList (map OInt (execute_circuit (se_eval E) (JList (map JStr gs))))) /\
    pg_get p "quantumCircuit" = JsVal (OList (map OStr gs)).
Proof.
  intros Hg. destruct (page_add_gates E page_init [] gs eq_refl Hg) as (p1 & Hr & Hq & _).
  rewrite page_run_app, Hr. cbn [mbind option_bind page_run page_step method_request].
  unfold post. rewrite Hq. cbn [json_fields List.app]. rewrite json_fields_strings. cbn [mbind option_bind].
  exists (<["circuitResults" := JsVal (OList (map OInt (execute_circuit (se_eval E) (JList (map JStr gs)))))]> p1).
  split; [reflexivity|]. split; [apply pg_get_insert|].
  unfold pg_get. rewrite lookup_insert_ne by discriminate. exact Hq.
Qed.

(** C25: a cleared key-length field.  [v-model.number] keeps the text
    of a field [parseFloat] cannot read, so clearing the key-length field
    stores "" and "Start Q# BB84" posts [{"keyLength": ""}].  When the Q#
    runtime raises, the interface's fallback computes [key_length // 2]
    outside its [try]: the server answers 500 (TypeError), [response.json()]
    fails on the error page, and the page keeps its previous key, with
    nothing shown to the user. *)
Theorem page_cleared_key_length E e :
  se_eval E (BB84KeyDistribution (JStr "")) = Raise e ->
  server E (Request "/api/bb84" "POST" (Some (JObj [("keyLength", JStr "")]))) =
    Some (ServerError (TypeError "unsupported operand type(s) for //: 'str' and 'int'")) /\
  page_run E page_init [EvInput "qkd.keyLength" ""; EvClick startQKD] =
    Some (<["qkd.keyLength" := JsVal (OStr "")]> page_init).
Proof.
  intros He.
  assert (S1 : server E (Request "/api/bb84" "POST" (Some (JObj [("keyLength", JStr "")]))) =
                 Some (ServerError (TypeError "unsupported operand type(s) for //: 'str' and 'int'"))).
  { unfold server, QuantumServer.app. cbn. unfold bb84_key_distribution. rewrite He. reflexivity. }
  split; [exact S1|].
  cbn [page_run page_step mbind option_bind]. cbn -[server page_init insert].
  rewrite pg_get_insert. cbn -[server page_init insert]. rewrite S1. reflexivity.
Qed.

Section Witnesses.

(** A server whose Q# runtime raises on every call. *)
Definition offline_env : server_env :=
  ServerEnv (fun _ => Raise (ValueError "Q# runtime unavailable")) (fun _ => 0%Z) (fun _ => "0.00")
            (fun _ => false) (fun _ => true) 0 0 0 0 0 0 0 0 0 100.

Lemma page_requests_routed_witness :
  method_request page_init startQKD = Some (Request "/api/bb84" "POST" (Some (JObj [("keyLength", JInt 256)]))) /\
  server offline_env (Request "/api/bb84" "POST" (Some (JObj [("keyLength", JInt 256)]))) <> Some (Status 404).
Proof.
  assert (H : method_request page_init startQKD =
                Some (Request "/api/bb84" "POST" (Some (JObj [("keyLength", JInt 256)])))) by reflexivity.
  split; [exact H | exact (proj1 (page_requests_routed offline_env page_init startQKD _ H))].
Defined.

Lemma page_execute_circuit_witness :
  Forall (fun g => In g page_gates) ["H"; "CNOT"] /\
  exists p, page_run offline_env page_init (map EvAddGate ["H"; "CNOT"] ++ [EvClick executeCircuit]) = Some p /\
    pg_get p "circuitResults" =
      JsVal (OList (map OInt (execute_circuit (se_eval offline_env) (JList (map JStr ["H"; "CNOT"]))))) /\
    pg_get p "quantumCircuit" = JsVal (OList (map OStr ["H"; "CNOT"])).
Proof.
  assert (H : Forall (fun g => In g page_gates) ["H"; "CNOT"]).
  { constructor; [cbn; tauto|]. constructor; [cbn; tauto|]. constructor. }
  split; [exact H | exact (page_execute_circuit offline_env ["H"; "CNOT"] H)].
Defined.

Lemma page_cleared_key_length_witness :
  se_eval offline_env (BB84KeyDistribution (JStr "")) = Raise (ValueError "Q# runtime unavailable") /\
  page_run offline_env page_init [EvInput "qkd.keyLength" ""; EvClick startQKD] =
    Some (<["qkd.keyLength" := JsVal (OStr "")]> page_init).
Proof.
  split; [reflexivity|].
  exact (proj2 (page_cleared_key_length offline_env (ValueError "Q# runtime unavailable") eq_refl)).
Defined.

End Witnesses.

End QuantumPage.
